(** * Real-estate scenario simulator: the monthly simulation engine

    A shallow embedding of the core of [carbo-kalium/realestate-calculator]
    ([core/mortgage_utils.py], [core/tax_utils.py],
    [core/homeownership_simulation.py], [core/rental_simulation.py] and the
    older [core/simulation.py]) together with the properties its
    specification states about it.

    Numbers.  The Python code computes with [int] and [float].  Amounts and
    rates are modelled as exact rationals ([Q], compared with [==]), horizons
    and month numbers as [Z].  The theorems are therefore statements about
    the formulas of the code in exact arithmetic; rounding of binary floating
    point is outside the model.  The one operation that leaves the
    rationals, a power with a fractional exponent, is a parameter [fpow] of
    the functions that use it.

    Where rounding matters.  In one place binary64 does more than perturb the
    last digits: the payment formula of [calculate_monthly_payment] divides
    by [(1 + r) ** n - 1], which is exactly 0.0 as soon as [1 + r] rounds to
    1.0, and loses the [- 1] altogether once the power exceeds 2 ** 53.  The
    exact value of the formula always amortizes the loan; the value the code
    computes need not, and need not exist.  The module [Binary64] therefore
    models the two functions of [mortgage_utils.py] once more over Rocq's
    primitive binary64 numbers, and the properties of the schedule are stated
    for the payment the schedule was built with, whatever its value, with
    the amortization property ([amortizes]) as an explicit hypothesis where a
    property depends on it.

    Exceptions.  A function that can raise returns a [result]; the
    exceptions are the ones the modelled code can raise on well-typed
    arguments. *)

From Stdlib Require Import ZArith QArith Qpower Qfield Lqa Lia ZifyNat List Bool String.
From Stdlib Require Floats.
Import ListNotations.
Open Scope Q_scope.

(* ================================================================== *)
(** * The Python runtime, as far as the code uses it *)
(* ================================================================== *)

Inductive exn : Set :=
| ZeroDivisionError
| IndexError
| KeyError
| NameError
| OverflowError.

Inductive result (A : Type) : Type :=
| Ok (a : A)
| Raise (e : exn).

Arguments Ok {A} a.
Arguments Raise {A} e.

Definition bind {A B : Type} (c : result A) (k : A -> result B) : result B :=
  match c with
  | Ok a => k a
  | Raise e => Raise e
  end.

Notation "x <- c ;; k" := (bind c (fun x => k))
  (at level 61, c at next level, right associativity).

(** [a / b] on numbers: a zero divisor raises. *)
Definition py_div (a b : Q) : result Q :=
  if Qeq_bool b 0 then Raise ZeroDivisionError else Ok (a / b).

(** [b ** e] with an integer exponent: zero to a negative power raises. *)
Definition py_pow (b : Q) (e : Z) : result Q :=
  if Qeq_bool b 0 && (e <? 0)%Z then Raise ZeroDivisionError else Ok (b ^ e).

(** [max(a, b)]: the first argument is kept unless the second is greater. *)
Definition py_max (a b : Q) : Q :=
  if Qle_bool b a then a else b.

(** [sum(l)]: starts from 0 and adds from the left. *)
Definition py_sum (l : list Q) : Q := fold_left Qplus l 0.

(** [int(x)] on a number: truncation toward zero. *)
Definition py_int (x : Q) : Z := Z.quot (Qnum x) (Zpos (Qden x)).

(** [range(lo, hi)]. *)
Definition py_range (lo hi : Z) : list Z :=
  map (fun i => (lo + Z.of_nat i)%Z) (seq 0 (Z.to_nat (hi - lo))).

(** [len(l)]. *)
Definition len {A : Type} (l : list A) : Z := Z.of_nat (List.length l).

(** [l[i]] on a list, and [df.iloc[i]] on the rows of a data frame: a
    negative index counts from the end, an index out of range raises. *)
Definition py_index {A : Type} (l : list A) (i : Z) : result A :=
  let j := if (i <? 0)%Z then (len l + i)%Z else i in
  if (j <? 0)%Z then Raise IndexError
  else match nth_error l (Z.to_nat j) with
       | Some a => Ok a
       | None => Raise IndexError
       end.

(** [df[col]] on [pd.DataFrame(rows)]: a frame built from an empty list has
    no columns, so selecting one raises [KeyError]; otherwise the column is
    the list of the rows' values. *)
Definition df_column {A B : Type} (df : list A) (col : A -> B) : result (list B) :=
  match df with
  | [] => Raise KeyError
  | _ => Ok (map col df)
  end.

(* ================================================================== *)
(** * core/mortgage_utils.py *)
(* ================================================================== *)

Module MortgageUtils.

(** One row of the amortization schedule (the dict appended per month). *)
Record AmortizationEntry : Type := mkEntry {
  month : Z;
  payment : Q;
  principal : Q;
  interest : Q;
  balance : Q
}.

(** The payment formula over exact rationals.  Over binary64 the divisor
    [(1 + r) ** n - 1] can be 0.0 for a rate that is not 0 and the power can
    leave the range: see [Binary64.calculate_monthly_payment] below. *)
Definition calculate_monthly_payment (principal annual_rate : Q) (years : Z)
  : result Q :=
  if Qeq_bool annual_rate 0 then
    py_div principal (inject_Z (years * 12))
  else
    let monthly_rate := annual_rate / 12 in
    let num_payments := (years * 12)%Z in
    p1 <- py_pow (1 + monthly_rate) num_payments ;;
    p2 <- py_pow (1 + monthly_rate) num_payments ;;
    py_div (principal * (monthly_rate * p1)) (p2 - 1).

(** The body of [for month in range(1, num_payments + 1)]: the loop state
    is the running (unclamped) [balance] and the [schedule] built so far. *)
Fixpoint schedule_loop (monthly_payment monthly_rate : Q) (months : list Z)
    (balance : Q) (schedule : list AmortizationEntry)
  : list AmortizationEntry :=
  match months with
  | [] => schedule
  | month :: rest =>
      let interest_payment := balance * monthly_rate in
      let principal_payment := monthly_payment - interest_payment in
      let balance := balance - principal_payment in
      schedule_loop monthly_payment monthly_rate rest balance
        (schedule ++ [ {| month := month;
                          payment := monthly_payment;
                          principal := principal_payment;
                          interest := interest_payment;
                          balance := py_max 0 balance |} ])
  end.

Definition calculate_amortization_schedule (principal annual_rate : Q) (years : Z)
  : result (list AmortizationEntry) :=
  monthly_payment <- calculate_monthly_payment principal annual_rate years ;;
  let monthly_rate := annual_rate / 12 in
  let num_payments := (years * 12)%Z in
  Ok (schedule_loop monthly_payment monthly_rate
        (py_range 1 (num_payments + 1)) principal []).

End MortgageUtils.

(* ================================================================== *)
(** * core/mortgage_utils.py over binary64 *)
(* ================================================================== *)

(** The payment and the schedule once more, over Python's [float]: IEEE 754
    binary64 with rounding to nearest even, which is Rocq's primitive
    [float].  Sums, differences and products never raise, [/] raises on a
    zero divisor, and an [int] operand is converted to a float first. *)
Module Binary64.

Import Floats.

(** [float(n)] for an int, as the arithmetic operators apply it: the nearest
    float, ties to even; an int beyond the range raises. *)
Definition float_of_int (n : Z) : result float :=
  let x := SF2Prim (binary_normalize prec emax n 0 false) in
  if is_infinity x then Raise OverflowError else Ok x.

(** [a / b]: a zero divisor, of either sign, raises. *)
Definition py_div (a b : float) : result float :=
  if (b =? 0)%float then Raise ZeroDivisionError else Ok (a / b)%float.

(** [max(0, x)]: the 0 is kept unless [x] is greater. *)
Definition py_max_0 (x : float) : float :=
  if (0 <? x)%float then x else 0%float.

Section Pow.

(** [x ** n] for a float [x] and an int [n] is [float.__pow__] at [x] and
    [float(n)]: the exponent is converted first (an int beyond the range
    raises), and the answer is 1.0 for a zero exponent and for the base 1.0,
    both without a call of the C library.  Every other case is the parameter
    [libm_pow]: the C library's [pow], whose last digit is the library's
    own, with the exceptions CPython raises for a zero base, a negative
    base and a result out of range. *)
Variable libm_pow : float -> Z -> result float.

Definition py_pow (x : float) (n : Z) : result float :=
  w <- float_of_int n ;;
  if (w =? 0)%float then Ok 1%float
  else if (x =? 1)%float then Ok 1%float
  else libm_pow x n.

Definition calculate_monthly_payment (principal annual_rate : float) (years : Z)
  : result float :=
  if (annual_rate =? 0)%float then
    n <- float_of_int (years * 12) ;;
    py_div principal n
  else
    let monthly_rate := (annual_rate / 12)%float in
    let num_payments := (years * 12)%Z in
    p1 <- py_pow (1 + monthly_rate)%float num_payments ;;
    p2 <- py_pow (1 + monthly_rate)%float num_payments ;;
    py_div (principal * (monthly_rate * p1))%float (p2 - 1)%float.

Record AmortizationEntry : Type := mkEntry {
  month : Z;
  payment : float;
  principal : float;
  interest : float;
  balance : float
}.

Fixpoint schedule_loop (monthly_payment monthly_rate : float) (months : list Z)
    (balance : float) (schedule : list AmortizationEntry)
  : list AmortizationEntry :=
  match months with
  | [] => schedule
  | month :: rest =>
      let interest_payment := (balance * monthly_rate)%float in
      let principal_payment := (monthly_payment - interest_payment)%float in
      let balance := (balance - principal_payment)%float in
      schedule_loop monthly_payment monthly_rate rest balance
        (schedule ++ [ {| month := month;
                          payment := monthly_payment;
                          principal := principal_payment;
                          interest := interest_payment;
                          balance := py_max_0 balance |} ])
  end.

Definition calculate_amortization_schedule (principal annual_rate : float)
    (years : Z) : result (list AmortizationEntry) :=
  monthly_payment <- calculate_monthly_payment principal annual_rate years ;;
  let monthly_rate := (annual_rate / 12)%float in
  let num_payments := (years * 12)%Z in
  Ok (schedule_loop monthly_payment monthly_rate
        (py_range 1 (num_payments + 1)) principal []).

End Pow.



End Binary64.

(* ================================================================== *)
(** * core/tax_utils.py *)
(* ================================================================== *)

Module TaxUtils.

Definition calculate_capital_gains_tax (gain holding_period_years : Q)
    (tax_rate_short tax_rate_long : Q) : Q :=
  if Qle_bool gain 0 then 0
  else if negb (Qle_bool 1 holding_period_years) then gain * tax_rate_short
  else gain * tax_rate_long.

(** The keyword defaults [tax_rate_short=0.25, tax_rate_long=0.15]. *)
Definition default_tax_rate_short : Q := 0.25.
Definition default_tax_rate_long : Q := 0.15.

Definition calculate_capital_gains_tax_default (gain holding_period_years : Q) : Q :=
  calculate_capital_gains_tax gain holding_period_years
    default_tax_rate_short default_tax_rate_long.

Definition calculate_primary_residence_exclusion (gain holding_period_years : Q)
    (is_married : bool) : Q :=
  if negb (Qle_bool 2 holding_period_years) then 0
  else
    let exclusion : Q := if is_married then 500000 else 250000 in
    (* min(gain, exclusion): the first argument unless the second is smaller *)
    if negb (Qle_bool gain exclusion) then exclusion else gain.

End TaxUtils.

(** [for month in l: s = body(s, month)], stopping at the first exception. *)
Fixpoint for_each {S : Type} (body : S -> Z -> result S) (l : list Z) (s : S)
  : result S :=
  match l with
  | [] => Ok s
  | month :: rest => s' <- body s month ;; for_each body rest s'
  end.

(* ================================================================== *)
(** * core/homeownership_simulation.py *)
(* ================================================================== *)

Module HomeownershipSimulation.

(** The module carries its own copies of [calculate_monthly_payment] and
    [calculate_amortization_schedule]; their text is that of
    [mortgage_utils] (without the [int(...)] around [years * 12], the
    identity on an integer horizon). *)
Definition calculate_monthly_payment := MortgageUtils.calculate_monthly_payment.
Definition calculate_amortization_schedule :=
  MortgageUtils.calculate_amortization_schedule.

(** The keys [simulate_homeownership] reads from [params]. *)
Module HomeParams.
Record t : Type := mk {
  purchase_price : Q;
  down_payment_pct : Q;
  mortgage_rate : Q;
  mortgage_years : Z;
  closing_costs_pct : Q;
  selling_cost_pct : Q;
  appreciation_rate : Q;
  property_tax_rate : Q;
  hoa_monthly : Q;
  insurance_monthly : Q;
  maintenance_rate : Q;
  tax_bracket : Q;
  years : Z
}.
End HomeParams.

(** One dict of [monthly_data]. *)
Module HomeRow.
Record t : Type := mk {
  month : Z;
  year : Z;
  property_value : Q;
  mortgage_payment : Q;
  principal_payment : Q;
  interest_payment : Q;
  remaining_balance : Q;
  property_tax_monthly : Q;
  hoa : Q;
  insurance : Q;
  maintenance : Q;
  total_costs_before_tax : Q;
  monthly_tax_benefit : Q;
  true_monthly_cost : Q;
  unrecoverable : Q;
  cumulative_unrecoverable : Q;
  cumulative_tax_benefits : Q;
  cumulative_true_cost : Q;
  equity : Q;
  net_proceeds : Q
}.
End HomeRow.

Module HomeSummary.
Record t : Type := mk {
  initial_payment : Q;
  final_property_value : Q;
  final_equity : Q;
  selling_costs : Q;
  final_net_proceeds : Q;
  total_unrecoverable_costs : Q;
  total_tax_benefits : Q;
  total_true_cost : Q;
  total_principal_paid : Q
}.
End HomeSummary.

Record HomeResult : Type := mkHomeResult {
  home_monthly_df : list HomeRow.t;
  home_summary : HomeSummary.t
}.

Section Ownership.

(** [b ** e] with a fractional exponent [e = (month - 1) / 12]. *)
Variable fpow : Q -> Q -> Q.

(** One iteration of [for month in range(1, months + 1)]; the only loop
    state is [monthly_data]. *)
Definition home_loop_body (p : HomeParams.t) (closing_costs : Q)
    (amortization : list MortgageUtils.AmortizationEntry)
    (monthly_data : list HomeRow.t) (month : Z) : result (list HomeRow.t) :=
  let year_num := ((month - 1) / 12 + 1)%Z in
  let years_elapsed := inject_Z (month - 1) / 12 in
  let property_value :=
    HomeParams.purchase_price p
    * fpow (1 + HomeParams.appreciation_rate p) years_elapsed in
  mortgage <-
    (if (month <=? len amortization)%Z then
       e <- py_index amortization (month - 1) ;;
       Ok (MortgageUtils.payment e, MortgageUtils.principal e,
           MortgageUtils.interest e, MortgageUtils.balance e)
     else Ok (0, 0, 0, 0)) ;;
  let '(mortgage_payment, principal_payment, interest_payment, remaining_balance) :=
    mortgage in
  let property_tax_monthly :=
    (property_value * HomeParams.property_tax_rate p) / 12 in
  let maintenance_monthly :=
    (property_value * HomeParams.maintenance_rate p) / 12 in
  let monthly_tax_benefit :=
    (interest_payment + property_tax_monthly) * HomeParams.tax_bracket p in
  let total_costs_before_tax :=
    mortgage_payment + property_tax_monthly + HomeParams.insurance_monthly p
    + HomeParams.hoa_monthly p + maintenance_monthly in
  let true_monthly_cost := total_costs_before_tax - monthly_tax_benefit in
  let unrecoverable :=
    interest_payment + property_tax_monthly + HomeParams.insurance_monthly p
    + HomeParams.hoa_monthly p + maintenance_monthly in
  let unrecoverable :=
    if (month =? 1)%Z then unrecoverable + closing_costs else unrecoverable in
  let cumulative_unrecoverable :=
    match monthly_data with
    | [] => unrecoverable
    | _ => py_sum (map HomeRow.unrecoverable monthly_data) + unrecoverable
    end in
  let cumulative_tax_benefits :=
    match monthly_data with
    | [] => monthly_tax_benefit
    | _ => py_sum (map HomeRow.monthly_tax_benefit monthly_data)
           + monthly_tax_benefit
    end in
  let cumulative_true_cost :=
    match monthly_data with
    | [] => true_monthly_cost
    | _ => py_sum (map HomeRow.true_monthly_cost monthly_data)
           + true_monthly_cost
    end in
  let equity := property_value - remaining_balance in
  let selling_costs := property_value * HomeParams.selling_cost_pct p in
  let net_proceeds := property_value - remaining_balance - selling_costs in
  Ok (monthly_data ++
      [ {| HomeRow.month := month;
           HomeRow.year := year_num;
           HomeRow.property_value := property_value;
           HomeRow.mortgage_payment := mortgage_payment;
           HomeRow.principal_payment := principal_payment;
           HomeRow.interest_payment := interest_payment;
           HomeRow.remaining_balance := remaining_balance;
           HomeRow.property_tax_monthly := property_tax_monthly;
           HomeRow.hoa := HomeParams.hoa_monthly p;
           HomeRow.insurance := HomeParams.insurance_monthly p;
           HomeRow.maintenance := maintenance_monthly;
           HomeRow.total_costs_before_tax := total_costs_before_tax;
           HomeRow.monthly_tax_benefit := monthly_tax_benefit;
           HomeRow.true_monthly_cost := true_monthly_cost;
           HomeRow.unrecoverable := unrecoverable;
           HomeRow.cumulative_unrecoverable := cumulative_unrecoverable;
           HomeRow.cumulative_tax_benefits := cumulative_tax_benefits;
           HomeRow.cumulative_true_cost := cumulative_true_cost;
           HomeRow.equity := equity;
           HomeRow.net_proceeds := net_proceeds |} ]).

(** The rows after the month loop. *)
Definition home_monthly_data (p : HomeParams.t) : result (list HomeRow.t) :=
  let down_payment := HomeParams.purchase_price p * HomeParams.down_payment_pct p in
  let closing_costs := HomeParams.purchase_price p * HomeParams.closing_costs_pct p in
  let loan_amount := HomeParams.purchase_price p - down_payment in
  amortization <-
    calculate_amortization_schedule loan_amount (HomeParams.mortgage_rate p)
      (HomeParams.mortgage_years p) ;;
  let months := (HomeParams.years p * 12)%Z in
  for_each (home_loop_body p closing_costs amortization)
    (py_range 1 (months + 1)) [].

Definition simulate_homeownership (p : HomeParams.t) : result HomeResult :=
  let down_payment := HomeParams.purchase_price p * HomeParams.down_payment_pct p in
  let closing_costs := HomeParams.purchase_price p * HomeParams.closing_costs_pct p in
  let initial_investment := down_payment + closing_costs in
  df <- home_monthly_data p ;;
  last1 <- py_index df (-1) ;;
  let final_property_value := HomeRow.property_value last1 in
  last2 <- py_index df (-1) ;;
  let final_remaining_balance := HomeRow.remaining_balance last2 in
  let final_selling_costs := final_property_value * HomeParams.selling_cost_pct p in
  let final_net_proceeds :=
    final_property_value - final_remaining_balance - final_selling_costs in
  c1 <- df_column df HomeRow.cumulative_true_cost ;;
  last_true_cost <- py_index c1 (-1) ;;
  let final_cumulative_cost := last_true_cost + final_selling_costs in
  c2 <- df_column df HomeRow.cumulative_unrecoverable ;;
  last_unrecoverable <- py_index c2 (-1) ;;
  c3 <- df_column df HomeRow.cumulative_tax_benefits ;;
  last_tax_benefits <- py_index c3 (-1) ;;
  c4 <- df_column df HomeRow.principal_payment ;;
  Ok {| home_monthly_df := df;
        home_summary :=
          {| HomeSummary.initial_payment := initial_investment;
             HomeSummary.final_property_value := final_property_value;
             HomeSummary.final_equity :=
               final_property_value - final_remaining_balance;
             HomeSummary.selling_costs := final_selling_costs;
             HomeSummary.final_net_proceeds := final_net_proceeds;
             HomeSummary.total_unrecoverable_costs := last_unrecoverable;
             HomeSummary.total_tax_benefits := last_tax_benefits;
             HomeSummary.total_true_cost := final_cumulative_cost;
             HomeSummary.total_principal_paid := py_sum c4 |} |}.

End Ownership.

(** The keys [simulate_rent_and_invest] reads from [params]. *)
Module StockParams.
Record t : Type := mk {
  initial_investment : Q;
  monthly_rent : Q;
  rent_increase_rate : Q;
  stock_return_rate : Q;
  dividend_yield : Q;
  tax_bracket : Q;
  years : Z
}.
End StockParams.

Module StockRow.
Record t : Type := mk {
  month : Z;
  year : Z;
  portfolio_value : Q;
  monthly_rent : Q;
  cumulative_rent : Q;
  monthly_contribution : Q;
  monthly_dividend : Q;
  monthly_operating_income : Q;
  cumulative_operating_income : Q;
  dividend_tax : Q;
  cumulative_dividend_tax : Q;
  cumulative_cost : Q;
  net_proceeds : Q
}.
End StockRow.

(** The variables the month loop of [simulate_rent_and_invest] updates. *)
Module StockState.
Record t : Type := mk {
  portfolio_value : Q;
  cumulative_rent : Q;
  cumulative_dividends : Q;
  cumulative_dividend_tax : Q;
  annual_dividends : Q;
  monthly_data : list StockRow.t
}.
End StockState.

Module StockSummary.
Record t : Type := mk {
  initial_payment : Q;
  final_portfolio_value : Q;
  total_contributions : Q;
  total_rent_paid : Q;
  total_dividends : Q;
  total_dividend_tax : Q;
  total_cost : Q;
  final_net_proceeds : Q
}.
End StockSummary.

Record StockResult : Type := mkStockResult {
  stock_monthly_df : list StockRow.t;
  stock_summary : StockSummary.t
}.

Definition stock_initial_state (p : StockParams.t) : StockState.t :=
  {| StockState.portfolio_value := StockParams.initial_investment p;
     StockState.cumulative_rent := 0;
     StockState.cumulative_dividends := 0;
     StockState.cumulative_dividend_tax := 0;
     StockState.annual_dividends := 0;
     StockState.monthly_data := [] |}.

Definition stock_loop_body (p : StockParams.t)
    (homeownership_true_monthly_costs : list Q)
    (s : StockState.t) (month : Z) : result StockState.t :=
  let year_num := ((month - 1) / 12 + 1)%Z in
  let month_in_year := ((month - 1) mod 12 + 1)%Z in
  let years_elapsed := inject_Z (month - 1) / 12 in
  growth <- py_pow (1 + StockParams.rent_increase_rate p) (py_int years_elapsed) ;;
  let current_rent := StockParams.monthly_rent p * growth in
  let cumulative_rent := StockState.cumulative_rent s + current_rent in
  homeownership_cost <- py_index homeownership_true_monthly_costs (month - 1) ;;
  let monthly_contribution := homeownership_cost - current_rent in
  let monthly_return := StockParams.stock_return_rate p / 12 in
  let portfolio_value :=
    StockState.portfolio_value s * (1 + monthly_return) + monthly_contribution in
  let monthly_dividend := portfolio_value * (StockParams.dividend_yield p / 12) in
  let annual_dividends := StockState.annual_dividends s + monthly_dividend in
  let cumulative_dividends := StockState.cumulative_dividends s + monthly_dividend in
  let monthly_operating_income := monthly_dividend in
  let '(dividend_tax, cumulative_dividend_tax, annual_dividends) :=
    if (month_in_year =? 12)%Z then
      let dividend_tax := annual_dividends * StockParams.tax_bracket p in
      (dividend_tax, StockState.cumulative_dividend_tax s + dividend_tax, 0)
    else
      (0, StockState.cumulative_dividend_tax s, annual_dividends) in
  let net_proceeds := portfolio_value in
  let cumulative_cost := cumulative_rent + cumulative_dividend_tax in
  let monthly_data := StockState.monthly_data s in
  let cumulative_operating_income :=
    match monthly_data with
    | [] => monthly_operating_income
    | _ => py_sum (map StockRow.monthly_operating_income monthly_data)
           + monthly_operating_income
    end in
  Ok {| StockState.portfolio_value := portfolio_value;
        StockState.cumulative_rent := cumulative_rent;
        StockState.cumulative_dividends := cumulative_dividends;
        StockState.cumulative_dividend_tax := cumulative_dividend_tax;
        StockState.annual_dividends := annual_dividends;
        StockState.monthly_data :=
          monthly_data ++
          [ {| StockRow.month := month;
               StockRow.year := year_num;
               StockRow.portfolio_value := portfolio_value;
               StockRow.monthly_rent := current_rent;
               StockRow.cumulative_rent := cumulative_rent;
               StockRow.monthly_contribution := monthly_contribution;
               StockRow.monthly_dividend := monthly_dividend;
               StockRow.monthly_operating_income := monthly_operating_income;
               StockRow.cumulative_operating_income := cumulative_operating_income;
               StockRow.dividend_tax := dividend_tax;
               StockRow.cumulative_dividend_tax := cumulative_dividend_tax;
               StockRow.cumulative_cost := cumulative_cost;
               StockRow.net_proceeds := net_proceeds |} ] |}.

(** The loop state after the month loop. *)
Definition stock_final_state (p : StockParams.t)
    (homeownership_true_monthly_costs : list Q) : result StockState.t :=
  let months := (StockParams.years p * 12)%Z in
  for_each (stock_loop_body p homeownership_true_monthly_costs)
    (py_range 1 (months + 1)) (stock_initial_state p).

Definition simulate_rent_and_invest (p : StockParams.t)
    (homeownership_true_monthly_costs : list Q) : result StockResult :=
  s <- stock_final_state p homeownership_true_monthly_costs ;;
  let df := StockState.monthly_data s in
  last1 <- py_index df (-1) ;;
  c1 <- df_column df StockRow.monthly_contribution ;;
  c2 <- df_column df StockRow.cumulative_rent ;;
  last_rent <- py_index c2 (-1) ;;
  c3 <- df_column df StockRow.cumulative_cost ;;
  last_cost <- py_index c3 (-1) ;;
  last2 <- py_index df (-1) ;;
  Ok {| stock_monthly_df := df;
        stock_summary :=
          {| StockSummary.initial_payment := StockParams.initial_investment p;
             StockSummary.final_portfolio_value := StockRow.portfolio_value last1;
             StockSummary.total_contributions := py_sum c1;
             StockSummary.total_rent_paid := last_rent;
             StockSummary.total_dividends := StockState.cumulative_dividends s;
             StockSummary.total_dividend_tax := StockState.cumulative_dividend_tax s;
             StockSummary.total_cost := last_cost;
             StockSummary.final_net_proceeds := StockRow.net_proceeds last2 |} |}.

End HomeownershipSimulation.

(* ================================================================== *)
(** * core/rental_simulation.py *)
(* ================================================================== *)

Module RentalSimulation.

(** Again the module's own copies, with the text of [mortgage_utils]. *)
Definition calculate_monthly_payment := MortgageUtils.calculate_monthly_payment.
Definition calculate_amortization_schedule :=
  MortgageUtils.calculate_amortization_schedule.

(** The keys [simulate_rental_property] reads from [params], and
    [selling_cost_pct]: the dict may carry that key (the sibling
    simulators read it), this function never looks it up. *)
Module RentalParams.
Record t : Type := mk {
  purchase_price : Q;
  down_payment_pct : Q;
  mortgage_rate : Q;
  mortgage_years : Z;
  closing_costs_pct : Q;
  appreciation_rate : Q;
  property_tax_rate : Q;
  hoa_monthly : Q;
  insurance_monthly : Q;
  maintenance_rate : Q;
  tax_bracket : Q;
  monthly_rent : Q;
  vacancy_rate : Q;
  years : Z;
  selling_cost_pct : option Q
}.
End RentalParams.

Module RentalRow.
Record t : Type := mk {
  month : Z;
  year : Z;
  property_value : Q;
  mortgage_payment : Q;
  principal_payment : Q;
  interest_payment : Q;
  remaining_balance : Q;
  property_tax_monthly : Q;
  hoa : Q;
  insurance : Q;
  maintenance : Q;
  unrecoverable : Q;
  monthly_tax_benefit : Q;
  rental_income : Q;
  true_cost : Q;
  cumulative_true_cost : Q;
  monthly_operating_income : Q;
  cumulative_operating_income : Q;
  net_proceeds : Q
}.
End RentalRow.

(** The variables the month loop of [simulate_rental_property] updates. *)
Module RentalState.
Record t : Type := mk {
  annual_rental_income : Q;
  annual_interest : Q;
  annual_property_tax : Q;
  monthly_data : list RentalRow.t
}.
End RentalState.

Module RentalSummary.
Record t : Type := mk {
  initial_payment : Q;
  final_property_value : Q;
  selling_costs : Q;
  final_net_proceeds : Q;
  total_true_cost : Q;
  total_operating_income : Q;
  total_rental_income : Q
}.
End RentalSummary.

Record RentalResult : Type := mkRentalResult {
  rental_monthly_df : list RentalRow.t;
  rental_summary : RentalSummary.t
}.

Definition rental_initial_state : RentalState.t :=
  {| RentalState.annual_rental_income := 0;
     RentalState.annual_interest := 0;
     RentalState.annual_property_tax := 0;
     RentalState.monthly_data := [] |}.

Section Rental.

Variable fpow : Q -> Q -> Q.

Definition rental_loop_body (p : RentalParams.t) (closing_costs : Q)
    (amortization : list MortgageUtils.AmortizationEntry)
    (s : RentalState.t) (month : Z) : result RentalState.t :=
  let year_num := ((month - 1) / 12 + 1)%Z in
  let month_in_year := ((month - 1) mod 12 + 1)%Z in
  let years_elapsed := inject_Z (month - 1) / 12 in
  let property_value :=
    RentalParams.purchase_price p
    * fpow (1 + RentalParams.appreciation_rate p) years_elapsed in
  mortgage <-
    (if (month <=? len amortization)%Z then
       e <- py_index amortization (month - 1) ;;
       Ok (MortgageUtils.payment e, MortgageUtils.principal e,
           MortgageUtils.interest e, MortgageUtils.balance e)
     else Ok (0, 0, 0, 0)) ;;
  let '(mortgage_payment, principal_payment, interest_payment, remaining_balance) :=
    mortgage in
  let property_tax_monthly :=
    (property_value * RentalParams.property_tax_rate p) / 12 in
  let maintenance_monthly :=
    (property_value * RentalParams.maintenance_rate p) / 12 in
  let unrecoverable :=
    interest_payment + property_tax_monthly + RentalParams.hoa_monthly p
    + RentalParams.insurance_monthly p + maintenance_monthly in
  let unrecoverable :=
    if (month =? 1)%Z then unrecoverable + closing_costs else unrecoverable in
  let monthly_tax_benefit :=
    (interest_payment + property_tax_monthly) * RentalParams.tax_bracket p in
  let rental_income :=
    RentalParams.monthly_rent p * (1 - RentalParams.vacancy_rate p) in
  let true_cost := unrecoverable - rental_income - monthly_tax_benefit in
  let annual_rental_income := RentalState.annual_rental_income s + rental_income in
  let annual_interest := RentalState.annual_interest s + interest_payment in
  let annual_property_tax :=
    RentalState.annual_property_tax s + property_tax_monthly in
  let monthly_operating_income := rental_income in
  let net_proceeds := property_value - remaining_balance in
  let monthly_data := RentalState.monthly_data s in
  let cumulative_true_cost :=
    match monthly_data with
    | [] => true_cost
    | _ => py_sum (map RentalRow.true_cost monthly_data) + true_cost
    end in
  let cumulative_operating_income :=
    match monthly_data with
    | [] => monthly_operating_income
    | _ => py_sum (map RentalRow.monthly_operating_income monthly_data)
           + monthly_operating_income
    end in
  Ok {| RentalState.annual_rental_income := annual_rental_income;
        RentalState.annual_interest := annual_interest;
        RentalState.annual_property_tax := annual_property_tax;
        RentalState.monthly_data :=
          monthly_data ++
          [ {| RentalRow.month := month;
               RentalRow.year := year_num;
               RentalRow.property_value := property_value;
               RentalRow.mortgage_payment := mortgage_payment;
               RentalRow.principal_payment := principal_payment;
               RentalRow.interest_payment := interest_payment;
               RentalRow.remaining_balance := remaining_balance;
               RentalRow.property_tax_monthly := property_tax_monthly;
               RentalRow.hoa := RentalParams.hoa_monthly p;
               RentalRow.insurance := RentalParams.insurance_monthly p;
               RentalRow.maintenance := maintenance_monthly;
               RentalRow.unrecoverable := unrecoverable;
               RentalRow.monthly_tax_benefit := monthly_tax_benefit;
               RentalRow.rental_income := rental_income;
               RentalRow.true_cost := true_cost;
               RentalRow.cumulative_true_cost := cumulative_true_cost;
               RentalRow.monthly_operating_income := monthly_operating_income;
               RentalRow.cumulative_operating_income :=
                 cumulative_operating_income;
               RentalRow.net_proceeds := net_proceeds |} ] |}.

(** The loop state after the month loop. *)
Definition rental_final_state (p : RentalParams.t) : result RentalState.t :=
  let down_payment :=
    RentalParams.purchase_price p * RentalParams.down_payment_pct p in
  let closing_costs :=
    RentalParams.purchase_price p * RentalParams.closing_costs_pct p in
  let loan_amount := RentalParams.purchase_price p - down_payment in
  amortization <-
    calculate_amortization_schedule loan_amount (RentalParams.mortgage_rate p)
      (RentalParams.mortgage_years p) ;;
  let months := (RentalParams.years p * 12)%Z in
  for_each (rental_loop_body p closing_costs amortization)
    (py_range 1 (months + 1)) rental_initial_state.

Definition simulate_rental_property (p : RentalParams.t) : result RentalResult :=
  let down_payment :=
    RentalParams.purchase_price p * RentalParams.down_payment_pct p in
  let closing_costs :=
    RentalParams.purchase_price p * RentalParams.closing_costs_pct p in
  let initial_investment := down_payment + closing_costs in
  s <- rental_final_state p ;;
  let df := RentalState.monthly_data s in
  last1 <- py_index df (-1) ;;
  let final_property_value := RentalRow.property_value last1 in
  last2 <- py_index df (-1) ;;
  let final_remaining_balance := RentalRow.remaining_balance last2 in
  let selling_costs := final_property_value * 0.06 in
  let final_net_proceeds :=
    final_property_value - selling_costs - final_remaining_balance in
  c1 <- df_column df RentalRow.cumulative_true_cost ;;
  last_true_cost <- py_index c1 (-1) ;;
  let final_cumulative_cost := last_true_cost + selling_costs in
  c2 <- df_column df RentalRow.cumulative_operating_income ;;
  last_operating_income <- py_index c2 (-1) ;;
  c3 <- df_column df RentalRow.rental_income ;;
  Ok {| rental_monthly_df := df;
        rental_summary :=
          {| RentalSummary.initial_payment := initial_investment;
             RentalSummary.final_property_value := final_property_value;
             RentalSummary.selling_costs := selling_costs;
             RentalSummary.final_net_proceeds := final_net_proceeds;
             RentalSummary.total_true_cost := final_cumulative_cost;
             RentalSummary.total_operating_income := last_operating_income;
             RentalSummary.total_rental_income := py_sum c3 |} |}.

End Rental.

(** The keys [simulate_stock_investment] reads from [params]. *)
Module InvestParams.
Record t : Type := mk {
  initial_investment : Q;
  stock_return_rate : Q;
  dividend_yield : Q;
  tax_bracket : Q;
  years : Z
}.
End InvestParams.

Module InvestRow.
Record t : Type := mk {
  month : Z;
  year : Z;
  portfolio_value : Q;
  monthly_contribution : Q;
  monthly_dividend : Q;
  monthly_operating_income : Q;
  cumulative_operating_income : Q;
  dividend_tax : Q;
  cumulative_cost : Q;
  net_proceeds : Q
}.
End InvestRow.

(** The variables the month loop of [simulate_stock_investment] updates. *)
Module InvestState.
Record t : Type := mk {
  portfolio_value : Q;
  cumulative_dividends : Q;
  cumulative_dividend_tax : Q;
  annual_dividends : Q;
  monthly_data : list InvestRow.t
}.
End InvestState.

Module InvestSummary.
Record t : Type := mk {
  initial_payment : Q;
  final_portfolio_value : Q;
  total_contributions : Q;
  total_dividends : Q;
  total_dividend_tax : Q;
  final_net_proceeds : Q
}.
End InvestSummary.

Record InvestResult : Type := mkInvestResult {
  invest_monthly_df : list InvestRow.t;
  invest_summary : InvestSummary.t
}.

Definition invest_initial_state (p : InvestParams.t) : InvestState.t :=
  {| InvestState.portfolio_value := InvestParams.initial_investment p;
     InvestState.cumulative_dividends := 0;
     InvestState.cumulative_dividend_tax := 0;
     InvestState.annual_dividends := 0;
     InvestState.monthly_data := [] |}.

Definition invest_loop_body (p : InvestParams.t) (rental_monthly_expenses : list Q)
    (s : InvestState.t) (month : Z) : result InvestState.t :=
  let year_num := ((month - 1) / 12 + 1)%Z in
  let month_in_year := ((month - 1) mod 12 + 1)%Z in
  monthly_contribution <- py_index rental_monthly_expenses (month - 1) ;;
  let monthly_return := InvestParams.stock_return_rate p / 12 in
  let portfolio_value :=
    InvestState.portfolio_value s * (1 + monthly_return) + monthly_contribution in
  let monthly_dividend := portfolio_value * (InvestParams.dividend_yield p / 12) in
  let annual_dividends := InvestState.annual_dividends s + monthly_dividend in
  let cumulative_dividends := InvestState.cumulative_dividends s + monthly_dividend in
  let monthly_operating_income := monthly_dividend in
  let '(dividend_tax, cumulative_dividend_tax, annual_dividends) :=
    if (month_in_year =? 12)%Z then
      let dividend_tax := annual_dividends * InvestParams.tax_bracket p in
      (dividend_tax, InvestState.cumulative_dividend_tax s + dividend_tax, 0)
    else
      (0, InvestState.cumulative_dividend_tax s, annual_dividends) in
  let net_proceeds := portfolio_value in
  let cumulative_cost := cumulative_dividend_tax in
  let monthly_data := InvestState.monthly_data s in
  let cumulative_operating_income :=
    match monthly_data with
    | [] => monthly_operating_income
    | _ => py_sum (map InvestRow.monthly_operating_income monthly_data)
           + monthly_operating_income
    end in
  Ok {| InvestState.portfolio_value := portfolio_value;
        InvestState.cumulative_dividends := cumulative_dividends;
        InvestState.cumulative_dividend_tax := cumulative_dividend_tax;
        InvestState.annual_dividends := annual_dividends;
        InvestState.monthly_data :=
          monthly_data ++
          [ {| InvestRow.month := month;
               InvestRow.year := year_num;
               InvestRow.portfolio_value := portfolio_value;
               InvestRow.monthly_contribution := monthly_contribution;
               InvestRow.monthly_dividend := monthly_dividend;
               InvestRow.monthly_operating_income := monthly_operating_income;
               InvestRow.cumulative_operating_income := cumulative_operating_income;
               InvestRow.dividend_tax := dividend_tax;
               InvestRow.cumulative_cost := cumulative_cost;
               InvestRow.net_proceeds := net_proceeds |} ] |}.

(** The loop state after the month loop. *)
Definition invest_final_state (p : InvestParams.t)
    (rental_monthly_expenses : list Q) : result InvestState.t :=
  let months := (InvestParams.years p * 12)%Z in
  for_each (invest_loop_body p rental_monthly_expenses)
    (py_range 1 (months + 1)) (invest_initial_state p).

Definition simulate_stock_investment (p : InvestParams.t)
    (rental_monthly_expenses : list Q) : result InvestResult :=
  s <- invest_final_state p rental_monthly_expenses ;;
  let df := InvestState.monthly_data s in
  last1 <- py_index df (-1) ;;
  c1 <- df_column df InvestRow.monthly_contribution ;;
  last2 <- py_index df (-1) ;;
  Ok {| invest_monthly_df := df;
        invest_summary :=
          {| InvestSummary.initial_payment := InvestParams.initial_investment p;
             InvestSummary.final_portfolio_value := InvestRow.portfolio_value last1;
             InvestSummary.total_contributions := py_sum c1;
             InvestSummary.total_dividends := InvestState.cumulative_dividends s;
             InvestSummary.total_dividend_tax :=
               InvestState.cumulative_dividend_tax s;
             InvestSummary.final_net_proceeds := InvestRow.net_proceeds last2 |} |}.

End RentalSimulation.

(* ================================================================== *)
(** * core/simulation.py (the older engine; no page imports it) *)
(* ================================================================== *)

Module Simulation.

(** [series.cumsum()]: the running sums, starting from the first value. *)
Fixpoint cumsum_from (acc : Q) (l : list Q) : list Q :=
  match l with
  | [] => []
  | x :: rest => (acc + x) :: cumsum_from (acc + x) rest
  end.

Definition cumsum (l : list Q) : list Q :=
  match l with
  | [] => []
  | x :: rest => x :: cumsum_from x rest
  end.

(** A value stored in a row: a number, or an object bound at module level
    (an imported module or a function). *)
Inductive pyobj : Type :=
| Num (q : Q)
| ModuleObject (name : string).

(** The names bound at the top level of [simulation.py]: its imports and
    its function definitions. *)
Definition module_globals : list string :=
  [ "np"; "pd";
    "calculate_amortization_schedule"; "calculate_monthly_payment";
    "calculate_income_tax"; "calculate_capital_gains_tax";
    "calculate_mortgage_interest_deduction"; "calculate_property_tax_deduction";
    "calculate_rental_depreciation"; "calculate_passive_income_tax";
    "calculate_primary_residence_exclusion"; "calculate_dividend_tax";
    "simulate_homeownership"; "simulate_stock_investment";
    "simulate_rental_property"; "simulate_airbnb_property";
    "simulate_flip_project"; "compare_strategies" ]%string.

(** Reading a name that the function never assigns: Python looks it up
    among the module's globals (no builtin has such a name) and raises
    [NameError] when it is not there. *)
Definition load_global (name : string) : result pyobj :=
  if existsb (String.eqb name) module_globals then Ok (ModuleObject name)
  else Raise NameError.

Module HomeParams.
Record t : Type := mk {
  purchase_price : Q;
  down_payment_pct : Q;
  mortgage_rate : Q;
  mortgage_years : Z;
  closing_costs_pct : Q;
  appreciation_rate : Q;
  property_tax_rate : Q;
  hoa_monthly : Q;
  insurance_monthly : Q;
  maintenance_rate : Q;
  tax_bracket : Q;
  selling_cost_pct : Q;
  years : Z;
  inflation_rate : option Q
}.
End HomeParams.

Module HomeRow.
Record t : Type := mk {
  month : Z;
  year : Q;
  property_value : Q;
  mortgage_payment : Q;
  principal_payment : Q;
  interest_payment : Q;
  property_tax : Q;
  hoa : Q;
  insurance : Q;
  maintenance : Q;
  total_monthly_cost : Q;
  unrecoverable_cost : Q;
  remaining_balance : Q;
  equity : Q;
  monthly_operating_income : pyobj;
  cumulative_operating_income : Q;
  cumulative_unrecoverable : Q;
  net_worth : Q
}.
End HomeRow.

(** The variables the month loop of [simulate_homeownership] updates. *)
Module HomeState.
Record t : Type := mk {
  monthly_data : list HomeRow.t;
  cumulative_unrecoverable : Q;
  cumulative_operating_income : Q;
  monthly_expenses : list Q
}.
End HomeState.

(** The values one iteration has computed when it reaches
    [monthly_data.append({...})]. *)
Module HomeLocals.
Record t : Type := mk {
  year : Q;
  property_value : Q;
  mortgage_payment : Q;
  principal_payment : Q;
  interest_payment : Q;
  remaining_balance : Q;
  property_tax : Q;
  maintenance : Q;
  total_monthly_cost : Q;
  unrecoverable : Q;
  cumulative_unrecoverable : Q;
  total_monthly_expense : Q;
  monthly_tax_benefit : Q;
  cumulative_operating_income : Q;
  equity : Q;
  net_worth : Q
}.
End HomeLocals.

Module HomeSummary.
Record t : Type := mk {
  initial_investment : Q;
  total_invested : Q;
  final_property_value : Q;
  final_equity : Q;
  selling_costs : Q;
  capital_gain : Q;
  capital_gains_tax : Q;
  net_proceeds : Q;
  total_unrecoverable : Q;
  total_principal_paid : Q;
  roi : Q;
  annualized_return : Q
}.
End HomeSummary.

Record HomeResult : Type := mkHomeResult {
  home_monthly_df : list HomeRow.t;
  home_cumulative_principal : list Q;
  home_summary : HomeSummary.t;
  home_monthly_expenses : list Q
}.

Definition home_initial_state : HomeState.t :=
  {| HomeState.monthly_data := [];
     HomeState.cumulative_unrecoverable := 0;
     HomeState.cumulative_operating_income := 0;
     HomeState.monthly_expenses := [] |}.

Section Ownership.

Variable fpow : Q -> Q -> Q.

(** Lines 54-106 of the loop body. *)
Definition home_month_locals (p : HomeParams.t) (down_payment closing_costs : Q)
    (amortization : list MortgageUtils.AmortizationEntry)
    (s : HomeState.t) (month : Z) : result HomeLocals.t :=
  let year := inject_Z (month - 1) / 12 in
  let property_value :=
    HomeParams.purchase_price p
    * fpow (1 + HomeParams.appreciation_rate p) year in
  mortgage <-
    (if (month <=? len amortization)%Z then
       e <- py_index amortization (month - 1) ;;
       Ok (MortgageUtils.payment e, MortgageUtils.principal e,
           MortgageUtils.interest e, MortgageUtils.balance e)
     else Ok (0, 0, 0, 0)) ;;
  let '(mortgage_payment, principal_payment, interest_payment, remaining_balance) :=
    mortgage in
  let property_tax := (property_value * HomeParams.property_tax_rate p) / 12 in
  let maintenance := (property_value * HomeParams.maintenance_rate p) / 12 in
  let total_monthly_cost :=
    mortgage_payment + property_tax + HomeParams.hoa_monthly p
    + HomeParams.insurance_monthly p + maintenance in
  let unrecoverable :=
    interest_payment + property_tax + HomeParams.hoa_monthly p
    + HomeParams.insurance_monthly p + maintenance in
  let unrecoverable :=
    if (month =? 1)%Z then unrecoverable + closing_costs else unrecoverable in
  let cumulative_unrecoverable :=
    HomeState.cumulative_unrecoverable s + unrecoverable in
  let total_monthly_expense := unrecoverable + principal_payment in
  let monthly_tax_benefit :=
    (interest_payment + property_tax) * (1 - HomeParams.tax_bracket p) in
  let cumulative_operating_income :=
    HomeState.cumulative_operating_income s + monthly_tax_benefit in
  let equity := property_value - remaining_balance in
  let net_worth :=
    if (month =? 1)%Z then down_payment
    else property_value - remaining_balance - closing_costs
         + cumulative_operating_income in
  Ok {| HomeLocals.year := year;
        HomeLocals.property_value := property_value;
        HomeLocals.mortgage_payment := mortgage_payment;
        HomeLocals.principal_payment := principal_payment;
        HomeLocals.interest_payment := interest_payment;
        HomeLocals.remaining_balance := remaining_balance;
        HomeLocals.property_tax := property_tax;
        HomeLocals.maintenance := maintenance;
        HomeLocals.total_monthly_cost := total_monthly_cost;
        HomeLocals.unrecoverable := unrecoverable;
        HomeLocals.cumulative_unrecoverable := cumulative_unrecoverable;
        HomeLocals.total_monthly_expense := total_monthly_expense;
        HomeLocals.monthly_tax_benefit := monthly_tax_benefit;
        HomeLocals.cumulative_operating_income := cumulative_operating_income;
        HomeLocals.equity := equity;
        HomeLocals.net_worth := net_worth |}.

(** One iteration: the computation above, then the row is built.  The
    dict display reads the name [monthly_operating_income], which the
    function assigns nowhere. *)
Definition home_loop_body (p : HomeParams.t) (down_payment closing_costs : Q)
    (amortization : list MortgageUtils.AmortizationEntry)
    (s : HomeState.t) (month : Z) : result HomeState.t :=
  v <- home_month_locals p down_payment closing_costs amortization s month ;;
  monthly_operating_income <- load_global "monthly_operating_income" ;;
  Ok {| HomeState.monthly_data :=
          HomeState.monthly_data s ++
          [ {| HomeRow.month := month;
               HomeRow.year := HomeLocals.year v;
               HomeRow.property_value := HomeLocals.property_value v;
               HomeRow.mortgage_payment := HomeLocals.mortgage_payment v;
               HomeRow.principal_payment := HomeLocals.principal_payment v;
               HomeRow.interest_payment := HomeLocals.interest_payment v;
               HomeRow.property_tax := HomeLocals.property_tax v;
               HomeRow.hoa := HomeParams.hoa_monthly p;
               HomeRow.insurance := HomeParams.insurance_monthly p;
               HomeRow.maintenance := HomeLocals.maintenance v;
               HomeRow.total_monthly_cost := HomeLocals.total_monthly_cost v;
               HomeRow.unrecoverable_cost := HomeLocals.unrecoverable v;
               HomeRow.remaining_balance := HomeLocals.remaining_balance v;
               HomeRow.equity := HomeLocals.equity v;
               HomeRow.monthly_operating_income := monthly_operating_income;
               HomeRow.cumulative_operating_income :=
                 HomeLocals.cumulative_operating_income v;
               HomeRow.cumulative_unrecoverable :=
                 HomeLocals.cumulative_unrecoverable v;
               HomeRow.net_worth := HomeLocals.net_worth v |} ];
        HomeState.cumulative_unrecoverable :=
          HomeLocals.cumulative_unrecoverable v;
        HomeState.cumulative_operating_income :=
          HomeLocals.cumulative_operating_income v;
        HomeState.monthly_expenses :=
          HomeState.monthly_expenses s ++ [HomeLocals.total_monthly_expense v] |}.

Definition simulate_homeownership (p : HomeParams.t) : result HomeResult :=
  let years := HomeParams.years p in
  let down_payment := HomeParams.purchase_price p * HomeParams.down_payment_pct p in
  let closing_costs := HomeParams.purchase_price p * HomeParams.closing_costs_pct p in
  let loan_amount := HomeParams.purchase_price p - down_payment in
  let initial_investment := down_payment + closing_costs in
  amortization <-
    MortgageUtils.calculate_amortization_schedule loan_amount
      (HomeParams.mortgage_rate p) (HomeParams.mortgage_years p) ;;
  let months := (years * 12)%Z in
  s <- for_each (home_loop_body p down_payment closing_costs amortization)
         (py_range 1 (months + 1)) home_initial_state ;;
  let df := HomeState.monthly_data s in
  principal_column <- df_column df HomeRow.principal_payment ;;
  let cumulative_principal := cumsum principal_column in
  last1 <- py_index df (-1) ;;
  let final_property_value := HomeRow.property_value last1 in
  let selling_costs := final_property_value * HomeParams.selling_cost_pct p in
  last2 <- py_index df (-1) ;;
  let final_equity := HomeRow.equity last2 in
  let capital_gain :=
    final_property_value - HomeParams.purchase_price p - selling_costs in
  let excluded_gain :=
    TaxUtils.calculate_primary_residence_exclusion capital_gain
      (inject_Z years) false in
  let taxable_gain := py_max 0 (capital_gain - excluded_gain) in
  let capital_gains_tax :=
    TaxUtils.calculate_capital_gains_tax_default taxable_gain (inject_Z years) in
  let net_proceeds := final_equity - selling_costs - capital_gains_tax in
  last_principal <- py_index cumulative_principal (-1) ;;
  let total_invested := initial_investment + last_principal in
  let roi :=
    if negb (Qle_bool total_invested 0)
    then ((net_proceeds - total_invested) / total_invested) * 100
    else 0 in
  c1 <- df_column df HomeRow.cumulative_unrecoverable ;;
  last_unrecoverable <- py_index c1 (-1) ;;
  last_principal' <- py_index cumulative_principal (-1) ;;
  Ok {| home_monthly_df := df;
        home_cumulative_principal := cumulative_principal;
        home_summary :=
          {| HomeSummary.initial_investment := initial_investment;
             HomeSummary.total_invested := total_invested;
             HomeSummary.final_property_value := final_property_value;
             HomeSummary.final_equity := final_equity;
             HomeSummary.selling_costs := selling_costs;
             HomeSummary.capital_gain := capital_gain;
             HomeSummary.capital_gains_tax := capital_gains_tax;
             HomeSummary.net_proceeds := net_proceeds;
             HomeSummary.total_unrecoverable := last_unrecoverable;
             HomeSummary.total_principal_paid := last_principal';
             HomeSummary.roi := roi;
             HomeSummary.annualized_return :=
               if negb (Qle_bool total_invested 0) && (0 <? years)%Z
               then (fpow (net_proceeds / total_invested) (1 / inject_Z years) - 1)
                    * 100
               else 0 |};
        home_monthly_expenses := HomeState.monthly_expenses s |}.

End Ownership.

(** The keys [simulate_stock_investment] reads from [params];
    [dividend_tax_rate] is read with [params.get(..., 0.15)]. *)
Module StockParams.
Record t : Type := mk {
  initial_investment : Q;
  monthly_contribution : Q;
  stock_return_rate : Q;
  dividend_yield : Q;
  dividend_tax_rate : option Q;
  monthly_rent : Q;
  rent_increase_rate : Q;
  years : Z
}.
End StockParams.

Module StockRow.
Record t : Type := mk {
  month : Z;
  year : Q;
  rent : Q;
  monthly_contribution : Q;
  portfolio_value : Q;
  monthly_dividend : Q;
  dividend_tax : Q;
  net_dividend : Q;
  cumulative_rent : Q;
  cumulative_operating_income : Q;
  net_worth : Q
}.
End StockRow.

(** The variables the month loop of [simulate_stock_investment] updates. *)
Module StockState.
Record t : Type := mk {
  monthly_data : list StockRow.t;
  portfolio_value : Q;
  cumulative_rent : Q;
  cumulative_operating_income : Q
}.
End StockState.

Module StockSummary.
Record t : Type := mk {
  initial_investment : Q;
  total_contributed : Q;
  final_portfolio_value : Q;
  total_rent_paid : Q;
  total_operating_income : Q;
  net_proceeds : Q;
  roi : Q;
  annualized_return : Q
}.
End StockSummary.

Record StockResult : Type := mkStockResult {
  stock_monthly_df : list StockRow.t;
  stock_cumulative_contributions : list Q;
  stock_summary : StockSummary.t
}.

Definition stock_initial_state (p : StockParams.t) : StockState.t :=
  {| StockState.monthly_data := [];
     StockState.portfolio_value := StockParams.initial_investment p;
     StockState.cumulative_rent := 0;
     StockState.cumulative_operating_income := 0 |}.

Definition is_not_None {A : Type} (o : option A) : bool :=
  match o with Some _ => true | None => false end.

Definition stock_loop_body (p : StockParams.t)
    (homeownership_monthly_expenses rental_monthly_expenses
       rental_income_monthly : option (list Q))
    (s : StockState.t) (month : Z) : result StockState.t :=
  let dividend_tax_rate :=
    match StockParams.dividend_tax_rate p with Some r => r | None => 0.15 end in
  let use_dynamic_contributions :=
    is_not_None homeownership_monthly_expenses
    || (is_not_None rental_monthly_expenses && is_not_None rental_income_monthly) in
  let is_rental_scenario :=
    is_not_None rental_monthly_expenses && is_not_None rental_income_monthly in
  let year := inject_Z (month - 1) / 12 in
  growth <- py_pow (1 + StockParams.rent_increase_rate p) (py_int year) ;;
  let rent := StockParams.monthly_rent p * growth in
  let cumulative_rent := StockState.cumulative_rent s + rent in
  actual_contribution <-
    (if use_dynamic_contributions then
       match is_rental_scenario, rental_monthly_expenses,
             homeownership_monthly_expenses with
       | true, Some expenses, _ =>
           if (month <=? len expenses)%Z then py_index expenses (month - 1)
           else Ok (StockParams.monthly_contribution p)
       | false, _, Some expenses =>
           if (month <=? len expenses)%Z then
             homeownership_expense <- py_index expenses (month - 1) ;;
             Ok (homeownership_expense - rent)
           else Ok (StockParams.monthly_contribution p)
       | _, _, _ => Ok (StockParams.monthly_contribution p)
       end
     else Ok (StockParams.monthly_contribution p)) ;;
  let monthly_return := StockParams.stock_return_rate p / 12 in
  let portfolio_value :=
    StockState.portfolio_value s * (1 + monthly_return) + actual_contribution in
  let monthly_dividend := portfolio_value * (StockParams.dividend_yield p / 12) in
  let dividend_tax := monthly_dividend * dividend_tax_rate in
  let net_dividend := monthly_dividend - dividend_tax in
  let cumulative_operating_income :=
    StockState.cumulative_operating_income s + net_dividend in
  let net_worth :=
    if (month =? 1)%Z then StockParams.initial_investment p
    else portfolio_value + cumulative_operating_income in
  Ok {| StockState.monthly_data :=
          StockState.monthly_data s ++
          [ {| StockRow.month := month;
               StockRow.year := year;
               StockRow.rent := rent;
               StockRow.monthly_contribution := actual_contribution;
               StockRow.portfolio_value := portfolio_value;
               StockRow.monthly_dividend := monthly_dividend;
               StockRow.dividend_tax := dividend_tax;
               StockRow.net_dividend := net_dividend;
               StockRow.cumulative_rent := cumulative_rent;
               StockRow.cumulative_operating_income := cumulative_operating_income;
               StockRow.net_worth := net_worth |} ];
        StockState.portfolio_value := portfolio_value;
        StockState.cumulative_rent := cumulative_rent;
        StockState.cumulative_operating_income := cumulative_operating_income |}.

Section Stock.

Variable fpow : Q -> Q -> Q.

Definition simulate_stock_investment (p : StockParams.t)
    (homeownership_monthly_expenses rental_monthly_expenses
       rental_income_monthly : option (list Q)) : result StockResult :=
  let years := StockParams.years p in
  let initial_investment := StockParams.initial_investment p in
  let months := (years * 12)%Z in
  s <- for_each
         (stock_loop_body p homeownership_monthly_expenses
            rental_monthly_expenses rental_income_monthly)
         (py_range 1 (months + 1)) (stock_initial_state p) ;;
  let df := StockState.monthly_data s in
  contributions <- df_column df StockRow.monthly_contribution ;;
  let cumulative_contributions :=
    map (fun c => initial_investment + c) (cumsum contributions) in
  last1 <- py_index df (-1) ;;
  let final_portfolio := StockRow.portfolio_value last1 in
  total_contributed <- py_index cumulative_contributions (-1) ;;
  last2 <- py_index df (-1) ;;
  let total_rent_paid := StockRow.cumulative_rent last2 in
  last3 <- py_index df (-1) ;;
  Ok {| stock_monthly_df := df;
        stock_cumulative_contributions := cumulative_contributions;
        stock_summary :=
          {| StockSummary.initial_investment := initial_investment;
             StockSummary.total_contributed := total_contributed;
             StockSummary.final_portfolio_value := final_portfolio;
             StockSummary.total_rent_paid := total_rent_paid;
             StockSummary.total_operating_income :=
               StockRow.cumulative_operating_income last3;
             StockSummary.net_proceeds := final_portfolio;
             StockSummary.roi :=
               if negb (Qle_bool total_contributed 0)
               then ((final_portfolio - total_contributed) / total_contributed)
                    * 100
               else 0;
             StockSummary.annualized_return :=
               if negb (Qle_bool total_contributed 0) && (0 <? years)%Z
               then (fpow (final_portfolio / total_contributed)
                       (1 / inject_Z years) - 1) * 100
               else 0 |} |}.

End Stock.

End Simulation.

(* ================================================================== *)
(** * The other functions of core/mortgage_utils.py and core/tax_utils.py *)
(* ================================================================== *)

(** [min(a, b)]: the first argument is kept unless the second is smaller. *)
Definition py_min (a b : Q) : Q :=
  if negb (Qle_bool a b) then b else a.

Module MortgageUtilsRest.

Definition calculate_remaining_balance (principal annual_rate : Q) (years : Z)
    (months_paid : Z) : result Q :=
  if (years * 12 <=? months_paid)%Z then Ok 0
  else
    schedule <- MortgageUtils.calculate_amortization_schedule principal annual_rate
                  years ;;
    if (months_paid =? 0)%Z then Ok principal
    else
      e <- py_index schedule (months_paid - 1) ;;
      Ok (MortgageUtils.balance e).


End MortgageUtilsRest.

Module TaxUtilsRest.

Definition calculate_income_tax (income tax_rate : Q) : Q := income * tax_rate.

(** [standard_deduction] defaults to 13850. *)
Definition calculate_mortgage_interest_deduction (interest_paid tax_rate : Q)
    (standard_deduction : Q) : Q :=
  if negb (Qle_bool interest_paid standard_deduction) then interest_paid * tax_rate
  else 0.

(** [salt_cap] defaults to 10000. *)
Definition calculate_property_tax_deduction (property_tax tax_rate : Q)
    (salt_cap : Q) : Q :=
  let deductible_amount := py_min property_tax salt_cap in
  deductible_amount * tax_rate.

(** [land_value_ratio] defaults to 0.2 and [years] to 27.5. *)
Definition calculate_rental_depreciation (property_value : Q)
    (land_value_ratio years : Q) : result Q :=
  let depreciable_basis := property_value * (1 - land_value_ratio) in
  py_div depreciable_basis years.

Definition calculate_passive_income_tax (rental_income expenses depreciation
    tax_rate : Q) : Q :=
  let taxable_income := rental_income - expenses - depreciation in
  if negb (Qle_bool taxable_income 0) then taxable_income * tax_rate else 0.

(** [qualified_rate] defaults to 0.15 and [ordinary_rate] to 0.25. *)
Definition calculate_dividend_tax (dividend_income : Q)
    (qualified_rate ordinary_rate : Q) : Q :=
  dividend_income * qualified_rate.

End TaxUtilsRest.

(* ================================================================== *)
(** * pages/2_Buy_and_Live.py: the sidebar and the two simulation calls *)
(* ================================================================== *)

Module BuyAndLivePage.

(** The values of the sidebar sliders, as the widgets return them
    (percentages are in percent). *)
Module Sliders.
Record t : Type := mk {
  purchase_price : Q;
  down_payment_pct : Q;
  closing_costs_pct : Q;
  selling_cost_pct : Q;
  mortgage_rate : Q;
  mortgage_years : Z;
  property_tax_rate : Q;
  hoa_monthly : Q;
  insurance_monthly : Q;
  maintenance_rate : Q;
  monthly_rent : Q;
  rent_increase_rate : Q;
  appreciation_rate : Q;
  stock_return_rate : Q;
  dividend_yield : Q;
  tax_bracket : Q;
  years : Z
}.
End Sliders.

(** Every slider is between its [min_value] and its [max_value]. *)
Definition in_range (w : Sliders.t) : Prop :=
  (100000 <= Sliders.purchase_price w /\ Sliders.purchase_price w <= 2000000)
  /\ (5 <= Sliders.down_payment_pct w /\ Sliders.down_payment_pct w <= 50)
  /\ (1 <= Sliders.closing_costs_pct w /\ Sliders.closing_costs_pct w <= 5)
  /\ (1 <= Sliders.selling_cost_pct w /\ Sliders.selling_cost_pct w <= 10)
  /\ (2 <= Sliders.mortgage_rate w /\ Sliders.mortgage_rate w <= 10)
  /\ (10 <= Sliders.mortgage_years w <= 30)%Z
  /\ (0.5 <= Sliders.property_tax_rate w /\ Sliders.property_tax_rate w <= 3)
  /\ (0 <= Sliders.hoa_monthly w /\ Sliders.hoa_monthly w <= 1000)
  /\ (50 <= Sliders.insurance_monthly w /\ Sliders.insurance_monthly w <= 500)
  /\ (0.5 <= Sliders.maintenance_rate w /\ Sliders.maintenance_rate w <= 3)
  /\ (500 <= Sliders.monthly_rent w /\ Sliders.monthly_rent w <= 10000)
  /\ (0 <= Sliders.rent_increase_rate w /\ Sliders.rent_increase_rate w <= 10)
  /\ (0 <= Sliders.appreciation_rate w /\ Sliders.appreciation_rate w <= 10)
  /\ (0 <= Sliders.stock_return_rate w /\ Sliders.stock_return_rate w <= 20)
  /\ (0 <= Sliders.dividend_yield w /\ Sliders.dividend_yield w <= 10)
  /\ (10 <= Sliders.tax_bracket w /\ Sliders.tax_bracket w <= 40)
  /\ (5 <= Sliders.years w <= 30)%Z.

(** [st.session_state.params_home] after the sidebar code, as
    [simulate_homeownership] reads it. *)
Definition params_home (w : Sliders.t) : HomeownershipSimulation.HomeParams.t :=
  {| HomeownershipSimulation.HomeParams.purchase_price := Sliders.purchase_price w;
     HomeownershipSimulation.HomeParams.down_payment_pct :=
       Sliders.down_payment_pct w / 100;
     HomeownershipSimulation.HomeParams.mortgage_rate := Sliders.mortgage_rate w / 100;
     HomeownershipSimulation.HomeParams.mortgage_years := Sliders.mortgage_years w;
     HomeownershipSimulation.HomeParams.closing_costs_pct :=
       Sliders.closing_costs_pct w / 100;
     HomeownershipSimulation.HomeParams.selling_cost_pct :=
       Sliders.selling_cost_pct w / 100;
     HomeownershipSimulation.HomeParams.appreciation_rate :=
       Sliders.appreciation_rate w / 100;
     HomeownershipSimulation.HomeParams.property_tax_rate :=
       Sliders.property_tax_rate w / 100;
     HomeownershipSimulation.HomeParams.hoa_monthly := Sliders.hoa_monthly w;
     HomeownershipSimulation.HomeParams.insurance_monthly :=
       Sliders.insurance_monthly w;
     HomeownershipSimulation.HomeParams.maintenance_rate :=
       Sliders.maintenance_rate w / 100;
     HomeownershipSimulation.HomeParams.tax_bracket := Sliders.tax_bracket w / 100;
     HomeownershipSimulation.HomeParams.years := Sliders.years w |}.

(** The [stock_params] dict the page builds from the home summary and from
    [st.session_state.params_home]. *)
Definition stock_params (w : Sliders.t)
    (home_summary : HomeownershipSimulation.HomeSummary.t)
  : HomeownershipSimulation.StockParams.t :=
  {| HomeownershipSimulation.StockParams.initial_investment :=
       HomeownershipSimulation.HomeSummary.initial_payment home_summary;
     HomeownershipSimulation.StockParams.monthly_rent := Sliders.monthly_rent w;
     HomeownershipSimulation.StockParams.rent_increase_rate :=
       Sliders.rent_increase_rate w / 100;
     HomeownershipSimulation.StockParams.stock_return_rate :=
       Sliders.stock_return_rate w / 100;
     HomeownershipSimulation.StockParams.dividend_yield :=
       Sliders.dividend_yield w / 100;
     HomeownershipSimulation.StockParams.tax_bracket := Sliders.tax_bracket w / 100;
     HomeownershipSimulation.StockParams.years := Sliders.years w |}.

Inductive winner : Set :=
| Homeownership
| RentAndInvest.

(** What the page has computed when it starts drawing. *)
Record Comparison : Type := mkComparison {
  home_result : HomeownershipSimulation.HomeResult;
  stock_result : HomeownershipSimulation.StockResult;
  the_winner : winner;
  difference : Q
}.

Section Page.

Variable fpow : Q -> Q -> Q.

Definition run (w : Sliders.t) : result Comparison :=
  home_result <- HomeownershipSimulation.simulate_homeownership fpow (params_home w) ;;
  let home_df := HomeownershipSimulation.home_monthly_df home_result in
  let home_summary := HomeownershipSimulation.home_summary home_result in
  homeownership_true_costs <-
    df_column home_df HomeownershipSimulation.HomeRow.true_monthly_cost ;;
  stock_result <-
    HomeownershipSimulation.simulate_rent_and_invest (stock_params w home_summary)
      homeownership_true_costs ;;
  let stock_summary := HomeownershipSimulation.stock_summary stock_result in
  let home_final :=
    HomeownershipSimulation.HomeSummary.final_net_proceeds home_summary in
  let stock_final :=
    HomeownershipSimulation.StockSummary.final_net_proceeds stock_summary in
  let '(winner, difference) :=
    if negb (Qle_bool home_final stock_final)
    then (Homeownership, home_final - stock_final)
    else (RentAndInvest, stock_final - home_final) in
  Ok {| home_result := home_result;
        stock_result := stock_result;
        the_winner := winner;
        difference := difference |}.

End Page.

End BuyAndLivePage.

(* ================================================================== *)
(** * pages/1_Buy_and_Rent.py: the sidebar and the two simulation calls *)
(* ================================================================== *)

Module BuyAndRentPage.

Module Sliders.
Record t : Type := mk {
  purchase_price : Q;
  down_payment_pct : Q;
  closing_costs_pct : Q;
  mortgage_rate : Q;
  mortgage_years : Z;
  property_tax_rate : Q;
  hoa_monthly : Q;
  insurance_monthly : Q;
  maintenance_rate : Q;
  monthly_rent : Q;
  vacancy_rate : Q;
  appreciation_rate : Q;
  stock_return_rate : Q;
  dividend_yield : Q;
  tax_bracket : Q;
  years : Z
}.
End Sliders.

(** Every slider is between its [min_value] and its [max_value]. *)
Definition in_range (w : Sliders.t) : Prop :=
  (100000 <= Sliders.purchase_price w /\ Sliders.purchase_price w <= 2000000)
  /\ (5 <= Sliders.down_payment_pct w /\ Sliders.down_payment_pct w <= 50)
  /\ (1 <= Sliders.closing_costs_pct w /\ Sliders.closing_costs_pct w <= 5)
  /\ (2 <= Sliders.mortgage_rate w /\ Sliders.mortgage_rate w <= 10)
  /\ (10 <= Sliders.mortgage_years w <= 30)%Z
  /\ (0.5 <= Sliders.property_tax_rate w /\ Sliders.property_tax_rate w <= 3)
  /\ (0 <= Sliders.hoa_monthly w /\ Sliders.hoa_monthly w <= 1000)
  /\ (50 <= Sliders.insurance_monthly w /\ Sliders.insurance_monthly w <= 500)
  /\ (0.5 <= Sliders.maintenance_rate w /\ Sliders.maintenance_rate w <= 3)
  /\ (500 <= Sliders.monthly_rent w /\ Sliders.monthly_rent w <= 10000)
  /\ (0 <= Sliders.vacancy_rate w /\ Sliders.vacancy_rate w <= 20)
  /\ (0 <= Sliders.appreciation_rate w /\ Sliders.appreciation_rate w <= 10)
  /\ (0 <= Sliders.stock_return_rate w /\ Sliders.stock_return_rate w <= 20)
  /\ (0 <= Sliders.dividend_yield w /\ Sliders.dividend_yield w <= 10)
  /\ (10 <= Sliders.tax_bracket w /\ Sliders.tax_bracket w <= 40)
  /\ (5 <= Sliders.years w <= 30)%Z.

(** [st.session_state.params] after the sidebar code, as
    [simulate_rental_property] reads it; the page sets no
    [selling_cost_pct]. *)
Definition params (w : Sliders.t) : RentalSimulation.RentalParams.t :=
  {| RentalSimulation.RentalParams.purchase_price := Sliders.purchase_price w;
     RentalSimulation.RentalParams.down_payment_pct :=
       Sliders.down_payment_pct w / 100;
     RentalSimulation.RentalParams.mortgage_rate := Sliders.mortgage_rate w / 100;
     RentalSimulation.RentalParams.mortgage_years := Sliders.mortgage_years w;
     RentalSimulation.RentalParams.closing_costs_pct :=
       Sliders.closing_costs_pct w / 100;
     RentalSimulation.RentalParams.appreciation_rate :=
       Sliders.appreciation_rate w / 100;
     RentalSimulation.RentalParams.property_tax_rate :=
       Sliders.property_tax_rate w / 100;
     RentalSimulation.RentalParams.hoa_monthly := Sliders.hoa_monthly w;
     RentalSimulation.RentalParams.insurance_monthly := Sliders.insurance_monthly w;
     RentalSimulation.RentalParams.maintenance_rate :=
       Sliders.maintenance_rate w / 100;
     RentalSimulation.RentalParams.tax_bracket := Sliders.tax_bracket w / 100;
     RentalSimulation.RentalParams.monthly_rent := Sliders.monthly_rent w;
     RentalSimulation.RentalParams.vacancy_rate := Sliders.vacancy_rate w / 100;
     RentalSimulation.RentalParams.years := Sliders.years w;
     RentalSimulation.RentalParams.selling_cost_pct := None |}.

Definition stock_params (w : Sliders.t)
    (rental_summary : RentalSimulation.RentalSummary.t)
  : RentalSimulation.InvestParams.t :=
  {| RentalSimulation.InvestParams.initial_investment :=
       RentalSimulation.RentalSummary.initial_payment rental_summary;
     RentalSimulation.InvestParams.stock_return_rate :=
       Sliders.stock_return_rate w / 100;
     RentalSimulation.InvestParams.dividend_yield := Sliders.dividend_yield w / 100;
     RentalSimulation.InvestParams.tax_bracket := Sliders.tax_bracket w / 100;
     RentalSimulation.InvestParams.years := Sliders.years w |}.

(** [(rental_df['true_cost'] + rental_df['principal_payment']).tolist()]:
    the element-wise sum of two columns of the same frame. *)
Definition rental_monthly_expenses (rental_df : list RentalSimulation.RentalRow.t)
  : result (list Q) :=
  true_cost <- df_column rental_df RentalSimulation.RentalRow.true_cost ;;
  principal_payment <-
    df_column rental_df RentalSimulation.RentalRow.principal_payment ;;
  Ok (map (fun '(a, b) => a + b) (combine true_cost principal_payment)).

Record Comparison : Type := mkComparison {
  rental_result : RentalSimulation.RentalResult;
  stock_result : RentalSimulation.InvestResult
}.

Section Page.

Variable fpow : Q -> Q -> Q.

Definition run (w : Sliders.t) : result Comparison :=
  rental_result <- RentalSimulation.simulate_rental_property fpow (params w) ;;
  let rental_df := RentalSimulation.rental_monthly_df rental_result in
  let rental_summary := RentalSimulation.rental_summary rental_result in
  expenses <- rental_monthly_expenses rental_df ;;
  stock_result <-
    RentalSimulation.simulate_stock_investment (stock_params w rental_summary)
      expenses ;;
  Ok {| rental_result := rental_result;
        stock_result := stock_result |}.

End Page.

End BuyAndRentPage.

(* ================================================================== *)
(** * core/simulation.py: simulate_flip_project *)
(* ================================================================== *)

Module SimulationFlip.

(** The keys [simulate_flip_project] reads from [params];
    [down_payment_pct] is read with [params.get(..., 0.20)]. *)
Module FlipParams.
Record t : Type := mk {
  purchase_price : Q;
  down_payment_pct : option Q;
  renovation_cost : Q;
  renovation_months : Z;
  arv : Q;
  holding_costs_monthly : Q;
  selling_cost_pct : Q;
  tax_bracket : Q
}.
End FlipParams.

Inductive status : Set :=
| Renovating
| Sold.

(** One dict of [monthly_data]. *)
Module FlipRow.
Record t : Type := mk {
  month : Z;
  property_value : Q;
  monthly_cost : Q;
  status_ : status
}.
End FlipRow.

(** One row of the frame once the column [cumulative_costs] is set. *)
Module FlipFrameRow.
Record t : Type := mk {
  row : FlipRow.t;
  cumulative_costs : Q
}.
End FlipFrameRow.

Module FlipSummary.
Record t : Type := mk {
  purchase_price : Q;
  renovation_cost : Q;
  total_investment : Q;
  total_costs : Q;
  arv : Q;
  selling_costs : Q;
  gross_profit : Q;
  capital_gains_tax : Q;
  net_profit : Q;
  roi : Q;
  holding_period_months : Z
}.
End FlipSummary.

Record FlipResult : Type := mkFlipResult {
  flip_monthly_df : list FlipFrameRow.t;
  flip_summary : FlipSummary.t
}.

Definition flip_loop_body (p : FlipParams.t) (monthly_data : list FlipRow.t)
    (month : Z) : result (list FlipRow.t) :=
  values <-
    (if (month <=? FlipParams.renovation_months p)%Z then
       per_month <-
         py_div (FlipParams.renovation_cost p)
           (inject_Z (FlipParams.renovation_months p)) ;;
       Ok (FlipParams.purchase_price p,
           FlipParams.holding_costs_monthly p + per_month, Renovating)
     else
       Ok (FlipParams.arv p, FlipParams.holding_costs_monthly p, Sold)) ;;
  let '(property_value, monthly_cost, status) := values in
  Ok (monthly_data ++
      [ {| FlipRow.month := month;
           FlipRow.property_value := property_value;
           FlipRow.monthly_cost := monthly_cost;
           FlipRow.status_ := status |} ]).

Definition simulate_flip_project (p : FlipParams.t) : result FlipResult :=
  let purchase_price := FlipParams.purchase_price p in
  let down_payment_pct :=
    match FlipParams.down_payment_pct p with Some d => d | None => 0.20 end in
  let renovation_cost := FlipParams.renovation_cost p in
  let renovation_months := FlipParams.renovation_months p in
  let arv := FlipParams.arv p in
  let holding_costs_monthly := FlipParams.holding_costs_monthly p in
  let down_payment := purchase_price * down_payment_pct in
  let total_investment := down_payment + renovation_cost in
  let months := (renovation_months + 1)%Z in
  monthly_data <- for_each (flip_loop_body p) (py_range 1 (months + 1)) [] ;;
  monthly_cost <- df_column monthly_data FlipRow.monthly_cost ;;
  let cumulative_costs :=
    map (fun c => total_investment + c) (Simulation.cumsum monthly_cost) in
  let df :=
    map (fun '(r, c) => {| FlipFrameRow.row := r; FlipFrameRow.cumulative_costs := c |})
      (combine monthly_data cumulative_costs) in
  last <- py_index df (-1) ;;
  let total_costs := FlipFrameRow.cumulative_costs last in
  let selling_costs := arv * FlipParams.selling_cost_pct p in
  let gross_profit :=
    arv - purchase_price - renovation_cost - selling_costs
    - holding_costs_monthly * inject_Z months in
  let capital_gains_tax := py_max 0 (gross_profit * FlipParams.tax_bracket p) in
  let net_profit := gross_profit - capital_gains_tax in
  roi <-
    (if negb (Qle_bool total_investment 0)
     then q <- py_div net_profit total_investment ;; Ok (q * 100)
     else Ok 0) ;;
  Ok {| flip_monthly_df := df;
        flip_summary :=
          {| FlipSummary.purchase_price := purchase_price;
             FlipSummary.renovation_cost := renovation_cost;
             FlipSummary.total_investment := total_investment;
             FlipSummary.total_costs := total_costs;
             FlipSummary.arv := arv;
             FlipSummary.selling_costs := selling_costs;
             FlipSummary.gross_profit := gross_profit;
             FlipSummary.capital_gains_tax := capital_gains_tax;
             FlipSummary.net_profit := net_profit;
             FlipSummary.roi := roi;
             FlipSummary.holding_period_months := months |} |}.

End SimulationFlip.

(* ================================================================== *)
(** * core/portfolio/indicators.py: compute_returns, compute_volume_momentum *)
(* ================================================================== *)

Module Indicators.

(** A numpy float: a division by zero gives [inf] or [nan] and raises
    nothing. *)
Inductive pyfloat : Type :=
| Finite (q : Q)
| NonFinite.

(** A column of a frame of daily prices; [None] is a missing value. *)
Definition Series : Type := list (option Q).

(** A frame: its columns in order, all of the same length. *)
Definition DataFrame : Type := list (string * Series).

Definition columns (df : DataFrame) : list string := map fst df.

(** [df.empty]: no column, or no row. *)
Definition empty (df : DataFrame) : bool :=
  match df with
  | [] => true
  | (_, s) :: _ => match s with [] => true | _ => false end
  end.

(** [name in df.columns]. *)
Definition in_columns (name : string) (df : DataFrame) : bool :=
  existsb (String.eqb name) (columns df).

(** [df[name]]. *)
Fixpoint getitem (df : DataFrame) (name : string) : result Series :=
  match df with
  | [] => Raise KeyError
  | (n, s) :: rest => if String.eqb name n then Ok s else getitem rest name
  end.

(** [series.dropna()]. *)
Fixpoint dropna (s : Series) : list Q :=
  match s with
  | [] => []
  | Some x :: rest => x :: dropna rest
  | None :: rest => dropna rest
  end.

(** The dict [periods], in the order it is written. *)
Definition periods : list (string * Z) :=
  [ ("return_1d", 1); ("return_5d", 5); ("return_2w", 10); ("return_1m", 21);
    ("return_3m", 63); ("return_6m", 126); ("return_1y", 252) ]%string%Z.

(** The dict the function returns when there is nothing to compute. *)
Definition no_returns : list (string * option pyfloat) :=
  [ ("return_1d", None); ("return_5d", None); ("return_2w", None);
    ("return_1m", None); ("return_3m", None); ("return_6m", None);
    ("return_1y", None) ]%string.

(** The body of [for name, days in periods.items()]. *)
Definition period_return (prices : list Q) (current_price : Q) (days : Z)
  : result (option pyfloat) :=
  if (days <? len prices)%Z then
    past_price <- py_index prices (- days - 1) ;;
    Ok (Some (if Qeq_bool past_price 0 then NonFinite
              else Finite (((current_price - past_price) / past_price) * 100)))
  else Ok None.

Fixpoint returns_loop (prices : list Q) (current_price : Q)
    (items : list (string * Z)) (returns : list (string * option pyfloat))
  : result (list (string * option pyfloat)) :=
  match items with
  | [] => Ok returns
  | (name, days) :: rest =>
      r <- period_return prices current_price days ;;
      returns_loop prices current_price rest (returns ++ [(name, r)])
  end.

(** The price series the function works on: the requested column, else
    [Close], else the first column; missing values dropped. *)
Definition price_series (df : DataFrame) (column : string) : result (list Q) :=
  column <-
    (if negb (in_columns column df) then
       if in_columns "Close" df then Ok "Close"%string
       else py_index (columns df) 0
     else Ok column) ;;
  s <- getitem df column ;;
  Ok (dropna s).

(** [column] defaults to ['Adj Close']. *)
Definition compute_returns (df : option DataFrame) (column : string)
  : result (list (string * option pyfloat)) :=
  match df with
  | None => Ok no_returns
  | Some df =>
      if empty df then Ok no_returns
      else
        prices <- price_series df column ;;
        if (len prices <? 2)%Z then Ok no_returns
        else
          current_price <- py_index prices (-1) ;;
          returns_loop prices current_price periods []
  end.

(** [series.iloc[-n:]]. *)
Definition py_last_n {A : Type} (n : nat) (l : list A) : list A :=
  skipn (List.length l - n) l.

(** [series.mean()] on a series that is not empty. *)
Definition mean (l : list Q) : Q := py_sum l / inject_Z (len l).

Definition compute_volume_momentum (df : option DataFrame) : result (option Q) :=
  match df with
  | None => Ok None
  | Some df =>
      if empty df || negb (in_columns "Volume" df) then Ok None
      else
        s <- getitem df "Volume" ;;
        let volumes := dropna s in
        if (len volumes <? 60)%Z then Ok None
        else
          let avg_20d := mean (py_last_n 20 volumes) in
          let avg_60d := mean (py_last_n 60 volumes) in
          if Qeq_bool avg_60d 0 then Ok None
          else Ok (Some (avg_20d / avg_60d))
  end.

End Indicators.

(* ================================================================== *)
(** * The pages' charts: one point per year *)
(* ================================================================== *)

(** [df[df['month'] % 12 == 0]], the rows both pages plot. *)
Definition yearly_rows {Row : Type} (month : Row -> Z) (df : list Row) : list Row :=
  filter (fun r => (month r mod 12 =? 0)%Z) df.

(** [df_yearly['month'] / 12], the x coordinate of a plotted row. *)
Definition year_label {Row : Type} (month : Row -> Z) (r : Row) : Q :=
  inject_Z (month r) / 12.

(* ================================================================== *)
(** * Quantities used to state the loop invariants *)
(* ================================================================== *)

(** The running balance of the amortization loop after one more payment. *)
Definition next_balance (monthly_payment monthly_rate b : Q) : Q :=
  b - (monthly_payment - b * monthly_rate).

(** The running (unclamped) balance after [n] payments. *)
Fixpoint balance_after (monthly_payment monthly_rate : Q) (n : nat) (b : Q) : Q :=
  match n with
  | O => b
  | S n' => next_balance monthly_payment monthly_rate
              (balance_after monthly_payment monthly_rate n' b)
  end.

(** What the payment formula is for.  A payment [pay] amortizes a loan [P]
    at the annual rate [rate] over [years] years when it covers the first
    month's interest and the running balance is 0 after the last of the
    [years * 12] payments.  The exact value of the formula does (lemma
    [monthly_payment_amortizes]); the float the code computes need not, so
    a property that depends on it carries it as a hypothesis. *)
Definition amortizes (P rate : Q) (years : Z) (pay : Q) : Prop :=
  P * (rate / 12) <= pay
  /\ balance_after pay (rate / 12) (Z.to_nat (years * 12)) P == 0.

(** A rational stand-in for [b ** e] with a fractional exponent, exact at
    the exponents 0 and 1; it is used to run the simulators on examples. *)
Definition fpow_linear (b e : Q) : Q := 1 + (b - 1) * e.

(** [params] with the key [selling_cost_pct] set to [pct]. *)
Definition with_selling_cost_pct (p : RentalSimulation.RentalParams.t) (pct : option Q)
  : RentalSimulation.RentalParams.t :=
  {| RentalSimulation.RentalParams.purchase_price :=
       RentalSimulation.RentalParams.purchase_price p;
     RentalSimulation.RentalParams.down_payment_pct :=
       RentalSimulation.RentalParams.down_payment_pct p;
     RentalSimulation.RentalParams.mortgage_rate :=
       RentalSimulation.RentalParams.mortgage_rate p;
     RentalSimulation.RentalParams.mortgage_years :=
       RentalSimulation.RentalParams.mortgage_years p;
     RentalSimulation.RentalParams.closing_costs_pct :=
       RentalSimulation.RentalParams.closing_costs_pct p;
     RentalSimulation.RentalParams.appreciation_rate :=
       RentalSimulation.RentalParams.appreciation_rate p;
     RentalSimulation.RentalParams.property_tax_rate :=
       RentalSimulation.RentalParams.property_tax_rate p;
     RentalSimulation.RentalParams.hoa_monthly :=
       RentalSimulation.RentalParams.hoa_monthly p;
     RentalSimulation.RentalParams.insurance_monthly :=
       RentalSimulation.RentalParams.insurance_monthly p;
     RentalSimulation.RentalParams.maintenance_rate :=
       RentalSimulation.RentalParams.maintenance_rate p;
     RentalSimulation.RentalParams.tax_bracket :=
       RentalSimulation.RentalParams.tax_bracket p;
     RentalSimulation.RentalParams.monthly_rent :=
       RentalSimulation.RentalParams.monthly_rent p;
     RentalSimulation.RentalParams.vacancy_rate :=
       RentalSimulation.RentalParams.vacancy_rate p;
     RentalSimulation.RentalParams.years :=
       RentalSimulation.RentalParams.years p;
     RentalSimulation.RentalParams.selling_cost_pct := pct |}.

(** Example inputs: a one-year horizon on a one-year mortgage. *)
Definition example_rental_params : RentalSimulation.RentalParams.t :=
  {| RentalSimulation.RentalParams.purchase_price := 120000;
     RentalSimulation.RentalParams.down_payment_pct := 0.2;
     RentalSimulation.RentalParams.mortgage_rate := 0.06;
     RentalSimulation.RentalParams.mortgage_years := 1;
     RentalSimulation.RentalParams.closing_costs_pct := 0.03;
     RentalSimulation.RentalParams.appreciation_rate := 0.03;
     RentalSimulation.RentalParams.property_tax_rate := 0.012;
     RentalSimulation.RentalParams.hoa_monthly := 200;
     RentalSimulation.RentalParams.insurance_monthly := 150;
     RentalSimulation.RentalParams.maintenance_rate := 0.01;
     RentalSimulation.RentalParams.tax_bracket := 0.25;
     RentalSimulation.RentalParams.monthly_rent := 2000;
     RentalSimulation.RentalParams.vacancy_rate := 0.05;
     RentalSimulation.RentalParams.years := 1;
     RentalSimulation.RentalParams.selling_cost_pct := Some 0.1 |}.

Definition example_home_params : HomeownershipSimulation.HomeParams.t :=
  {| HomeownershipSimulation.HomeParams.purchase_price := 120000;
     HomeownershipSimulation.HomeParams.down_payment_pct := 0.2;
     HomeownershipSimulation.HomeParams.mortgage_rate := 0.06;
     HomeownershipSimulation.HomeParams.mortgage_years := 1;
     HomeownershipSimulation.HomeParams.closing_costs_pct := 0.03;
     HomeownershipSimulation.HomeParams.selling_cost_pct := 0.06;
     HomeownershipSimulation.HomeParams.appreciation_rate := 0.03;
     HomeownershipSimulation.HomeParams.property_tax_rate := 0.012;
     HomeownershipSimulation.HomeParams.hoa_monthly := 200;
     HomeownershipSimulation.HomeParams.insurance_monthly := 150;
     HomeownershipSimulation.HomeParams.maintenance_rate := 0.01;
     HomeownershipSimulation.HomeParams.tax_bracket := 0.25;
     HomeownershipSimulation.HomeParams.years := 1 |}.

(** [cum] is the running total of [delta] along the rows [l]: the value in
    row [i] is the sum of the earlier rows' deltas plus the row's own. *)
Definition running_total {A : Type} (delta cum : A -> Q) (l : list A) : Prop :=
  forall i r, nth_error l i = Some r ->
              cum r == py_sum (map delta (firstn i l)) + delta r.

Definition example_legacy_home_params : Simulation.HomeParams.t :=
  {| Simulation.HomeParams.purchase_price := 120000;
     Simulation.HomeParams.down_payment_pct := 0.2;
     Simulation.HomeParams.mortgage_rate := 0.06;
     Simulation.HomeParams.mortgage_years := 1;
     Simulation.HomeParams.closing_costs_pct := 0.03;
     Simulation.HomeParams.appreciation_rate := 0.03;
     Simulation.HomeParams.property_tax_rate := 0.012;
     Simulation.HomeParams.hoa_monthly := 200;
     Simulation.HomeParams.insurance_monthly := 150;
     Simulation.HomeParams.maintenance_rate := 0.01;
     Simulation.HomeParams.tax_bracket := 0.25;
     Simulation.HomeParams.selling_cost_pct := 0.06;
     Simulation.HomeParams.years := 1;
     Simulation.HomeParams.inflation_rate := None |}.

(** What the month loop of [simulate_homeownership] maintains. *)
Definition home_rows_ok (p : HomeownershipSimulation.HomeParams.t)
    (df : list HomeownershipSimulation.HomeRow.t) : Prop :=
  Forall (fun row =>
            HomeownershipSimulation.HomeRow.monthly_tax_benefit row
            = (HomeownershipSimulation.HomeRow.interest_payment row
               + HomeownershipSimulation.HomeRow.property_tax_monthly row)
              * HomeownershipSimulation.HomeParams.tax_bracket p
            /\ HomeownershipSimulation.HomeRow.true_monthly_cost row
               = HomeownershipSimulation.HomeRow.total_costs_before_tax row
                 - HomeownershipSimulation.HomeRow.monthly_tax_benefit row) df
  /\ running_total HomeownershipSimulation.HomeRow.unrecoverable
       HomeownershipSimulation.HomeRow.cumulative_unrecoverable df
  /\ running_total HomeownershipSimulation.HomeRow.monthly_tax_benefit
       HomeownershipSimulation.HomeRow.cumulative_tax_benefits df
  /\ running_total HomeownershipSimulation.HomeRow.true_monthly_cost
       HomeownershipSimulation.HomeRow.cumulative_true_cost df.

(** The same inputs with a mortgage term of zero years. *)
Definition example_legacy_home_params_zero_term : Simulation.HomeParams.t :=
  {| Simulation.HomeParams.purchase_price := 120000;
     Simulation.HomeParams.down_payment_pct := 0.2;
     Simulation.HomeParams.mortgage_rate := 0.06;
     Simulation.HomeParams.mortgage_years := 0;
     Simulation.HomeParams.closing_costs_pct := 0.03;
     Simulation.HomeParams.appreciation_rate := 0.03;
     Simulation.HomeParams.property_tax_rate := 0.012;
     Simulation.HomeParams.hoa_monthly := 200;
     Simulation.HomeParams.insurance_monthly := 150;
     Simulation.HomeParams.maintenance_rate := 0.01;
     Simulation.HomeParams.tax_bracket := 0.25;
     Simulation.HomeParams.selling_cost_pct := 0.06;
     Simulation.HomeParams.years := 1;
     Simulation.HomeParams.inflation_rate := None |}.

(** The example purchase with a horizon of zero years. *)
Definition example_home_params_zero_horizon : HomeownershipSimulation.HomeParams.t :=
  {| HomeownershipSimulation.HomeParams.purchase_price := 120000;
     HomeownershipSimulation.HomeParams.down_payment_pct := 0.2;
     HomeownershipSimulation.HomeParams.mortgage_rate := 0.06;
     HomeownershipSimulation.HomeParams.mortgage_years := 1;
     HomeownershipSimulation.HomeParams.closing_costs_pct := 0.03;
     HomeownershipSimulation.HomeParams.selling_cost_pct := 0.06;
     HomeownershipSimulation.HomeParams.appreciation_rate := 0.03;
     HomeownershipSimulation.HomeParams.property_tax_rate := 0.012;
     HomeownershipSimulation.HomeParams.hoa_monthly := 200;
     HomeownershipSimulation.HomeParams.insurance_monthly := 150;
     HomeownershipSimulation.HomeParams.maintenance_rate := 0.01;
     HomeownershipSimulation.HomeParams.tax_bracket := 0.25;
     HomeownershipSimulation.HomeParams.years := 0 |}.

(** The annual tax event of one iteration, in terms of the loop state before
    ([annual], [cumulative]) and after ([annual'], [cumulative']). *)
Definition tax_event (month : Z) (tax_bracket annual cumulative : Q)
    (monthly_dividend dividend_tax annual' cumulative' : Q) : Prop :=
  if ((month - 1) mod 12 + 1 =? 12)%Z then
    dividend_tax = (annual + monthly_dividend) * tax_bracket
    /\ cumulative' = cumulative + dividend_tax
    /\ annual' = 0
  else
    dividend_tax = 0
    /\ cumulative' = cumulative
    /\ annual' = annual + monthly_dividend.

(** What the month loop of [simulate_rent_and_invest] maintains when month
    [m] is about to run. *)
Definition rent_rows_ok (costs : list Q) (m : Z)
    (s : HomeownershipSimulation.StockState.t) : Prop :=
  len (HomeownershipSimulation.StockState.monthly_data s) = (m - 1)%Z
  /\ forall k, (1 <= k < m)%Z ->
       exists row cost,
         py_index (HomeownershipSimulation.StockState.monthly_data s) (k - 1) = Ok row
         /\ py_index costs (k - 1) = Ok cost
         /\ HomeownershipSimulation.StockRow.month row = k
         /\ HomeownershipSimulation.StockRow.monthly_contribution row
            + HomeownershipSimulation.StockRow.monthly_rent row == cost.

(** The dividend-tax column along the rows [md], with [annual] the running
    accumulator after them: [annual] is the sum of the dividends of the rows
    of the year in progress; a row that closes a year (row [i] with [i + 1] a
    multiple of 12) carries the tax on the dividends of its twelve months,
    every other row carries no tax. *)
Definition year_tax_ok {Row : Type} (dividend tax : Row -> Q) (bracket annual : Q)
    (md : list Row) : Prop :=
  annual == py_sum (map dividend (skipn (12 * (List.length md / 12)) md))
  /\ forall i r, nth_error md i = Some r ->
       if (S i mod 12 =? 0)%nat
       then tax r == py_sum (map dividend (firstn 12 (skipn (i - 11) md))) * bracket
       else tax r == 0.

Definition example_legacy_stock_params : Simulation.StockParams.t :=
  {| Simulation.StockParams.initial_investment := 27600;
     Simulation.StockParams.monthly_contribution := 500;
     Simulation.StockParams.stock_return_rate := 0.07;
     Simulation.StockParams.dividend_yield := 0.02;
     Simulation.StockParams.dividend_tax_rate := None;
     Simulation.StockParams.monthly_rent := 1500;
     Simulation.StockParams.rent_increase_rate := 0.03;
     Simulation.StockParams.years := 1 |}.

Definition example_stock_params : HomeownershipSimulation.StockParams.t :=
  {| HomeownershipSimulation.StockParams.initial_investment := 27600;
     HomeownershipSimulation.StockParams.monthly_rent := 1500;
     HomeownershipSimulation.StockParams.rent_increase_rate := 0.03;
     HomeownershipSimulation.StockParams.stock_return_rate := 0.07;
     HomeownershipSimulation.StockParams.dividend_yield := 0.02;
     HomeownershipSimulation.StockParams.tax_bracket := 0.25;
     HomeownershipSimulation.StockParams.years := 1 |}.

(** The mortgage columns of the row of month [month]: the schedule's entry
    for that month, or zeros once the loan is paid off. *)
Definition mortgage_columns (amortization : list MortgageUtils.AmortizationEntry)
    (month : Z) : Q * Q * Q * Q :=
  match nth_error amortization (Z.to_nat (month - 1)) with
  | Some e => (MortgageUtils.payment e, MortgageUtils.principal e,
               MortgageUtils.interest e, MortgageUtils.balance e)
  | None => (0, 0, 0, 0)
  end.

(** The loan and the closing costs [simulate_homeownership] derives from
    [params]. *)
Definition home_loan_amount (p : HomeownershipSimulation.HomeParams.t) : Q :=
  HomeownershipSimulation.HomeParams.purchase_price p
  - HomeownershipSimulation.HomeParams.purchase_price p
    * HomeownershipSimulation.HomeParams.down_payment_pct p.

Definition home_closing_costs (p : HomeownershipSimulation.HomeParams.t) : Q :=
  HomeownershipSimulation.HomeParams.purchase_price p
  * HomeownershipSimulation.HomeParams.closing_costs_pct p.

(** What a row of the live-in frame holds, in terms of its own month, the
    parameters and the amortization schedule (the cumulative columns are
    covered by [home_rows_ok]). *)
Definition home_row_shape (fpow : Q -> Q -> Q)
    (p : HomeownershipSimulation.HomeParams.t) (closing_costs : Q)
    (amortization : list MortgageUtils.AmortizationEntry)
    (row : HomeownershipSimulation.HomeRow.t) : Prop :=
  let month := HomeownershipSimulation.HomeRow.month row in
  let property_value := HomeownershipSimulation.HomeRow.property_value row in
  let interest_payment := HomeownershipSimulation.HomeRow.interest_payment row in
  let remaining_balance := HomeownershipSimulation.HomeRow.remaining_balance row in
  let property_tax_monthly :=
    HomeownershipSimulation.HomeRow.property_tax_monthly row in
  let maintenance := HomeownershipSimulation.HomeRow.maintenance row in
  let base :=
    interest_payment + property_tax_monthly
    + HomeownershipSimulation.HomeParams.insurance_monthly p
    + HomeownershipSimulation.HomeParams.hoa_monthly p + maintenance in
  HomeownershipSimulation.HomeRow.year row = ((month - 1) / 12 + 1)%Z
  /\ property_value
     = HomeownershipSimulation.HomeParams.purchase_price p
       * fpow (1 + HomeownershipSimulation.HomeParams.appreciation_rate p)
           (inject_Z (month - 1) / 12)
  /\ (HomeownershipSimulation.HomeRow.mortgage_payment row,
      HomeownershipSimulation.HomeRow.principal_payment row,
      interest_payment, remaining_balance)
     = mortgage_columns amortization month
  /\ property_tax_monthly
     = (property_value * HomeownershipSimulation.HomeParams.property_tax_rate p) / 12
  /\ maintenance
     = (property_value * HomeownershipSimulation.HomeParams.maintenance_rate p) / 12
  /\ HomeownershipSimulation.HomeRow.hoa row
     = HomeownershipSimulation.HomeParams.hoa_monthly p
  /\ HomeownershipSimulation.HomeRow.insurance row
     = HomeownershipSimulation.HomeParams.insurance_monthly p
  /\ HomeownershipSimulation.HomeRow.total_costs_before_tax row
     = HomeownershipSimulation.HomeRow.mortgage_payment row + property_tax_monthly
       + HomeownershipSimulation.HomeParams.insurance_monthly p
       + HomeownershipSimulation.HomeParams.hoa_monthly p + maintenance
  /\ HomeownershipSimulation.HomeRow.unrecoverable row
     = (if (month =? 1)%Z then base + closing_costs else base)
  /\ HomeownershipSimulation.HomeRow.equity row = property_value - remaining_balance
  /\ HomeownershipSimulation.HomeRow.net_proceeds row
     = property_value - remaining_balance
       - property_value * HomeownershipSimulation.HomeParams.selling_cost_pct p.

(** The dividend ledger the two stock loops keep when month [m] is about to
    run: the tax charged so far plus the tax due on the year in progress is
    the bracket's share of all dividends, and nothing is pending when a year
    has just been closed. *)
Definition dividend_ledger_ok (m : Z) (bracket annual tax dividends : Q) : Prop :=
  tax + annual * bracket == dividends * bracket
  /\ (((m - 1) mod 12 = 0)%Z -> annual == 0).

(** The portfolio value a month starts from: the initial investment in the
    first month, the previous row's value afterwards ([pvs] is the
    [portfolio_value] column, [i] the row's position). *)
Definition portfolio_before (initial_investment : Q) (pvs : list Q) (i : nat) : Q :=
  nth i (initial_investment :: pvs) 0.

(** What a row of the rent-and-invest frame holds, in terms of its own
    month, the parameters, the homeowner's costs and the portfolio value the
    month starts from. *)
Definition rent_row_shape (p : HomeownershipSimulation.StockParams.t)
    (costs : list Q) (previous_portfolio : Q)
    (row : HomeownershipSimulation.StockRow.t) : Prop :=
  let month := HomeownershipSimulation.StockRow.month row in
  HomeownershipSimulation.StockRow.year row = ((month - 1) / 12 + 1)%Z
  /\ HomeownershipSimulation.StockRow.monthly_rent row
     = HomeownershipSimulation.StockParams.monthly_rent p
       * (1 + HomeownershipSimulation.StockParams.rent_increase_rate p)
         ^ ((month - 1) / 12)
  /\ (exists cost,
        py_index costs (month - 1) = Ok cost
        /\ HomeownershipSimulation.StockRow.monthly_contribution row
           = cost - HomeownershipSimulation.StockRow.monthly_rent row)
  /\ HomeownershipSimulation.StockRow.portfolio_value row
     = previous_portfolio
       * (1 + HomeownershipSimulation.StockParams.stock_return_rate p / 12)
       + HomeownershipSimulation.StockRow.monthly_contribution row
  /\ HomeownershipSimulation.StockRow.monthly_dividend row
     = HomeownershipSimulation.StockRow.portfolio_value row
       * (HomeownershipSimulation.StockParams.dividend_yield p / 12)
  /\ HomeownershipSimulation.StockRow.net_proceeds row
     = HomeownershipSimulation.StockRow.portfolio_value row
  /\ HomeownershipSimulation.StockRow.cumulative_cost row
     = HomeownershipSimulation.StockRow.cumulative_rent row
       + HomeownershipSimulation.StockRow.cumulative_dividend_tax row.

(** The same for the stock frame of the rental comparison. *)
Definition invest_row_shape (p : RentalSimulation.InvestParams.t)
    (expenses : list Q) (previous_portfolio : Q)
    (row : RentalSimulation.InvestRow.t) : Prop :=
  let month := RentalSimulation.InvestRow.month row in
  RentalSimulation.InvestRow.year row = ((month - 1) / 12 + 1)%Z
  /\ py_index expenses (month - 1)
     = Ok (RentalSimulation.InvestRow.monthly_contribution row)
  /\ RentalSimulation.InvestRow.portfolio_value row
     = previous_portfolio
       * (1 + RentalSimulation.InvestParams.stock_return_rate p / 12)
       + RentalSimulation.InvestRow.monthly_contribution row
  /\ RentalSimulation.InvestRow.monthly_dividend row
     = RentalSimulation.InvestRow.portfolio_value row
       * (RentalSimulation.InvestParams.dividend_yield p / 12)
  /\ RentalSimulation.InvestRow.net_proceeds row
     = RentalSimulation.InvestRow.portfolio_value row.

(** The sliders of the two pages at their default positions. *)
Definition default_live_sliders : BuyAndLivePage.Sliders.t :=
  {| BuyAndLivePage.Sliders.purchase_price := 500000;
     BuyAndLivePage.Sliders.down_payment_pct := 20;
     BuyAndLivePage.Sliders.closing_costs_pct := 3;
     BuyAndLivePage.Sliders.selling_cost_pct := 6;
     BuyAndLivePage.Sliders.mortgage_rate := 6.5;
     BuyAndLivePage.Sliders.mortgage_years := 30;
     BuyAndLivePage.Sliders.property_tax_rate := 1.2;
     BuyAndLivePage.Sliders.hoa_monthly := 200;
     BuyAndLivePage.Sliders.insurance_monthly := 150;
     BuyAndLivePage.Sliders.maintenance_rate := 1;
     BuyAndLivePage.Sliders.monthly_rent := 2500;
     BuyAndLivePage.Sliders.rent_increase_rate := 3;
     BuyAndLivePage.Sliders.appreciation_rate := 3;
     BuyAndLivePage.Sliders.stock_return_rate := 10;
     BuyAndLivePage.Sliders.dividend_yield := 2;
     BuyAndLivePage.Sliders.tax_bracket := 25;
     BuyAndLivePage.Sliders.years := 30 |}.

Definition default_rent_sliders : BuyAndRentPage.Sliders.t :=
  {| BuyAndRentPage.Sliders.purchase_price := 500000;
     BuyAndRentPage.Sliders.down_payment_pct := 20;
     BuyAndRentPage.Sliders.closing_costs_pct := 3;
     BuyAndRentPage.Sliders.mortgage_rate := 6.5;
     BuyAndRentPage.Sliders.mortgage_years := 30;
     BuyAndRentPage.Sliders.property_tax_rate := 1.2;
     BuyAndRentPage.Sliders.hoa_monthly := 200;
     BuyAndRentPage.Sliders.insurance_monthly := 150;
     BuyAndRentPage.Sliders.maintenance_rate := 1;
     BuyAndRentPage.Sliders.monthly_rent := 3500;
     BuyAndRentPage.Sliders.vacancy_rate := 8.3;
     BuyAndRentPage.Sliders.appreciation_rate := 3;
     BuyAndRentPage.Sliders.stock_return_rate := 10;
     BuyAndRentPage.Sliders.dividend_yield := 2;
     BuyAndRentPage.Sliders.tax_bracket := 25;
     BuyAndRentPage.Sliders.years := 30 |}.

(** The closing costs [simulate_rental_property] derives from [params]. *)
Definition rental_closing_costs (p : RentalSimulation.RentalParams.t) : Q :=
  RentalSimulation.RentalParams.purchase_price p
  * RentalSimulation.RentalParams.closing_costs_pct p.

Definition rental_loan_amount (p : RentalSimulation.RentalParams.t) : Q :=
  RentalSimulation.RentalParams.purchase_price p
  - RentalSimulation.RentalParams.purchase_price p
    * RentalSimulation.RentalParams.down_payment_pct p.

(** What a row of the rental frame holds, in terms of its own month, the
    parameters and the amortization schedule. *)
Definition rental_row_shape (fpow : Q -> Q -> Q)
    (p : RentalSimulation.RentalParams.t) (closing_costs : Q)
    (amortization : list MortgageUtils.AmortizationEntry)
    (row : RentalSimulation.RentalRow.t) : Prop :=
  let month := RentalSimulation.RentalRow.month row in
  let property_value := RentalSimulation.RentalRow.property_value row in
  let interest_payment := RentalSimulation.RentalRow.interest_payment row in
  let remaining_balance := RentalSimulation.RentalRow.remaining_balance row in
  let property_tax_monthly := RentalSimulation.RentalRow.property_tax_monthly row in
  let maintenance := RentalSimulation.RentalRow.maintenance row in
  let base :=
    interest_payment + property_tax_monthly
    + RentalSimulation.RentalParams.hoa_monthly p
    + RentalSimulation.RentalParams.insurance_monthly p + maintenance in
  RentalSimulation.RentalRow.year row = ((month - 1) / 12 + 1)%Z
  /\ property_value
     = RentalSimulation.RentalParams.purchase_price p
       * fpow (1 + RentalSimulation.RentalParams.appreciation_rate p)
           (inject_Z (month - 1) / 12)
  /\ (RentalSimulation.RentalRow.mortgage_payment row,
      RentalSimulation.RentalRow.principal_payment row,
      interest_payment, remaining_balance)
     = mortgage_columns amortization month
  /\ property_tax_monthly
     = (property_value * RentalSimulation.RentalParams.property_tax_rate p) / 12
  /\ maintenance
     = (property_value * RentalSimulation.RentalParams.maintenance_rate p) / 12
  /\ RentalSimulation.RentalRow.hoa row = RentalSimulation.RentalParams.hoa_monthly p
  /\ RentalSimulation.RentalRow.insurance row
     = RentalSimulation.RentalParams.insurance_monthly p
  /\ RentalSimulation.RentalRow.unrecoverable row
     = (if (month =? 1)%Z then base + closing_costs else base)
  /\ RentalSimulation.RentalRow.monthly_tax_benefit row
     = (interest_payment + property_tax_monthly)
       * RentalSimulation.RentalParams.tax_bracket p
  /\ RentalSimulation.RentalRow.rental_income row
     = RentalSimulation.RentalParams.monthly_rent p
       * (1 - RentalSimulation.RentalParams.vacancy_rate p)
  /\ RentalSimulation.RentalRow.true_cost row
     = RentalSimulation.RentalRow.unrecoverable row
       - RentalSimulation.RentalRow.rental_income row
       - RentalSimulation.RentalRow.monthly_tax_benefit row
  /\ RentalSimulation.RentalRow.monthly_operating_income row
     = RentalSimulation.RentalRow.rental_income row
  /\ RentalSimulation.RentalRow.net_proceeds row = property_value - remaining_balance.

(** A flip with a three-month renovation. *)
Definition example_flip_params : SimulationFlip.FlipParams.t :=
  {| SimulationFlip.FlipParams.purchase_price := 200000;
     SimulationFlip.FlipParams.down_payment_pct := None;
     SimulationFlip.FlipParams.renovation_cost := 30000;
     SimulationFlip.FlipParams.renovation_months := 3;
     SimulationFlip.FlipParams.arv := 280000;
     SimulationFlip.FlipParams.holding_costs_monthly := 1500;
     SimulationFlip.FlipParams.selling_cost_pct := 0.06;
     SimulationFlip.FlipParams.tax_bracket := 0.25 |}.

(** The contribution the older [simulate_stock_investment] uses in month
    [month], given that month's rent: the rental expenses of the month when
    both rental lists are passed, else the homeowner's expense of the month
    less the rent when that list is passed, and the static
    [monthly_contribution] when no list applies or the list has ended. *)
Definition legacy_contribution (p : Simulation.StockParams.t)
    (homeownership_monthly_expenses rental_monthly_expenses
       rental_income_monthly : option (list Q)) (month : Z) (rent : Q) : Q :=
  match rental_monthly_expenses, rental_income_monthly,
        homeownership_monthly_expenses with
  | Some expenses, Some _, _ =>
      match nth_error expenses (Z.to_nat (month - 1)) with
      | Some e => e
      | None => Simulation.StockParams.monthly_contribution p
      end
  | _, _, Some expenses =>
      match nth_error expenses (Z.to_nat (month - 1)) with
      | Some e => e - rent
      | None => Simulation.StockParams.monthly_contribution p
      end
  | _, _, None => Simulation.StockParams.monthly_contribution p
  end.

(** A small frame of daily data: three days, one of them without a
    closing price. *)
Definition example_price_frame : Indicators.DataFrame :=
  [ ("Close", [Some 100; None; Some 110]);
    ("Volume", [Some 5000; Some 7000; Some 6000]) ]%string.

(** Sixty days of trading: forty quiet days, then twenty busy ones. *)
Definition example_volume_frame : Indicators.DataFrame :=
  [ ("Volume"%string, (repeat (Some 1000) 40 ++ repeat (Some 2000) 20)%list) ].

(** The [params] of a rental purchase read as those of a live-in purchase
    of the same property on the same loan, with a given [selling_cost_pct]. *)
Definition as_home_params (p : RentalSimulation.RentalParams.t) (selling_cost_pct : Q)
  : HomeownershipSimulation.HomeParams.t :=
  {| HomeownershipSimulation.HomeParams.purchase_price :=
       RentalSimulation.RentalParams.purchase_price p;
     HomeownershipSimulation.HomeParams.down_payment_pct :=
       RentalSimulation.RentalParams.down_payment_pct p;
     HomeownershipSimulation.HomeParams.mortgage_rate :=
       RentalSimulation.RentalParams.mortgage_rate p;
     HomeownershipSimulation.HomeParams.mortgage_years :=
       RentalSimulation.RentalParams.mortgage_years p;
     HomeownershipSimulation.HomeParams.closing_costs_pct :=
       RentalSimulation.RentalParams.closing_costs_pct p;
     HomeownershipSimulation.HomeParams.selling_cost_pct := selling_cost_pct;
     HomeownershipSimulation.HomeParams.appreciation_rate :=
       RentalSimulation.RentalParams.appreciation_rate p;
     HomeownershipSimulation.HomeParams.property_tax_rate :=
       RentalSimulation.RentalParams.property_tax_rate p;
     HomeownershipSimulation.HomeParams.hoa_monthly :=
       RentalSimulation.RentalParams.hoa_monthly p;
     HomeownershipSimulation.HomeParams.insurance_monthly :=
       RentalSimulation.RentalParams.insurance_monthly p;
     HomeownershipSimulation.HomeParams.maintenance_rate :=
       RentalSimulation.RentalParams.maintenance_rate p;
     HomeownershipSimulation.HomeParams.tax_bracket :=
       RentalSimulation.RentalParams.tax_bracket p;
     HomeownershipSimulation.HomeParams.years :=
       RentalSimulation.RentalParams.years p |}.

(* ================================================================== *)
(** * Properties *)
(* ================================================================== *)

(** ** Arithmetic helpers *)

Lemma py_sum_acc (l : list Q) (a : Q) : fold_left Qplus l a == a + py_sum l.
Proof.
  unfold py_sum. revert a.
  induction l as [|x l IH]; intros a; simpl.
  - ring.
  - rewrite (IH (a + x)), (IH (0 + x)). ring.
Qed.

Lemma py_sum_cons (x : Q) (l : list Q) : py_sum (x :: l) == x + py_sum l.
Proof.
  unfold py_sum at 1. simpl. rewrite py_sum_acc. ring.
Qed.

Lemma py_sum_app (l1 l2 : list Q) : py_sum (l1 ++ l2) == py_sum l1 + py_sum l2.
Proof.
  unfold py_sum at 1. rewrite fold_left_app.
  rewrite py_sum_acc. reflexivity.
Qed.

Lemma py_max_le_l (a b : Q) : a <= py_max a b.
Proof.
  unfold py_max. destruct (Qle_bool b a) eqn:E.
  - apply Qle_refl.
  - destruct (Qlt_le_dec a b) as [H|H].
    + apply Qlt_le_weak; exact H.
    + apply Qle_bool_iff in H. congruence.
Qed.

Lemma py_max_mono (a b c : Q) : b <= c -> py_max a b <= py_max a c.
Proof.
  intros Hbc. unfold py_max.
  destruct (Qle_bool b a) eqn:E1; destruct (Qle_bool c a) eqn:E2.
  - apply Qle_refl.
  - destruct (Qlt_le_dec a c) as [H|H].
    + apply Qlt_le_weak; exact H.
    + apply Qle_bool_iff in H. congruence.
  - apply Qle_bool_iff in E2.
    assert (H : b <= a) by (eapply Qle_trans; eauto).
    apply Qle_bool_iff in H. congruence.
  - exact Hbc.
Qed.


Lemma length_py_range (lo hi : Z) : List.length (py_range lo hi) = Z.to_nat (hi - lo).
Proof.
  unfold py_range. rewrite length_map, length_seq. reflexivity.
Qed.

Lemma Qpower_succ_nat (q : Q) (n : nat) :
  q ^ Z.of_nat (S n) == q * q ^ Z.of_nat n.
Proof.
  rewrite Nat2Z.inj_succ. unfold Z.succ.
  rewrite Z.add_comm.
  rewrite Qpower_plus' by lia.
  simpl. reflexivity.
Qed.

Lemma Qpower_gt_1 (q : Q) (n : nat) : 1 < q -> (0 < n)%nat -> 1 < q ^ Z.of_nat n.
Proof.
  intros Hq Hn. induction n as [|n IH]; [lia|].
  rewrite Qpower_succ_nat.
  destruct n as [|n].
  - simpl. lra.
  - assert (H : 1 < q ^ Z.of_nat (S n)) by (apply IH; lia).
    nra.
Qed.

(** ** The amortization loop *)

Section Amortization.

Import MortgageUtils.

Variables monthly_payment monthly_rate : Q.

Lemma balance_after_shift (n : nat) (b : Q) :
  balance_after monthly_payment monthly_rate n (next_balance monthly_payment monthly_rate b) = balance_after monthly_payment monthly_rate (S n) b.
Proof.
  induction n as [|n IH]; simpl; [reflexivity|].
  rewrite IH. reflexivity.
Qed.

Lemma schedule_loop_acc (months : list Z) (b : Q) (sch : list AmortizationEntry) :
  schedule_loop monthly_payment monthly_rate months b sch
  = sch ++ schedule_loop monthly_payment monthly_rate months b [].
Proof.
  revert b sch. induction months as [|m ms IH]; intros b sch; simpl.
  - rewrite app_nil_r. reflexivity.
  - rewrite IH. rewrite (IH _ [_]). rewrite app_assoc. reflexivity.
Qed.

Lemma schedule_loop_cons (m : Z) (ms : list Z) (b : Q) :
  schedule_loop monthly_payment monthly_rate (m :: ms) b []
  = {| month := m;
       payment := monthly_payment;
       principal := monthly_payment - b * monthly_rate;
       interest := b * monthly_rate;
       balance := py_max 0 (next_balance monthly_payment monthly_rate b) |}
    :: schedule_loop monthly_payment monthly_rate ms (next_balance monthly_payment monthly_rate b) [].
Proof.
  simpl. rewrite schedule_loop_acc. reflexivity.
Qed.

Lemma schedule_loop_length (months : list Z) (b : Q) :
  List.length (schedule_loop monthly_payment monthly_rate months b [])
  = List.length months.
Proof.
  revert b. induction months as [|m ms IH]; intros b; [reflexivity|].
  rewrite schedule_loop_cons. simpl. rewrite IH. reflexivity.
Qed.

(** Entry [i] of the schedule, in terms of the running balance. *)
Lemma schedule_loop_nth (months : list Z) (b : Q) (i : nat) (e : AmortizationEntry) :
  nth_error (schedule_loop monthly_payment monthly_rate months b []) i = Some e ->
  payment e = monthly_payment
  /\ interest e = balance_after monthly_payment monthly_rate i b * monthly_rate
  /\ principal e = monthly_payment - balance_after monthly_payment monthly_rate i b * monthly_rate
  /\ balance e = py_max 0 (balance_after monthly_payment monthly_rate (S i) b).
Proof.
  revert b i. induction months as [|m ms IH]; intros b i.
  - destruct i; discriminate.
  - rewrite schedule_loop_cons. destruct i as [|i]; simpl nth_error.
    + intros [= <-]. simpl. auto.
    + intros H. apply IH in H. rewrite !balance_after_shift in H. exact H.
Qed.


(** Closed form of the running balance, cleared of the division by the
    rate. *)
Lemma balance_after_closed (n : nat) (b : Q) :
  balance_after monthly_payment monthly_rate n b * monthly_rate
  == b * monthly_rate * (1 + monthly_rate) ^ Z.of_nat n
     - monthly_payment * ((1 + monthly_rate) ^ Z.of_nat n - 1).
Proof.
  induction n as [|n IH].
  - simpl. ring.
  - rewrite Qpower_succ_nat. simpl balance_after. unfold next_balance.
    set (q := (1 + monthly_rate) ^ Z.of_nat n) in *.
    set (x := balance_after monthly_payment monthly_rate n b) in *.
    assert (E : (x - (monthly_payment - x * monthly_rate)) * monthly_rate
                == (x * monthly_rate) * (1 + monthly_rate)
                   - monthly_payment * monthly_rate) by ring.
    rewrite E, IH. ring.
Qed.

(** While the interest does not exceed the payment the balance goes down. *)
Lemma balance_after_step (n : nat) (b : Q) :
  0 <= monthly_rate ->
  b * monthly_rate <= monthly_payment ->
  balance_after monthly_payment monthly_rate (S n) b <= balance_after monthly_payment monthly_rate n b
  /\ balance_after monthly_payment monthly_rate n b * monthly_rate <= monthly_payment.
Proof.
  intros Hr Hb. induction n as [|n [IH1 IH2]].
  - simpl. unfold next_balance. split; lra.
  - assert (H2 : balance_after monthly_payment monthly_rate (S n) b * monthly_rate <= monthly_payment).
    { apply Qle_trans with (balance_after monthly_payment monthly_rate n b * monthly_rate); [|exact IH2].
      apply Qmult_le_compat_r; assumption. }
    split; [|exact H2].
    change (balance_after monthly_payment monthly_rate (S (S n)) b) with (next_balance monthly_payment monthly_rate (balance_after monthly_payment monthly_rate (S n) b)).
    unfold next_balance. lra.
Qed.

Lemma balance_after_antitone (i j : nat) (b : Q) :
  0 <= monthly_rate ->
  b * monthly_rate <= monthly_payment ->
  (i <= j)%nat ->
  balance_after monthly_payment monthly_rate j b <= balance_after monthly_payment monthly_rate i b.
Proof.
  intros Hr Hb Hij. induction Hij as [|j Hij IH].
  - apply Qle_refl.
  - apply Qle_trans with (balance_after monthly_payment monthly_rate j b); [|exact IH].
    apply balance_after_step; assumption.
Qed.

End Amortization.

(** ** The monthly payment *)

Lemma div12_pos (x : Q) : 0 < x -> 0 < x / 12.
Proof.
  intros H. apply Qlt_shift_div_l; [reflexivity|]. lra.
Qed.

Lemma div12_nonneg (x : Q) : 0 <= x -> 0 <= x / 12.
Proof.
  intros H. apply Qle_shift_div_l; [reflexivity|]. lra.
Qed.

Lemma monthly_payment_positive_rate (P rate : Q) (years : Z) :
  0 < rate -> (1 <= years)%Z ->
  let r := rate / 12 in
  let qn := (1 + r) ^ (years * 12) in
  1 < qn
  /\ MortgageUtils.calculate_monthly_payment P rate years
     = Ok (P * (r * qn) / (qn - 1)).
Proof.
  intros Hrate Hy r qn.
  assert (Hr : 0 < r) by (apply div12_pos; exact Hrate).
  assert (Hqn : 1 < qn).
  { unfold qn. rewrite <- (Z2Nat.id (years * 12)) by lia.
    apply Qpower_gt_1; [lra | lia]. }
  split; [exact Hqn|].
  unfold MortgageUtils.calculate_monthly_payment.
  destruct (Qeq_bool rate 0) eqn:E0.
  { apply Qeq_bool_iff in E0. lra. }
  unfold py_pow.
  destruct (Qeq_bool (1 + rate / 12) 0) eqn:E1.
  { apply Qeq_bool_iff in E1. fold r in E1. lra. }
  simpl. unfold py_div. fold r. fold qn.
  destruct (Qeq_bool (qn - 1) 0) eqn:E2.
  { apply Qeq_bool_iff in E2. lra. }
  reflexivity.
Qed.

Lemma monthly_payment_zero_rate (P rate : Q) (years : Z) :
  rate == 0 -> (1 <= years)%Z ->
  MortgageUtils.calculate_monthly_payment P rate years
  = Ok (P / inject_Z (years * 12)).
Proof.
  intros Hrate Hy. unfold MortgageUtils.calculate_monthly_payment.
  apply Qeq_bool_iff in Hrate. rewrite Hrate.
  unfold py_div.
  destruct (Qeq_bool (inject_Z (years * 12)) 0) eqn:E.
  - apply Qeq_bool_iff in E.
    assert (H : 0 < inject_Z (years * 12)).
    { change 0 with (inject_Z 0). rewrite <- Zlt_Qlt. lia. }
    lra.
  - reflexivity.
Qed.

(** For a non-negative rate the first month's interest is covered by the
    payment. *)
Lemma monthly_payment_covers_interest (P rate : Q) (years : Z) (pay : Q) :
  0 <= P -> 0 <= rate -> (1 <= years)%Z ->
  MortgageUtils.calculate_monthly_payment P rate years = Ok pay ->
  P * (rate / 12) <= pay.
Proof.
  intros HP Hrate Hy Hpay.
  destruct (Qlt_le_dec 0 rate) as [Hpos|Hle].
  - destruct (monthly_payment_positive_rate P rate years Hpos Hy) as [Hqn E].
    rewrite E in Hpay. injection Hpay as <-.
    set (r := rate / 12) in *. set (qn := (1 + r) ^ (years * 12)) in *.
    assert (Hr : 0 < r) by (apply div12_pos; exact Hpos).
    assert (HPr : 0 <= P * r) by (apply Qmult_le_0_compat; lra).
    apply Qle_shift_div_l; [lra|].
    assert (Eq : P * r * (qn - 1) == P * (r * qn) - P * r) by ring.
    rewrite Eq. lra.
  - assert (H0 : rate == 0) by lra.
    rewrite (monthly_payment_zero_rate P rate years H0 Hy) in Hpay.
    injection Hpay as <-.
    assert (Hn : 0 < inject_Z (years * 12)).
    { change 0 with (inject_Z 0). rewrite <- Zlt_Qlt. lia. }
    apply Qle_shift_div_l; [exact Hn|].
    rewrite H0.
    assert (Eq : P * (0 / 12) * inject_Z (years * 12) == 0) by (field).
    rewrite Eq. exact HP.
Qed.

Lemma py_index_last {A : Type} (l : list A) (n : nat) (a : A) :
  List.length l = S n -> nth_error l n = Some a -> py_index l (-1) = Ok a.
Proof.
  intros Hlen Hn. unfold py_index, len. rewrite Hlen.
  change (-1 <? 0)%Z with true. cbv iota.
  replace (Z.of_nat (S n) + -1)%Z with (Z.of_nat n) by lia.
  destruct (Z.of_nat n <? 0)%Z eqn:E; [apply Z.ltb_lt in E; lia|].
  rewrite Nat2Z.id, Hn. reflexivity.
Qed.

(** ** C3 and C4: the amortization schedule *)

(** A schedule the function returned was built by the loop from the payment
    [calculate_monthly_payment] returned. *)
Lemma amortization_schedule_inv (P rate : Q) (years : Z)
    (schedule : list MortgageUtils.AmortizationEntry) :
  MortgageUtils.calculate_amortization_schedule P rate years = Ok schedule ->
  exists pay,
    MortgageUtils.calculate_monthly_payment P rate years = Ok pay
    /\ schedule = MortgageUtils.schedule_loop pay (rate / 12)
                    (py_range 1 (years * 12 + 1)) P [].
Proof.
  unfold MortgageUtils.calculate_amortization_schedule. intros H.
  destruct (MortgageUtils.calculate_monthly_payment P rate years) as [pay|e];
    [|discriminate H].
  exists pay. split; [reflexivity|]. injection H as <-. reflexivity.
Qed.

Lemma amortization_schedule_of_payment (P rate : Q) (years : Z) (pay : Q) :
  MortgageUtils.calculate_monthly_payment P rate years = Ok pay ->
  MortgageUtils.calculate_amortization_schedule P rate years
  = Ok (MortgageUtils.schedule_loop pay (rate / 12)
          (py_range 1 (years * 12 + 1)) P []).
Proof.
  intros E. unfold MortgageUtils.calculate_amortization_schedule.
  rewrite E. reflexivity.
Qed.

Lemma length_schedule_months (years : Z) :
  List.length (py_range 1 (years * 12 + 1)) = Z.to_nat (years * 12).
Proof. rewrite length_py_range. f_equal. lia. Qed.





(** C4.  For a positive principal, a non-negative rate and a positive whole
    number of years, every schedule the function returns has [years * 12]
    entries; each of them carries the same [payment] (the monthly payment),
    its [principal] and [interest] add up to that payment, and the [balance]
    column never increases and is never below 0. *)
Theorem amortization_entry_invariants (P rate : Q) (years : Z)
    (schedule : list MortgageUtils.AmortizationEntry) :
  0 < P -> 0 <= rate -> (1 <= years)%Z ->
  MortgageUtils.calculate_amortization_schedule P rate years = Ok schedule ->
  len schedule = (years * 12)%Z
  /\ exists monthly_payment,
       MortgageUtils.calculate_monthly_payment P rate years = Ok monthly_payment
       /\ (forall e, In e schedule ->
             MortgageUtils.payment e = monthly_payment
             /\ MortgageUtils.principal e + MortgageUtils.interest e
                == MortgageUtils.payment e
             /\ 0 <= MortgageUtils.balance e)
       /\ (forall i j ei ej, (i <= j)%nat ->
             nth_error schedule i = Some ei ->
             nth_error schedule j = Some ej ->
             MortgageUtils.balance ej <= MortgageUtils.balance ei).
Proof.
  intros HP Hrate Hy Hsch.
  destruct (amortization_schedule_inv P rate years schedule Hsch) as (pay & Epay & ->).
  assert (Hcov : P * (rate / 12) <= pay).
  { apply (monthly_payment_covers_interest P rate years); try assumption. lra. }
  assert (Hr : 0 <= rate / 12) by (apply div12_nonneg; exact Hrate).
  split.
  { unfold len. rewrite schedule_loop_length, length_schedule_months. lia. }
  exists pay. split; [exact Epay|]. split.
  - intros e He. apply In_nth_error in He. destruct He as [i Hi].
    apply schedule_loop_nth in Hi. destruct Hi as (Hp & Hi & Hpr & Hb).
    split; [exact Hp|]. split.
    + rewrite Hp, Hi, Hpr. ring.
    + rewrite Hb. apply py_max_le_l.
  - intros i j ei ej Hij Hi Hj.
    apply schedule_loop_nth in Hi. destruct Hi as (_ & _ & _ & ->).
    apply schedule_loop_nth in Hj. destruct Hj as (_ & _ & _ & ->).
    apply py_max_mono. apply balance_after_antitone; try assumption. lia.
Qed.

Lemma amortization_entry_invariants_witness :
  exists schedule,
    MortgageUtils.calculate_amortization_schedule 1000 0.12 1 = Ok schedule
    /\ len schedule = (1 * 12)%Z
    /\ exists monthly_payment,
         MortgageUtils.calculate_monthly_payment 1000 0.12 1 = Ok monthly_payment
         /\ (forall e, In e schedule ->
               MortgageUtils.payment e = monthly_payment
               /\ MortgageUtils.principal e + MortgageUtils.interest e
                  == MortgageUtils.payment e
               /\ 0 <= MortgageUtils.balance e)
         /\ (forall i j ei ej, (i <= j)%nat ->
               nth_error schedule i = Some ei ->
               nth_error schedule j = Some ej ->
               MortgageUtils.balance ej <= MortgageUtils.balance ei).
Proof.
  destruct (monthly_payment_positive_rate 1000 0.12 1) as [_ Epay];
    [reflexivity | lia |].
  apply amortization_schedule_of_payment in Epay.
  eexists. split; [exact Epay|].
  apply (amortization_entry_invariants 1000 0.12 1);
    [reflexivity | discriminate | lia | exact Epay].
Defined.

(** ** The payment in binary64 *)

Section Binary64Facts.

Import Floats.




End Binary64Facts.

(** ** C8: capital gains tax *)

(** C8.  [calculate_capital_gains_tax] returns 0 for every gain <= 0; for a
    positive gain it returns the gain times the short-term rate when the
    holding period is strictly below one year and the gain times the
    long-term rate otherwise, so a holding period of exactly one year is
    taxed at the long-term rate (0.15 with the default rates). *)
Theorem capital_gains_tax_cases (gain holding short long : Q) :
  (gain <= 0 ->
     TaxUtils.calculate_capital_gains_tax gain holding short long = 0)
  /\ (0 < gain -> holding < 1 ->
        TaxUtils.calculate_capital_gains_tax gain holding short long = gain * short)
  /\ (0 < gain -> 1 <= holding ->
        TaxUtils.calculate_capital_gains_tax gain holding short long = gain * long)
  /\ (0 < gain ->
        TaxUtils.calculate_capital_gains_tax gain 1 short long = gain * long
        /\ TaxUtils.calculate_capital_gains_tax_default gain 1 = gain * 0.15).
Proof.
  assert (Hpos : 0 < gain -> Qle_bool gain 0 = false).
  { intros H. destruct (Qle_bool gain 0) eqn:E; [|reflexivity].
    apply Qle_bool_iff in E. lra. }
  unfold TaxUtils.calculate_capital_gains_tax_default,
    TaxUtils.calculate_capital_gains_tax.
  repeat split.
  - intros H. apply Qle_bool_iff in H. rewrite H. reflexivity.
  - intros Hg Hh. rewrite (Hpos Hg).
    destruct (Qle_bool 1 holding) eqn:E; [|reflexivity].
    apply Qle_bool_iff in E. lra.
  - intros Hg Hh. rewrite (Hpos Hg).
    apply Qle_bool_iff in Hh. rewrite Hh. reflexivity.
  - rewrite (Hpos H). reflexivity.
  - rewrite (Hpos H). reflexivity.
Qed.

Lemma capital_gains_tax_cases_witness :
  TaxUtils.calculate_capital_gains_tax (-50) 3 0.25 0.15 = 0
  /\ TaxUtils.calculate_capital_gains_tax 1000 0.999 0.25 0.15 = 1000 * 0.25
  /\ TaxUtils.calculate_capital_gains_tax 1000 2 0.25 0.15 = 1000 * 0.15
  /\ TaxUtils.calculate_capital_gains_tax_default 1000 1 = 1000 * 0.15.
Proof.
  split; [|split; [|split]].
  - destruct (capital_gains_tax_cases (-50) 3 0.25 0.15) as (H & _).
    apply H. discriminate.
  - destruct (capital_gains_tax_cases 1000 0.999 0.25 0.15) as (_ & H & _).
    apply H; reflexivity.
  - destruct (capital_gains_tax_cases 1000 2 0.25 0.15) as (_ & _ & H & _).
    apply H; [reflexivity | discriminate].
  - destruct (capital_gains_tax_cases 1000 1 0.25 0.15) as (_ & _ & _ & H).
    apply H. reflexivity.
Defined.

(** ** Ranges, indexing and the month loop *)

Lemma py_range_nil (lo hi : Z) : (hi <= lo)%Z -> py_range lo hi = [].
Proof.
  intros H. unfold py_range.
  replace (Z.to_nat (hi - lo)) with 0%nat by lia. reflexivity.
Qed.

Lemma py_range_cons (lo hi : Z) :
  (lo < hi)%Z -> py_range lo hi = lo :: py_range (lo + 1) hi.
Proof.
  intros H. unfold py_range.
  replace (Z.to_nat (hi - lo)) with (S (Z.to_nat (hi - (lo + 1)))) by lia.
  simpl seq. simpl map. f_equal; [lia|].
  rewrite <- seq_shift, map_map.
  apply map_ext. intros i. lia.
Qed.

Lemma py_index_nonneg {A : Type} (l : list A) (i : Z) :
  (0 <= i)%Z ->
  py_index l i = match nth_error l (Z.to_nat i) with
                 | Some a => Ok a
                 | None => Raise IndexError
                 end.
Proof.
  intros H. unfold py_index.
  destruct (i <? 0)%Z eqn:E; [apply Z.ltb_lt in E; lia|].
  rewrite E. reflexivity.
Qed.

Lemma py_index_in_range {A : Type} (l : list A) (i : Z) :
  (0 <= i < len l)%Z -> exists a, py_index l i = Ok a /\ nth_error l (Z.to_nat i) = Some a.
Proof.
  intros H. rewrite py_index_nonneg by lia.
  destruct (nth_error l (Z.to_nat i)) as [a|] eqn:E.
  - exists a. auto.
  - apply nth_error_None in E. unfold len in H. lia.
Qed.

Lemma py_index_last_empty {A : Type} : py_index (@nil A) (-1) = Raise IndexError.
Proof. reflexivity. Qed.

Lemma py_index_last_inv {A : Type} (l : list A) (a : A) :
  py_index l (-1) = Ok a ->
  exists n, List.length l = S n /\ nth_error l n = Some a.
Proof.
  unfold py_index, len. change (-1 <? 0)%Z with true. cbv iota.
  destruct (Z.of_nat (List.length l) + -1 <? 0)%Z eqn:E; [discriminate|].
  apply Z.ltb_ge in E.
  destruct (nth_error l (Z.to_nat (Z.of_nat (List.length l) + -1))) as [x|] eqn:En;
    [|discriminate].
  intros [= ->].
  exists (Z.to_nat (Z.of_nat (List.length l) + -1)). split; [lia | exact En].
Qed.

Lemma py_index_map {A B : Type} (f : A -> B) (l : list A) (i : Z) :
  py_index (map f l) i = (a <- py_index l i ;; Ok (f a)).
Proof.
  unfold py_index, len. rewrite length_map.
  set (j := if (i <? 0)%Z then (Z.of_nat (List.length l) + i)%Z else i).
  destruct (j <? 0)%Z; [reflexivity|].
  rewrite nth_error_map.
  destruct (nth_error l (Z.to_nat j)); reflexivity.
Qed.

Lemma df_column_inv {A B : Type} (df : list A) (col : A -> B) (c : list B) :
  df_column df col = Ok c -> c = map col df.
Proof.
  destruct df; simpl; [discriminate|]. intros [= <-]. reflexivity.
Qed.

(** Inversion of a successful sequence of binds. *)
Ltac bind_inv H :=
  repeat match type of H with
         | bind ?c _ = Ok _ =>
             let E := fresh "E" in
             destruct c eqn:E; simpl in H; [|discriminate H]
         end.

(** An invariant indexed by the month about to run is carried through
    [for month in range(lo, hi)]. *)
Lemma for_each_range_inv {S : Type} (body : S -> Z -> result S)
    (Inv : Z -> S -> Prop) (lo hi : Z) (s s' : S) :
  Inv lo s ->
  (forall m t t', (lo <= m < hi)%Z -> Inv m t -> body t m = Ok t' -> Inv (m + 1)%Z t') ->
  for_each body (py_range lo hi) s = Ok s' ->
  Inv (Z.max lo hi) s'.
Proof.
  remember (Z.to_nat (hi - lo)) as n eqn:Hn.
  revert lo s Hn. induction n as [|n IH]; intros lo s Hn Hinv Hstep Hrun.
  - rewrite py_range_nil in Hrun by lia. injection Hrun as <-.
    replace (Z.max lo hi) with lo by lia. exact Hinv.
  - rewrite py_range_cons in Hrun by lia. simpl in Hrun.
    destruct (body s lo) as [t|e] eqn:Eb; simpl in Hrun; [|discriminate].
    replace (Z.max lo hi) with (Z.max (lo + 1) hi) by lia.
    apply (IH (lo + 1)%Z t); [lia | | | exact Hrun].
    + apply (Hstep lo s t); [lia | exact Hinv | exact Eb].
    + intros m u u' Hm. apply Hstep. lia.
Qed.

(** When every iteration succeeds under the invariant, so does the loop. *)
Lemma for_each_range_total {S : Type} (body : S -> Z -> result S)
    (Inv : Z -> S -> Prop) (lo hi : Z) (s : S) :
  Inv lo s ->
  (forall m t, (lo <= m < hi)%Z -> Inv m t ->
               exists t', body t m = Ok t' /\ Inv (m + 1)%Z t') ->
  exists s', for_each body (py_range lo hi) s = Ok s' /\ Inv (Z.max lo hi) s'.
Proof.
  remember (Z.to_nat (hi - lo)) as n eqn:Hn.
  revert lo s Hn. induction n as [|n IH]; intros lo s Hn Hinv Hstep.
  - rewrite py_range_nil by lia. exists s. split; [reflexivity|].
    replace (Z.max lo hi) with lo by lia. exact Hinv.
  - rewrite py_range_cons by lia. simpl.
    destruct (Hstep lo s) as (t & Eb & Ht); [lia | exact Hinv |].
    rewrite Eb. simpl.
    replace (Z.max lo hi) with (Z.max (lo + 1) hi) by lia.
    apply (IH (lo + 1)%Z t); [lia | exact Ht |].
    intros m u Hm. apply Hstep. lia.
Qed.

(** The mortgage columns of a month: never an exception, since the index is
    guarded by [month <= len(amortization)]. *)
Lemma mortgage_lookup_ok (amortization : list MortgageUtils.AmortizationEntry)
    (month : Z) :
  (1 <= month)%Z ->
  exists t : Q * Q * Q * Q,
    (if (month <=? len amortization)%Z then
       e <- py_index amortization (month - 1) ;;
       Ok (MortgageUtils.payment e, MortgageUtils.principal e,
           MortgageUtils.interest e, MortgageUtils.balance e)
     else Ok (0, 0, 0, 0)) = Ok t.
Proof.
  intros Hm. destruct (month <=? len amortization)%Z eqn:E.
  - apply Z.leb_le in E.
    destruct (py_index_in_range amortization (month - 1)) as (a & Ea & _); [lia|].
    rewrite Ea. simpl. eexists. reflexivity.
  - eexists. reflexivity.
Qed.

(** ** Reading the summary off a non-empty frame *)

Lemma py_index_last_ok {A : Type} (l : list A) :
  (1 <= len l)%Z -> exists a, py_index l (-1) = Ok a.
Proof.
  intros H. unfold len in H.
  destruct (nth_error l (List.length l - 1)) as [a|] eqn:E.
  - exists a. apply py_index_last with (List.length l - 1)%nat; [lia | exact E].
  - apply nth_error_None in E. lia.
Qed.

Lemma df_column_ok {A B : Type} (df : list A) (col : A -> B) :
  (1 <= len df)%Z -> df_column df col = Ok (map col df).
Proof.
  destruct df; [unfold len; simpl; lia | reflexivity].
Qed.

Lemma amortization_schedule_ok (P rate : Q) (years : Z) :
  0 <= rate -> (1 <= years)%Z ->
  exists schedule, MortgageUtils.calculate_amortization_schedule P rate years = Ok schedule.
Proof.
  intros Hrate Hy. unfold MortgageUtils.calculate_amortization_schedule.
  destruct (Qlt_le_dec 0 rate) as [Hpos|Hle].
  - destruct (monthly_payment_positive_rate P rate years Hpos Hy) as [_ E].
    rewrite E. simpl. eexists. reflexivity.
  - rewrite (monthly_payment_zero_rate P rate years) by (try lra; assumption).
    simpl. eexists. reflexivity.
Qed.

(** Summary reads on a frame with at least one row. *)
Ltac summary_reads Hlen :=
  repeat first
    [ rewrite (df_column_ok _ _ Hlen); simpl bind
    | rewrite py_index_map
    | match goal with
      | E : py_index ?l (-1) = Ok _ |- context [py_index ?l (-1)] =>
          rewrite E; simpl bind
      end ].

(** ** One month of the ownership simulators *)

Lemma cumulative_expr {A : Type} (f : A -> Q) (monthly_data : list A) (x : Q) :
  match monthly_data with
  | [] => x
  | _ => py_sum (map f monthly_data) + x
  end == py_sum (map f monthly_data) + x.
Proof.
  destruct monthly_data; [|reflexivity].
  unfold py_sum. simpl. ring.
Qed.

Lemma rental_loop_body_spec (fpow : Q -> Q -> Q) (p : RentalSimulation.RentalParams.t)
    (closing_costs : Q) (amortization : list MortgageUtils.AmortizationEntry)
    (s : RentalSimulation.RentalState.t) (month : Z) :
  (1 <= month)%Z ->
  exists row s',
    RentalSimulation.rental_loop_body fpow p closing_costs amortization s month = Ok s'
    /\ RentalSimulation.RentalState.monthly_data s'
       = RentalSimulation.RentalState.monthly_data s ++ [row]
    /\ RentalSimulation.RentalRow.month row = month
    /\ RentalSimulation.RentalRow.cumulative_true_cost row
       == py_sum (map RentalSimulation.RentalRow.true_cost
                    (RentalSimulation.RentalState.monthly_data s))
          + RentalSimulation.RentalRow.true_cost row
    /\ RentalSimulation.RentalRow.cumulative_operating_income row
       == py_sum (map RentalSimulation.RentalRow.monthly_operating_income
                    (RentalSimulation.RentalState.monthly_data s))
          + RentalSimulation.RentalRow.monthly_operating_income row.
Proof.
  intros Hm. unfold RentalSimulation.rental_loop_body.
  destruct (mortgage_lookup_ok amortization month Hm) as [[[[a b] c] d] E].
  rewrite E. cbv beta iota zeta delta [bind].
  eexists. eexists. split; [reflexivity|].
  split; [reflexivity|]. split; [reflexivity|].
  split.
  - exact (cumulative_expr RentalSimulation.RentalRow.true_cost
             (RentalSimulation.RentalState.monthly_data s) _).
  - exact (cumulative_expr RentalSimulation.RentalRow.monthly_operating_income
             (RentalSimulation.RentalState.monthly_data s) _).
Qed.

Lemma rental_final_state_total (fpow : Q -> Q -> Q) (p : RentalSimulation.RentalParams.t) :
  0 <= RentalSimulation.RentalParams.mortgage_rate p ->
  (1 <= RentalSimulation.RentalParams.mortgage_years p)%Z ->
  exists s,
    RentalSimulation.rental_final_state fpow p = Ok s
    /\ len (RentalSimulation.RentalState.monthly_data s)
       = Z.max 0 (RentalSimulation.RentalParams.years p * 12).
Proof.
  intros Hrate Hmy. unfold RentalSimulation.rental_final_state.
  destruct (amortization_schedule_ok
              (RentalSimulation.RentalParams.purchase_price p
               - RentalSimulation.RentalParams.purchase_price p
                 * RentalSimulation.RentalParams.down_payment_pct p)
              _ _ Hrate Hmy) as [am Eam].
  unfold RentalSimulation.calculate_amortization_schedule. rewrite Eam. simpl bind.
  match goal with
  | |- context [for_each ?body (py_range 1 ?hi) ?s0] =>
      destruct (for_each_range_total body
                  (fun m s => len (RentalSimulation.RentalState.monthly_data s)
                              = (m - 1)%Z) 1 hi s0) as (s & Es & Hs)
  end.
  - reflexivity.
  - intros m t Hm Ht.
    destruct (rental_loop_body_spec fpow p
                (RentalSimulation.RentalParams.purchase_price p
                 * RentalSimulation.RentalParams.closing_costs_pct p) am t m)
      as (row & t' & Eb & Hmd & _); [lia|].
    exists t'. split; [exact Eb|].
    rewrite Hmd. unfold len in *. rewrite length_app. simpl. lia.
  - exists s. split; [exact Es|]. rewrite Hs. lia.
Qed.

Lemma simulate_rental_property_total (fpow : Q -> Q -> Q)
    (p : RentalSimulation.RentalParams.t) :
  0 <= RentalSimulation.RentalParams.mortgage_rate p ->
  (1 <= RentalSimulation.RentalParams.mortgage_years p)%Z ->
  (1 <= RentalSimulation.RentalParams.years p)%Z ->
  exists res, RentalSimulation.simulate_rental_property fpow p = Ok res.
Proof.
  intros Hrate Hmy Hy.
  destruct (rental_final_state_total fpow p Hrate Hmy) as (s & Es & Hlen).
  assert (Hlen1 : (1 <= len (RentalSimulation.RentalState.monthly_data s))%Z) by lia.
  destruct (py_index_last_ok _ Hlen1) as [last El].
  unfold RentalSimulation.simulate_rental_property. rewrite Es. simpl bind.
  summary_reads Hlen1. eexists. reflexivity.
Qed.

(** ** C10: the selling costs of the rental simulator *)

Lemma rental_simulation_df (fpow : Q -> Q -> Q) (p : RentalSimulation.RentalParams.t)
    (res : RentalSimulation.RentalResult) :
  RentalSimulation.simulate_rental_property fpow p = Ok res ->
  exists s,
    RentalSimulation.rental_final_state fpow p = Ok s
    /\ RentalSimulation.rental_monthly_df res = RentalSimulation.RentalState.monthly_data s.
Proof.
  unfold RentalSimulation.simulate_rental_property. intros H.
  bind_inv H. injection H as <-. eexists. split; reflexivity.
Qed.

(** C10.  [simulate_rental_property] computes the final selling costs as 6%
    of the final property value: the summary's [selling_costs],
    [final_net_proceeds] and [total_true_cost] use that fixed fraction, and
    the result does not depend on a [selling_cost_pct] entry of [params]. *)
Theorem rental_selling_costs_hard_coded (fpow : Q -> Q -> Q)
    (p : RentalSimulation.RentalParams.t) :
  (forall res,
     RentalSimulation.simulate_rental_property fpow p = Ok res ->
     exists last,
       py_index (RentalSimulation.rental_monthly_df res) (-1) = Ok last
       /\ RentalSimulation.RentalSummary.selling_costs
            (RentalSimulation.rental_summary res)
          = RentalSimulation.RentalRow.property_value last * 0.06
       /\ RentalSimulation.RentalSummary.final_net_proceeds
            (RentalSimulation.rental_summary res)
          = RentalSimulation.RentalRow.property_value last
            - RentalSimulation.RentalRow.property_value last * 0.06
            - RentalSimulation.RentalRow.remaining_balance last
       /\ RentalSimulation.RentalSummary.total_true_cost
            (RentalSimulation.rental_summary res)
          = RentalSimulation.RentalRow.cumulative_true_cost last
            + RentalSimulation.RentalRow.property_value last * 0.06)
  /\ (forall pct,
        RentalSimulation.simulate_rental_property fpow (with_selling_cost_pct p pct)
        = RentalSimulation.simulate_rental_property fpow p).
Proof.
  split.
  - unfold RentalSimulation.simulate_rental_property. intros res H.
    bind_inv H. injection H as <-. simpl.
    match goal with
    | E : df_column _ RentalSimulation.RentalRow.cumulative_true_cost = Ok ?c,
      E' : py_index ?c (-1) = Ok _ |- _ =>
        apply df_column_inv in E; subst c; rewrite py_index_map in E'
    end.
    match goal with
    | E1 : py_index ?l (-1) = Ok ?a, E' : bind (py_index ?l (-1)) _ = Ok _ |- _ =>
        rewrite E1 in E'; simpl in E'; injection E' as <-
    end.
    eexists. split; [eassumption|]. repeat split.
  - intros pct. destruct p. reflexivity.
Qed.


Lemma rental_selling_costs_hard_coded_witness :
  exists res last,
    RentalSimulation.simulate_rental_property fpow_linear example_rental_params = Ok res
    /\ py_index (RentalSimulation.rental_monthly_df res) (-1) = Ok last
    /\ RentalSimulation.RentalSummary.selling_costs (RentalSimulation.rental_summary res)
       = RentalSimulation.RentalRow.property_value last * 0.06.
Proof.
  destruct (simulate_rental_property_total fpow_linear example_rental_params)
    as [res E]; [discriminate | simpl; lia | simpl; lia |].
  destruct (rental_selling_costs_hard_coded fpow_linear example_rental_params)
    as [H _].
  destruct (H res E) as (last & Hl & Hs & _).
  exists res, last. repeat split; assumption.
Defined.

(** ** Running totals *)

Lemma firstn_succ_nth {A : Type} (l : list A) (k : nat) (a : A) :
  nth_error l k = Some a -> firstn (S k) l = firstn k l ++ [a].
Proof.
  revert k. induction l as [|x l IH]; intros k H.
  - destruct k; discriminate.
  - destruct k as [|k].
    + injection H as <-. reflexivity.
    + simpl in H. apply IH in H. simpl firstn at 2.
      change (firstn (S (S k)) (x :: l)) with (x :: firstn (S k) l).
      rewrite H. reflexivity.
Qed.

Lemma running_total_nil {A : Type} (delta cum : A -> Q) : running_total delta cum [].
Proof.
  intros i r H. destruct i; discriminate.
Qed.

Lemma running_total_snoc {A : Type} (delta cum : A -> Q) (l : list A) (r : A) :
  running_total delta cum l ->
  cum r == py_sum (map delta l) + delta r ->
  running_total delta cum (l ++ [r]).
Proof.
  intros Hl Hr i x Hi.
  destruct (Nat.lt_ge_cases i (List.length l)) as [Hlt|Hge].
  - rewrite nth_error_app1 in Hi by exact Hlt.
    rewrite firstn_app.
    replace (i - List.length l)%nat with 0%nat by lia.
    simpl firstn. rewrite app_nil_r. apply Hl. exact Hi.
  - rewrite nth_error_app2 in Hi by exact Hge.
    destruct (i - List.length l)%nat as [|j] eqn:Ej.
    + injection Hi as <-.
      assert (i = List.length l) by lia. subst i.
      rewrite firstn_app, firstn_all, Nat.sub_diag. simpl firstn.
      rewrite app_nil_r. exact Hr.
    + destruct j; discriminate.
Qed.

Lemma running_total_recurrence {A : Type} (delta cum : A -> Q) (l : list A)
    (k : nat) (prev cur : A) :
  running_total delta cum l ->
  nth_error l k = Some prev ->
  nth_error l (S k) = Some cur ->
  cum cur == cum prev + delta cur.
Proof.
  intros Hl Hp Hc.
  rewrite (Hl (S k) cur Hc), (Hl k prev Hp).
  rewrite (firstn_succ_nth l k prev Hp), map_app, py_sum_app.
  simpl map. rewrite py_sum_cons. change (py_sum []) with 0. ring.
Qed.

(** ** The live-in ownership simulator *)

Lemma home_loop_body_spec (fpow : Q -> Q -> Q)
    (p : HomeownershipSimulation.HomeParams.t) (closing_costs : Q)
    (amortization : list MortgageUtils.AmortizationEntry)
    (monthly_data : list HomeownershipSimulation.HomeRow.t) (month : Z) :
  (1 <= month)%Z ->
  exists row,
    HomeownershipSimulation.home_loop_body fpow p closing_costs amortization
      monthly_data month = Ok (monthly_data ++ [row])
    /\ HomeownershipSimulation.HomeRow.month row = month
    /\ HomeownershipSimulation.HomeRow.monthly_tax_benefit row
       = (HomeownershipSimulation.HomeRow.interest_payment row
          + HomeownershipSimulation.HomeRow.property_tax_monthly row)
         * HomeownershipSimulation.HomeParams.tax_bracket p
    /\ HomeownershipSimulation.HomeRow.true_monthly_cost row
       = HomeownershipSimulation.HomeRow.total_costs_before_tax row
         - HomeownershipSimulation.HomeRow.monthly_tax_benefit row
    /\ HomeownershipSimulation.HomeRow.cumulative_unrecoverable row
       == py_sum (map HomeownershipSimulation.HomeRow.unrecoverable monthly_data)
          + HomeownershipSimulation.HomeRow.unrecoverable row
    /\ HomeownershipSimulation.HomeRow.cumulative_tax_benefits row
       == py_sum (map HomeownershipSimulation.HomeRow.monthly_tax_benefit monthly_data)
          + HomeownershipSimulation.HomeRow.monthly_tax_benefit row
    /\ HomeownershipSimulation.HomeRow.cumulative_true_cost row
       == py_sum (map HomeownershipSimulation.HomeRow.true_monthly_cost monthly_data)
          + HomeownershipSimulation.HomeRow.true_monthly_cost row.
Proof.
  intros Hm. unfold HomeownershipSimulation.home_loop_body.
  destruct (mortgage_lookup_ok amortization month Hm) as [[[[a b] c] d] E].
  rewrite E. cbv beta iota zeta delta [bind].
  eexists. split; [reflexivity|].
  split; [reflexivity|]. split; [reflexivity|]. split; [reflexivity|].
  split; [|split].
  - exact (cumulative_expr HomeownershipSimulation.HomeRow.unrecoverable monthly_data _).
  - exact (cumulative_expr HomeownershipSimulation.HomeRow.monthly_tax_benefit
             monthly_data _).
  - exact (cumulative_expr HomeownershipSimulation.HomeRow.true_monthly_cost
             monthly_data _).
Qed.

Lemma home_rows_ok_step (fpow : Q -> Q -> Q)
    (p : HomeownershipSimulation.HomeParams.t) (closing_costs : Q)
    (amortization : list MortgageUtils.AmortizationEntry)
    (md md' : list HomeownershipSimulation.HomeRow.t) (month : Z) :
  (1 <= month)%Z ->
  home_rows_ok p md ->
  HomeownershipSimulation.home_loop_body fpow p closing_costs amortization md month
  = Ok md' ->
  home_rows_ok p md' /\ len md' = (len md + 1)%Z.
Proof.
  intros Hm (H1 & H2 & H3 & H4) Hb.
  destruct (home_loop_body_spec fpow p closing_costs amortization md month Hm)
    as (row & E & _ & Ht & Hc & Hcu & Hct & Hcc).
  rewrite E in Hb. injection Hb as <-.
  split.
  - split; [|split; [|split]].
    + apply Forall_app. split; [exact H1|]. constructor; [|constructor]. auto.
    + apply running_total_snoc; assumption.
    + apply running_total_snoc; assumption.
    + apply running_total_snoc; assumption.
  - unfold len. rewrite length_app. simpl. lia.
Qed.

Lemma home_monthly_data_inv (fpow : Q -> Q -> Q)
    (p : HomeownershipSimulation.HomeParams.t)
    (df : list HomeownershipSimulation.HomeRow.t) :
  HomeownershipSimulation.home_monthly_data fpow p = Ok df ->
  home_rows_ok p df
  /\ len df = Z.max 0 (HomeownershipSimulation.HomeParams.years p * 12).
Proof.
  unfold HomeownershipSimulation.home_monthly_data. intros H.
  bind_inv H.
  match type of H with
  | for_each ?body (py_range 1 ?hi) [] = Ok _ =>
      pose proof (for_each_range_inv body
                    (fun m md => home_rows_ok p md /\ len md = (m - 1)%Z)
                    1 hi [] df) as Hinv
  end.
  destruct Hinv as [Hok Hlen].
  - split; [|reflexivity].
    split; [constructor|]. repeat split; apply running_total_nil.
  - intros m t t' Hm [Ht Hl] Hb.
    destruct (home_rows_ok_step fpow p _ _ t t' m ltac:(lia) Ht Hb) as [Hok' Hl'].
    split; [exact Hok'|]. lia.
  - exact H.
  - split; [exact Hok|]. lia.
Qed.

Lemma simulate_homeownership_df (fpow : Q -> Q -> Q)
    (p : HomeownershipSimulation.HomeParams.t)
    (res : HomeownershipSimulation.HomeResult) :
  HomeownershipSimulation.simulate_homeownership fpow p = Ok res ->
  HomeownershipSimulation.home_monthly_data fpow p
  = Ok (HomeownershipSimulation.home_monthly_df res).
Proof.
  unfold HomeownershipSimulation.simulate_homeownership. intros H.
  bind_inv H. injection H as <-. reflexivity.
Qed.

Lemma home_monthly_data_total (fpow : Q -> Q -> Q)
    (p : HomeownershipSimulation.HomeParams.t) :
  0 <= HomeownershipSimulation.HomeParams.mortgage_rate p ->
  (1 <= HomeownershipSimulation.HomeParams.mortgage_years p)%Z ->
  exists df, HomeownershipSimulation.home_monthly_data fpow p = Ok df.
Proof.
  intros Hrate Hmy. unfold HomeownershipSimulation.home_monthly_data.
  destruct (amortization_schedule_ok
              (HomeownershipSimulation.HomeParams.purchase_price p
               - HomeownershipSimulation.HomeParams.purchase_price p
                 * HomeownershipSimulation.HomeParams.down_payment_pct p)
              _ _ Hrate Hmy) as [am Eam].
  unfold HomeownershipSimulation.calculate_amortization_schedule.
  rewrite Eam. simpl bind.
  match goal with
  | |- context [for_each ?body (py_range 1 ?hi) ?s0] =>
      destruct (for_each_range_total body (fun _ _ => True) 1 hi s0) as (s & Es & _)
  end.
  - exact I.
  - intros m t Hm _.
    destruct (home_loop_body_spec fpow p
                (HomeownershipSimulation.HomeParams.purchase_price p
                 * HomeownershipSimulation.HomeParams.closing_costs_pct p) am t m)
      as (row & Eb & _); [lia|].
    eexists. split; [exact Eb | exact I].
  - exists s. exact Es.
Qed.

Lemma simulate_homeownership_total (fpow : Q -> Q -> Q)
    (p : HomeownershipSimulation.HomeParams.t) :
  0 <= HomeownershipSimulation.HomeParams.mortgage_rate p ->
  (1 <= HomeownershipSimulation.HomeParams.mortgage_years p)%Z ->
  (1 <= HomeownershipSimulation.HomeParams.years p)%Z ->
  exists res, HomeownershipSimulation.simulate_homeownership fpow p = Ok res.
Proof.
  intros Hrate Hmy Hy.
  destruct (home_monthly_data_total fpow p Hrate Hmy) as [df Edf].
  destruct (home_monthly_data_inv fpow p df Edf) as [_ Hlen].
  assert (Hlen1 : (1 <= len df)%Z) by lia.
  destruct (py_index_last_ok _ Hlen1) as [last El].
  unfold HomeownershipSimulation.simulate_homeownership. rewrite Edf. simpl bind.
  summary_reads Hlen1. eexists. reflexivity.
Qed.

(** ** The older engine's ownership simulator *)

Lemma legacy_month_locals_tax_benefit (fpow : Q -> Q -> Q) (p : Simulation.HomeParams.t)
    (down_payment closing_costs : Q)
    (amortization : list MortgageUtils.AmortizationEntry)
    (s : Simulation.HomeState.t) (month : Z) (v : Simulation.HomeLocals.t) :
  Simulation.home_month_locals fpow p down_payment closing_costs amortization s month
  = Ok v ->
  Simulation.HomeLocals.monthly_tax_benefit v
  = (Simulation.HomeLocals.interest_payment v + Simulation.HomeLocals.property_tax v)
    * (1 - Simulation.HomeParams.tax_bracket p).
Proof.
  unfold Simulation.home_month_locals. intros H.
  match type of H with
  | bind ?c _ = Ok _ => destruct c as [[[[a b] c'] d]|e]; simpl in H; [|discriminate H]
  end.
  injection H as <-. reflexivity.
Qed.




(** ** C2: the monthly tax benefit *)

(** C2 (amended).  In [homeownership_simulation.simulate_homeownership] every
    monthly row has [monthly_tax_benefit = (interest_payment +
    property_tax_monthly) * tax_bracket] and [true_monthly_cost =
    total_costs_before_tax - monthly_tax_benefit].  The ownership simulator of
    the older [simulation.py] computes its monthly tax benefit as
    [(interest_payment + property_tax) * (1 - tax_bracket)]. *)
Theorem live_in_tax_benefit (fpow : Q -> Q -> Q) :
  (forall p res,
     HomeownershipSimulation.simulate_homeownership fpow p = Ok res ->
     forall row, In row (HomeownershipSimulation.home_monthly_df res) ->
       HomeownershipSimulation.HomeRow.monthly_tax_benefit row
       = (HomeownershipSimulation.HomeRow.interest_payment row
          + HomeownershipSimulation.HomeRow.property_tax_monthly row)
         * HomeownershipSimulation.HomeParams.tax_bracket p
       /\ HomeownershipSimulation.HomeRow.true_monthly_cost row
          = HomeownershipSimulation.HomeRow.total_costs_before_tax row
            - HomeownershipSimulation.HomeRow.monthly_tax_benefit row)
  /\ (forall p down_payment closing_costs amortization s month v,
        Simulation.home_month_locals fpow p down_payment closing_costs amortization
          s month = Ok v ->
        Simulation.HomeLocals.monthly_tax_benefit v
        = (Simulation.HomeLocals.interest_payment v
           + Simulation.HomeLocals.property_tax v)
          * (1 - Simulation.HomeParams.tax_bracket p)).
Proof.
  split.
  - intros p res H row Hin.
    apply simulate_homeownership_df in H.
    apply home_monthly_data_inv in H. destruct H as [[Hall _] _].
    rewrite Forall_forall in Hall. apply Hall. exact Hin.
  - intros. eapply legacy_month_locals_tax_benefit. eassumption.
Qed.

Lemma live_in_tax_benefit_witness :
  exists res,
    HomeownershipSimulation.simulate_homeownership fpow_linear example_home_params = Ok res
    /\ forall row, In row (HomeownershipSimulation.home_monthly_df res) ->
         HomeownershipSimulation.HomeRow.monthly_tax_benefit row
         = (HomeownershipSimulation.HomeRow.interest_payment row
            + HomeownershipSimulation.HomeRow.property_tax_monthly row)
           * HomeownershipSimulation.HomeParams.tax_bracket example_home_params
         /\ HomeownershipSimulation.HomeRow.true_monthly_cost row
            = HomeownershipSimulation.HomeRow.total_costs_before_tax row
              - HomeownershipSimulation.HomeRow.monthly_tax_benefit row.
Proof.
  destruct (simulate_homeownership_total fpow_linear example_home_params)
    as [res E]; [discriminate | simpl; lia | simpl; lia |].
  exists res. split; [exact E|].
  destruct (live_in_tax_benefit fpow_linear) as [H _].
  exact (H example_home_params res E).
Defined.

(** At month 1 of [simulation.simulate_homeownership] on the example inputs
    the monthly tax benefit is (480 + 120) * 0.75, not (480 + 120) * 0.25. *)
Lemma legacy_tax_benefit_counterexample :
  exists amortization v,
    MortgageUtils.calculate_amortization_schedule (120000 - 120000 * 0.2) 0.06 1
    = Ok amortization
    /\ Simulation.home_month_locals fpow_linear example_legacy_home_params
         (120000 * 0.2) (120000 * 0.03) amortization Simulation.home_initial_state 1
       = Ok v
    /\ ~ (Simulation.HomeLocals.monthly_tax_benefit v
          == (Simulation.HomeLocals.interest_payment v
              + Simulation.HomeLocals.property_tax v)
             * Simulation.HomeParams.tax_bracket example_legacy_home_params).
Proof.
  destruct (monthly_payment_positive_rate (120000 - 120000 * 0.2) 0.06 1)
    as [_ Epay]; [reflexivity | lia |].
  unfold MortgageUtils.calculate_amortization_schedule. rewrite Epay.
  cbv beta iota zeta delta [bind].
  change (1 * 12 + 1)%Z with 13%Z.
  rewrite (py_range_cons 1 13) by lia. rewrite schedule_loop_cons.
  eexists. eexists. split; [reflexivity|].
  unfold Simulation.home_month_locals.
  match goal with
  | |- context [(1 <=? len ?l)%Z] =>
      assert (Hle : (1 <=? len l)%Z = true)
        by (apply Z.leb_le; unfold len; simpl List.length; lia);
      rewrite Hle
  end.
  change (py_index (?x :: ?l) (1 - 1)) with (Ok x).
  cbv beta iota zeta delta [bind].
  split; [reflexivity|].
  intros H. vm_compute in H. discriminate H.
Qed.

(** ** C9: the unbound name in [simulation.simulate_homeownership] *)



(** Outside the inputs the function is meant for: with [years = 1] and a
    mortgage term of zero years the call before the loop raises the
    [ZeroDivisionError] of [calculate_monthly_payment]. *)
Lemma legacy_homeownership_zero_term_raises :
  (1 <= Simulation.HomeParams.years example_legacy_home_params_zero_term)%Z
  /\ Simulation.simulate_homeownership fpow_linear example_legacy_home_params_zero_term
     = Raise ZeroDivisionError
  /\ Simulation.simulate_homeownership fpow_linear example_legacy_home_params_zero_term
     <> Raise NameError.
Proof.
  assert (E : Simulation.simulate_homeownership fpow_linear
                example_legacy_home_params_zero_term = Raise ZeroDivisionError)
    by reflexivity.
  split; [simpl; lia|]. split; [exact E|]. rewrite E. discriminate.
Qed.

(** ** One month of the investment simulators *)

Lemma py_int_nonneg (x : Q) : 0 <= x -> (0 <= py_int x)%Z.
Proof.
  intros H. unfold py_int. apply Z.quot_pos; [|lia].
  unfold Qle in H. simpl in H. lia.
Qed.

Lemma rent_growth_ok (rate : Q) (month : Z) :
  (1 <= month)%Z ->
  py_pow (1 + rate) (py_int (inject_Z (month - 1) / 12))
  = Ok ((1 + rate) ^ py_int (inject_Z (month - 1) / 12)).
Proof.
  intros Hm. unfold py_pow.
  assert (H : (0 <= py_int (inject_Z (month - 1) / 12))%Z).
  { apply py_int_nonneg. apply div12_nonneg.
    change 0 with (inject_Z 0). rewrite <- Zle_Qle. lia. }
  destruct (py_int (inject_Z (month - 1) / 12) <? 0)%Z eqn:E.
  - apply Z.ltb_lt in E. lia.
  - rewrite andb_false_r. reflexivity.
Qed.

Lemma rent_loop_body_inv (p : HomeownershipSimulation.StockParams.t)
    (costs : list Q) (s s' : HomeownershipSimulation.StockState.t) (month : Z) :
  HomeownershipSimulation.stock_loop_body p costs s month = Ok s' ->
  exists cost row,
    py_index costs (month - 1) = Ok cost
    /\ HomeownershipSimulation.StockState.monthly_data s'
       = HomeownershipSimulation.StockState.monthly_data s ++ [row]
    /\ HomeownershipSimulation.StockRow.month row = month
    /\ HomeownershipSimulation.StockRow.year row = ((month - 1) / 12 + 1)%Z
    /\ HomeownershipSimulation.StockRow.monthly_contribution row
       + HomeownershipSimulation.StockRow.monthly_rent row == cost
    /\ HomeownershipSimulation.StockRow.cumulative_operating_income row
       == py_sum (map HomeownershipSimulation.StockRow.monthly_operating_income
                    (HomeownershipSimulation.StockState.monthly_data s))
          + HomeownershipSimulation.StockRow.monthly_operating_income row
    /\ HomeownershipSimulation.StockRow.cumulative_dividend_tax row
       = HomeownershipSimulation.StockState.cumulative_dividend_tax s'
    /\ tax_event month (HomeownershipSimulation.StockParams.tax_bracket p)
         (HomeownershipSimulation.StockState.annual_dividends s)
         (HomeownershipSimulation.StockState.cumulative_dividend_tax s)
         (HomeownershipSimulation.StockRow.monthly_dividend row)
         (HomeownershipSimulation.StockRow.dividend_tax row)
         (HomeownershipSimulation.StockState.annual_dividends s')
         (HomeownershipSimulation.StockState.cumulative_dividend_tax s').
Proof.
  unfold HomeownershipSimulation.stock_loop_body, tax_event. intros H.
  bind_inv H.
  destruct ((month - 1) mod 12 + 1 =? 12)%Z;
    cbv beta iota zeta in H; injection H as <-;
    (eexists; eexists; split; [reflexivity|];
     split; [reflexivity|]; split; [reflexivity|]; split; [reflexivity|];
     split; [cbn; ring|];
     split; [exact (cumulative_expr
                      HomeownershipSimulation.StockRow.monthly_operating_income
                      (HomeownershipSimulation.StockState.monthly_data s) _)|];
     split; [reflexivity|];
     repeat split).
Qed.

Lemma rent_loop_body_ok (p : HomeownershipSimulation.StockParams.t)
    (costs : list Q) (s : HomeownershipSimulation.StockState.t) (month : Z) :
  (1 <= month <= len costs)%Z ->
  exists s', HomeownershipSimulation.stock_loop_body p costs s month = Ok s'.
Proof.
  intros Hm. unfold HomeownershipSimulation.stock_loop_body.
  rewrite rent_growth_ok by lia.
  destruct (py_index_in_range costs (month - 1)) as (c & Ec & _); [lia|].
  cbv beta iota delta [bind]. rewrite Ec.
  destruct ((month - 1) mod 12 + 1 =? 12)%Z; cbv beta iota zeta;
    eexists; reflexivity.
Qed.

Lemma py_index_app_l {A : Type} (l l' : list A) (i : Z) (a : A) :
  (0 <= i)%Z -> py_index l i = Ok a -> py_index (l ++ l') i = Ok a.
Proof.
  intros Hi. rewrite !py_index_nonneg by exact Hi.
  destruct (nth_error l (Z.to_nat i)) as [x|] eqn:E; [|discriminate].
  intros [= ->].
  rewrite nth_error_app1 by (apply nth_error_Some; congruence).
  rewrite E. reflexivity.
Qed.

Lemma py_index_snoc {A : Type} (l : list A) (a : A) :
  py_index (l ++ [a]) (len l) = Ok a.
Proof.
  unfold len at 1. rewrite py_index_nonneg by lia.
  rewrite Nat2Z.id, nth_error_app2 by lia.
  rewrite Nat.sub_diag. reflexivity.
Qed.

(** ** C1: equal outflow of renting and owning *)

Lemma rent_rows_ok_step (p : HomeownershipSimulation.StockParams.t) (costs : list Q)
    (m : Z) (s s' : HomeownershipSimulation.StockState.t) :
  (1 <= m)%Z ->
  rent_rows_ok costs m s ->
  HomeownershipSimulation.stock_loop_body p costs s m = Ok s' ->
  rent_rows_ok costs (m + 1) s'.
Proof.
  intros Hm [Hlen Hrows] Hb.
  destruct (rent_loop_body_inv p costs s s' m Hb)
    as (cost & row & Ec & Hmd & Hmonth & _ & Hsum & _).
  split.
  - rewrite Hmd. unfold len in *. rewrite length_app. simpl. lia.
  - intros k Hk. rewrite Hmd.
    destruct (Z.eq_dec k m) as [->|Hne].
    + exists row, cost. split.
      * replace (m - 1)%Z
          with (len (HomeownershipSimulation.StockState.monthly_data s)) by lia.
        apply py_index_snoc.
      * auto.
    + destruct (Hrows k) as (r & c & Hr & Hc & Hmr & Hs); [lia|].
      exists r, c. split; [|auto].
      apply py_index_app_l; [lia | exact Hr].
Qed.

(** C1.  When [simulate_rent_and_invest] is given the ownership true monthly
    costs of at least [years * 12] months (and [years >= 1]), it returns a
    result with [years * 12] monthly rows, and in the row of every month [k]
    from 1 to [years * 12] the stock contribution plus the rent charged
    equals the ownership cost supplied for month [k]. *)
Theorem rent_and_invest_equal_outflow (p : HomeownershipSimulation.StockParams.t)
    (homeownership_true_monthly_costs : list Q) :
  (1 <= HomeownershipSimulation.StockParams.years p)%Z ->
  (HomeownershipSimulation.StockParams.years p * 12
   <= len homeownership_true_monthly_costs)%Z ->
  exists res,
    HomeownershipSimulation.simulate_rent_and_invest p homeownership_true_monthly_costs
    = Ok res
    /\ len (HomeownershipSimulation.stock_monthly_df res)
       = (HomeownershipSimulation.StockParams.years p * 12)%Z
    /\ forall k, (1 <= k <= HomeownershipSimulation.StockParams.years p * 12)%Z ->
         exists row cost,
           py_index (HomeownershipSimulation.stock_monthly_df res) (k - 1) = Ok row
           /\ py_index homeownership_true_monthly_costs (k - 1) = Ok cost
           /\ HomeownershipSimulation.StockRow.month row = k
           /\ HomeownershipSimulation.StockRow.monthly_contribution row
              + HomeownershipSimulation.StockRow.monthly_rent row == cost.
Proof.
  intros Hy Hlen.
  set (costs := homeownership_true_monthly_costs) in *.
  destruct (for_each_range_total
              (HomeownershipSimulation.stock_loop_body p costs)
              (rent_rows_ok costs) 1
              (HomeownershipSimulation.StockParams.years p * 12 + 1)
              (HomeownershipSimulation.stock_initial_state p))
    as (s & Es & Hs).
  - split; [reflexivity|]. intros k Hk. lia.
  - intros m t Hm Ht.
    destruct (rent_loop_body_ok p costs t m) as [t' Eb]; [lia|].
    exists t'. split; [exact Eb|].
    apply (rent_rows_ok_step p costs m t t'); [lia | exact Ht | exact Eb].
  - replace (Z.max 1 (HomeownershipSimulation.StockParams.years p * 12 + 1))
      with (HomeownershipSimulation.StockParams.years p * 12 + 1)%Z in Hs by lia.
    destruct Hs as [Hl Hrows].
    assert (Hlen1 : (1 <= len (HomeownershipSimulation.StockState.monthly_data s))%Z)
      by lia.
    destruct (py_index_last_ok _ Hlen1) as [last El].
    unfold HomeownershipSimulation.simulate_rent_and_invest,
      HomeownershipSimulation.stock_final_state.
    fold costs. rewrite Es. simpl bind.
    summary_reads Hlen1.
    eexists. split; [reflexivity|].
    simpl HomeownershipSimulation.stock_monthly_df.
    split; [lia|].
    intros k Hk. apply Hrows. lia.
Qed.

Lemma rent_and_invest_equal_outflow_witness :
  exists res,
    HomeownershipSimulation.simulate_rent_and_invest
      {| HomeownershipSimulation.StockParams.initial_investment := 27600;
         HomeownershipSimulation.StockParams.monthly_rent := 1500;
         HomeownershipSimulation.StockParams.rent_increase_rate := 0.03;
         HomeownershipSimulation.StockParams.stock_return_rate := 0.07;
         HomeownershipSimulation.StockParams.dividend_yield := 0.02;
         HomeownershipSimulation.StockParams.tax_bracket := 0.25;
         HomeownershipSimulation.StockParams.years := 1 |}
      (repeat 2000 12)
    = Ok res
    /\ len (HomeownershipSimulation.stock_monthly_df res) = 12%Z.
Proof.
  destruct (rent_and_invest_equal_outflow
              {| HomeownershipSimulation.StockParams.initial_investment := 27600;
                 HomeownershipSimulation.StockParams.monthly_rent := 1500;
                 HomeownershipSimulation.StockParams.rent_increase_rate := 0.03;
                 HomeownershipSimulation.StockParams.stock_return_rate := 0.07;
                 HomeownershipSimulation.StockParams.dividend_yield := 0.02;
                 HomeownershipSimulation.StockParams.tax_bracket := 0.25;
                 HomeownershipSimulation.StockParams.years := 1 |}
              (repeat 2000 12))
    as (res & E & Hl & _); [simpl; lia | vm_compute; discriminate |].
  exists res. split; [exact E | exact Hl].
Defined.

(** ** C7: degenerate horizons *)

Lemma amortization_zero_years (P rate : Q) :
  MortgageUtils.calculate_amortization_schedule P rate 0 = Raise ZeroDivisionError.
Proof.
  unfold MortgageUtils.calculate_amortization_schedule,
    MortgageUtils.calculate_monthly_payment.
  destruct (Qeq_bool rate 0).
  - reflexivity.
  - unfold py_pow. change (0 * 12 <? 0)%Z with false.
    rewrite andb_false_r. reflexivity.
Qed.

Lemma home_zero_horizon (fpow : Q -> Q -> Q)
    (p : HomeownershipSimulation.HomeParams.t) :
  HomeownershipSimulation.HomeParams.years p = 0%Z ->
  0 <= HomeownershipSimulation.HomeParams.mortgage_rate p ->
  (1 <= HomeownershipSimulation.HomeParams.mortgage_years p)%Z ->
  HomeownershipSimulation.home_monthly_data fpow p = Ok []
  /\ HomeownershipSimulation.simulate_homeownership fpow p = Raise IndexError.
Proof.
  intros Hy Hrate Hmy.
  assert (E : HomeownershipSimulation.home_monthly_data fpow p = Ok []).
  { unfold HomeownershipSimulation.home_monthly_data.
    destruct (amortization_schedule_ok
                (HomeownershipSimulation.HomeParams.purchase_price p
                 - HomeownershipSimulation.HomeParams.purchase_price p
                   * HomeownershipSimulation.HomeParams.down_payment_pct p)
                _ _ Hrate Hmy) as [am Eam].
    unfold HomeownershipSimulation.calculate_amortization_schedule.
    rewrite Eam, Hy. reflexivity. }
  split; [exact E|].
  unfold HomeownershipSimulation.simulate_homeownership. rewrite E. reflexivity.
Qed.

Lemma home_zero_mortgage_term (fpow : Q -> Q -> Q)
    (p : HomeownershipSimulation.HomeParams.t) :
  HomeownershipSimulation.HomeParams.mortgage_years p = 0%Z ->
  HomeownershipSimulation.simulate_homeownership fpow p = Raise ZeroDivisionError.
Proof.
  intros Hmy.
  unfold HomeownershipSimulation.simulate_homeownership,
    HomeownershipSimulation.home_monthly_data,
    HomeownershipSimulation.calculate_amortization_schedule.
  rewrite Hmy, amortization_zero_years. reflexivity.
Qed.

Lemma rent_zero_horizon (p : HomeownershipSimulation.StockParams.t) (costs : list Q) :
  HomeownershipSimulation.StockParams.years p = 0%Z ->
  HomeownershipSimulation.simulate_rent_and_invest p costs = Raise IndexError.
Proof.
  intros Hy.
  unfold HomeownershipSimulation.simulate_rent_and_invest,
    HomeownershipSimulation.stock_final_state.
  rewrite Hy. reflexivity.
Qed.

Lemma rental_zero_horizon (fpow : Q -> Q -> Q) (p : RentalSimulation.RentalParams.t) :
  RentalSimulation.RentalParams.years p = 0%Z ->
  0 <= RentalSimulation.RentalParams.mortgage_rate p ->
  (1 <= RentalSimulation.RentalParams.mortgage_years p)%Z ->
  RentalSimulation.simulate_rental_property fpow p = Raise IndexError.
Proof.
  intros Hy Hrate Hmy.
  unfold RentalSimulation.simulate_rental_property,
    RentalSimulation.rental_final_state.
  destruct (amortization_schedule_ok
              (RentalSimulation.RentalParams.purchase_price p
               - RentalSimulation.RentalParams.purchase_price p
                 * RentalSimulation.RentalParams.down_payment_pct p)
              _ _ Hrate Hmy) as [am Eam].
  unfold RentalSimulation.calculate_amortization_schedule.
  rewrite Eam, Hy. reflexivity.
Qed.

Lemma invest_zero_horizon (p : RentalSimulation.InvestParams.t) (expenses : list Q) :
  RentalSimulation.InvestParams.years p = 0%Z ->
  RentalSimulation.simulate_stock_investment p expenses = Raise IndexError.
Proof.
  intros Hy.
  unfold RentalSimulation.simulate_stock_investment,
    RentalSimulation.invest_final_state.
  rewrite Hy. reflexivity.
Qed.

Lemma legacy_stock_zero_horizon (fpow : Q -> Q -> Q) (p : Simulation.StockParams.t)
    (home rental income : option (list Q)) :
  Simulation.StockParams.years p = 0%Z ->
  Simulation.simulate_stock_investment fpow p home rental income = Raise KeyError.
Proof.
  intros Hy. unfold Simulation.simulate_stock_investment.
  rewrite Hy. reflexivity.
Qed.

Lemma rental_zero_mortgage_term (fpow : Q -> Q -> Q)
    (p : RentalSimulation.RentalParams.t) :
  RentalSimulation.RentalParams.mortgage_years p = 0%Z ->
  RentalSimulation.simulate_rental_property fpow p = Raise ZeroDivisionError.
Proof.
  intros Hmy.
  unfold RentalSimulation.simulate_rental_property,
    RentalSimulation.rental_final_state,
    RentalSimulation.calculate_amortization_schedule.
  rewrite Hmy, amortization_zero_years. reflexivity.
Qed.

Lemma legacy_home_zero_mortgage_term (fpow : Q -> Q -> Q)
    (p : Simulation.HomeParams.t) :
  Simulation.HomeParams.mortgage_years p = 0%Z ->
  Simulation.simulate_homeownership fpow p = Raise ZeroDivisionError.
Proof.
  intros Hmy. unfold Simulation.simulate_homeownership.
  rewrite Hmy, amortization_zero_years. reflexivity.
Qed.

Lemma home_zero_horizon_of_schedule (fpow : Q -> Q -> Q)
    (p : HomeownershipSimulation.HomeParams.t)
    (amortization : list MortgageUtils.AmortizationEntry) :
  HomeownershipSimulation.HomeParams.years p = 0%Z ->
  MortgageUtils.calculate_amortization_schedule (home_loan_amount p)
    (HomeownershipSimulation.HomeParams.mortgage_rate p)
    (HomeownershipSimulation.HomeParams.mortgage_years p) = Ok amortization ->
  HomeownershipSimulation.home_monthly_data fpow p = Ok []
  /\ HomeownershipSimulation.simulate_homeownership fpow p = Raise IndexError.
Proof.
  intros Hy Eam.
  assert (E : HomeownershipSimulation.home_monthly_data fpow p = Ok []).
  { unfold HomeownershipSimulation.home_monthly_data,
      HomeownershipSimulation.calculate_amortization_schedule.
    fold (home_loan_amount p). rewrite Eam, Hy. reflexivity. }
  split; [exact E|].
  unfold HomeownershipSimulation.simulate_homeownership. rewrite E. reflexivity.
Qed.

Lemma rental_zero_horizon_of_schedule (fpow : Q -> Q -> Q)
    (p : RentalSimulation.RentalParams.t)
    (amortization : list MortgageUtils.AmortizationEntry) :
  RentalSimulation.RentalParams.years p = 0%Z ->
  MortgageUtils.calculate_amortization_schedule (rental_loan_amount p)
    (RentalSimulation.RentalParams.mortgage_rate p)
    (RentalSimulation.RentalParams.mortgage_years p) = Ok amortization ->
  RentalSimulation.simulate_rental_property fpow p = Raise IndexError.
Proof.
  intros Hy Eam.
  unfold RentalSimulation.simulate_rental_property,
    RentalSimulation.rental_final_state,
    RentalSimulation.calculate_amortization_schedule.
  fold (rental_loan_amount p). rewrite Eam, Hy. reflexivity.
Qed.

Lemma legacy_home_zero_horizon (fpow : Q -> Q -> Q) (p : Simulation.HomeParams.t)
    (amortization : list MortgageUtils.AmortizationEntry) :
  Simulation.HomeParams.years p = 0%Z ->
  MortgageUtils.calculate_amortization_schedule
    (Simulation.HomeParams.purchase_price p
     - Simulation.HomeParams.purchase_price p * Simulation.HomeParams.down_payment_pct p)
    (Simulation.HomeParams.mortgage_rate p)
    (Simulation.HomeParams.mortgage_years p) = Ok amortization ->
  Simulation.simulate_homeownership fpow p = Raise KeyError.
Proof.
  intros Hy Eam. unfold Simulation.simulate_homeownership.
  rewrite Eam, Hy. reflexivity.
Qed.

(** C7 (amended).  With [mortgage_years = 0], [calculate_monthly_payment]
    divides by zero: [calculate_amortization_schedule] raises
    [ZeroDivisionError] and produces no schedule, and so do the three
    simulators that start with it, [simulate_homeownership] of
    [homeownership_simulation.py], [simulate_rental_property] of
    [rental_simulation.py] and [simulate_homeownership] of [simulation.py].
    With [years = 0] the month loop produces no rows and the summary raises:
    [IndexError] at [df.iloc[-1]] in the four simulators of
    [homeownership_simulation.py] and [rental_simulation.py], [KeyError] at
    the first column selection in the two simulators of [simulation.py]
    (in the three that build a schedule first, whenever that schedule is
    computed).  No summary aggregate is returned as 0. *)
Theorem degenerate_horizon_raises (fpow : Q -> Q -> Q) :
  (forall P rate,
     MortgageUtils.calculate_amortization_schedule P rate 0 = Raise ZeroDivisionError)
  /\ (forall p,
        HomeownershipSimulation.HomeParams.mortgage_years p = 0%Z ->
        HomeownershipSimulation.simulate_homeownership fpow p
        = Raise ZeroDivisionError)
  /\ (forall p,
        RentalSimulation.RentalParams.mortgage_years p = 0%Z ->
        RentalSimulation.simulate_rental_property fpow p = Raise ZeroDivisionError)
  /\ (forall p,
        Simulation.HomeParams.mortgage_years p = 0%Z ->
        Simulation.simulate_homeownership fpow p = Raise ZeroDivisionError)
  /\ (forall p amortization,
        HomeownershipSimulation.HomeParams.years p = 0%Z ->
        MortgageUtils.calculate_amortization_schedule (home_loan_amount p)
          (HomeownershipSimulation.HomeParams.mortgage_rate p)
          (HomeownershipSimulation.HomeParams.mortgage_years p) = Ok amortization ->
        HomeownershipSimulation.home_monthly_data fpow p = Ok []
        /\ HomeownershipSimulation.simulate_homeownership fpow p = Raise IndexError)
  /\ (forall p costs,
        HomeownershipSimulation.StockParams.years p = 0%Z ->
        HomeownershipSimulation.simulate_rent_and_invest p costs = Raise IndexError)
  /\ (forall p amortization,
        RentalSimulation.RentalParams.years p = 0%Z ->
        MortgageUtils.calculate_amortization_schedule (rental_loan_amount p)
          (RentalSimulation.RentalParams.mortgage_rate p)
          (RentalSimulation.RentalParams.mortgage_years p) = Ok amortization ->
        RentalSimulation.simulate_rental_property fpow p = Raise IndexError)
  /\ (forall p expenses,
        RentalSimulation.InvestParams.years p = 0%Z ->
        RentalSimulation.simulate_stock_investment p expenses = Raise IndexError)
  /\ (forall p amortization,
        Simulation.HomeParams.years p = 0%Z ->
        MortgageUtils.calculate_amortization_schedule
          (Simulation.HomeParams.purchase_price p
           - Simulation.HomeParams.purchase_price p
             * Simulation.HomeParams.down_payment_pct p)
          (Simulation.HomeParams.mortgage_rate p)
          (Simulation.HomeParams.mortgage_years p) = Ok amortization ->
        Simulation.simulate_homeownership fpow p = Raise KeyError)
  /\ (forall p home rental income,
        Simulation.StockParams.years p = 0%Z ->
        Simulation.simulate_stock_investment fpow p home rental income
        = Raise KeyError).
Proof.
  split; [exact amortization_zero_years|].
  split; [exact (home_zero_mortgage_term fpow)|].
  split; [exact (rental_zero_mortgage_term fpow)|].
  split; [exact (legacy_home_zero_mortgage_term fpow)|].
  split; [exact (home_zero_horizon_of_schedule fpow)|].
  split; [exact rent_zero_horizon|].
  split; [exact (rental_zero_horizon_of_schedule fpow)|].
  split; [exact invest_zero_horizon|].
  split; [exact (legacy_home_zero_horizon fpow)|].
  exact (legacy_stock_zero_horizon fpow).
Qed.

Lemma degenerate_horizon_raises_witness :
  HomeownershipSimulation.home_monthly_data fpow_linear example_home_params_zero_horizon
  = Ok []
  /\ HomeownershipSimulation.simulate_homeownership fpow_linear
       example_home_params_zero_horizon = Raise IndexError.
Proof.
  destruct (amortization_schedule_ok
              (home_loan_amount example_home_params_zero_horizon)
              (HomeownershipSimulation.HomeParams.mortgage_rate
                 example_home_params_zero_horizon)
              (HomeownershipSimulation.HomeParams.mortgage_years
                 example_home_params_zero_horizon))
    as [amortization Eam]; [discriminate | simpl; lia |].
  destruct (degenerate_horizon_raises fpow_linear) as (_ & _ & _ & _ & H & _).
  apply (H example_home_params_zero_horizon amortization); [reflexivity | exact Eam].
Defined.

(** The claim at concrete inputs: a zero-year mortgage has no schedule at
    all (not an empty one), and a zero-year horizon ends in an exception
    (not in aggregates equal to 0). *)
Lemma degenerate_horizon_counterexample :
  MortgageUtils.calculate_amortization_schedule 96000 0.06 0 <> Ok []
  /\ MortgageUtils.calculate_amortization_schedule 96000 0.06 0
     = Raise ZeroDivisionError
  /\ HomeownershipSimulation.simulate_homeownership fpow_linear
       example_home_params_zero_horizon = Raise IndexError
  /\ (forall res,
        HomeownershipSimulation.simulate_homeownership fpow_linear
          example_home_params_zero_horizon <> Ok res).
Proof.
  assert (E1 := amortization_zero_years 96000 0.06).
  assert (E2 : HomeownershipSimulation.simulate_homeownership fpow_linear
                 example_home_params_zero_horizon = Raise IndexError).
  { apply home_zero_horizon; [reflexivity | discriminate | simpl; lia]. }
  split; [rewrite E1; discriminate|].
  split; [exact E1|]. split; [exact E2|].
  intros res. rewrite E2. discriminate.
Qed.

(** ** C5: cumulative fields *)

Lemma nth_error_app_keep {A : Type} (l l' : list A) (i : nat) (a : A) :
  nth_error l i = Some a -> nth_error (l ++ l') i = Some a.
Proof.
  intros H. rewrite nth_error_app1; [exact H|].
  apply nth_error_Some. congruence.
Qed.

Lemma rental_final_state_inv (fpow : Q -> Q -> Q) (p : RentalSimulation.RentalParams.t)
    (s : RentalSimulation.RentalState.t) :
  RentalSimulation.rental_final_state fpow p = Ok s ->
  running_total RentalSimulation.RentalRow.true_cost
    RentalSimulation.RentalRow.cumulative_true_cost
    (RentalSimulation.RentalState.monthly_data s)
  /\ running_total RentalSimulation.RentalRow.monthly_operating_income
       RentalSimulation.RentalRow.cumulative_operating_income
       (RentalSimulation.RentalState.monthly_data s).
Proof.
  unfold RentalSimulation.rental_final_state. intros H. bind_inv H.
  match type of H with
  | for_each ?body (py_range 1 ?hi) ?s0 = Ok _ =>
      apply (for_each_range_inv body
               (fun _ t =>
                  running_total RentalSimulation.RentalRow.true_cost
                    RentalSimulation.RentalRow.cumulative_true_cost
                    (RentalSimulation.RentalState.monthly_data t)
                  /\ running_total RentalSimulation.RentalRow.monthly_operating_income
                       RentalSimulation.RentalRow.cumulative_operating_income
                       (RentalSimulation.RentalState.monthly_data t))
               1 hi s0 s)
  end.
  - split; apply running_total_nil.
  - intros m t t' Hm [H1 H2] Hb.
    destruct (rental_loop_body_spec fpow p
                (RentalSimulation.RentalParams.purchase_price p
                 * RentalSimulation.RentalParams.closing_costs_pct p) a t m)
      as (row & t2 & Eb & Hmd & _ & Hc1 & Hc2); [lia|].
    rewrite Eb in Hb. injection Hb as <-. rewrite Hmd.
    split; apply running_total_snoc; assumption.
  - exact H.
Qed.

(** C5.  In every run of the two ownership simulators each cumulative
    column is a running total: the value in the row of month [k] is the value
    in the row of month [k - 1] plus month [k]'s own amount (unrecoverable
    cost, tax benefit and true cost for the live-in simulator; true cost and
    operating income for the rental simulator).  An iteration appends one row
    and leaves every earlier row as it was.  The accumulators of the older
    engine's loop obey the same recurrence. *)
Theorem cumulative_fields_recurrence (fpow : Q -> Q -> Q) :
  (forall p res,
     HomeownershipSimulation.simulate_homeownership fpow p = Ok res ->
     forall k prev cur,
       nth_error (HomeownershipSimulation.home_monthly_df res) k = Some prev ->
       nth_error (HomeownershipSimulation.home_monthly_df res) (S k) = Some cur ->
       HomeownershipSimulation.HomeRow.cumulative_unrecoverable cur
       == HomeownershipSimulation.HomeRow.cumulative_unrecoverable prev
          + HomeownershipSimulation.HomeRow.unrecoverable cur
       /\ HomeownershipSimulation.HomeRow.cumulative_tax_benefits cur
          == HomeownershipSimulation.HomeRow.cumulative_tax_benefits prev
             + HomeownershipSimulation.HomeRow.monthly_tax_benefit cur
       /\ HomeownershipSimulation.HomeRow.cumulative_true_cost cur
          == HomeownershipSimulation.HomeRow.cumulative_true_cost prev
             + HomeownershipSimulation.HomeRow.true_monthly_cost cur)
  /\ (forall p res,
        RentalSimulation.simulate_rental_property fpow p = Ok res ->
        forall k prev cur,
          nth_error (RentalSimulation.rental_monthly_df res) k = Some prev ->
          nth_error (RentalSimulation.rental_monthly_df res) (S k) = Some cur ->
          RentalSimulation.RentalRow.cumulative_true_cost cur
          == RentalSimulation.RentalRow.cumulative_true_cost prev
             + RentalSimulation.RentalRow.true_cost cur
          /\ RentalSimulation.RentalRow.cumulative_operating_income cur
             == RentalSimulation.RentalRow.cumulative_operating_income prev
                + RentalSimulation.RentalRow.monthly_operating_income cur)
  /\ (forall p closing_costs amortization monthly_data month monthly_data',
        (1 <= month)%Z ->
        HomeownershipSimulation.home_loop_body fpow p closing_costs amortization
          monthly_data month = Ok monthly_data' ->
        forall i row, nth_error monthly_data i = Some row ->
                      nth_error monthly_data' i = Some row)
  /\ (forall p closing_costs amortization s month s',
        (1 <= month)%Z ->
        RentalSimulation.rental_loop_body fpow p closing_costs amortization s month
        = Ok s' ->
        forall i row,
          nth_error (RentalSimulation.RentalState.monthly_data s) i = Some row ->
          nth_error (RentalSimulation.RentalState.monthly_data s') i = Some row)
  /\ (forall p down_payment closing_costs amortization s month v,
        Simulation.home_month_locals fpow p down_payment closing_costs amortization
          s month = Ok v ->
        Simulation.HomeLocals.cumulative_unrecoverable v
        = Simulation.HomeState.cumulative_unrecoverable s
          + Simulation.HomeLocals.unrecoverable v
        /\ Simulation.HomeLocals.cumulative_operating_income v
           = Simulation.HomeState.cumulative_operating_income s
             + Simulation.HomeLocals.monthly_tax_benefit v).
Proof.
  split; [|split; [|split; [|split]]].
  - intros p res H k prev cur Hp Hc.
    apply simulate_homeownership_df in H.
    apply home_monthly_data_inv in H. destruct H as [(_ & H1 & H2 & H3) _].
    split; [|split].
    + exact (running_total_recurrence _ _ _ k prev cur H1 Hp Hc).
    + exact (running_total_recurrence _ _ _ k prev cur H2 Hp Hc).
    + exact (running_total_recurrence _ _ _ k prev cur H3 Hp Hc).
  - intros p res H k prev cur Hp Hc.
    destruct (rental_simulation_df fpow p res H) as (s & Es & Hdf).
    rewrite Hdf in Hp, Hc.
    destruct (rental_final_state_inv fpow p s Es) as [H1 H2].
    split.
    + exact (running_total_recurrence _ _ _ k prev cur H1 Hp Hc).
    + exact (running_total_recurrence _ _ _ k prev cur H2 Hp Hc).
  - intros p cc am md m md' Hm Hb i row Hi.
    destruct (home_loop_body_spec fpow p cc am md m Hm) as (r & E & _).
    rewrite E in Hb. injection Hb as <-.
    apply nth_error_app_keep. exact Hi.
  - intros p cc am s m s' Hm Hb i row Hi.
    destruct (rental_loop_body_spec fpow p cc am s m Hm) as (r & t & E & Hmd & _).
    rewrite E in Hb. injection Hb as <-. rewrite Hmd.
    apply nth_error_app_keep. exact Hi.
  - intros p dp cc am s m v H.
    unfold Simulation.home_month_locals in H.
    match type of H with
    | bind ?c _ = Ok _ => destruct c as [[[[a b] c'] d]|e]; simpl in H; [|discriminate H]
    end.
    injection H as <-. split; reflexivity.
Qed.

Lemma cumulative_fields_recurrence_witness :
  exists res,
    HomeownershipSimulation.simulate_homeownership fpow_linear example_home_params = Ok res
    /\ forall k prev cur,
         nth_error (HomeownershipSimulation.home_monthly_df res) k = Some prev ->
         nth_error (HomeownershipSimulation.home_monthly_df res) (S k) = Some cur ->
         HomeownershipSimulation.HomeRow.cumulative_true_cost cur
         == HomeownershipSimulation.HomeRow.cumulative_true_cost prev
            + HomeownershipSimulation.HomeRow.true_monthly_cost cur.
Proof.
  destruct (simulate_homeownership_total fpow_linear example_home_params)
    as [res E]; [discriminate | simpl; lia | simpl; lia |].
  exists res. split; [exact E|].
  intros k prev cur Hp Hc.
  destruct (cumulative_fields_recurrence fpow_linear) as [H _].
  apply (H example_home_params res E k prev cur Hp Hc).
Defined.

(** ** C6: the annual dividend tax *)

Ltac divmod_lia := zify; Z.div_mod_to_equations; lia.

Lemma year_tax_ok_nil {Row : Type} (dividend tax : Row -> Q) (bracket : Q) :
  year_tax_ok dividend tax bracket 0 [].
Proof.
  split.
  - reflexivity.
  - intros i r H. destruct i; discriminate.
Qed.

Lemma year_tax_ok_snoc {Row : Type} (dividend tax : Row -> Q)
    (bracket annual annual' : Q) (md : list Row) (r : Row) :
  year_tax_ok dividend tax bracket annual md ->
  (if (S (List.length md) mod 12 =? 0)%nat
   then tax r == (annual + dividend r) * bracket /\ annual' == 0
   else tax r == 0 /\ annual' == annual + dividend r) ->
  year_tax_ok dividend tax bracket annual' (md ++ [r]).
Proof.
  intros [Ha Hrows] Hstep.
  assert (Hlen : List.length (md ++ [r]) = S (List.length md))
    by (rewrite length_app; simpl; lia).
  split.
  - rewrite Hlen.
    destruct (S (List.length md) mod 12 =? 0)%nat eqn:E.
    + apply Nat.eqb_eq in E. destruct Hstep as [_ Hn]. rewrite Hn.
      rewrite skipn_all2 by (rewrite Hlen; divmod_lia). reflexivity.
    + apply Nat.eqb_neq in E. destruct Hstep as [_ Hn]. rewrite Hn.
      replace (S (List.length md) / 12)%nat with (List.length md / 12)%nat
        by divmod_lia.
      rewrite skipn_app.
      replace (12 * (List.length md / 12) - List.length md)%nat with 0%nat
        by divmod_lia.
      change (skipn 0 [r]) with [r].
      rewrite map_app, py_sum_app. simpl map. rewrite py_sum_cons.
      change (py_sum []) with 0. rewrite <- Ha. ring.
  - intros i x Hi.
    destruct (Nat.lt_ge_cases i (List.length md)) as [Hlt|Hge].
    + rewrite nth_error_app1 in Hi by exact Hlt.
      specialize (Hrows i x Hi).
      destruct (S i mod 12 =? 0)%nat eqn:E; [|exact Hrows].
      apply Nat.eqb_eq in E.
      rewrite skipn_app, firstn_app.
      replace (12 - List.length (skipn (i - 11) md))%nat with 0%nat
        by (rewrite length_skipn; divmod_lia).
      change (firstn 0 (skipn (i - 11 - List.length md) [r])) with (@nil Row).
      rewrite app_nil_r. exact Hrows.
    + rewrite nth_error_app2 in Hi by exact Hge.
      destruct (i - List.length md)%nat as [|j] eqn:Ei;
        [|destruct j; discriminate].
      injection Hi as <-.
      assert (Hi : i = List.length md) by lia. subst i.
      destruct (S (List.length md) mod 12 =? 0)%nat eqn:E.
      * destruct Hstep as [Ht _]. rewrite Ht. apply Nat.eqb_eq in E.
        rewrite skipn_app.
        replace (List.length md - 11 - List.length md)%nat with 0%nat by lia.
        change (skipn 0 [r]) with [r].
        rewrite firstn_all2
          by (rewrite length_app, length_skipn; simpl; divmod_lia).
        rewrite map_app, py_sum_app. simpl map. rewrite py_sum_cons.
        change (py_sum []) with 0. rewrite Ha.
        replace (12 * (List.length md / 12))%nat with (List.length md - 11)%nat
          by divmod_lia.
        ring.
      * destruct Hstep as [Ht _]. exact Ht.
Qed.

(** The month test of the code, read on the number of rows already built. *)
Lemma tax_event_rows {Row : Type} (md : list Row) (month : Z)
    (bracket annual cumulative dividend tax annual' cumulative' : Q) :
  len md = (month - 1)%Z ->
  tax_event month bracket annual cumulative dividend tax annual' cumulative' ->
  if (S (List.length md) mod 12 =? 0)%nat
  then tax == (annual + dividend) * bracket /\ annual' == 0
  else tax == 0 /\ annual' == annual + dividend.
Proof.
  unfold tax_event, len. intros Hlen H.
  destruct ((month - 1) mod 12 + 1 =? 12)%Z eqn:E1;
    destruct (S (List.length md) mod 12 =? 0)%nat eqn:E2.
  - destruct H as (-> & _ & ->). split; reflexivity.
  - apply Z.eqb_eq in E1. apply Nat.eqb_neq in E2. exfalso. divmod_lia.
  - apply Z.eqb_neq in E1. apply Nat.eqb_eq in E2. exfalso. divmod_lia.
  - destruct H as (-> & _ & ->). split; reflexivity.
Qed.

Lemma invest_loop_body_inv (p : RentalSimulation.InvestParams.t)
    (expenses : list Q) (s s' : RentalSimulation.InvestState.t) (month : Z) :
  RentalSimulation.invest_loop_body p expenses s month = Ok s' ->
  exists row,
    RentalSimulation.InvestState.monthly_data s'
    = RentalSimulation.InvestState.monthly_data s ++ [row]
    /\ RentalSimulation.InvestRow.month row = month
    /\ RentalSimulation.InvestRow.cumulative_cost row
       = RentalSimulation.InvestState.cumulative_dividend_tax s'
    /\ tax_event month (RentalSimulation.InvestParams.tax_bracket p)
         (RentalSimulation.InvestState.annual_dividends s)
         (RentalSimulation.InvestState.cumulative_dividend_tax s)
         (RentalSimulation.InvestRow.monthly_dividend row)
         (RentalSimulation.InvestRow.dividend_tax row)
         (RentalSimulation.InvestState.annual_dividends s')
         (RentalSimulation.InvestState.cumulative_dividend_tax s').
Proof.
  unfold RentalSimulation.invest_loop_body, tax_event. intros H.
  bind_inv H.
  destruct ((month - 1) mod 12 + 1 =? 12)%Z;
    cbv beta iota zeta in H; injection H as <-;
    (eexists; split; [reflexivity|]; split; [reflexivity|];
     split; [reflexivity|]; repeat split).
Qed.

Lemma legacy_stock_loop_body_inv (p : Simulation.StockParams.t)
    (home rental income : option (list Q)) (s s' : Simulation.StockState.t) (month : Z) :
  Simulation.stock_loop_body p home rental income s month = Ok s' ->
  exists row,
    Simulation.StockState.monthly_data s'
    = Simulation.StockState.monthly_data s ++ [row]
    /\ Simulation.StockRow.month row = month
    /\ Simulation.StockRow.dividend_tax row
       = Simulation.StockRow.monthly_dividend row
         * match Simulation.StockParams.dividend_tax_rate p with
           | Some r => r
           | None => 0.15
           end.
Proof.
  unfold Simulation.stock_loop_body. intros H.
  bind_inv H. injection H as <-.
  eexists. split; [reflexivity|]. split; reflexivity.
Qed.

(** The rows built by the month loop of [simulate_rent_and_invest]. *)
Lemma rent_final_state_tax_rows (p : HomeownershipSimulation.StockParams.t)
    (costs : list Q) (s : HomeownershipSimulation.StockState.t) :
  HomeownershipSimulation.stock_final_state p costs = Ok s ->
  year_tax_ok HomeownershipSimulation.StockRow.monthly_dividend
    HomeownershipSimulation.StockRow.dividend_tax
    (HomeownershipSimulation.StockParams.tax_bracket p)
    (HomeownershipSimulation.StockState.annual_dividends s)
    (HomeownershipSimulation.StockState.monthly_data s).
Proof.
  unfold HomeownershipSimulation.stock_final_state. intros H.
  match type of H with
  | for_each ?body (py_range 1 ?hi) ?s0 = Ok _ =>
      pose proof
        (for_each_range_inv body
           (fun m t =>
              len (HomeownershipSimulation.StockState.monthly_data t) = (m - 1)%Z
              /\ year_tax_ok HomeownershipSimulation.StockRow.monthly_dividend
                   HomeownershipSimulation.StockRow.dividend_tax
                   (HomeownershipSimulation.StockParams.tax_bracket p)
                   (HomeownershipSimulation.StockState.annual_dividends t)
                   (HomeownershipSimulation.StockState.monthly_data t))
           1 hi s0 s) as Hinv
  end.
  apply Hinv; [| |exact H].
  - split; [reflexivity|]. apply year_tax_ok_nil.
  - intros m t t' Hm [Hlen Hok] Hb.
    destruct (rent_loop_body_inv p costs t t' m Hb)
      as (cost & row & _ & Hmd & _ & _ & _ & _ & _ & Hev).
    rewrite Hmd. split.
    + unfold len in *. rewrite length_app. simpl. lia.
    + apply year_tax_ok_snoc with
        (annual := HomeownershipSimulation.StockState.annual_dividends t);
        [exact Hok|].
      exact (tax_event_rows _ m _ _ _ _ _ _ _ Hlen Hev).
Qed.

(** The rows built by the month loop of [simulate_stock_investment]. *)
Lemma invest_final_state_tax_rows (p : RentalSimulation.InvestParams.t)
    (expenses : list Q) (s : RentalSimulation.InvestState.t) :
  RentalSimulation.invest_final_state p expenses = Ok s ->
  year_tax_ok RentalSimulation.InvestRow.monthly_dividend
    RentalSimulation.InvestRow.dividend_tax
    (RentalSimulation.InvestParams.tax_bracket p)
    (RentalSimulation.InvestState.annual_dividends s)
    (RentalSimulation.InvestState.monthly_data s).
Proof.
  unfold RentalSimulation.invest_final_state. intros H.
  match type of H with
  | for_each ?body (py_range 1 ?hi) ?s0 = Ok _ =>
      pose proof
        (for_each_range_inv body
           (fun m t =>
              len (RentalSimulation.InvestState.monthly_data t) = (m - 1)%Z
              /\ year_tax_ok RentalSimulation.InvestRow.monthly_dividend
                   RentalSimulation.InvestRow.dividend_tax
                   (RentalSimulation.InvestParams.tax_bracket p)
                   (RentalSimulation.InvestState.annual_dividends t)
                   (RentalSimulation.InvestState.monthly_data t))
           1 hi s0 s) as Hinv
  end.
  apply Hinv; [| |exact H].
  - split; [reflexivity|]. apply year_tax_ok_nil.
  - intros m t t' Hm [Hlen Hok] Hb.
    destruct (invest_loop_body_inv p expenses t t' m Hb)
      as (row & Hmd & _ & _ & Hev).
    rewrite Hmd. split.
    + unfold len in *. rewrite length_app. simpl. lia.
    + apply year_tax_ok_snoc with
        (annual := RentalSimulation.InvestState.annual_dividends t);
        [exact Hok|].
      exact (tax_event_rows _ m _ _ _ _ _ _ _ Hlen Hev).
Qed.

Lemma simulate_rent_and_invest_df (p : HomeownershipSimulation.StockParams.t)
    (costs : list Q) (res : HomeownershipSimulation.StockResult) :
  HomeownershipSimulation.simulate_rent_and_invest p costs = Ok res ->
  exists s,
    HomeownershipSimulation.stock_final_state p costs = Ok s
    /\ HomeownershipSimulation.stock_monthly_df res
       = HomeownershipSimulation.StockState.monthly_data s
    /\ HomeownershipSimulation.StockSummary.total_dividend_tax
         (HomeownershipSimulation.stock_summary res)
       = HomeownershipSimulation.StockState.cumulative_dividend_tax s.
Proof.
  unfold HomeownershipSimulation.simulate_rent_and_invest. intros H.
  bind_inv H. injection H as <-. eexists. repeat split.
Qed.

Lemma simulate_stock_investment_df (p : RentalSimulation.InvestParams.t)
    (expenses : list Q) (res : RentalSimulation.InvestResult) :
  RentalSimulation.simulate_stock_investment p expenses = Ok res ->
  exists s,
    RentalSimulation.invest_final_state p expenses = Ok s
    /\ RentalSimulation.invest_monthly_df res
       = RentalSimulation.InvestState.monthly_data s.
Proof.
  unfold RentalSimulation.simulate_stock_investment. intros H.
  bind_inv H. injection H as <-. eexists. repeat split.
Qed.

Lemma simulate_rent_and_invest_total (p : HomeownershipSimulation.StockParams.t)
    (costs : list Q) :
  (1 <= HomeownershipSimulation.StockParams.years p)%Z ->
  (HomeownershipSimulation.StockParams.years p * 12 <= len costs)%Z ->
  exists res, HomeownershipSimulation.simulate_rent_and_invest p costs = Ok res.
Proof.
  intros Hy Hlen.
  destruct (for_each_range_total
              (HomeownershipSimulation.stock_loop_body p costs)
              (fun m t =>
                 len (HomeownershipSimulation.StockState.monthly_data t) = (m - 1)%Z)
              1 (HomeownershipSimulation.StockParams.years p * 12 + 1)
              (HomeownershipSimulation.stock_initial_state p))
    as (s & Es & Hs).
  - reflexivity.
  - intros m t Hm Ht.
    destruct (rent_loop_body_ok p costs t m) as [t' Eb]; [lia|].
    exists t'. split; [exact Eb|].
    destruct (rent_loop_body_inv p costs t t' m Eb) as (_ & row & _ & Hmd & _).
    rewrite Hmd. unfold len in *. rewrite length_app. simpl. lia.
  - assert (Hlen1 : (1 <= len (HomeownershipSimulation.StockState.monthly_data s))%Z)
      by lia.
    destruct (py_index_last_ok _ Hlen1) as [last El].
    unfold HomeownershipSimulation.simulate_rent_and_invest,
      HomeownershipSimulation.stock_final_state.
    rewrite Es. simpl bind. summary_reads Hlen1. eexists. reflexivity.
Qed.

(** C6 (amended).  In [homeownership_simulation.simulate_rent_and_invest] and
    [rental_simulation.simulate_stock_investment] a dividend tax is charged
    only in the 12th month of a simulated year: there it is the accumulated
    dividends of the year (the accumulator plus the month's dividend) times
    the tax bracket, it is added to [cumulative_dividend_tax] and the
    accumulator is reset to 0; in every other month the recorded tax is 0,
    the cumulative tax is unchanged and the month's dividend is added to the
    accumulator ([tax_event]).  Over a whole run, the row closing a year
    carries the tax bracket times the sum of the [monthly_dividend] of that
    year's twelve rows, and every other row a tax of 0.  The stock simulator
    of the older [simulation.py] instead charges
    [monthly_dividend * dividend_tax_rate] (0.15 by default) every month. *)
Theorem annual_dividend_tax :
  (forall p costs s s' month,
     HomeownershipSimulation.stock_loop_body p costs s month = Ok s' ->
     exists row,
       HomeownershipSimulation.StockState.monthly_data s'
       = HomeownershipSimulation.StockState.monthly_data s ++ [row]
       /\ HomeownershipSimulation.StockRow.cumulative_dividend_tax row
          = HomeownershipSimulation.StockState.cumulative_dividend_tax s'
       /\ tax_event month (HomeownershipSimulation.StockParams.tax_bracket p)
            (HomeownershipSimulation.StockState.annual_dividends s)
            (HomeownershipSimulation.StockState.cumulative_dividend_tax s)
            (HomeownershipSimulation.StockRow.monthly_dividend row)
            (HomeownershipSimulation.StockRow.dividend_tax row)
            (HomeownershipSimulation.StockState.annual_dividends s')
            (HomeownershipSimulation.StockState.cumulative_dividend_tax s'))
  /\ (forall p expenses s s' month,
        RentalSimulation.invest_loop_body p expenses s month = Ok s' ->
        exists row,
          RentalSimulation.InvestState.monthly_data s'
          = RentalSimulation.InvestState.monthly_data s ++ [row]
          /\ tax_event month (RentalSimulation.InvestParams.tax_bracket p)
               (RentalSimulation.InvestState.annual_dividends s)
               (RentalSimulation.InvestState.cumulative_dividend_tax s)
               (RentalSimulation.InvestRow.monthly_dividend row)
               (RentalSimulation.InvestRow.dividend_tax row)
               (RentalSimulation.InvestState.annual_dividends s')
               (RentalSimulation.InvestState.cumulative_dividend_tax s'))
  /\ (forall p costs res,
        HomeownershipSimulation.simulate_rent_and_invest p costs = Ok res ->
        forall i row,
          nth_error (HomeownershipSimulation.stock_monthly_df res) i = Some row ->
          if (S i mod 12 =? 0)%nat
          then HomeownershipSimulation.StockRow.dividend_tax row
               == py_sum (map HomeownershipSimulation.StockRow.monthly_dividend
                            (firstn 12 (skipn (i - 11)
                               (HomeownershipSimulation.stock_monthly_df res))))
                  * HomeownershipSimulation.StockParams.tax_bracket p
          else HomeownershipSimulation.StockRow.dividend_tax row == 0)
  /\ (forall p expenses res,
        RentalSimulation.simulate_stock_investment p expenses = Ok res ->
        forall i row,
          nth_error (RentalSimulation.invest_monthly_df res) i = Some row ->
          if (S i mod 12 =? 0)%nat
          then RentalSimulation.InvestRow.dividend_tax row
               == py_sum (map RentalSimulation.InvestRow.monthly_dividend
                            (firstn 12 (skipn (i - 11)
                               (RentalSimulation.invest_monthly_df res))))
                  * RentalSimulation.InvestParams.tax_bracket p
          else RentalSimulation.InvestRow.dividend_tax row == 0)
  /\ (forall p home rental income s s' month,
        Simulation.stock_loop_body p home rental income s month = Ok s' ->
        exists row,
          Simulation.StockState.monthly_data s'
          = Simulation.StockState.monthly_data s ++ [row]
          /\ Simulation.StockRow.dividend_tax row
             = Simulation.StockRow.monthly_dividend row
               * match Simulation.StockParams.dividend_tax_rate p with
                 | Some r => r
                 | None => 0.15
                 end).
Proof.
  split; [|split; [|split; [|split]]].
  - intros p costs s s' m H.
    destruct (rent_loop_body_inv p costs s s' m H)
      as (cost & row & _ & Hmd & _ & _ & _ & _ & Hc & Hev).
    exists row. auto.
  - intros p expenses s s' m H.
    destruct (invest_loop_body_inv p expenses s s' m H) as (row & Hmd & _ & _ & Hev).
    exists row. auto.
  - intros p costs res H i row Hi.
    destruct (simulate_rent_and_invest_df p costs res H) as (s & Es & Hdf & _).
    rewrite Hdf in *.
    destruct (rent_final_state_tax_rows p costs s Es) as [_ Hrows].
    exact (Hrows i row Hi).
  - intros p expenses res H i row Hi.
    destruct (simulate_stock_investment_df p expenses res H) as (s & Es & Hdf).
    rewrite Hdf in *.
    destruct (invest_final_state_tax_rows p expenses s Es) as [_ Hrows].
    exact (Hrows i row Hi).
  - intros p home rental income s s' m H.
    destruct (legacy_stock_loop_body_inv p home rental income s s' m H)
      as (row & Hmd & _ & Ht).
    exists row. auto.
Qed.

Lemma annual_dividend_tax_witness :
  exists res,
    HomeownershipSimulation.simulate_rent_and_invest example_stock_params
      (repeat 2000 12) = Ok res
    /\ forall i row,
         nth_error (HomeownershipSimulation.stock_monthly_df res) i = Some row ->
         if (S i mod 12 =? 0)%nat
         then HomeownershipSimulation.StockRow.dividend_tax row
              == py_sum (map HomeownershipSimulation.StockRow.monthly_dividend
                           (firstn 12 (skipn (i - 11)
                              (HomeownershipSimulation.stock_monthly_df res))))
                 * HomeownershipSimulation.StockParams.tax_bracket example_stock_params
         else HomeownershipSimulation.StockRow.dividend_tax row == 0.
Proof.
  destruct (simulate_rent_and_invest_total example_stock_params (repeat 2000 12))
    as [res E]; [simpl; lia | vm_compute; discriminate |].
  exists res. split; [exact E|].
  destruct annual_dividend_tax as (_ & _ & H & _).
  exact (H example_stock_params (repeat 2000 12) res E).
Defined.

(** The first month of [simulation.simulate_stock_investment] on the example
    inputs: it is not the 12th month of a year, and the recorded dividend tax
    is not 0. *)
Lemma legacy_monthly_dividend_tax_counterexample :
  exists s' row,
    Simulation.stock_loop_body example_legacy_stock_params None None None
      (Simulation.stock_initial_state example_legacy_stock_params) 1 = Ok s'
    /\ Simulation.StockState.monthly_data s' = [row]
    /\ ((1 - 1) mod 12 + 1 <> 12)%Z
    /\ ~ (Simulation.StockRow.dividend_tax row == 0).
Proof.
  eexists. eexists. split; [reflexivity|]. split; [reflexivity|].
  split; [discriminate|].
  intros H. vm_compute in H. discriminate H.
Qed.

(* ================================================================== *)
(** * Further properties of the amortization code *)
(* ================================================================== *)

Lemma py_max_0_nonneg (x : Q) : 0 <= x -> py_max 0 x == x.
Proof.
  intros H. unfold py_max.
  destruct (Qle_bool x 0) eqn:E; [|reflexivity].
  apply Qle_bool_iff in E. lra.
Qed.

Lemma py_max_0_ge (x : Q) : 0 <= py_max 0 x.
Proof. apply py_max_le_l. Qed.

(** With a zero rate every payment reduces the running balance by the
    payment. *)
Lemma balance_after_zero_rate (pay r : Q) (n : nat) (b : Q) :
  r == 0 -> balance_after pay r n b == b - inject_Z (Z.of_nat n) * pay.
Proof.
  intros Hr. induction n as [|n IH].
  - simpl. ring.
  - change (balance_after pay r (S n) b)
      with (next_balance pay r (balance_after pay r n b)).
    unfold next_balance. rewrite Nat2Z.inj_succ, <- Z.add_1_r, inject_Z_plus.
    change (inject_Z 1) with 1.
    set (ba := balance_after pay r n b) in *.
    assert (E : ba * r == 0) by (rewrite Hr; ring).
    rewrite E, IH. ring.
Qed.

(** The schedule the function returns, its payment, and the two facts the
    payment formula is chosen for: it covers the first month's interest and
    it clears the running balance with the last payment. *)
Lemma amortization_schedule_shape (P rate : Q) (years : Z) :
  0 <= P -> 0 <= rate -> (1 <= years)%Z ->
  exists pay,
    MortgageUtils.calculate_monthly_payment P rate years = Ok pay
    /\ MortgageUtils.calculate_amortization_schedule P rate years
       = Ok (MortgageUtils.schedule_loop pay (rate / 12)
               (py_range 1 (years * 12 + 1)) P [])
    /\ P * (rate / 12) <= pay
    /\ balance_after pay (rate / 12) (Z.to_nat (years * 12)) P == 0.
Proof.
  intros HP Hrate Hy.
  destruct (Qlt_le_dec 0 rate) as [Hpos|Hle].
  - destruct (monthly_payment_positive_rate P rate years Hpos Hy) as [Hqn Epay].
    set (r := rate / 12) in *. set (qn := (1 + r) ^ (years * 12)) in *.
    set (pay := P * (r * qn) / (qn - 1)) in *.
    assert (Hr : 0 < r) by (apply div12_pos; exact Hpos).
    exists pay. split; [exact Epay|]. split.
    { unfold MortgageUtils.calculate_amortization_schedule. rewrite Epay. reflexivity. }
    split.
    { apply (monthly_payment_covers_interest P rate years); try assumption. }
    assert (H := balance_after_closed pay r (Z.to_nat (years * 12)) P).
    rewrite Z2Nat.id in H by lia. fold qn in H.
    assert (Hp : pay * (qn - 1) == P * (r * qn)).
    { unfold pay. field. lra. }
    assert (H0 : balance_after pay r (Z.to_nat (years * 12)) P * r == 0).
    { rewrite H, Hp. ring. }
    apply Qmult_integral in H0. destruct H0 as [H0|H0]; [exact H0|lra].
  - assert (H0 : rate == 0) by lra.
    assert (Epay := monthly_payment_zero_rate P rate years H0 Hy).
    exists (P / inject_Z (years * 12)). split; [exact Epay|]. split.
    { unfold MortgageUtils.calculate_amortization_schedule. rewrite Epay. reflexivity. }
    split.
    { apply (monthly_payment_covers_interest P rate years); try assumption. }
    assert (Hr : rate / 12 == 0) by (rewrite H0; reflexivity).
    rewrite (balance_after_zero_rate _ _ _ _ Hr).
    rewrite Z2Nat.id by lia.
    assert (Hn : 0 < inject_Z (years * 12)).
    { change 0 with (inject_Z 0). rewrite <- Zlt_Qlt. lia. }
    field. lra.
Qed.

(** Until the last payment the running balance is not negative, so the
    [max(0, balance)] of the schedule never changes it. *)
Lemma balance_after_nonneg (pay r : Q) (n i : nat) (b : Q) :
  0 <= r -> b * r <= pay -> (i <= n)%nat ->
  balance_after pay r n b == 0 ->
  0 <= balance_after pay r i b.
Proof.
  intros Hr Hcov Hin Hz.
  rewrite <- Hz. apply balance_after_antitone; assumption.
Qed.

Lemma balance_after_le_start (pay r : Q) (i : nat) (b : Q) :
  0 <= r -> b * r <= pay -> balance_after pay r i b <= b.
Proof.
  intros Hr Hcov.
  change b with (balance_after pay r 0 b) at 2.
  apply balance_after_antitone; try assumption. lia.
Qed.

(** The exact value of the payment formula amortizes the loan. *)
Lemma monthly_payment_amortizes (P rate : Q) (years : Z) (pay : Q) :
  0 <= P -> 0 <= rate -> (1 <= years)%Z ->
  MortgageUtils.calculate_monthly_payment P rate years = Ok pay ->
  amortizes P rate years pay.
Proof.
  intros HP Hrate Hy Epay.
  destruct (amortization_schedule_shape P rate years HP Hrate Hy)
    as (pay' & Epay' & _ & Hcov & Hz).
  rewrite Epay in Epay'. injection Epay' as <-.
  split; assumption.
Qed.

(** The value [calculate_remaining_balance] returns for a month count that
    is not negative, in terms of the payment the schedule is built with:
    0 from the end of the term on, the loan amount at 0, and in between the
    running balance after that many payments, clamped at 0. *)
Lemma remaining_balance_of_payment (P rate : Q) (years months_paid : Z) (pay : Q) :
  (0 <= months_paid)%Z ->
  MortgageUtils.calculate_monthly_payment P rate years = Ok pay ->
  MortgageUtilsRest.calculate_remaining_balance P rate years months_paid
  = Ok (if (years * 12 <=? months_paid)%Z then 0
        else if (months_paid =? 0)%Z then P
        else py_max 0 (balance_after pay (rate / 12) (Z.to_nat months_paid) P)).
Proof.
  intros Hm Epay. unfold MortgageUtilsRest.calculate_remaining_balance.
  destruct (years * 12 <=? months_paid)%Z eqn:Ege; [reflexivity|].
  apply Z.leb_gt in Ege.
  rewrite (amortization_schedule_of_payment P rate years pay Epay).
  cbv beta iota zeta delta [bind].
  destruct (months_paid =? 0)%Z eqn:E0; [reflexivity|].
  apply Z.eqb_neq in E0.
  set (sch := MortgageUtils.schedule_loop pay (rate / 12)
                (py_range 1 (years * 12 + 1)) P []).
  assert (Hlen : List.length sch = Z.to_nat (years * 12)).
  { unfold sch. rewrite schedule_loop_length. apply length_schedule_months. }
  destruct (py_index_in_range sch (months_paid - 1)) as (e & Ee & Hn).
  { unfold len. rewrite Hlen. lia. }
  rewrite Ee. apply schedule_loop_nth in Hn. destruct Hn as (_ & _ & _ & ->).
  replace (S (Z.to_nat (months_paid - 1))) with (Z.to_nat months_paid) by lia.
  reflexivity.
Qed.

(** X1.  For a loan amount and a rate that are not negative and a term of at
    least one year, whenever the amortization schedule is computed,
    [calculate_remaining_balance] returns for every month count from 0 on;
    the balance lies between 0 and the loan amount and never increases with
    the number of months paid. *)
Theorem remaining_balance_bounds (P rate : Q) (years m1 m2 : Z)
    (schedule : list MortgageUtils.AmortizationEntry) :
  0 <= P -> 0 <= rate -> (1 <= years)%Z -> (0 <= m1 <= m2)%Z ->
  MortgageUtils.calculate_amortization_schedule P rate years = Ok schedule ->
  exists b1 b2,
    MortgageUtilsRest.calculate_remaining_balance P rate years m1 = Ok b1
    /\ MortgageUtilsRest.calculate_remaining_balance P rate years m2 = Ok b2
    /\ 0 <= b2 /\ b2 <= b1 /\ b1 <= P.
Proof.
  intros HP Hrate Hy Hm Hsch.
  destruct (amortization_schedule_inv P rate years schedule Hsch) as (pay & Epay & _).
  assert (Hcov : P * (rate / 12) <= pay)
    by (apply (monthly_payment_covers_interest P rate years); assumption).
  assert (Hr : 0 <= rate / 12) by (apply div12_nonneg; exact Hrate).
  eexists. eexists.
  split; [apply (remaining_balance_of_payment P rate years m1 pay); [lia|exact Epay]|].
  split; [apply (remaining_balance_of_payment P rate years m2 pay); [lia|exact Epay]|].
  assert (Hle : forall m, py_max 0 (balance_after pay (rate / 12) m P) <= P).
  { intros m. rewrite <- (py_max_0_nonneg P HP) at 2.
    apply py_max_mono. apply balance_after_le_start; assumption. }
  destruct (years * 12 <=? m2)%Z eqn:E2.
  - split; [apply Qle_refl|].
    destruct (years * 12 <=? m1)%Z; [split; [apply Qle_refl|exact HP]|].
    destruct (m1 =? 0)%Z; [split; [exact HP|apply Qle_refl]|].
    split; [apply py_max_0_ge|apply Hle].
  - apply Z.leb_gt in E2.
    destruct (years * 12 <=? m1)%Z eqn:E1; [apply Z.leb_le in E1; lia|].
    destruct (m2 =? 0)%Z eqn:E20.
    + apply Z.eqb_eq in E20.
      destruct (m1 =? 0)%Z eqn:E10; [|apply Z.eqb_neq in E10; lia].
      split; [exact HP|]. split; apply Qle_refl.
    + split; [apply py_max_0_ge|].
      destruct (m1 =? 0)%Z eqn:E10.
      * split; [apply Hle|apply Qle_refl].
      * split; [|apply Hle].
        apply py_max_mono. apply balance_after_antitone; try assumption. lia.
Qed.

Lemma remaining_balance_bounds_witness :
  exists b1 b2,
    MortgageUtilsRest.calculate_remaining_balance 96000 0.06 30 12 = Ok b1
    /\ MortgageUtilsRest.calculate_remaining_balance 96000 0.06 30 120 = Ok b2
    /\ 0 <= b2 /\ b2 <= b1 /\ b1 <= 96000.
Proof.
  destruct (amortization_schedule_ok 96000 0.06 30) as [schedule E];
    [discriminate | lia |].
  apply (remaining_balance_bounds 96000 0.06 30 12 120 schedule);
    [discriminate | discriminate | lia | lia | exact E].
Defined.





(** The interest column of the rows the loop appends: each payment is
    interest plus principal, and the principal column telescopes. *)
Lemma schedule_loop_interest_sum (pay r : Q) (months : list Z) (b : Q) :
  py_sum (map MortgageUtils.interest (MortgageUtils.schedule_loop pay r months b []))
  == inject_Z (Z.of_nat (List.length months)) * pay
     - (b - balance_after pay r (List.length months) b).
Proof.
  revert b. induction months as [|m ms IH]; intros b.
  - simpl. unfold py_sum. simpl. ring.
  - rewrite schedule_loop_cons. cbn [map MortgageUtils.interest].
    rewrite py_sum_cons, IH.
    cbn [List.length]. rewrite balance_after_shift.
    rewrite Nat2Z.inj_succ, <- Z.add_1_r, inject_Z_plus.
    change (inject_Z 1) with 1. unfold next_balance. ring.
Qed.



(** X5.  Over the life of the loan the split of the constant payment
    shifts from interest to principal: along every schedule the function
    returns for a loan amount and a rate that are not negative, the
    [interest] column never increases and the [principal] column never
    decreases.  When the payment amortizes the loan (it does not overshoot),
    no month's interest is negative. *)
Theorem amortization_interest_shifts_to_principal (P rate : Q) (years : Z)
    (schedule : list MortgageUtils.AmortizationEntry) :
  0 <= P -> 0 <= rate -> (1 <= years)%Z ->
  MortgageUtils.calculate_amortization_schedule P rate years = Ok schedule ->
  exists pay,
    MortgageUtils.calculate_monthly_payment P rate years = Ok pay
    /\ (forall i j ei ej, (i <= j)%nat ->
          nth_error schedule i = Some ei ->
          nth_error schedule j = Some ej ->
          MortgageUtils.interest ej <= MortgageUtils.interest ei
          /\ MortgageUtils.principal ei <= MortgageUtils.principal ej)
    /\ (amortizes P rate years pay ->
          forall e, In e schedule -> 0 <= MortgageUtils.interest e).
Proof.
  intros HP Hrate Hy Hsch.
  destruct (amortization_schedule_inv P rate years schedule Hsch) as (pay & Epay & ->).
  assert (Hcov : P * (rate / 12) <= pay)
    by (apply (monthly_payment_covers_interest P rate years); assumption).
  assert (Hr : 0 <= rate / 12) by (apply div12_nonneg; exact Hrate).
  exists pay. split; [exact Epay|]. split.
  - intros i j ei ej Hij Hi Hj.
    apply schedule_loop_nth in Hi. destruct Hi as (_ & Ii & Pi & _).
    apply schedule_loop_nth in Hj. destruct Hj as (_ & Ij & Pj & _).
    rewrite Ii, Ij, Pi, Pj.
    assert (Hanti : balance_after pay (rate / 12) j P
                    <= balance_after pay (rate / 12) i P).
    { apply balance_after_antitone; assumption. }
    set (bi := balance_after pay (rate / 12) i P) in *.
    set (bj := balance_after pay (rate / 12) j P) in *.
    set (r := rate / 12) in *.
    assert (H2 : bj * r <= bi * r).
    { apply Qmult_le_compat_r; assumption. }
    split; [exact H2|]. lra.
  - intros [_ Hz] e He. apply In_nth_error in He. destruct He as [i Hi].
    assert (Hi' : (i < List.length (MortgageUtils.schedule_loop pay (rate / 12)
                                     (py_range 1 (years * 12 + 1)) P []))%nat).
    { apply nth_error_Some. rewrite Hi. discriminate. }
    rewrite schedule_loop_length, length_schedule_months in Hi'.
    apply schedule_loop_nth in Hi. destruct Hi as (_ & -> & _ & _).
    apply Qmult_le_0_compat; [|exact Hr].
    apply (balance_after_nonneg pay (rate / 12) (Z.to_nat (years * 12)));
      try assumption. lia.
Qed.

Lemma amortization_interest_shifts_to_principal_witness :
  exists schedule,
    MortgageUtils.calculate_amortization_schedule 96000 0.06 30 = Ok schedule
    /\ (forall i j ei ej, (i <= j)%nat ->
          nth_error schedule i = Some ei ->
          nth_error schedule j = Some ej ->
          MortgageUtils.interest ej <= MortgageUtils.interest ei
          /\ MortgageUtils.principal ei <= MortgageUtils.principal ej)
    /\ (forall e, In e schedule -> 0 <= MortgageUtils.interest e).
Proof.
  destruct (amortization_schedule_ok 96000 0.06 30) as [schedule E];
    [discriminate | lia |].
  destruct (amortization_interest_shifts_to_principal 96000 0.06 30 schedule)
    as (pay & Epay & Hmono & Hnn); [discriminate | discriminate | lia | exact E |].
  exists schedule. split; [exact E|]. split; [exact Hmono|].
  apply Hnn.
  apply (monthly_payment_amortizes 96000 0.06 30);
    [discriminate | discriminate | lia | exact Epay].
Defined.

(* ================================================================== *)
(** * Further properties of the tax helpers *)
(* ================================================================== *)

Lemma py_min_le_l (a b : Q) : py_min a b <= a.
Proof.
  unfold py_min. destruct (Qle_bool a b) eqn:E; simpl; [lra|].
  destruct (Qlt_le_dec b a) as [H|H]; [lra|].
  apply Qle_bool_iff in H. congruence.
Qed.

Lemma py_min_le_r (a b : Q) : py_min a b <= b.
Proof.
  unfold py_min. destruct (Qle_bool a b) eqn:E; simpl; [|lra].
  apply Qle_bool_iff in E. exact E.
Qed.

Lemma py_min_glb (a b c : Q) : c <= a -> c <= b -> c <= py_min a b.
Proof.
  intros Ha Hb. unfold py_min. destruct (Qle_bool a b); simpl; assumption.
Qed.

(** X6.  [calculate_primary_residence_exclusion]: below two years of
    ownership nothing is excluded.  From two years on the excluded amount
    never exceeds the gain nor the cap (250000, or 500000 for a married
    couple), and the gain that stays taxable, [max(0, gain - excluded)] as
    the callers compute it, is exactly the part of the gain above the cap;
    for a loss the function returns the loss itself, a negative
    exclusion. *)
Theorem primary_residence_exclusion_caps_gain (gain holding : Q) (is_married : bool) :
  let cap : Q := if is_married then 500000 else 250000 in
  let excluded :=
    TaxUtils.calculate_primary_residence_exclusion gain holding is_married in
  (holding < 2 -> excluded = 0)
  /\ (2 <= holding ->
        excluded <= gain /\ excluded <= cap
        /\ py_max 0 (gain - excluded) == py_max 0 (gain - cap)
        /\ (gain <= cap -> excluded = gain))
  /\ (2 <= holding -> gain < 0 -> excluded < 0).
Proof.
  intros cap excluded. unfold excluded, TaxUtils.calculate_primary_residence_exclusion.
  fold cap.
  destruct (Qle_bool 2 holding) eqn:E2; simpl.
  - apply Qle_bool_iff in E2. split; [intros H; lra|].
    destruct (Qle_bool gain cap) eqn:Eg; simpl.
    + apply Qle_bool_iff in Eg. split; [|intros _ Hneg; exact Hneg].
      intros _. split; [lra|]. split; [exact Eg|]. split; [|reflexivity].
      unfold py_max.
      destruct (Qle_bool (gain - gain) 0) eqn:Ea;
        [|apply not_true_iff_false in Ea; exfalso; apply Ea;
          apply Qle_bool_iff; lra].
      destruct (Qle_bool (gain - cap) 0) eqn:Eb; [reflexivity|].
      apply not_true_iff_false in Eb. exfalso. apply Eb. apply Qle_bool_iff. lra.
    + assert (Hlt : cap < gain).
      { destruct (Qlt_le_dec cap gain) as [H|H]; [exact H|].
        apply Qle_bool_iff in H. congruence. }
      split.
      * intros _. split; [lra|]. split; [lra|]. split; [reflexivity|].
        intros H. lra.
      * intros _ Hneg. exfalso. unfold cap in Hlt.
        destruct is_married; lra.
  - split; [reflexivity|].
    assert (Hlt : holding < 2).
    { destruct (Qlt_le_dec holding 2) as [H|H]; [exact H|].
      apply Qle_bool_iff in H. congruence. }
    split; intros H; lra.
Qed.

Lemma primary_residence_exclusion_caps_gain_witness :
  TaxUtils.calculate_primary_residence_exclusion 300000 1 false = 0
  /\ py_max 0 (300000 - TaxUtils.calculate_primary_residence_exclusion 300000 5 false)
     == py_max 0 (300000 - 250000)
  /\ TaxUtils.calculate_primary_residence_exclusion (-1000) 5 true < 0.
Proof.
  destruct (primary_residence_exclusion_caps_gain 300000 1 false) as (H1 & _ & _).
  destruct (primary_residence_exclusion_caps_gain 300000 5 false) as (_ & H2 & _).
  destruct (primary_residence_exclusion_caps_gain (-1000) 5 true) as (_ & _ & H3).
  split; [apply H1; reflexivity|].
  split; [apply H2; discriminate | apply H3; [discriminate | reflexivity]].
Defined.

(** X7.  [calculate_property_tax_deduction]: for a tax rate that is not
    negative the benefit never exceeds [salt_cap * tax_rate], nor the
    uncapped [property_tax * tax_rate]; it does not decrease when the
    property tax grows, and it stops growing at the cap. *)
Theorem property_tax_deduction_capped (property_tax property_tax' tax_rate salt_cap : Q) :
  0 <= tax_rate ->
  TaxUtilsRest.calculate_property_tax_deduction property_tax tax_rate salt_cap
  <= salt_cap * tax_rate
  /\ TaxUtilsRest.calculate_property_tax_deduction property_tax tax_rate salt_cap
     <= property_tax * tax_rate
  /\ (property_tax <= property_tax' ->
        TaxUtilsRest.calculate_property_tax_deduction property_tax tax_rate salt_cap
        <= TaxUtilsRest.calculate_property_tax_deduction property_tax' tax_rate
             salt_cap)
  /\ (salt_cap <= property_tax ->
        TaxUtilsRest.calculate_property_tax_deduction property_tax tax_rate salt_cap
        == salt_cap * tax_rate).
Proof.
  intros Hr. unfold TaxUtilsRest.calculate_property_tax_deduction. cbv zeta.
  split; [apply Qmult_le_compat_r; [apply py_min_le_r|exact Hr]|].
  split; [apply Qmult_le_compat_r; [apply py_min_le_l|exact Hr]|].
  split.
  - intros Hle. apply Qmult_le_compat_r; [|exact Hr].
    apply py_min_glb.
    + apply Qle_trans with property_tax; [apply py_min_le_l|exact Hle].
    + apply py_min_le_r.
  - intros Hcap.
    assert (E : py_min property_tax salt_cap == salt_cap).
    { apply Qle_antisym; [apply py_min_le_r|].
      apply py_min_glb; [exact Hcap|lra]. }
    rewrite E. reflexivity.
Qed.

Lemma property_tax_deduction_capped_witness :
  TaxUtilsRest.calculate_property_tax_deduction 14400 0.25 10000 <= 10000 * 0.25
  /\ TaxUtilsRest.calculate_property_tax_deduction 14400 0.25 10000 == 10000 * 0.25.
Proof.
  destruct (property_tax_deduction_capped 14400 14400 0.25 10000) as (H1 & _ & _ & H4);
    [discriminate|].
  split; [exact H1 | apply H4; discriminate].
Defined.

(** X8.  [calculate_passive_income_tax]: for a tax rate that is not negative
    the tax is never negative (a loss is not refunded), it is 0 whenever
    expenses and depreciation cover the rental income, and more depreciation
    never raises it. *)
Theorem passive_income_tax_floor (rental_income expenses depreciation depreciation'
    tax_rate : Q) :
  0 <= tax_rate ->
  0 <= TaxUtilsRest.calculate_passive_income_tax rental_income expenses depreciation
         tax_rate
  /\ (rental_income <= expenses + depreciation ->
        TaxUtilsRest.calculate_passive_income_tax rental_income expenses depreciation
          tax_rate = 0)
  /\ (expenses + depreciation < rental_income ->
        TaxUtilsRest.calculate_passive_income_tax rental_income expenses depreciation
          tax_rate = (rental_income - expenses - depreciation) * tax_rate)
  /\ (depreciation <= depreciation' ->
        TaxUtilsRest.calculate_passive_income_tax rental_income expenses depreciation'
          tax_rate
        <= TaxUtilsRest.calculate_passive_income_tax rental_income expenses depreciation
             tax_rate).
Proof.
  intros Hr.
  assert (Hcase : forall d,
            (rental_income <= expenses + d
             /\ TaxUtilsRest.calculate_passive_income_tax rental_income expenses d
                  tax_rate = 0)
            \/ (expenses + d < rental_income
                /\ TaxUtilsRest.calculate_passive_income_tax rental_income expenses d
                     tax_rate = (rental_income - expenses - d) * tax_rate)).
  { intros d. unfold TaxUtilsRest.calculate_passive_income_tax. cbv zeta.
    destruct (Qle_bool (rental_income - expenses - d) 0) eqn:E; simpl.
    - left. apply Qle_bool_iff in E. split; [lra|reflexivity].
    - right. split; [|reflexivity].
      destruct (Qlt_le_dec (expenses + d) rental_income) as [H|H]; [exact H|].
      assert (H' : rental_income - expenses - d <= 0) by lra.
      apply Qle_bool_iff in H'. congruence. }
  assert (Hpos : forall d, expenses + d < rental_income ->
                   0 <= (rental_income - expenses - d) * tax_rate).
  { intros d Hd. apply Qmult_le_0_compat; lra. }
  split; [|split; [|split]].
  - destruct (Hcase depreciation) as [[_ ->]|[H ->]]; [lra|apply Hpos; exact H].
  - intros H. destruct (Hcase depreciation) as [[_ E]|[H' _]]; [exact E|lra].
  - intros H. destruct (Hcase depreciation) as [[H' _]|[_ E]]; [lra|exact E].
  - intros Hd.
    destruct (Hcase depreciation') as [[_ ->]|[H' ->]].
    + destruct (Hcase depreciation) as [[_ ->]|[H ->]]; [lra|apply Hpos; exact H].
    + destruct (Hcase depreciation) as [[H _]|[H ->]]; [lra|].
      apply Qmult_le_compat_r; [lra|exact Hr].
Qed.

Lemma passive_income_tax_floor_witness :
  0 <= TaxUtilsRest.calculate_passive_income_tax 24000 30000 8000 0.25
  /\ TaxUtilsRest.calculate_passive_income_tax 24000 30000 8000 0.25 = 0.
Proof.
  destruct (passive_income_tax_floor 24000 30000 8000 8000 0.25) as (H1 & H2 & _);
    [discriminate|].
  split; [exact H1 | apply H2; discriminate].
Defined.

(* ================================================================== *)
(** * Further properties of the live-in simulator *)
(* ================================================================== *)

(** The lookup both simulators make in the amortization schedule. *)
Lemma mortgage_lookup_nth (amortization : list MortgageUtils.AmortizationEntry)
    (month : Z) :
  (1 <= month)%Z ->
  (if (month <=? len amortization)%Z then
     e <- py_index amortization (month - 1) ;;
     Ok (MortgageUtils.payment e, MortgageUtils.principal e,
         MortgageUtils.interest e, MortgageUtils.balance e)
   else Ok (0, 0, 0, 0)) = Ok (mortgage_columns amortization month).
Proof.
  intros Hm. unfold mortgage_columns.
  destruct (month <=? len amortization)%Z eqn:E.
  - apply Z.leb_le in E.
    destruct (py_index_in_range amortization (month - 1)) as (e & Ee & Hn); [lia|].
    rewrite Ee, Hn. reflexivity.
  - apply Z.leb_gt in E.
    destruct (nth_error amortization (Z.to_nat (month - 1))) eqn:Hn; [|reflexivity].
    assert (H : (Z.to_nat (month - 1) < List.length amortization)%nat).
    { apply nth_error_Some. rewrite Hn. discriminate. }
    unfold len in E. lia.
Qed.

Lemma home_loop_body_shape (fpow : Q -> Q -> Q)
    (p : HomeownershipSimulation.HomeParams.t) (closing_costs : Q)
    (amortization : list MortgageUtils.AmortizationEntry)
    (monthly_data : list HomeownershipSimulation.HomeRow.t) (month : Z) :
  (1 <= month)%Z ->
  exists row,
    HomeownershipSimulation.home_loop_body fpow p closing_costs amortization
      monthly_data month = Ok (monthly_data ++ [row])
    /\ HomeownershipSimulation.HomeRow.month row = month
    /\ home_row_shape fpow p closing_costs amortization row.
Proof.
  intros Hm. unfold HomeownershipSimulation.home_loop_body.
  rewrite (mortgage_lookup_nth amortization month Hm).
  destruct (mortgage_columns amortization month) as [[[a b] c] d] eqn:E.
  cbv beta iota zeta delta [bind].
  eexists. split; [reflexivity|]. split; [reflexivity|].
  unfold home_row_shape. cbn [HomeownershipSimulation.HomeRow.month
    HomeownershipSimulation.HomeRow.year
    HomeownershipSimulation.HomeRow.property_value
    HomeownershipSimulation.HomeRow.mortgage_payment
    HomeownershipSimulation.HomeRow.principal_payment
    HomeownershipSimulation.HomeRow.interest_payment
    HomeownershipSimulation.HomeRow.remaining_balance
    HomeownershipSimulation.HomeRow.property_tax_monthly
    HomeownershipSimulation.HomeRow.hoa HomeownershipSimulation.HomeRow.insurance
    HomeownershipSimulation.HomeRow.maintenance
    HomeownershipSimulation.HomeRow.total_costs_before_tax
    HomeownershipSimulation.HomeRow.unrecoverable
    HomeownershipSimulation.HomeRow.equity
    HomeownershipSimulation.HomeRow.net_proceeds].
  rewrite E. repeat (split; [reflexivity|]). reflexivity.
Qed.

(** Every row of the frame [simulate_homeownership] builds carries its
    month number (row [i] is month [i + 1]) and the values of that month. *)
Lemma home_monthly_data_shape (fpow : Q -> Q -> Q)
    (p : HomeownershipSimulation.HomeParams.t)
    (amortization : list MortgageUtils.AmortizationEntry)
    (df : list HomeownershipSimulation.HomeRow.t) :
  MortgageUtils.calculate_amortization_schedule (home_loan_amount p)
    (HomeownershipSimulation.HomeParams.mortgage_rate p)
    (HomeownershipSimulation.HomeParams.mortgage_years p) = Ok amortization ->
  HomeownershipSimulation.home_monthly_data fpow p = Ok df ->
  forall i row, nth_error df i = Some row ->
    HomeownershipSimulation.HomeRow.month row = (Z.of_nat i + 1)%Z
    /\ home_row_shape fpow p (home_closing_costs p) amortization row.
Proof.
  intros Hsch. unfold HomeownershipSimulation.home_monthly_data.
  unfold HomeownershipSimulation.calculate_amortization_schedule.
  fold (home_loan_amount p). rewrite Hsch. cbv beta iota zeta delta [bind].
  fold (home_closing_costs p). intros H.
  match type of H with
  | for_each ?body (py_range 1 ?hi) [] = Ok _ =>
      pose proof (for_each_range_inv body
                    (fun m md =>
                       len md = (m - 1)%Z
                       /\ forall i row, nth_error md i = Some row ->
                            HomeownershipSimulation.HomeRow.month row
                            = (Z.of_nat i + 1)%Z
                            /\ home_row_shape fpow p (home_closing_costs p)
                                 amortization row)
                    1 hi [] df) as Hinv
  end.
  apply Hinv; [| |exact H].
  - split; [reflexivity|]. intros i row Hi. destruct i; discriminate.
  - intros m t t' Hm [Hl Hrows] Hb.
    destruct (home_loop_body_shape fpow p (home_closing_costs p) amortization t m
                ltac:(lia)) as (row & Eb & Hmonth & Hshape).
    rewrite Eb in Hb. injection Hb as <-.
    split.
    + unfold len in *. rewrite length_app. simpl. lia.
    + intros i r Hi.
      destruct (Nat.lt_ge_cases i (List.length t)) as [Hlt|Hge].
      * rewrite nth_error_app1 in Hi by exact Hlt. apply Hrows. exact Hi.
      * rewrite nth_error_app2 in Hi by exact Hge.
        destruct (i - List.length t)%nat as [|k] eqn:Ek.
        -- simpl in Hi. injection Hi as <-. split; [|exact Hshape].
           rewrite Hmonth. unfold len in Hl. lia.
        -- simpl in Hi. destruct k; discriminate.
Qed.

(** Sums of a column that is read off a schedule and is 0 beyond it. *)
Lemma py_sum_map_ext {A : Type} (f g : A -> Q) (l : list A) :
  (forall a, In a l -> f a == g a) -> py_sum (map f l) == py_sum (map g l).
Proof.
  induction l as [|a l IH]; intros H.
  - reflexivity.
  - cbn [map]. rewrite !py_sum_cons, IH.
    + rewrite (H a) by (left; reflexivity). reflexivity.
    + intros b Hb. apply H. right. exact Hb.
Qed.

Lemma py_sum_snoc (l : list Q) (x : Q) : py_sum (l ++ [x]) == py_sum l + x.
Proof.
  rewrite py_sum_app. unfold py_sum at 2. simpl. ring.
Qed.


(** A prefix of the schedule is the schedule of the first months. *)
Lemma schedule_loop_firstn (pay r : Q) (months : list Z) (b : Q) (k : nat) :
  firstn k (MortgageUtils.schedule_loop pay r months b [])
  = MortgageUtils.schedule_loop pay r (firstn k months) b [].
Proof.
  revert b k. induction months as [|m ms IH]; intros b k.
  - rewrite !firstn_nil. reflexivity.
  - destruct k as [|k]; [reflexivity|].
    rewrite schedule_loop_cons. cbn [firstn].
    rewrite schedule_loop_cons, IH. reflexivity.
Qed.


Lemma schedule_prefix_interest_sum (pay r : Q) (months : list Z) (b : Q) (k : nat) :
  py_sum (map MortgageUtils.interest
            (firstn k (MortgageUtils.schedule_loop pay r months b [])))
  == inject_Z (Z.of_nat (Nat.min k (List.length months))) * pay
     - (b - balance_after pay r (Nat.min k (List.length months)) b).
Proof.
  rewrite schedule_loop_firstn, schedule_loop_interest_sum, length_firstn.
  reflexivity.
Qed.

(** What [simulate_homeownership] puts in the summary, in terms of the last
    row of the frame. *)
Lemma simulate_homeownership_inv (fpow : Q -> Q -> Q)
    (p : HomeownershipSimulation.HomeParams.t)
    (res : HomeownershipSimulation.HomeResult) :
  HomeownershipSimulation.simulate_homeownership fpow p = Ok res ->
  exists last,
    HomeownershipSimulation.home_monthly_data fpow p
    = Ok (HomeownershipSimulation.home_monthly_df res)
    /\ py_index (HomeownershipSimulation.home_monthly_df res) (-1) = Ok last
    /\ HomeownershipSimulation.home_summary res
       = {| HomeownershipSimulation.HomeSummary.initial_payment :=
              HomeownershipSimulation.HomeParams.purchase_price p
              * HomeownershipSimulation.HomeParams.down_payment_pct p
              + HomeownershipSimulation.HomeParams.purchase_price p
                * HomeownershipSimulation.HomeParams.closing_costs_pct p;
            HomeownershipSimulation.HomeSummary.final_property_value :=
              HomeownershipSimulation.HomeRow.property_value last;
            HomeownershipSimulation.HomeSummary.final_equity :=
              HomeownershipSimulation.HomeRow.property_value last
              - HomeownershipSimulation.HomeRow.remaining_balance last;
            HomeownershipSimulation.HomeSummary.selling_costs :=
              HomeownershipSimulation.HomeRow.property_value last
              * HomeownershipSimulation.HomeParams.selling_cost_pct p;
            HomeownershipSimulation.HomeSummary.final_net_proceeds :=
              HomeownershipSimulation.HomeRow.property_value last
              - HomeownershipSimulation.HomeRow.remaining_balance last
              - HomeownershipSimulation.HomeRow.property_value last
                * HomeownershipSimulation.HomeParams.selling_cost_pct p;
            HomeownershipSimulation.HomeSummary.total_unrecoverable_costs :=
              HomeownershipSimulation.HomeRow.cumulative_unrecoverable last;
            HomeownershipSimulation.HomeSummary.total_tax_benefits :=
              HomeownershipSimulation.HomeRow.cumulative_tax_benefits last;
            HomeownershipSimulation.HomeSummary.total_true_cost :=
              HomeownershipSimulation.HomeRow.cumulative_true_cost last
              + HomeownershipSimulation.HomeRow.property_value last
                * HomeownershipSimulation.HomeParams.selling_cost_pct p;
            HomeownershipSimulation.HomeSummary.total_principal_paid :=
              py_sum (map HomeownershipSimulation.HomeRow.principal_payment
                        (HomeownershipSimulation.home_monthly_df res)) |}.
Proof.
  unfold HomeownershipSimulation.simulate_homeownership. intros H.
  bind_inv H. injection H as <-.
  cbn [HomeownershipSimulation.home_monthly_df HomeownershipSimulation.home_summary].
  repeat match goal with
         | E : df_column _ _ = Ok _ |- _ => apply df_column_inv in E; subst
         end.
  repeat match goal with
         | E : py_index (map _ _) _ = Ok _ |- _ =>
             rewrite py_index_map in E;
             match type of E with
             | bind (py_index ?l ?i) _ = Ok _ =>
                 match goal with
                 | E' : py_index l i = Ok _ |- _ =>
                     rewrite E' in E; simpl in E; injection E as <-
                 end
             end
         end.
  eexists. split; [reflexivity|]. split; [eassumption|]. reflexivity.
Qed.

(** In every schedule the function returns, each payment is its principal
    part plus its interest part. *)
Lemma schedule_payment_split (P rate : Q) (years : Z)
    (schedule : list MortgageUtils.AmortizationEntry) (i : nat)
    (e : MortgageUtils.AmortizationEntry) :
  MortgageUtils.calculate_amortization_schedule P rate years = Ok schedule ->
  nth_error schedule i = Some e ->
  MortgageUtils.payment e == MortgageUtils.principal e + MortgageUtils.interest e.
Proof.
  unfold MortgageUtils.calculate_amortization_schedule. intros H Hi.
  bind_inv H. injection H as <-.
  apply schedule_loop_nth in Hi. destruct Hi as (-> & -> & -> & _). ring.
Qed.

(** The last value of a running total is the sum of the whole column. *)
Lemma running_total_last {A : Type} (delta cum : A -> Q) (l : list A) (last : A) :
  running_total delta cum l ->
  py_index l (-1) = Ok last ->
  cum last == py_sum (map delta l).
Proof.
  intros Hrt Hl. apply py_index_last_inv in Hl. destruct Hl as (n & Hlen & Hn).
  rewrite (Hrt n last Hn).
  assert (E : l = firstn n l ++ [last]).
  { rewrite <- (firstn_succ_nth l n last Hn). rewrite firstn_all2 by lia. reflexivity. }
  rewrite E at 2. rewrite map_app, py_sum_app. cbn [map].
  unfold py_sum at 3. simpl. ring.
Qed.

Lemma py_sum_map_lin3 {A : Type} (t u v w : A -> Q) (l : list A) :
  (forall a, In a l -> t a == u a + v a - w a) ->
  py_sum (map t l) == py_sum (map u l) + py_sum (map v l) - py_sum (map w l).
Proof.
  induction l as [|a l IH]; intros H.
  - unfold py_sum. simpl. ring.
  - cbn [map]. rewrite !py_sum_cons, IH.
    + rewrite (H a) by (left; reflexivity). ring.
    + intros b Hb. apply H. right. exact Hb.
Qed.

Lemma home_schedule_of_run (fpow : Q -> Q -> Q)
    (p : HomeownershipSimulation.HomeParams.t)
    (df : list HomeownershipSimulation.HomeRow.t) :
  HomeownershipSimulation.home_monthly_data fpow p = Ok df ->
  exists amortization,
    MortgageUtils.calculate_amortization_schedule (home_loan_amount p)
      (HomeownershipSimulation.HomeParams.mortgage_rate p)
      (HomeownershipSimulation.HomeParams.mortgage_years p) = Ok amortization.
Proof.
  unfold HomeownershipSimulation.home_monthly_data,
    HomeownershipSimulation.calculate_amortization_schedule.
  fold (home_loan_amount p). intros H.
  destruct (MortgageUtils.calculate_amortization_schedule (home_loan_amount p)
              (HomeownershipSimulation.HomeParams.mortgage_rate p)
              (HomeownershipSimulation.HomeParams.mortgage_years p)) as [a|e];
    [|discriminate H].
  exists a. reflexivity.
Qed.

Lemma mortgage_columns_nth (amortization : list MortgageUtils.AmortizationEntry)
    (i : nat) :
  mortgage_columns amortization (Z.of_nat i + 1)
  = match nth_error amortization i with
    | Some e => (MortgageUtils.payment e, MortgageUtils.principal e,
                 MortgageUtils.interest e, MortgageUtils.balance e)
    | None => (0, 0, 0, 0)
    end.
Proof.
  unfold mortgage_columns.
  replace (Z.to_nat (Z.of_nat i + 1 - 1)) with i by lia. reflexivity.
Qed.

(** X9.  The mortgage columns of the live-in frame are the amortization
    schedule, month by month: row [i] belongs to month [i + 1] and year
    [i / 12 + 1]; while the loan runs it carries the payment, principal,
    interest and balance of the schedule's entry [i]; once the schedule is
    exhausted all four are 0 and the equity is the whole property value. *)
Theorem home_rows_follow_schedule (fpow : Q -> Q -> Q)
    (p : HomeownershipSimulation.HomeParams.t)
    (res : HomeownershipSimulation.HomeResult) :
  HomeownershipSimulation.simulate_homeownership fpow p = Ok res ->
  exists amortization,
    MortgageUtils.calculate_amortization_schedule (home_loan_amount p)
      (HomeownershipSimulation.HomeParams.mortgage_rate p)
      (HomeownershipSimulation.HomeParams.mortgage_years p) = Ok amortization
    /\ forall i row,
         nth_error (HomeownershipSimulation.home_monthly_df res) i = Some row ->
         HomeownershipSimulation.HomeRow.month row = (Z.of_nat i + 1)%Z
         /\ HomeownershipSimulation.HomeRow.year row = (Z.of_nat i / 12 + 1)%Z
         /\ match nth_error amortization i with
            | Some e =>
                HomeownershipSimulation.HomeRow.mortgage_payment row
                = MortgageUtils.payment e
                /\ HomeownershipSimulation.HomeRow.principal_payment row
                   = MortgageUtils.principal e
                /\ HomeownershipSimulation.HomeRow.interest_payment row
                   = MortgageUtils.interest e
                /\ HomeownershipSimulation.HomeRow.remaining_balance row
                   = MortgageUtils.balance e
            | None =>
                HomeownershipSimulation.HomeRow.mortgage_payment row = 0
                /\ HomeownershipSimulation.HomeRow.principal_payment row = 0
                /\ HomeownershipSimulation.HomeRow.interest_payment row = 0
                /\ HomeownershipSimulation.HomeRow.remaining_balance row = 0
                /\ HomeownershipSimulation.HomeRow.equity row
                   == HomeownershipSimulation.HomeRow.property_value row
            end.
Proof.
  intros H. apply simulate_homeownership_df in H.
  destruct (home_schedule_of_run fpow p _ H) as [amortization Hsch].
  exists amortization. split; [exact Hsch|].
  intros i row Hi.
  destruct (home_monthly_data_shape fpow p amortization _ Hsch H i row Hi)
    as (Hmonth & Hshape).
  destruct Hshape as (Hyear & _ & Hcols & _ & _ & _ & _ & _ & _ & Heq & _).
  rewrite Hmonth in Hcols, Hyear. rewrite mortgage_columns_nth in Hcols.
  split; [exact Hmonth|]. split.
  { rewrite Hyear. f_equal. f_equal. lia. }
  destruct (nth_error amortization i) as [e|].
  - injection Hcols as -> -> -> ->. repeat split; reflexivity.
  - injection Hcols as H1 H2 H3 H4.
    repeat (split; [assumption|]). rewrite Heq, H4. ring.
Qed.

Lemma home_rows_follow_schedule_witness :
  exists res amortization,
    HomeownershipSimulation.simulate_homeownership fpow_linear example_home_params
    = Ok res
    /\ MortgageUtils.calculate_amortization_schedule
         (home_loan_amount example_home_params) 0.06 1 = Ok amortization
    /\ forall i row,
         nth_error (HomeownershipSimulation.home_monthly_df res) i = Some row ->
         HomeownershipSimulation.HomeRow.month row = (Z.of_nat i + 1)%Z.
Proof.
  destruct (simulate_homeownership_total fpow_linear example_home_params)
    as [res E]; [discriminate | simpl; lia | simpl; lia |].
  destruct (home_rows_follow_schedule fpow_linear example_home_params res E)
    as (amortization & Hsch & Hrows).
  exists res, amortization. split; [exact E|]. split; [exact Hsch|].
  intros i row Hi. apply (Hrows i row Hi).
Defined.



(** The true cost of a month against its unrecoverable cost: the principal
    part of the payment is added, the tax benefit is taken off, and the
    closing costs of month 1 are not part of it. *)
Lemma home_row_true_cost (fpow : Q -> Q -> Q)
    (p : HomeownershipSimulation.HomeParams.t)
    (amortization : list MortgageUtils.AmortizationEntry)
    (df : list HomeownershipSimulation.HomeRow.t) (i : nat)
    (row : HomeownershipSimulation.HomeRow.t) :
  MortgageUtils.calculate_amortization_schedule (home_loan_amount p)
    (HomeownershipSimulation.HomeParams.mortgage_rate p)
    (HomeownershipSimulation.HomeParams.mortgage_years p) = Ok amortization ->
  HomeownershipSimulation.home_monthly_data fpow p = Ok df ->
  nth_error df i = Some row ->
  HomeownershipSimulation.HomeRow.true_monthly_cost row
  == HomeownershipSimulation.HomeRow.unrecoverable row
     - (if (Z.of_nat i =? 0)%Z then home_closing_costs p else 0)
     + HomeownershipSimulation.HomeRow.principal_payment row
     - HomeownershipSimulation.HomeRow.monthly_tax_benefit row.
Proof.
  intros Hsch Hdf Hi.
  destruct (home_monthly_data_shape fpow p amortization df Hsch Hdf i row Hi)
    as (Hm & Hshape).
  destruct (home_monthly_data_inv fpow p df Hdf) as [(Hall & _) _].
  rewrite Forall_forall in Hall.
  destruct (Hall row (nth_error_In _ _ Hi)) as [_ Htrue].
  destruct Hshape as (_ & _ & Hcols & _ & _ & _ & _ & Htot & Hun & _).
  rewrite Htrue, Htot, Hun, Hm.
  rewrite Hm, mortgage_columns_nth in Hcols.
  assert (Hsplit : HomeownershipSimulation.HomeRow.mortgage_payment row
                   == HomeownershipSimulation.HomeRow.principal_payment row
                      + HomeownershipSimulation.HomeRow.interest_payment row).
  { destruct (nth_error amortization i) as [e|] eqn:En.
    - injection Hcols as -> -> -> _.
      apply (schedule_payment_split _ _ _ _ i e Hsch En).
    - injection Hcols as -> -> -> _. ring. }
  rewrite Hsplit.
  replace (Z.of_nat i + 1 =? 1)%Z with (Z.of_nat i =? 0)%Z
    by (destruct (Z.of_nat i =? 0)%Z eqn:E1, (Z.of_nat i + 1 =? 1)%Z eqn:E2;
        try reflexivity;
        [apply Z.eqb_eq in E1; apply Z.eqb_neq in E2
        |apply Z.eqb_neq in E1; apply Z.eqb_eq in E2]; lia).
  destruct (Z.of_nat i =? 0)%Z; ring.
Qed.

(** X11.  The summary's totals are tied together: whenever
    [simulate_homeownership] returns,
    [total_true_cost = total_unrecoverable_costs - closing costs
       + total_principal_paid - total_tax_benefits + selling_costs].
    So the "true cost" counts the principal repaid and the selling costs,
    and it leaves out the closing costs that the unrecoverable total
    includes. *)
Theorem home_true_cost_accounting (fpow : Q -> Q -> Q)
    (p : HomeownershipSimulation.HomeParams.t)
    (res : HomeownershipSimulation.HomeResult) :
  HomeownershipSimulation.simulate_homeownership fpow p = Ok res ->
  let s := HomeownershipSimulation.home_summary res in
  HomeownershipSimulation.HomeSummary.total_true_cost s
  == HomeownershipSimulation.HomeSummary.total_unrecoverable_costs s
     - home_closing_costs p
     + HomeownershipSimulation.HomeSummary.total_principal_paid s
     - HomeownershipSimulation.HomeSummary.total_tax_benefits s
     + HomeownershipSimulation.HomeSummary.selling_costs s.
Proof.
  intros H s. unfold s.
  destruct (simulate_homeownership_inv fpow p res H) as (last & Edf & Elast & Esum).
  rewrite Esum.
  cbn [HomeownershipSimulation.HomeSummary.total_true_cost
       HomeownershipSimulation.HomeSummary.total_unrecoverable_costs
       HomeownershipSimulation.HomeSummary.total_principal_paid
       HomeownershipSimulation.HomeSummary.total_tax_benefits
       HomeownershipSimulation.HomeSummary.selling_costs].
  set (df := HomeownershipSimulation.home_monthly_df res) in *.
  destruct (home_schedule_of_run fpow p df Edf) as [amortization Hsch].
  destruct (home_monthly_data_inv fpow p df Edf) as [(_ & Hu & Hb & Ht) _].
  rewrite (running_total_last _ _ df last Ht Elast).
  rewrite (running_total_last _ _ df last Hu Elast).
  rewrite (running_total_last _ _ df last Hb Elast).
  assert (Hrow := fun i row => home_row_true_cost fpow p amortization df i row Hsch Edf).
  assert (Hne : df <> []).
  { intros E. rewrite E in Elast. rewrite py_index_last_empty in Elast. discriminate. }
  destruct df as [|first rest]; [congruence|].
  cbn [map]. rewrite !py_sum_cons.
  rewrite (py_sum_map_lin3 HomeownershipSimulation.HomeRow.true_monthly_cost
             HomeownershipSimulation.HomeRow.unrecoverable
             HomeownershipSimulation.HomeRow.principal_payment
             HomeownershipSimulation.HomeRow.monthly_tax_benefit rest).
  - rewrite (Hrow O first eq_refl). cbn [Z.of_nat Z.eqb]. ring.
  - intros a Ha. apply In_nth_error in Ha. destruct Ha as [i Hi].
    rewrite (Hrow (S i) a Hi).
    destruct (Z.of_nat (S i) =? 0)%Z eqn:E; [apply Z.eqb_eq in E; lia|]. ring.
Qed.

Lemma home_true_cost_accounting_witness :
  exists res,
    HomeownershipSimulation.simulate_homeownership fpow_linear example_home_params
    = Ok res
    /\ HomeownershipSimulation.HomeSummary.total_true_cost
         (HomeownershipSimulation.home_summary res)
       == HomeownershipSimulation.HomeSummary.total_unrecoverable_costs
            (HomeownershipSimulation.home_summary res)
          - home_closing_costs example_home_params
          + HomeownershipSimulation.HomeSummary.total_principal_paid
              (HomeownershipSimulation.home_summary res)
          - HomeownershipSimulation.HomeSummary.total_tax_benefits
              (HomeownershipSimulation.home_summary res)
          + HomeownershipSimulation.HomeSummary.selling_costs
              (HomeownershipSimulation.home_summary res).
Proof.
  destruct (simulate_homeownership_total fpow_linear example_home_params)
    as [res E]; [discriminate | simpl; lia | simpl; lia |].
  exists res. split; [exact E|].
  apply (home_true_cost_accounting fpow_linear example_home_params res E).
Defined.

(** X12.  The headline figures of the summary are those of the frame's
    last row: [final_property_value], [final_equity] and
    [final_net_proceeds] are the last month's [property_value], [equity] and
    [net_proceeds], and the three totals are the sums of the monthly
    columns. *)
Theorem home_summary_is_last_row (fpow : Q -> Q -> Q)
    (p : HomeownershipSimulation.HomeParams.t)
    (res : HomeownershipSimulation.HomeResult) :
  HomeownershipSimulation.simulate_homeownership fpow p = Ok res ->
  let s := HomeownershipSimulation.home_summary res in
  let df := HomeownershipSimulation.home_monthly_df res in
  exists last,
    py_index df (-1) = Ok last
    /\ HomeownershipSimulation.HomeRow.month last
       = (HomeownershipSimulation.HomeParams.years p * 12)%Z
    /\ HomeownershipSimulation.HomeSummary.final_property_value s
       = HomeownershipSimulation.HomeRow.property_value last
    /\ HomeownershipSimulation.HomeSummary.final_equity s
       = HomeownershipSimulation.HomeRow.equity last
    /\ HomeownershipSimulation.HomeSummary.final_net_proceeds s
       = HomeownershipSimulation.HomeRow.net_proceeds last
    /\ HomeownershipSimulation.HomeSummary.total_unrecoverable_costs s
       == py_sum (map HomeownershipSimulation.HomeRow.unrecoverable df)
    /\ HomeownershipSimulation.HomeSummary.total_tax_benefits s
       == py_sum (map HomeownershipSimulation.HomeRow.monthly_tax_benefit df)
    /\ HomeownershipSimulation.HomeSummary.total_true_cost s
       == py_sum (map HomeownershipSimulation.HomeRow.true_monthly_cost df)
          + HomeownershipSimulation.HomeSummary.selling_costs s.
Proof.
  intros H s df. unfold s, df.
  destruct (simulate_homeownership_inv fpow p res H) as (last & Edf & Elast & Esum).
  rewrite Esum.
  cbn [HomeownershipSimulation.HomeSummary.total_true_cost
       HomeownershipSimulation.HomeSummary.total_unrecoverable_costs
       HomeownershipSimulation.HomeSummary.final_property_value
       HomeownershipSimulation.HomeSummary.final_equity
       HomeownershipSimulation.HomeSummary.final_net_proceeds
       HomeownershipSimulation.HomeSummary.total_tax_benefits
       HomeownershipSimulation.HomeSummary.selling_costs].
  destruct (home_schedule_of_run fpow p _ Edf) as [amortization Hsch].
  destruct (home_monthly_data_inv fpow p _ Edf) as [(_ & Hu & Hb & Ht) Hlen].
  exists last. split; [exact Elast|].
  rewrite (running_total_last _ _ _ last Ht Elast).
  rewrite (running_total_last _ _ _ last Hu Elast).
  rewrite (running_total_last _ _ _ last Hb Elast).
  apply py_index_last_inv in Elast. destruct Elast as (k & Hk & Hlast).
  destruct (home_monthly_data_shape fpow p amortization _ Hsch Edf k last Hlast)
    as (Hm & Hshape).
  destruct Hshape as (_ & _ & _ & _ & _ & _ & _ & _ & _ & Heq & Hnp).
  split.
  { rewrite Hm. unfold len in Hlen. lia. }
  split; [reflexivity|]. split; [symmetry; exact Heq|].
  split; [symmetry; exact Hnp|].
  split; [reflexivity|]. split; reflexivity.
Qed.

Lemma home_summary_is_last_row_witness :
  exists res last,
    HomeownershipSimulation.simulate_homeownership fpow_linear example_home_params
    = Ok res
    /\ py_index (HomeownershipSimulation.home_monthly_df res) (-1) = Ok last
    /\ HomeownershipSimulation.HomeSummary.final_net_proceeds
         (HomeownershipSimulation.home_summary res)
       = HomeownershipSimulation.HomeRow.net_proceeds last.
Proof.
  destruct (simulate_homeownership_total fpow_linear example_home_params)
    as [res E]; [discriminate | simpl; lia | simpl; lia |].
  destruct (home_summary_is_last_row fpow_linear example_home_params res E)
    as (last & El & _ & _ & _ & Hnp & _).
  exists res, last. split; [exact E|]. split; [exact El|exact Hnp].
Defined.

(* ================================================================== *)
(** * Further properties of the two stock simulators *)
(* ================================================================== *)

Lemma py_pow_inv (b : Q) (e : Z) (q : Q) : py_pow b e = Ok q -> q = b ^ e.
Proof.
  unfold py_pow. destruct (Qeq_bool b 0 && (e <? 0)%Z); [discriminate|].
  intros H. injection H as <-. reflexivity.
Qed.

(** [int((month - 1) / 12)] is the number of whole years elapsed. *)
Lemma py_int_div12 (a : Z) : (0 <= a)%Z -> py_int (inject_Z a / 12) = (a / 12)%Z.
Proof.
  intros Ha. unfold py_int, Qdiv, Qmult, Qinv, inject_Z. simpl.
  rewrite Z.mul_1_r. apply Z.quot_div_nonneg; lia.
Qed.

(** Everything one iteration of [simulate_rent_and_invest] does to the loop
    state and puts in the row. *)
Lemma rent_loop_body_ledger (p : HomeownershipSimulation.StockParams.t)
    (costs : list Q) (s s' : HomeownershipSimulation.StockState.t) (month : Z) :
  HomeownershipSimulation.stock_loop_body p costs s month = Ok s' ->
  exists cost row,
    py_index costs (month - 1) = Ok cost
    /\ HomeownershipSimulation.StockState.monthly_data s'
       = HomeownershipSimulation.StockState.monthly_data s ++ [row]
    /\ HomeownershipSimulation.StockRow.month row = month
    /\ HomeownershipSimulation.StockRow.year row = ((month - 1) / 12 + 1)%Z
    /\ HomeownershipSimulation.StockRow.monthly_rent row
       = HomeownershipSimulation.StockParams.monthly_rent p
         * (1 + HomeownershipSimulation.StockParams.rent_increase_rate p)
           ^ py_int (inject_Z (month - 1) / 12)
    /\ HomeownershipSimulation.StockRow.monthly_contribution row
       = cost - HomeownershipSimulation.StockRow.monthly_rent row
    /\ HomeownershipSimulation.StockRow.portfolio_value row
       = HomeownershipSimulation.StockState.portfolio_value s
         * (1 + HomeownershipSimulation.StockParams.stock_return_rate p / 12)
         + HomeownershipSimulation.StockRow.monthly_contribution row
    /\ HomeownershipSimulation.StockRow.monthly_dividend row
       = HomeownershipSimulation.StockRow.portfolio_value row
         * (HomeownershipSimulation.StockParams.dividend_yield p / 12)
    /\ HomeownershipSimulation.StockRow.net_proceeds row
       = HomeownershipSimulation.StockRow.portfolio_value row
    /\ HomeownershipSimulation.StockRow.cumulative_rent row
       = HomeownershipSimulation.StockState.cumulative_rent s
         + HomeownershipSimulation.StockRow.monthly_rent row
    /\ HomeownershipSimulation.StockRow.cumulative_cost row
       = HomeownershipSimulation.StockRow.cumulative_rent row
         + HomeownershipSimulation.StockRow.cumulative_dividend_tax row
    /\ HomeownershipSimulation.StockState.portfolio_value s'
       = HomeownershipSimulation.StockRow.portfolio_value row
    /\ HomeownershipSimulation.StockState.cumulative_rent s'
       = HomeownershipSimulation.StockRow.cumulative_rent row
    /\ HomeownershipSimulation.StockState.cumulative_dividend_tax s'
       = HomeownershipSimulation.StockRow.cumulative_dividend_tax row
    /\ HomeownershipSimulation.StockState.cumulative_dividends s'
       = HomeownershipSimulation.StockState.cumulative_dividends s
         + HomeownershipSimulation.StockRow.monthly_dividend row
    /\ tax_event month (HomeownershipSimulation.StockParams.tax_bracket p)
         (HomeownershipSimulation.StockState.annual_dividends s)
         (HomeownershipSimulation.StockState.cumulative_dividend_tax s)
         (HomeownershipSimulation.StockRow.monthly_dividend row)
         (HomeownershipSimulation.StockRow.dividend_tax row)
         (HomeownershipSimulation.StockState.annual_dividends s')
         (HomeownershipSimulation.StockState.cumulative_dividend_tax s').
Proof.
  unfold HomeownershipSimulation.stock_loop_body, tax_event. intros H.
  bind_inv H.
  match goal with E : py_pow _ _ = Ok _ |- _ => apply py_pow_inv in E; subst end.
  destruct ((month - 1) mod 12 + 1 =? 12)%Z;
    cbv beta iota zeta in H; injection H as <-;
    (eexists; eexists; split; [reflexivity|];
     repeat (split; [reflexivity|]); repeat split).
Qed.

Lemma invest_loop_body_ledger (p : RentalSimulation.InvestParams.t)
    (expenses : list Q) (s s' : RentalSimulation.InvestState.t) (month : Z) :
  RentalSimulation.invest_loop_body p expenses s month = Ok s' ->
  exists row,
    RentalSimulation.InvestState.monthly_data s'
    = RentalSimulation.InvestState.monthly_data s ++ [row]
    /\ py_index expenses (month - 1)
       = Ok (RentalSimulation.InvestRow.monthly_contribution row)
    /\ RentalSimulation.InvestRow.month row = month
    /\ RentalSimulation.InvestRow.year row = ((month - 1) / 12 + 1)%Z
    /\ RentalSimulation.InvestRow.portfolio_value row
       = RentalSimulation.InvestState.portfolio_value s
         * (1 + RentalSimulation.InvestParams.stock_return_rate p / 12)
         + RentalSimulation.InvestRow.monthly_contribution row
    /\ RentalSimulation.InvestRow.monthly_dividend row
       = RentalSimulation.InvestRow.portfolio_value row
         * (RentalSimulation.InvestParams.dividend_yield p / 12)
    /\ RentalSimulation.InvestRow.net_proceeds row
       = RentalSimulation.InvestRow.portfolio_value row
    /\ RentalSimulation.InvestState.portfolio_value s'
       = RentalSimulation.InvestRow.portfolio_value row
    /\ RentalSimulation.InvestState.cumulative_dividend_tax s'
       = RentalSimulation.InvestRow.cumulative_cost row
    /\ RentalSimulation.InvestState.cumulative_dividends s'
       = RentalSimulation.InvestState.cumulative_dividends s
         + RentalSimulation.InvestRow.monthly_dividend row
    /\ tax_event month (RentalSimulation.InvestParams.tax_bracket p)
         (RentalSimulation.InvestState.annual_dividends s)
         (RentalSimulation.InvestState.cumulative_dividend_tax s)
         (RentalSimulation.InvestRow.monthly_dividend row)
         (RentalSimulation.InvestRow.dividend_tax row)
         (RentalSimulation.InvestState.annual_dividends s')
         (RentalSimulation.InvestState.cumulative_dividend_tax s').
Proof.
  unfold RentalSimulation.invest_loop_body, tax_event. intros H.
  bind_inv H.
  destruct ((month - 1) mod 12 + 1 =? 12)%Z;
    cbv beta iota zeta in H; injection H as <-;
    (eexists; split; [reflexivity|]; 
     repeat (split; [reflexivity|]); repeat split).
Qed.

Lemma portfolio_before_snoc_keep (init : Q) (pvs : list Q) (x : Q) (i : nat) :
  (i <= List.length pvs)%nat ->
  portfolio_before init (pvs ++ [x]) i = portfolio_before init pvs i.
Proof.
  intros Hi. unfold portfolio_before. rewrite app_comm_cons.
  apply app_nth1. simpl. lia.
Qed.

Lemma portfolio_before_snoc_new (init : Q) (pvs : list Q) (x : Q) :
  portfolio_before init (pvs ++ [x]) (S (List.length pvs)) = x.
Proof.
  unfold portfolio_before. cbn [nth]. rewrite app_nth2 by lia.
  rewrite Nat.sub_diag. reflexivity.
Qed.

(** One more month of the dividend ledger. *)
Lemma dividend_ledger_step (m : Z) (bracket annual tax dividends : Q)
    (dividend dividend_tax annual' tax' : Q) :
  dividend_ledger_ok m bracket annual tax dividends ->
  tax_event m bracket annual tax dividend dividend_tax annual' tax' ->
  dividend_ledger_ok (m + 1) bracket annual' tax' (dividends + dividend).
Proof.
  unfold dividend_ledger_ok, tax_event. intros [Hl _] Hev.
  destruct ((m - 1) mod 12 + 1 =? 12)%Z eqn:E.
  - destruct Hev as (-> & -> & ->). split.
    + transitivity (tax + annual * bracket + dividend * bracket); [ring|].
      rewrite Hl. ring.
    + intros _. reflexivity.
  - destruct Hev as (-> & -> & ->). split.
    + transitivity (tax + annual * bracket + dividend * bracket); [ring|].
      rewrite Hl. ring.
    + intros H. apply Z.eqb_neq in E. exfalso. apply E.
      replace (m + 1 - 1)%Z with (m - 1 + 1)%Z in H by lia.
      divmod_lia.
Qed.

(** What the month loop of [simulate_rent_and_invest] has established when
    it ends. *)
Lemma rent_final_state_ledger (p : HomeownershipSimulation.StockParams.t)
    (costs : list Q) (s : HomeownershipSimulation.StockState.t) :
  HomeownershipSimulation.stock_final_state p costs = Ok s ->
  let md := HomeownershipSimulation.StockState.monthly_data s in
  let pvs := map HomeownershipSimulation.StockRow.portfolio_value md in
  let init := HomeownershipSimulation.StockParams.initial_investment p in
  len md = Z.max 0 (HomeownershipSimulation.StockParams.years p * 12)
  /\ dividend_ledger_ok
       (Z.max 1 (HomeownershipSimulation.StockParams.years p * 12 + 1))
       (HomeownershipSimulation.StockParams.tax_bracket p)
       (HomeownershipSimulation.StockState.annual_dividends s)
       (HomeownershipSimulation.StockState.cumulative_dividend_tax s)
       (HomeownershipSimulation.StockState.cumulative_dividends s)
  /\ HomeownershipSimulation.StockState.cumulative_rent s
     == py_sum (map HomeownershipSimulation.StockRow.monthly_rent md)
  /\ HomeownershipSimulation.StockState.portfolio_value s
     = portfolio_before init pvs (List.length md)
  /\ (forall last, py_index md (-1) = Ok last ->
        HomeownershipSimulation.StockRow.cumulative_rent last
        = HomeownershipSimulation.StockState.cumulative_rent s
        /\ HomeownershipSimulation.StockRow.cumulative_dividend_tax last
           = HomeownershipSimulation.StockState.cumulative_dividend_tax s)
  /\ (forall i row, nth_error md i = Some row ->
        HomeownershipSimulation.StockRow.month row = (Z.of_nat i + 1)%Z
        /\ rent_row_shape p costs (portfolio_before init pvs i) row).
Proof.
  unfold HomeownershipSimulation.stock_final_state. intros H.
  set (init := HomeownershipSimulation.StockParams.initial_investment p).
  match type of H with
  | for_each ?body (py_range 1 ?hi) ?s0 = Ok _ =>
      pose proof
        (for_each_range_inv body
           (fun m t =>
              let md := HomeownershipSimulation.StockState.monthly_data t in
              let pvs := map HomeownershipSimulation.StockRow.portfolio_value md in
              len md = (m - 1)%Z
              /\ dividend_ledger_ok m
                   (HomeownershipSimulation.StockParams.tax_bracket p)
                   (HomeownershipSimulation.StockState.annual_dividends t)
                   (HomeownershipSimulation.StockState.cumulative_dividend_tax t)
                   (HomeownershipSimulation.StockState.cumulative_dividends t)
              /\ HomeownershipSimulation.StockState.cumulative_rent t
                 == py_sum (map HomeownershipSimulation.StockRow.monthly_rent md)
              /\ HomeownershipSimulation.StockState.portfolio_value t
                 = portfolio_before init pvs (List.length md)
              /\ (forall last, py_index md (-1) = Ok last ->
                    HomeownershipSimulation.StockRow.cumulative_rent last
                    = HomeownershipSimulation.StockState.cumulative_rent t
                    /\ HomeownershipSimulation.StockRow.cumulative_dividend_tax last
                       = HomeownershipSimulation.StockState.cumulative_dividend_tax t)
              /\ (forall i row, nth_error md i = Some row ->
                    HomeownershipSimulation.StockRow.month row = (Z.of_nat i + 1)%Z
                    /\ rent_row_shape p costs (portfolio_before init pvs i) row))
           1 hi s0 s) as Hinv
  end.
  cbv zeta in Hinv. cbv zeta.
  destruct Hinv as (Hlen & Hled & Hrent & Hpv & Hlast & Hrows); [| |exact H|].
  - split; [reflexivity|]. split.
    { split; [simpl; ring|]. intros _. reflexivity. }
    split; [reflexivity|]. split; [reflexivity|]. split.
    + intros last Hl. simpl in Hl. rewrite py_index_last_empty in Hl. discriminate.
    + intros i row Hi. destruct i; discriminate.
  - intros m t t' Hm (Hlen & Hled & Hrent & Hpv & Hlast & Hrows) Hb.
    destruct (rent_loop_body_ledger p costs t t' m Hb)
      as (cost & row & Ec & Hmd & Hmonth & Hyear & Hr & Hc & Hp & Hd & Hn & Hcr
          & Hcc & Hsp & Hsr & Hst & Hsd & Hev).
    rewrite Hmd. rewrite !map_app. cbn [map].
    assert (Hlt : List.length (HomeownershipSimulation.StockState.monthly_data t)
                  = Z.to_nat (m - 1)).
    { unfold len in Hlen. lia. }
    split; [unfold len in *; rewrite length_app; simpl; lia|].
    split.
    { rewrite Hsd. apply (dividend_ledger_step m _ _ _ _ _ _ _ _ Hled Hev). }
    split.
    { rewrite py_sum_snoc, <- Hrent, Hsr, Hcr. reflexivity. }
    split.
    { rewrite Hsp, length_app. cbn [List.length].
      replace (List.length (HomeownershipSimulation.StockState.monthly_data t) + 1)%nat
        with (S (List.length (map HomeownershipSimulation.StockRow.portfolio_value
                               (HomeownershipSimulation.StockState.monthly_data t))))
        by (rewrite length_map; lia).
      rewrite portfolio_before_snoc_new. reflexivity. }
    split.
    { intros last Hl.
      assert (El : py_index (HomeownershipSimulation.StockState.monthly_data t ++ [row])
                     (-1) = Ok row).
      { apply py_index_last with (List.length (HomeownershipSimulation.StockState.monthly_data t)).
        - rewrite length_app. simpl. lia.
        - rewrite nth_error_app2 by lia. rewrite Nat.sub_diag. reflexivity. }
      rewrite El in Hl. injection Hl as <-.
      split; [symmetry; exact Hsr|symmetry; exact Hst]. }
    intros i r Hi.
    destruct (Nat.lt_ge_cases i (List.length (HomeownershipSimulation.StockState.monthly_data t)))
      as [Hlt'|Hge].
    + rewrite nth_error_app1 in Hi by exact Hlt'.
      rewrite portfolio_before_snoc_keep by (rewrite length_map; lia).
      apply Hrows. exact Hi.
    + rewrite nth_error_app2 in Hi by exact Hge.
      destruct (i - List.length (HomeownershipSimulation.StockState.monthly_data t))%nat
        as [|k] eqn:Ek; [|simpl in Hi; destruct k; discriminate].
      simpl in Hi. injection Hi as <-.
      assert (Ei : i = List.length (HomeownershipSimulation.StockState.monthly_data t))
        by lia.
      split; [rewrite Hmonth; lia|].
      rewrite portfolio_before_snoc_keep by (rewrite length_map; lia).
      rewrite Ei, <- Hpv.
      unfold rent_row_shape. rewrite Hmonth.
      split; [exact Hyear|]. split.
      { rewrite Hr. rewrite py_int_div12 by lia. reflexivity. }
      split; [exists cost; split; [exact Ec|exact Hc]|].
      split; [exact Hp|]. split; [exact Hd|]. split; [exact Hn|exact Hcc].
  - split; [lia|].
    split; [exact Hled|].
    split; [exact Hrent|]. split; [exact Hpv|]. split; [exact Hlast|exact Hrows].
Qed.

Lemma py_sum_map_plus {A : Type} (f g : A -> Q) (l : list A) :
  py_sum (map (fun a => f a + g a) l) == py_sum (map f l) + py_sum (map g l).
Proof.
  induction l as [|a l IH].
  - unfold py_sum. simpl. ring.
  - cbn [map]. rewrite !py_sum_cons, IH. ring.
Qed.

(** Sums of a column whose values are read off a list, position by
    position. *)
Lemma py_sum_column_prefix_eq {A : Type} (f : A -> Q) (df : list A) (l : list Q) :
  (forall i row, nth_error df i = Some row ->
     exists c, nth_error l i = Some c /\ f row == c) ->
  py_sum (map f df) == py_sum (firstn (List.length df) l).
Proof.
  induction df as [|row df IH] using rev_ind; intros H.
  - reflexivity.
  - rewrite map_app, py_sum_app, length_app. cbn [map List.length].
    rewrite IH.
    2:{ intros i r Hi. apply H. apply nth_error_app_keep. exact Hi. }
    destruct (H (List.length df) row) as (c & Hc & Hfc).
    { rewrite nth_error_app2 by lia. rewrite Nat.sub_diag. reflexivity. }
    replace (List.length df + 1)%nat with (S (List.length df)) by lia.
    rewrite (firstn_succ_nth l _ c Hc), py_sum_app.
    unfold py_sum at 2 4. simpl. rewrite Hfc. reflexivity.
Qed.

(** What [simulate_rent_and_invest] puts in the summary. *)
Lemma simulate_rent_and_invest_inv (p : HomeownershipSimulation.StockParams.t)
    (costs : list Q) (res : HomeownershipSimulation.StockResult) :
  HomeownershipSimulation.simulate_rent_and_invest p costs = Ok res ->
  exists s last,
    HomeownershipSimulation.stock_final_state p costs = Ok s
    /\ HomeownershipSimulation.stock_monthly_df res
       = HomeownershipSimulation.StockState.monthly_data s
    /\ py_index (HomeownershipSimulation.stock_monthly_df res) (-1) = Ok last
    /\ HomeownershipSimulation.stock_summary res
       = {| HomeownershipSimulation.StockSummary.initial_payment :=
              HomeownershipSimulation.StockParams.initial_investment p;
            HomeownershipSimulation.StockSummary.final_portfolio_value :=
              HomeownershipSimulation.StockRow.portfolio_value last;
            HomeownershipSimulation.StockSummary.total_contributions :=
              py_sum (map HomeownershipSimulation.StockRow.monthly_contribution
                        (HomeownershipSimulation.stock_monthly_df res));
            HomeownershipSimulation.StockSummary.total_rent_paid :=
              HomeownershipSimulation.StockRow.cumulative_rent last;
            HomeownershipSimulation.StockSummary.total_dividends :=
              HomeownershipSimulation.StockState.cumulative_dividends s;
            HomeownershipSimulation.StockSummary.total_dividend_tax :=
              HomeownershipSimulation.StockState.cumulative_dividend_tax s;
            HomeownershipSimulation.StockSummary.total_cost :=
              HomeownershipSimulation.StockRow.cumulative_cost last;
            HomeownershipSimulation.StockSummary.final_net_proceeds :=
              HomeownershipSimulation.StockRow.net_proceeds last |}.
Proof.
  unfold HomeownershipSimulation.simulate_rent_and_invest. intros H.
  bind_inv H. injection H as <-.
  cbn [HomeownershipSimulation.stock_monthly_df HomeownershipSimulation.stock_summary].
  repeat match goal with
         | E : df_column _ _ = Ok _ |- _ => apply df_column_inv in E; subst
         end.
  repeat match goal with
         | E : py_index (map _ _) _ = Ok _ |- _ =>
             rewrite py_index_map in E;
             match type of E with
             | bind (py_index ?l ?i) _ = Ok _ =>
                 match goal with
                 | E' : py_index l i = Ok _ |- _ =>
                     rewrite E' in E; simpl in E; injection E as <-
                 end
             end
         end.
  eexists. eexists. split; [reflexivity|]. split; [reflexivity|].
  split; [eassumption|]. reflexivity.
Qed.

(** X13.  The totals of the rent-and-invest summary.  Whenever
    [simulate_rent_and_invest] returns: every dividend has been taxed by the
    end, [total_dividend_tax = total_dividends * tax_bracket]; [total_cost]
    is the rent paid plus that tax; [total_rent_paid] is the sum of the
    monthly rents; and rent plus contributions add up to exactly what the
    homeowner spent over the same months. *)
Theorem rent_and_invest_totals (p : HomeownershipSimulation.StockParams.t)
    (homeownership_true_monthly_costs : list Q)
    (res : HomeownershipSimulation.StockResult) :
  HomeownershipSimulation.simulate_rent_and_invest p homeownership_true_monthly_costs
  = Ok res ->
  let s := HomeownershipSimulation.stock_summary res in
  let df := HomeownershipSimulation.stock_monthly_df res in
  HomeownershipSimulation.StockSummary.total_dividend_tax s
  == HomeownershipSimulation.StockSummary.total_dividends s
     * HomeownershipSimulation.StockParams.tax_bracket p
  /\ HomeownershipSimulation.StockSummary.total_cost s
     == HomeownershipSimulation.StockSummary.total_rent_paid s
        + HomeownershipSimulation.StockSummary.total_dividend_tax s
  /\ HomeownershipSimulation.StockSummary.total_rent_paid s
     == py_sum (map HomeownershipSimulation.StockRow.monthly_rent df)
  /\ HomeownershipSimulation.StockSummary.total_contributions s
     + HomeownershipSimulation.StockSummary.total_rent_paid s
     == py_sum (firstn (Z.to_nat (HomeownershipSimulation.StockParams.years p * 12))
                  homeownership_true_monthly_costs).
Proof.
  intros H s df. unfold s, df. clear s df.
  destruct (simulate_rent_and_invest_inv p _ res H) as (s & last & Es & Edf & El & Esum).
  destruct (rent_final_state_ledger p _ s Es)
    as (Hlen & Hled & Hrent & _ & Hlast & Hrows).
  rewrite Esum, Edf in *.
  cbn [HomeownershipSimulation.StockSummary.total_dividend_tax
       HomeownershipSimulation.StockSummary.total_dividends
       HomeownershipSimulation.StockSummary.total_cost
       HomeownershipSimulation.StockSummary.total_rent_paid
       HomeownershipSimulation.StockSummary.total_contributions].
  destruct (Hlast last El) as (Hcr & Hct).
  assert (Hne : (1 <= len (HomeownershipSimulation.StockState.monthly_data s))%Z).
  { apply py_index_last_inv in El. destruct El as (n & Hn & _). unfold len. lia. }
  assert (Hm : Z.max 1 (HomeownershipSimulation.StockParams.years p * 12 + 1)
               = (HomeownershipSimulation.StockParams.years p * 12 + 1)%Z) by lia.
  rewrite Hm in Hled. destruct Hled as [Hl Hz].
  assert (Hz' : HomeownershipSimulation.StockState.annual_dividends s == 0).
  { apply Hz.
    replace (HomeownershipSimulation.StockParams.years p * 12 + 1 - 1)%Z
      with (HomeownershipSimulation.StockParams.years p * 12)%Z by lia.
    apply Z.mod_mul. lia. }
  split.
  { rewrite <- Hl, Hz'. ring. }
  split.
  { assert (Hi := El). apply py_index_last_inv in Hi. destruct Hi as (n & Hn & Hi).
    destruct (Hrows n last Hi) as (_ & Hshape).
    destruct Hshape as (_ & _ & _ & _ & _ & _ & ->).
    rewrite Hct. reflexivity. }
  split.
  { rewrite Hcr. exact Hrent. }
  rewrite Hcr, Hrent, <- py_sum_map_plus.
  replace (Z.to_nat (HomeownershipSimulation.StockParams.years p * 12))
    with (List.length (HomeownershipSimulation.StockState.monthly_data s))
    by (unfold len in Hlen; lia).
  apply py_sum_column_prefix_eq.
  intros i row Hi. destruct (Hrows i row Hi) as (Hmonth & Hshape).
  destruct Hshape as (_ & _ & (cost & Ec & Hc) & _).
  rewrite Hmonth in Ec. rewrite py_index_nonneg in Ec by lia.
  replace (Z.to_nat (Z.of_nat i + 1 - 1)) with i in Ec by lia.
  destruct (nth_error homeownership_true_monthly_costs i) as [c|]; [|discriminate].
  injection Ec as ->. exists cost. split; [reflexivity|]. rewrite Hc. ring.
Qed.

Lemma rent_and_invest_totals_witness :
  exists res,
    HomeownershipSimulation.simulate_rent_and_invest example_stock_params
      (repeat 2000 12) = Ok res
    /\ HomeownershipSimulation.StockSummary.total_dividend_tax
         (HomeownershipSimulation.stock_summary res)
       == HomeownershipSimulation.StockSummary.total_dividends
            (HomeownershipSimulation.stock_summary res)
          * HomeownershipSimulation.StockParams.tax_bracket example_stock_params.
Proof.
  destruct (simulate_rent_and_invest_total example_stock_params (repeat 2000 12))
    as [res E]; [simpl; lia | unfold len; simpl; lia |].
  exists res. split; [exact E|].
  apply (rent_and_invest_totals example_stock_params (repeat 2000 12) res E).
Defined.

(** X14.  Rent rises once a year: in every row of the rent-and-invest
    frame the rent is [monthly_rent * (1 + rent_increase_rate) ^ (year - 1)]
    for the row's own [year], and [year] is [i / 12 + 1] for row [i].  So the
    twelve rows of a year carry the same rent. *)
Theorem rent_steps_by_year (p : HomeownershipSimulation.StockParams.t)
    (homeownership_true_monthly_costs : list Q)
    (res : HomeownershipSimulation.StockResult) :
  HomeownershipSimulation.simulate_rent_and_invest p homeownership_true_monthly_costs
  = Ok res ->
  let df := HomeownershipSimulation.stock_monthly_df res in
  (forall i row, nth_error df i = Some row ->
     HomeownershipSimulation.StockRow.month row = (Z.of_nat i + 1)%Z
     /\ HomeownershipSimulation.StockRow.year row = (Z.of_nat i / 12 + 1)%Z
     /\ HomeownershipSimulation.StockRow.monthly_rent row
        = HomeownershipSimulation.StockParams.monthly_rent p
          * (1 + HomeownershipSimulation.StockParams.rent_increase_rate p)
            ^ (HomeownershipSimulation.StockRow.year row - 1))
  /\ (forall i j ri rj, nth_error df i = Some ri -> nth_error df j = Some rj ->
        HomeownershipSimulation.StockRow.year ri
        = HomeownershipSimulation.StockRow.year rj ->
        HomeownershipSimulation.StockRow.monthly_rent ri
        = HomeownershipSimulation.StockRow.monthly_rent rj).
Proof.
  intros H df. unfold df. clear df.
  destruct (simulate_rent_and_invest_inv p _ res H) as (s & last & Es & Edf & _ & _).
  destruct (rent_final_state_ledger p _ s Es) as (_ & _ & _ & _ & _ & Hrows).
  rewrite Edf.
  assert (Hrow : forall i row,
             nth_error (HomeownershipSimulation.StockState.monthly_data s) i = Some row ->
             HomeownershipSimulation.StockRow.month row = (Z.of_nat i + 1)%Z
             /\ HomeownershipSimulation.StockRow.year row = (Z.of_nat i / 12 + 1)%Z
             /\ HomeownershipSimulation.StockRow.monthly_rent row
                = HomeownershipSimulation.StockParams.monthly_rent p
                  * (1 + HomeownershipSimulation.StockParams.rent_increase_rate p)
                    ^ (HomeownershipSimulation.StockRow.year row - 1)).
  { intros i row Hi. destruct (Hrows i row Hi) as (Hmonth & Hshape).
    destruct Hshape as (Hyear & Hrent & _).
    split; [exact Hmonth|]. split.
    - rewrite Hyear, Hmonth. f_equal. f_equal. lia.
    - rewrite Hrent, Hyear. f_equal. f_equal. lia. }
  split; [exact Hrow|].
  intros i j ri rj Hi Hj Hy.
  destruct (Hrow i ri Hi) as (_ & _ & ->).
  destruct (Hrow j rj Hj) as (_ & _ & ->).
  rewrite Hy. reflexivity.
Qed.

Lemma rent_steps_by_year_witness :
  exists res,
    HomeownershipSimulation.simulate_rent_and_invest example_stock_params
      (repeat 2000 12) = Ok res
    /\ forall i row,
         nth_error (HomeownershipSimulation.stock_monthly_df res) i = Some row ->
         HomeownershipSimulation.StockRow.monthly_rent row
         = HomeownershipSimulation.StockParams.monthly_rent example_stock_params
           * (1 + HomeownershipSimulation.StockParams.rent_increase_rate
                    example_stock_params)
             ^ (HomeownershipSimulation.StockRow.year row - 1).
Proof.
  destruct (simulate_rent_and_invest_total example_stock_params (repeat 2000 12))
    as [res E]; [simpl; lia | unfold len; simpl; lia |].
  exists res. split; [exact E|].
  intros i row Hi.
  destruct (rent_steps_by_year example_stock_params (repeat 2000 12) res E)
    as [Hrow _].
  apply (Hrow i row Hi).
Defined.

(** X15.  The portfolio of the rent-and-invest frame grows by the monthly
    return and the month's contribution only: the first row starts from the
    initial investment, every later row from the previous row's value.
    Dividends are reported beside it (each is the month's value times
    [dividend_yield / 12]) and never enter it, the dividend tax never leaves
    it; [net_proceeds] is the portfolio value, in every row and in the
    summary. *)
Theorem rent_and_invest_portfolio_recurrence
    (p : HomeownershipSimulation.StockParams.t)
    (homeownership_true_monthly_costs : list Q)
    (res : HomeownershipSimulation.StockResult) :
  HomeownershipSimulation.simulate_rent_and_invest p homeownership_true_monthly_costs
  = Ok res ->
  let df := HomeownershipSimulation.stock_monthly_df res in
  let growth := 1 + HomeownershipSimulation.StockParams.stock_return_rate p / 12 in
  (forall row, nth_error df 0 = Some row ->
     HomeownershipSimulation.StockRow.portfolio_value row
     = HomeownershipSimulation.StockParams.initial_investment p * growth
       + HomeownershipSimulation.StockRow.monthly_contribution row)
  /\ (forall i prev row, nth_error df i = Some prev -> nth_error df (S i) = Some row ->
        HomeownershipSimulation.StockRow.portfolio_value row
        = HomeownershipSimulation.StockRow.portfolio_value prev * growth
          + HomeownershipSimulation.StockRow.monthly_contribution row)
  /\ (forall row, In row df ->
        HomeownershipSimulation.StockRow.net_proceeds row
        = HomeownershipSimulation.StockRow.portfolio_value row
        /\ HomeownershipSimulation.StockRow.monthly_dividend row
           = HomeownershipSimulation.StockRow.portfolio_value row
             * (HomeownershipSimulation.StockParams.dividend_yield p / 12))
  /\ (exists last,
        py_index df (-1) = Ok last
        /\ HomeownershipSimulation.StockSummary.final_portfolio_value
             (HomeownershipSimulation.stock_summary res)
           = HomeownershipSimulation.StockRow.portfolio_value last
        /\ HomeownershipSimulation.StockSummary.final_net_proceeds
             (HomeownershipSimulation.stock_summary res)
           = HomeownershipSimulation.StockRow.portfolio_value last).
Proof.
  intros H df growth. unfold df, growth. clear df growth.
  destruct (simulate_rent_and_invest_inv p _ res H) as (s & last & Es & Edf & El & Esum).
  destruct (rent_final_state_ledger p _ s Es) as (_ & _ & _ & _ & _ & Hrows).
  rewrite Edf in *.
  split.
  { intros row Hi. destruct (Hrows 0%nat row Hi) as (_ & Hshape).
    destruct Hshape as (_ & _ & _ & Hp & _). exact Hp. }
  split.
  { intros i prev row Hprev Hi. destruct (Hrows (S i) row Hi) as (_ & Hshape).
    destruct Hshape as (_ & _ & _ & Hp & _). rewrite Hp.
    unfold portfolio_before. cbn [nth].
    rewrite (nth_error_nth _ i 0
               (map_nth_error HomeownershipSimulation.StockRow.portfolio_value i _ Hprev)).
    reflexivity. }
  split.
  { intros row Hin. apply In_nth_error in Hin. destruct Hin as [i Hi].
    destruct (Hrows i row Hi) as (_ & Hshape).
    destruct Hshape as (_ & _ & _ & _ & Hd & Hn & _). split; assumption. }
  exists last. split; [exact El|]. rewrite Esum.
  cbn [HomeownershipSimulation.StockSummary.final_portfolio_value
       HomeownershipSimulation.StockSummary.final_net_proceeds].
  split; [reflexivity|].
  apply py_index_last_inv in El. destruct El as (n & _ & Hn).
  destruct (Hrows n last Hn) as (_ & Hshape).
  destruct Hshape as (_ & _ & _ & _ & _ & Hnp & _). exact Hnp.
Qed.

Lemma rent_and_invest_portfolio_recurrence_witness :
  exists res,
    HomeownershipSimulation.simulate_rent_and_invest example_stock_params
      (repeat 2000 12) = Ok res
    /\ forall i prev row,
         nth_error (HomeownershipSimulation.stock_monthly_df res) i = Some prev ->
         nth_error (HomeownershipSimulation.stock_monthly_df res) (S i) = Some row ->
         HomeownershipSimulation.StockRow.portfolio_value row
         = HomeownershipSimulation.StockRow.portfolio_value prev
           * (1 + HomeownershipSimulation.StockParams.stock_return_rate
                    example_stock_params / 12)
           + HomeownershipSimulation.StockRow.monthly_contribution row.
Proof.
  destruct (simulate_rent_and_invest_total example_stock_params (repeat 2000 12))
    as [res E]; [simpl; lia | unfold len; simpl; lia |].
  exists res. split; [exact E|].
  destruct (rent_and_invest_portfolio_recurrence example_stock_params
              (repeat 2000 12) res E) as (_ & Hrec & _).
  exact Hrec.
Defined.

(** Running a loop over a range in two parts. *)
Lemma for_each_app {S : Type} (body : S -> Z -> result S) (l1 l2 : list Z) (s : S) :
  for_each body (l1 ++ l2) s = (t <- for_each body l1 s ;; for_each body l2 t).
Proof.
  revert s. induction l1 as [|m l1 IH]; intros s; simpl; [reflexivity|].
  destruct (body s m) as [t|e]; simpl; [apply IH|reflexivity].
Qed.

Lemma py_range_split (lo mid hi : Z) :
  (lo <= mid <= hi)%Z -> py_range lo hi = py_range lo mid ++ py_range mid hi.
Proof.
  intros H. remember (Z.to_nat (mid - lo)) as n eqn:Hn.
  revert lo H Hn. induction n as [|n IH]; intros lo H Hn.
  - assert (lo = mid) by lia. subst lo.
    rewrite (py_range_nil mid mid) by lia. reflexivity.
  - rewrite (py_range_cons lo hi) by lia. rewrite (py_range_cons lo mid) by lia.
    simpl. f_equal. apply IH; lia.
Qed.

(** A loop whose body fails in month [m], and not before, fails with that
    month's exception. *)
Lemma for_each_range_raises {S : Type} (body : S -> Z -> result S)
    (lo m hi : Z) (s : S) (e : exn) :
  (lo <= m < hi)%Z ->
  (forall k t, (lo <= k < m)%Z -> exists t', body t k = Ok t') ->
  (forall t, body t m = Raise e) ->
  for_each body (py_range lo hi) s = Raise e.
Proof.
  intros Hm Hok Hfail.
  rewrite (py_range_split lo m hi) by lia. rewrite for_each_app.
  destruct (for_each_range_total body (fun _ _ => True) lo m s I) as (t & Et & _).
  { intros k t Hk _. destruct (Hok k t Hk) as [t' Et']. exists t'. split; [exact Et'|exact I]. }
  rewrite Et. cbv beta iota delta [bind].
  rewrite (py_range_cons m hi) by lia. simpl. rewrite Hfail. reflexivity.
Qed.

Lemma py_index_out_of_range {A : Type} (l : list A) (i : Z) :
  (len l <= i)%Z -> py_index l i = Raise IndexError.
Proof.
  intros H. assert (0 <= len l)%Z by (unfold len; lia).
  rewrite py_index_nonneg by lia.
  destruct (nth_error l (Z.to_nat i)) eqn:E; [|reflexivity].
  assert (Hlt : (Z.to_nat i < List.length l)%nat).
  { apply nth_error_Some. rewrite E. discriminate. }
  unfold len in H. lia.
Qed.

Lemma invest_loop_body_ok (p : RentalSimulation.InvestParams.t)
    (expenses : list Q) (s : RentalSimulation.InvestState.t) (month : Z) :
  (1 <= month <= len expenses)%Z ->
  exists s', RentalSimulation.invest_loop_body p expenses s month = Ok s'.
Proof.
  intros Hm. unfold RentalSimulation.invest_loop_body.
  destruct (py_index_in_range expenses (month - 1)) as (c & Ec & _); [lia|].
  rewrite Ec. cbv beta iota delta [bind].
  destruct ((month - 1) mod 12 + 1 =? 12)%Z; cbv beta iota zeta;
    eexists; reflexivity.
Qed.

(** X16.  Both stock simulators index the list of monthly amounts they are
    given with the month number and do not check its length: when the list
    is shorter than the [years * 12] months of the horizon, the call raises
    [IndexError] (in the month after the list ends) instead of returning. *)
Theorem stock_simulators_short_list_raises :
  (forall (p : HomeownershipSimulation.StockParams.t) (costs : list Q),
     (len costs < HomeownershipSimulation.StockParams.years p * 12)%Z ->
     HomeownershipSimulation.simulate_rent_and_invest p costs = Raise IndexError)
  /\ (forall (p : RentalSimulation.InvestParams.t) (expenses : list Q),
        (len expenses < RentalSimulation.InvestParams.years p * 12)%Z ->
        RentalSimulation.simulate_stock_investment p expenses = Raise IndexError).
Proof.
  split.
  - intros p costs Hlen.
    assert (H0 : (0 <= len costs)%Z) by (unfold len; lia).
    unfold HomeownershipSimulation.simulate_rent_and_invest,
      HomeownershipSimulation.stock_final_state.
    rewrite (for_each_range_raises _ 1 (len costs + 1) _ _ IndexError);
      [reflexivity|lia| |].
    + intros k t Hk. apply rent_loop_body_ok. lia.
    + intros t. unfold HomeownershipSimulation.stock_loop_body.
      rewrite rent_growth_ok by lia. cbv beta iota delta [bind].
      rewrite py_index_out_of_range by lia. reflexivity.
  - intros p expenses Hlen.
    assert (H0 : (0 <= len expenses)%Z) by (unfold len; lia).
    unfold RentalSimulation.simulate_stock_investment,
      RentalSimulation.invest_final_state.
    rewrite (for_each_range_raises _ 1 (len expenses + 1) _ _ IndexError);
      [reflexivity|lia| |].
    + intros k t Hk. apply invest_loop_body_ok. lia.
    + intros t. unfold RentalSimulation.invest_loop_body.
      rewrite py_index_out_of_range by lia. reflexivity.
Qed.

Lemma stock_simulators_short_list_raises_witness :
  HomeownershipSimulation.simulate_rent_and_invest example_stock_params
    (repeat 2000 11) = Raise IndexError.
Proof.
  destruct stock_simulators_short_list_raises as [H _].
  apply H. unfold len. simpl. lia.
Defined.

(** What the month loop of [simulate_stock_investment] has established when
    it ends. *)
Lemma invest_final_state_ledger (p : RentalSimulation.InvestParams.t)
    (expenses : list Q) (s : RentalSimulation.InvestState.t) :
  RentalSimulation.invest_final_state p expenses = Ok s ->
  let md := RentalSimulation.InvestState.monthly_data s in
  let pvs := map RentalSimulation.InvestRow.portfolio_value md in
  let init := RentalSimulation.InvestParams.initial_investment p in
  len md = Z.max 0 (RentalSimulation.InvestParams.years p * 12)
  /\ dividend_ledger_ok
       (Z.max 1 (RentalSimulation.InvestParams.years p * 12 + 1))
       (RentalSimulation.InvestParams.tax_bracket p)
       (RentalSimulation.InvestState.annual_dividends s)
       (RentalSimulation.InvestState.cumulative_dividend_tax s)
       (RentalSimulation.InvestState.cumulative_dividends s)
  /\ RentalSimulation.InvestState.cumulative_dividends s
     == py_sum (map RentalSimulation.InvestRow.monthly_dividend md)
  /\ (forall last, py_index md (-1) = Ok last ->
        RentalSimulation.InvestRow.cumulative_cost last
        = RentalSimulation.InvestState.cumulative_dividend_tax s)
  /\ (forall i row, nth_error md i = Some row ->
        RentalSimulation.InvestRow.month row = (Z.of_nat i + 1)%Z
        /\ invest_row_shape p expenses (portfolio_before init pvs i) row).
Proof.
  unfold RentalSimulation.invest_final_state. intros H.
  set (init := RentalSimulation.InvestParams.initial_investment p).
  match type of H with
  | for_each ?body (py_range 1 ?hi) ?s0 = Ok _ =>
      pose proof
        (for_each_range_inv body
           (fun m t =>
              let md := RentalSimulation.InvestState.monthly_data t in
              let pvs := map RentalSimulation.InvestRow.portfolio_value md in
              len md = (m - 1)%Z
              /\ dividend_ledger_ok m
                   (RentalSimulation.InvestParams.tax_bracket p)
                   (RentalSimulation.InvestState.annual_dividends t)
                   (RentalSimulation.InvestState.cumulative_dividend_tax t)
                   (RentalSimulation.InvestState.cumulative_dividends t)
              /\ RentalSimulation.InvestState.cumulative_dividends t
                 == py_sum (map RentalSimulation.InvestRow.monthly_dividend md)
              /\ RentalSimulation.InvestState.portfolio_value t
                 = portfolio_before init pvs (List.length md)
              /\ (forall last, py_index md (-1) = Ok last ->
                    RentalSimulation.InvestRow.cumulative_cost last
                    = RentalSimulation.InvestState.cumulative_dividend_tax t)
              /\ (forall i row, nth_error md i = Some row ->
                    RentalSimulation.InvestRow.month row = (Z.of_nat i + 1)%Z
                    /\ invest_row_shape p expenses (portfolio_before init pvs i) row))
           1 hi s0 s) as Hinv
  end.
  cbv zeta in Hinv. cbv zeta.
  destruct Hinv as (Hlen & Hled & Hdiv & Hpv & Hlast & Hrows); [| |exact H|].
  - split; [reflexivity|]. split.
    { split; [simpl; ring|]. intros _. reflexivity. }
    split; [reflexivity|]. split; [reflexivity|]. split.
    + intros last Hl. simpl in Hl. rewrite py_index_last_empty in Hl. discriminate.
    + intros i row Hi. destruct i; discriminate.
  - intros m t t' Hm (Hlen & Hled & Hdiv & Hpv & Hlast & Hrows) Hb.
    destruct (invest_loop_body_ledger p expenses t t' m Hb)
      as (row & Hmd & Ec & Hmonth & Hyear & Hp & Hd & Hn & Hsp & Hst & Hsd & Hev).
    rewrite Hmd. rewrite !map_app. cbn [map].
    split; [unfold len in *; rewrite length_app; simpl; lia|].
    split.
    { rewrite Hsd. apply (dividend_ledger_step m _ _ _ _ _ _ _ _ Hled Hev). }
    split.
    { rewrite py_sum_snoc, <- Hdiv, Hsd. reflexivity. }
    split.
    { rewrite Hsp, length_app. cbn [List.length].
      replace (List.length (RentalSimulation.InvestState.monthly_data t) + 1)%nat
        with (S (List.length (map RentalSimulation.InvestRow.portfolio_value
                               (RentalSimulation.InvestState.monthly_data t))))
        by (rewrite length_map; lia).
      rewrite portfolio_before_snoc_new. reflexivity. }
    split.
    { intros last Hl.
      assert (El : py_index (RentalSimulation.InvestState.monthly_data t ++ [row])
                     (-1) = Ok row).
      { apply py_index_last with (List.length (RentalSimulation.InvestState.monthly_data t)).
        - rewrite length_app. simpl. lia.
        - rewrite nth_error_app2 by lia. rewrite Nat.sub_diag. reflexivity. }
      rewrite El in Hl. injection Hl as <-. symmetry. exact Hst. }
    intros i r Hi.
    destruct (Nat.lt_ge_cases i (List.length (RentalSimulation.InvestState.monthly_data t)))
      as [Hlt'|Hge].
    + rewrite nth_error_app1 in Hi by exact Hlt'.
      rewrite portfolio_before_snoc_keep by (rewrite length_map; lia).
      apply Hrows. exact Hi.
    + rewrite nth_error_app2 in Hi by exact Hge.
      destruct (i - List.length (RentalSimulation.InvestState.monthly_data t))%nat
        as [|k] eqn:Ek; [|simpl in Hi; destruct k; discriminate].
      simpl in Hi. injection Hi as <-.
      assert (Ei : i = List.length (RentalSimulation.InvestState.monthly_data t))
        by lia.
      split; [rewrite Hmonth; unfold len in Hlen; lia|].
      rewrite portfolio_before_snoc_keep by (rewrite length_map; lia).
      rewrite Ei, <- Hpv.
      unfold invest_row_shape. rewrite Hmonth.
      split; [exact Hyear|]. split; [exact Ec|].
      split; [exact Hp|]. split; [exact Hd|exact Hn].
  - split; [lia|].
    split; [exact Hled|].
    split; [exact Hdiv|]. split; [exact Hlast|exact Hrows].
Qed.

(** What [simulate_stock_investment] puts in the summary. *)
Lemma simulate_stock_investment_inv (p : RentalSimulation.InvestParams.t)
    (expenses : list Q) (res : RentalSimulation.InvestResult) :
  RentalSimulation.simulate_stock_investment p expenses = Ok res ->
  exists s last,
    RentalSimulation.invest_final_state p expenses = Ok s
    /\ RentalSimulation.invest_monthly_df res
       = RentalSimulation.InvestState.monthly_data s
    /\ py_index (RentalSimulation.invest_monthly_df res) (-1) = Ok last
    /\ RentalSimulation.invest_summary res
       = {| RentalSimulation.InvestSummary.initial_payment :=
              RentalSimulation.InvestParams.initial_investment p;
            RentalSimulation.InvestSummary.final_portfolio_value :=
              RentalSimulation.InvestRow.portfolio_value last;
            RentalSimulation.InvestSummary.total_contributions :=
              py_sum (map RentalSimulation.InvestRow.monthly_contribution
                        (RentalSimulation.invest_monthly_df res));
            RentalSimulation.InvestSummary.total_dividends :=
              RentalSimulation.InvestState.cumulative_dividends s;
            RentalSimulation.InvestSummary.total_dividend_tax :=
              RentalSimulation.InvestState.cumulative_dividend_tax s;
            RentalSimulation.InvestSummary.final_net_proceeds :=
              RentalSimulation.InvestRow.net_proceeds last |}.
Proof.
  unfold RentalSimulation.simulate_stock_investment. intros H.
  bind_inv H. injection H as <-.
  cbn [RentalSimulation.invest_monthly_df RentalSimulation.invest_summary].
  repeat match goal with
         | E : df_column _ _ = Ok _ |- _ => apply df_column_inv in E; subst
         end.
  eexists. eexists. split; [reflexivity|]. split; [reflexivity|].
  split; [eassumption|]. reflexivity.
Qed.

Lemma simulate_stock_investment_total (p : RentalSimulation.InvestParams.t)
    (expenses : list Q) :
  (1 <= RentalSimulation.InvestParams.years p)%Z ->
  (RentalSimulation.InvestParams.years p * 12 <= len expenses)%Z ->
  exists res, RentalSimulation.simulate_stock_investment p expenses = Ok res.
Proof.
  intros Hy Hlen.
  destruct (for_each_range_total
              (RentalSimulation.invest_loop_body p expenses)
              (fun m t =>
                 len (RentalSimulation.InvestState.monthly_data t) = (m - 1)%Z)
              1 (RentalSimulation.InvestParams.years p * 12 + 1)
              (RentalSimulation.invest_initial_state p))
    as (s & Es & Hs).
  - reflexivity.
  - intros m t Hm Ht.
    destruct (invest_loop_body_ok p expenses t m) as [t' Eb]; [lia|].
    exists t'. split; [exact Eb|].
    destruct (invest_loop_body_ledger p expenses t t' m Eb) as (row & Hmd & _).
    rewrite Hmd. unfold len in *. rewrite length_app. simpl. lia.
  - assert (Hlen1 : (1 <= len (RentalSimulation.InvestState.monthly_data s))%Z)
      by lia.
    destruct (py_index_last_ok _ Hlen1) as [last El].
    unfold RentalSimulation.simulate_stock_investment,
      RentalSimulation.invest_final_state.
    rewrite Es. simpl bind. summary_reads Hlen1. eexists. reflexivity.
Qed.

(** X17.  The stock side of the rental comparison.  Whenever
    [simulate_stock_investment] returns: the contributions are the first
    [years * 12] amounts of the list it was given, unchanged; the portfolio
    starts from the initial investment and each month grows by the monthly
    return and that month's contribution, dividends and their tax staying
    outside it; by the end every dividend has been taxed,
    [total_dividend_tax = total_dividends * tax_bracket], and
    [total_dividends] is the sum of the monthly dividends. *)
Theorem stock_investment_ledger (p : RentalSimulation.InvestParams.t)
    (rental_monthly_expenses : list Q) (res : RentalSimulation.InvestResult) :
  RentalSimulation.simulate_stock_investment p rental_monthly_expenses = Ok res ->
  let s := RentalSimulation.invest_summary res in
  let df := RentalSimulation.invest_monthly_df res in
  let growth := 1 + RentalSimulation.InvestParams.stock_return_rate p / 12 in
  map RentalSimulation.InvestRow.monthly_contribution df
  = firstn (Z.to_nat (RentalSimulation.InvestParams.years p * 12))
      rental_monthly_expenses
  /\ (forall row, nth_error df 0 = Some row ->
        RentalSimulation.InvestRow.portfolio_value row
        = RentalSimulation.InvestParams.initial_investment p * growth
          + RentalSimulation.InvestRow.monthly_contribution row)
  /\ (forall i prev row, nth_error df i = Some prev -> nth_error df (S i) = Some row ->
        RentalSimulation.InvestRow.portfolio_value row
        = RentalSimulation.InvestRow.portfolio_value prev * growth
          + RentalSimulation.InvestRow.monthly_contribution row)
  /\ RentalSimulation.InvestSummary.total_dividend_tax s
     == RentalSimulation.InvestSummary.total_dividends s
        * RentalSimulation.InvestParams.tax_bracket p
  /\ RentalSimulation.InvestSummary.total_dividends s
     == py_sum (map RentalSimulation.InvestRow.monthly_dividend df)
  /\ RentalSimulation.InvestSummary.final_net_proceeds s
     = RentalSimulation.InvestSummary.final_portfolio_value s.
Proof.
  intros H s df growth. unfold s, df, growth. clear s df growth.
  destruct (simulate_stock_investment_inv p _ res H) as (s & last & Es & Edf & El & Esum).
  destruct (invest_final_state_ledger p _ s Es) as (Hlen & Hled & Hdiv & _ & Hrows).
  rewrite Esum, Edf in *.
  cbn [RentalSimulation.InvestSummary.total_dividend_tax
       RentalSimulation.InvestSummary.total_dividends
       RentalSimulation.InvestSummary.final_net_proceeds
       RentalSimulation.InvestSummary.final_portfolio_value].
  assert (Hne : (1 <= len (RentalSimulation.InvestState.monthly_data s))%Z).
  { assert (Hi := El). apply py_index_last_inv in Hi. destruct Hi as (n & Hn & _).
    unfold len. lia. }
  split.
  { apply nth_error_ext. intros i.
    rewrite nth_error_map.
    destruct (nth_error (RentalSimulation.InvestState.monthly_data s) i) as [row|] eqn:Hi.
    - destruct (Hrows i row Hi) as (Hmonth & Hshape).
      destruct Hshape as (_ & Ec & _).
      rewrite Hmonth in Ec. rewrite py_index_nonneg in Ec by lia.
      replace (Z.to_nat (Z.of_nat i + 1 - 1)) with i in Ec by lia.
      assert (Hlt : (i < List.length (RentalSimulation.InvestState.monthly_data s))%nat).
      { apply nth_error_Some. rewrite Hi. discriminate. }
      rewrite nth_error_firstn.
      destruct (i <? Z.to_nat (RentalSimulation.InvestParams.years p * 12))%nat eqn:Elt;
        [|apply Nat.ltb_ge in Elt; unfold len in Hlen; lia].
      destruct (nth_error rental_monthly_expenses i); [|discriminate].
      injection Ec as ->. reflexivity.
    - apply nth_error_None in Hi. simpl. symmetry.
      rewrite nth_error_firstn.
      destruct (i <? Z.to_nat (RentalSimulation.InvestParams.years p * 12))%nat eqn:Elt;
        [|reflexivity].
      apply Nat.ltb_lt in Elt. unfold len in Hlen. lia. }
  split.
  { intros row Hi. destruct (Hrows 0%nat row Hi) as (_ & Hshape).
    destruct Hshape as (_ & _ & Hp & _). exact Hp. }
  split.
  { intros i prev row Hprev Hi. destruct (Hrows (S i) row Hi) as (_ & Hshape).
    destruct Hshape as (_ & _ & Hp & _). rewrite Hp.
    unfold portfolio_before. cbn [nth].
    rewrite (nth_error_nth _ i 0
               (map_nth_error RentalSimulation.InvestRow.portfolio_value i _ Hprev)).
    reflexivity. }
  split.
  { assert (Hm : Z.max 1 (RentalSimulation.InvestParams.years p * 12 + 1)
                 = (RentalSimulation.InvestParams.years p * 12 + 1)%Z) by lia.
    rewrite Hm in Hled. destruct Hled as [Hl Hz].
    rewrite <- Hl, Hz; [ring|].
    replace (RentalSimulation.InvestParams.years p * 12 + 1 - 1)%Z
      with (RentalSimulation.InvestParams.years p * 12)%Z by lia.
    apply Z.mod_mul. lia. }
  split; [exact Hdiv|].
  apply py_index_last_inv in El. destruct El as (n & _ & Hn).
  destruct (Hrows n last Hn) as (_ & Hshape).
  destruct Hshape as (_ & _ & _ & _ & Hnp). exact Hnp.
Qed.

Lemma stock_investment_ledger_witness :
  exists res,
    RentalSimulation.simulate_stock_investment
      {| RentalSimulation.InvestParams.initial_investment := 27600;
         RentalSimulation.InvestParams.stock_return_rate := 0.07;
         RentalSimulation.InvestParams.dividend_yield := 0.02;
         RentalSimulation.InvestParams.tax_bracket := 0.25;
         RentalSimulation.InvestParams.years := 1 |}
      (repeat 300 12) = Ok res
    /\ map RentalSimulation.InvestRow.monthly_contribution
         (RentalSimulation.invest_monthly_df res)
       = repeat 300 12
    /\ RentalSimulation.InvestSummary.total_dividend_tax
         (RentalSimulation.invest_summary res)
       == RentalSimulation.InvestSummary.total_dividends
            (RentalSimulation.invest_summary res) * 0.25.
Proof.
  destruct (simulate_stock_investment_total
              {| RentalSimulation.InvestParams.initial_investment := 27600;
                 RentalSimulation.InvestParams.stock_return_rate := 0.07;
                 RentalSimulation.InvestParams.dividend_yield := 0.02;
                 RentalSimulation.InvestParams.tax_bracket := 0.25;
                 RentalSimulation.InvestParams.years := 1 |}
              (repeat 300 12))
    as [res E]; [simpl; lia | unfold len; simpl; lia |].
  exists res. split; [exact E|].
  destruct (stock_investment_ledger _ _ res E) as (Hc & _ & _ & Ht & _).
  split; [exact Hc | exact Ht].
Defined.

(* ================================================================== *)
(** * The pages: the two simulations run together *)
(* ================================================================== *)

Lemma div100_nonneg (x : Q) : 0 <= x -> 0 <= x / 100.
Proof.
  intros H. apply Qle_shift_div_l; [reflexivity|]. lra.
Qed.

(** X18.  The Buy-and-Live page cannot fail, and it compares like with
    like.  For every position of the sidebar sliders within their ranges,
    both simulations return; the two frames have [years * 12] rows each;
    the renter starts with exactly the buyer's initial payment; and in
    every month the renter's rent plus stock contribution is the buyer's
    true monthly cost of that month.  The reported difference is never
    negative, and homeownership is named the winner exactly when its net
    proceeds are strictly larger (a tie goes to renting). *)
Theorem buy_and_live_page_runs (fpow : Q -> Q -> Q) (w : BuyAndLivePage.Sliders.t) :
  BuyAndLivePage.in_range w ->
  exists c,
    BuyAndLivePage.run fpow w = Ok c
    /\ let home_df :=
         HomeownershipSimulation.home_monthly_df (BuyAndLivePage.home_result c) in
       let stock_df :=
         HomeownershipSimulation.stock_monthly_df (BuyAndLivePage.stock_result c) in
       let home_summary :=
         HomeownershipSimulation.home_summary (BuyAndLivePage.home_result c) in
       let stock_summary :=
         HomeownershipSimulation.stock_summary (BuyAndLivePage.stock_result c) in
       len home_df = (BuyAndLivePage.Sliders.years w * 12)%Z
       /\ len stock_df = (BuyAndLivePage.Sliders.years w * 12)%Z
       /\ HomeownershipSimulation.StockSummary.initial_payment stock_summary
          = HomeownershipSimulation.HomeSummary.initial_payment home_summary
       /\ (forall i hrow srow,
             nth_error home_df i = Some hrow ->
             nth_error stock_df i = Some srow ->
             HomeownershipSimulation.StockRow.month srow
             = HomeownershipSimulation.HomeRow.month hrow
             /\ HomeownershipSimulation.StockRow.monthly_contribution srow
                + HomeownershipSimulation.StockRow.monthly_rent srow
                == HomeownershipSimulation.HomeRow.true_monthly_cost hrow)
       /\ 0 <= BuyAndLivePage.difference c
       /\ (BuyAndLivePage.the_winner c = BuyAndLivePage.Homeownership
           <-> HomeownershipSimulation.StockSummary.final_net_proceeds stock_summary
               < HomeownershipSimulation.HomeSummary.final_net_proceeds home_summary).
Proof.
  intros Hw.
  destruct Hw as (_ & _ & _ & _ & [Hrate _] & Hmy & _ & _ & _ & _ & _ & _ & _ & _ & _
                  & _ & Hy).
  set (p := BuyAndLivePage.params_home w).
  assert (Hr : 0 <= HomeownershipSimulation.HomeParams.mortgage_rate p).
  { unfold p. simpl. apply div100_nonneg. lra. }
  assert (Hmy' : (1 <= HomeownershipSimulation.HomeParams.mortgage_years p)%Z)
    by (unfold p; simpl; lia).
  assert (Hy' : (1 <= HomeownershipSimulation.HomeParams.years p)%Z)
    by (unfold p; simpl; lia).
  destruct (simulate_homeownership_total fpow p Hr Hmy' Hy') as [hres Eh].
  assert (Edf := simulate_homeownership_df fpow p hres Eh).
  destruct (home_monthly_data_inv fpow p _ Edf) as [_ Hlen].
  change (HomeownershipSimulation.HomeParams.years p)
    with (BuyAndLivePage.Sliders.years w) in Hlen.
  set (hdf := HomeownershipSimulation.home_monthly_df hres) in *.
  assert (Hlen1 : (1 <= len hdf)%Z) by lia.
  set (sp := BuyAndLivePage.stock_params w (HomeownershipSimulation.home_summary hres)).
  set (costs := map HomeownershipSimulation.HomeRow.true_monthly_cost hdf).
  destruct (simulate_rent_and_invest_total sp costs) as [sres Es].
  { unfold sp. simpl. lia. }
  { unfold sp, costs, len. simpl. rewrite length_map. unfold len in Hlen. lia. }
  destruct (simulate_rent_and_invest_inv sp costs sres Es)
    as (s & last & Efs & Esdf & El & Esum).
  destruct (rent_final_state_ledger sp costs s Efs) as (Hslen & _ & _ & _ & _ & Hrows).
  destruct (home_schedule_of_run fpow p hdf Edf) as [amortization Hsch].
  assert (Hhrows := home_monthly_data_shape fpow p amortization hdf Hsch Edf).
  set (hf := HomeownershipSimulation.HomeSummary.final_net_proceeds
               (HomeownershipSimulation.home_summary hres)).
  set (sf := HomeownershipSimulation.StockSummary.final_net_proceeds
               (HomeownershipSimulation.stock_summary sres)).
  assert (Hrun : BuyAndLivePage.run fpow w
                 = Ok (if negb (Qle_bool hf sf)
                       then {| BuyAndLivePage.home_result := hres;
                               BuyAndLivePage.stock_result := sres;
                               BuyAndLivePage.the_winner := BuyAndLivePage.Homeownership;
                               BuyAndLivePage.difference := hf - sf |}
                       else {| BuyAndLivePage.home_result := hres;
                               BuyAndLivePage.stock_result := sres;
                               BuyAndLivePage.the_winner := BuyAndLivePage.RentAndInvest;
                               BuyAndLivePage.difference := sf - hf |})).
  { unfold BuyAndLivePage.run. fold p. rewrite Eh. cbv beta iota zeta delta [bind].
    fold hdf. rewrite (df_column_ok _ _ Hlen1). fold costs. fold sp. rewrite Es.
    fold hf. fold sf. destruct (Qle_bool hf sf); reflexivity. }
  assert (Hcommon :
    len hdf = (BuyAndLivePage.Sliders.years w * 12)%Z
    /\ len (HomeownershipSimulation.stock_monthly_df sres)
       = (BuyAndLivePage.Sliders.years w * 12)%Z
    /\ HomeownershipSimulation.StockSummary.initial_payment
         (HomeownershipSimulation.stock_summary sres)
       = HomeownershipSimulation.HomeSummary.initial_payment
           (HomeownershipSimulation.home_summary hres)
    /\ (forall i hrow srow,
          nth_error hdf i = Some hrow ->
          nth_error (HomeownershipSimulation.stock_monthly_df sres) i = Some srow ->
          HomeownershipSimulation.StockRow.month srow
          = HomeownershipSimulation.HomeRow.month hrow
          /\ HomeownershipSimulation.StockRow.monthly_contribution srow
             + HomeownershipSimulation.StockRow.monthly_rent srow
             == HomeownershipSimulation.HomeRow.true_monthly_cost hrow)).
  { split; [lia|]. split.
    { rewrite Esdf, Hslen. unfold sp. simpl. lia. }
    split.
    { rewrite Esum. reflexivity. }
    intros i hrow srow Hh Hs. rewrite Esdf in Hs.
    destruct (Hrows i srow Hs) as (Hm & Hshape).
    destruct Hshape as (_ & _ & (cost & Ec & Hc) & _).
    destruct (Hhrows i hrow Hh) as (Hhm & _).
    split; [rewrite Hm, Hhm; reflexivity|].
    rewrite Hm in Ec. unfold costs in Ec. rewrite py_index_map in Ec.
    rewrite py_index_nonneg in Ec by lia.
    replace (Z.to_nat (Z.of_nat i + 1 - 1)) with i in Ec by lia.
    rewrite Hh in Ec. simpl in Ec. injection Ec as <-.
    rewrite Hc. ring. }
  destruct (Qle_bool hf sf) eqn:Ecmp; simpl in Hrun.
  - eexists. split; [exact Hrun|]. cbv zeta.
    cbn [BuyAndLivePage.home_result BuyAndLivePage.stock_result
         BuyAndLivePage.the_winner BuyAndLivePage.difference].
    destruct Hcommon as (H1 & H2 & H3 & H4).
    split; [exact H1|]. split; [exact H2|]. split; [exact H3|]. split; [exact H4|].
    apply Qle_bool_iff in Ecmp. fold hf sf.
    split; [lra|]. split; [discriminate|]. intros Hlt. lra.
  - eexists. split; [exact Hrun|]. cbv zeta.
    cbn [BuyAndLivePage.home_result BuyAndLivePage.stock_result
         BuyAndLivePage.the_winner BuyAndLivePage.difference].
    destruct Hcommon as (H1 & H2 & H3 & H4).
    split; [exact H1|]. split; [exact H2|]. split; [exact H3|]. split; [exact H4|].
    assert (Hlt : sf < hf).
    { destruct (Qlt_le_dec sf hf) as [H|H]; [exact H|].
      apply Qle_bool_iff in H. congruence. }
    fold hf sf. split; [lra|]. split; [intros _; exact Hlt|reflexivity].
Qed.

Lemma default_live_sliders_in_range : BuyAndLivePage.in_range default_live_sliders.
Proof.
  unfold BuyAndLivePage.in_range, default_live_sliders. simpl.
  repeat split; try discriminate; try lia.
Qed.

Lemma buy_and_live_page_runs_witness :
  exists c,
    BuyAndLivePage.run fpow_linear default_live_sliders = Ok c
    /\ len (HomeownershipSimulation.home_monthly_df (BuyAndLivePage.home_result c))
       = (30 * 12)%Z
    /\ 0 <= BuyAndLivePage.difference c.
Proof.
  destruct (buy_and_live_page_runs fpow_linear default_live_sliders
              default_live_sliders_in_range)
    as (c & E & H1 & _ & _ & _ & H5 & _).
  exists c. split; [exact E|]. split; [exact H1|exact H5].
Defined.

(* ================================================================== *)
(** * Further properties of the rental simulator *)
(* ================================================================== *)

Lemma rental_loop_body_shape (fpow : Q -> Q -> Q)
    (p : RentalSimulation.RentalParams.t) (closing_costs : Q)
    (amortization : list MortgageUtils.AmortizationEntry)
    (s : RentalSimulation.RentalState.t) (month : Z) :
  (1 <= month)%Z ->
  exists row s',
    RentalSimulation.rental_loop_body fpow p closing_costs amortization s month = Ok s'
    /\ RentalSimulation.RentalState.monthly_data s'
       = RentalSimulation.RentalState.monthly_data s ++ [row]
    /\ RentalSimulation.RentalRow.month row = month
    /\ rental_row_shape fpow p closing_costs amortization row.
Proof.
  intros Hm. unfold RentalSimulation.rental_loop_body.
  rewrite (mortgage_lookup_nth amortization month Hm).
  destruct (mortgage_columns amortization month) as [[[a b] c] d] eqn:E.
  cbv beta iota zeta delta [bind].
  eexists. eexists. split; [reflexivity|]. split; [reflexivity|].
  split; [reflexivity|].
  unfold rental_row_shape. cbn [RentalSimulation.RentalRow.month
    RentalSimulation.RentalRow.year RentalSimulation.RentalRow.property_value
    RentalSimulation.RentalRow.mortgage_payment
    RentalSimulation.RentalRow.principal_payment
    RentalSimulation.RentalRow.interest_payment
    RentalSimulation.RentalRow.remaining_balance
    RentalSimulation.RentalRow.property_tax_monthly
    RentalSimulation.RentalRow.hoa RentalSimulation.RentalRow.insurance
    RentalSimulation.RentalRow.maintenance RentalSimulation.RentalRow.unrecoverable
    RentalSimulation.RentalRow.monthly_tax_benefit
    RentalSimulation.RentalRow.rental_income RentalSimulation.RentalRow.true_cost
    RentalSimulation.RentalRow.monthly_operating_income
    RentalSimulation.RentalRow.net_proceeds].
  rewrite E. repeat (split; [reflexivity|]). reflexivity.
Qed.

Lemma rental_schedule_of_run (fpow : Q -> Q -> Q)
    (p : RentalSimulation.RentalParams.t) (s : RentalSimulation.RentalState.t) :
  RentalSimulation.rental_final_state fpow p = Ok s ->
  exists amortization,
    MortgageUtils.calculate_amortization_schedule (rental_loan_amount p)
      (RentalSimulation.RentalParams.mortgage_rate p)
      (RentalSimulation.RentalParams.mortgage_years p) = Ok amortization.
Proof.
  unfold RentalSimulation.rental_final_state,
    RentalSimulation.calculate_amortization_schedule.
  fold (rental_loan_amount p). intros H.
  destruct (MortgageUtils.calculate_amortization_schedule (rental_loan_amount p)
              (RentalSimulation.RentalParams.mortgage_rate p)
              (RentalSimulation.RentalParams.mortgage_years p)) as [a|e];
    [|discriminate H].
  exists a. reflexivity.
Qed.

(** Every row of the frame [simulate_rental_property] builds carries its
    month number and the values of that month. *)
Lemma rental_final_state_shape (fpow : Q -> Q -> Q)
    (p : RentalSimulation.RentalParams.t)
    (amortization : list MortgageUtils.AmortizationEntry)
    (s : RentalSimulation.RentalState.t) :
  MortgageUtils.calculate_amortization_schedule (rental_loan_amount p)
    (RentalSimulation.RentalParams.mortgage_rate p)
    (RentalSimulation.RentalParams.mortgage_years p) = Ok amortization ->
  RentalSimulation.rental_final_state fpow p = Ok s ->
  len (RentalSimulation.RentalState.monthly_data s)
  = Z.max 0 (RentalSimulation.RentalParams.years p * 12)
  /\ forall i row, nth_error (RentalSimulation.RentalState.monthly_data s) i = Some row ->
       RentalSimulation.RentalRow.month row = (Z.of_nat i + 1)%Z
       /\ rental_row_shape fpow p (rental_closing_costs p) amortization row.
Proof.
  intros Hsch. unfold RentalSimulation.rental_final_state.
  unfold RentalSimulation.calculate_amortization_schedule.
  fold (rental_loan_amount p). rewrite Hsch. cbv beta iota zeta delta [bind].
  fold (rental_closing_costs p). intros H.
  match type of H with
  | for_each ?body (py_range 1 ?hi) ?s0 = Ok _ =>
      pose proof (for_each_range_inv body
                    (fun m t =>
                       len (RentalSimulation.RentalState.monthly_data t) = (m - 1)%Z
                       /\ forall i row,
                            nth_error (RentalSimulation.RentalState.monthly_data t) i
                            = Some row ->
                            RentalSimulation.RentalRow.month row = (Z.of_nat i + 1)%Z
                            /\ rental_row_shape fpow p (rental_closing_costs p)
                                 amortization row)
                    1 hi s0 s) as Hinv
  end.
  destruct Hinv as [Hlen Hrows]; [| |exact H|].
  - split; [reflexivity|]. intros i row Hi. destruct i; discriminate.
  - intros m t t' Hm [Hl Hrows] Hb.
    destruct (rental_loop_body_shape fpow p (rental_closing_costs p) amortization t m
                ltac:(lia)) as (row & t'' & Eb & Hmd & Hmonth & Hshape).
    rewrite Eb in Hb. injection Hb as <-. rewrite Hmd.
    split.
    + unfold len in *. rewrite length_app. simpl. lia.
    + intros i r Hi.
      destruct (Nat.lt_ge_cases i (List.length (RentalSimulation.RentalState.monthly_data t)))
        as [Hlt|Hge].
      * rewrite nth_error_app1 in Hi by exact Hlt. apply Hrows. exact Hi.
      * rewrite nth_error_app2 in Hi by exact Hge.
        destruct (i - List.length (RentalSimulation.RentalState.monthly_data t))%nat
          as [|k] eqn:Ek.
        -- simpl in Hi. injection Hi as <-. split; [|exact Hshape].
           rewrite Hmonth. unfold len in Hl. lia.
        -- simpl in Hi. destruct k; discriminate.
  - split; [lia|exact Hrows].
Qed.

(** What [simulate_rental_property] puts in the summary. *)
Lemma simulate_rental_property_inv (fpow : Q -> Q -> Q)
    (p : RentalSimulation.RentalParams.t) (res : RentalSimulation.RentalResult) :
  RentalSimulation.simulate_rental_property fpow p = Ok res ->
  exists s last,
    RentalSimulation.rental_final_state fpow p = Ok s
    /\ RentalSimulation.rental_monthly_df res = RentalSimulation.RentalState.monthly_data s
    /\ py_index (RentalSimulation.rental_monthly_df res) (-1) = Ok last
    /\ RentalSimulation.rental_summary res
       = {| RentalSimulation.RentalSummary.initial_payment :=
              RentalSimulation.RentalParams.purchase_price p
              * RentalSimulation.RentalParams.down_payment_pct p
              + RentalSimulation.RentalParams.purchase_price p
                * RentalSimulation.RentalParams.closing_costs_pct p;
            RentalSimulation.RentalSummary.final_property_value :=
              RentalSimulation.RentalRow.property_value last;
            RentalSimulation.RentalSummary.selling_costs :=
              RentalSimulation.RentalRow.property_value last * 0.06;
            RentalSimulation.RentalSummary.final_net_proceeds :=
              RentalSimulation.RentalRow.property_value last
              - RentalSimulation.RentalRow.property_value last * 0.06
              - RentalSimulation.RentalRow.remaining_balance last;
            RentalSimulation.RentalSummary.total_true_cost :=
              RentalSimulation.RentalRow.cumulative_true_cost last
              + RentalSimulation.RentalRow.property_value last * 0.06;
            RentalSimulation.RentalSummary.total_operating_income :=
              RentalSimulation.RentalRow.cumulative_operating_income last;
            RentalSimulation.RentalSummary.total_rental_income :=
              py_sum (map RentalSimulation.RentalRow.rental_income
                        (RentalSimulation.rental_monthly_df res)) |}.
Proof.
  unfold RentalSimulation.simulate_rental_property. intros H.
  bind_inv H. injection H as <-.
  cbn [RentalSimulation.rental_monthly_df RentalSimulation.rental_summary].
  repeat match goal with
         | E : df_column _ _ = Ok _ |- _ => apply df_column_inv in E; subst
         end.
  repeat match goal with
         | E : py_index (map _ _) _ = Ok _ |- _ =>
             rewrite py_index_map in E;
             match type of E with
             | bind (py_index ?l ?i) _ = Ok _ =>
                 match goal with
                 | E' : py_index l i = Ok _ |- _ =>
                     rewrite E' in E; simpl in E; injection E as <-
                 end
             end
         end.
  eexists. eexists. split; [reflexivity|]. split; [reflexivity|].
  split; [eassumption|]. reflexivity.
Qed.

Lemma py_sum_const {A : Type} (f : A -> Q) (c : Q) (l : list A) :
  (forall a, In a l -> f a = c) ->
  py_sum (map f l) == inject_Z (Z.of_nat (List.length l)) * c.
Proof.
  induction l as [|a l IH]; intros H.
  - unfold py_sum. simpl. ring.
  - cbn [map List.length]. rewrite py_sum_cons, IH.
    + rewrite (H a) by (left; reflexivity).
      rewrite Nat2Z.inj_succ, <- Z.add_1_r, inject_Z_plus.
      change (inject_Z 1) with 1. ring.
    + intros b Hb. apply H. right. exact Hb.
Qed.

(** X19.  In the rental simulator the rent never changes: every row of the
    frame carries the same [rental_income], the monthly rent less the
    vacancy share, and the same amount as operating income; the summary's
    [total_rental_income] and [total_operating_income] are both
    [years * 12] times that amount. *)
Theorem rental_income_is_flat (fpow : Q -> Q -> Q)
    (p : RentalSimulation.RentalParams.t) (res : RentalSimulation.RentalResult) :
  RentalSimulation.simulate_rental_property fpow p = Ok res ->
  let income :=
    RentalSimulation.RentalParams.monthly_rent p
    * (1 - RentalSimulation.RentalParams.vacancy_rate p) in
  (forall row, In row (RentalSimulation.rental_monthly_df res) ->
     RentalSimulation.RentalRow.rental_income row = income
     /\ RentalSimulation.RentalRow.monthly_operating_income row = income)
  /\ RentalSimulation.RentalSummary.total_rental_income
       (RentalSimulation.rental_summary res)
     == inject_Z (RentalSimulation.RentalParams.years p * 12) * income
  /\ RentalSimulation.RentalSummary.total_operating_income
       (RentalSimulation.rental_summary res)
     == inject_Z (RentalSimulation.RentalParams.years p * 12) * income.
Proof.
  intros H income. unfold income. clear income.
  destruct (simulate_rental_property_inv fpow p res H) as (s & last & Es & Edf & El & Esum).
  destruct (rental_schedule_of_run fpow p s Es) as [amortization Hsch].
  destruct (rental_final_state_shape fpow p amortization s Hsch Es) as [Hlen Hrows].
  destruct (rental_final_state_inv fpow p s Es) as [_ Hop].
  rewrite Esum, Edf in *.
  cbn [RentalSimulation.RentalSummary.total_rental_income
       RentalSimulation.RentalSummary.total_operating_income].
  assert (Hrow : forall row, In row (RentalSimulation.RentalState.monthly_data s) ->
             RentalSimulation.RentalRow.rental_income row
             = RentalSimulation.RentalParams.monthly_rent p
               * (1 - RentalSimulation.RentalParams.vacancy_rate p)
             /\ RentalSimulation.RentalRow.monthly_operating_income row
                = RentalSimulation.RentalParams.monthly_rent p
                  * (1 - RentalSimulation.RentalParams.vacancy_rate p)).
  { intros row Hin. apply In_nth_error in Hin. destruct Hin as [i Hi].
    destruct (Hrows i row Hi) as (_ & Hshape).
    destruct Hshape as (_ & _ & _ & _ & _ & _ & _ & _ & _ & Hinc & _ & Hoi & _).
    split; [exact Hinc|]. rewrite Hoi. exact Hinc. }
  assert (Hn : Z.of_nat (List.length (RentalSimulation.RentalState.monthly_data s))
               = (RentalSimulation.RentalParams.years p * 12)%Z).
  { apply py_index_last_inv in El. destruct El as (n & Hn & _).
    unfold len in Hlen. lia. }
  split; [exact Hrow|]. split.
  - rewrite (py_sum_const _ _ _ (fun row Hin => proj1 (Hrow row Hin))), Hn. reflexivity.
  - rewrite (running_total_last _ _ _ last Hop El).
    rewrite (py_sum_const _ _ _ (fun row Hin => proj2 (Hrow row Hin))), Hn. reflexivity.
Qed.

Lemma rental_income_is_flat_witness :
  exists res,
    RentalSimulation.simulate_rental_property fpow_linear example_rental_params = Ok res
    /\ RentalSimulation.RentalSummary.total_rental_income
         (RentalSimulation.rental_summary res)
       == inject_Z (1 * 12) * (2000 * (1 - 0.05)).
Proof.
  destruct (simulate_rental_property_total fpow_linear example_rental_params)
    as [res E]; [discriminate | simpl; lia | simpl; lia |].
  exists res. split; [exact E|].
  destruct (rental_income_is_flat fpow_linear example_rental_params res E)
    as (_ & H & _).
  exact H.
Defined.

(** X20.  The rental frame against its summary.  Whenever
    [simulate_rental_property] returns: row [i] belongs to month [i + 1] and
    carries the mortgage columns of the schedule's entry [i] (zeros once the
    schedule is exhausted); a row's [net_proceeds] is the property value
    less the remaining balance, with no selling costs, so the summary's
    [final_net_proceeds] is the last row's [net_proceeds] less the selling
    costs; and the landlord's net cash outflow of a month,
    [true_cost + principal_payment], is the mortgage payment plus taxes,
    fees, insurance and maintenance, less rent and tax benefit, plus the
    closing costs in the first month. *)
Theorem rental_rows_and_summary (fpow : Q -> Q -> Q)
    (p : RentalSimulation.RentalParams.t) (res : RentalSimulation.RentalResult) :
  RentalSimulation.simulate_rental_property fpow p = Ok res ->
  let df := RentalSimulation.rental_monthly_df res in
  exists amortization last,
    MortgageUtils.calculate_amortization_schedule (rental_loan_amount p)
      (RentalSimulation.RentalParams.mortgage_rate p)
      (RentalSimulation.RentalParams.mortgage_years p) = Ok amortization
    /\ py_index df (-1) = Ok last
    /\ len df = (RentalSimulation.RentalParams.years p * 12)%Z
    /\ RentalSimulation.RentalSummary.final_net_proceeds
         (RentalSimulation.rental_summary res)
       == RentalSimulation.RentalRow.net_proceeds last
          - RentalSimulation.RentalSummary.selling_costs
              (RentalSimulation.rental_summary res)
    /\ forall i row, nth_error df i = Some row ->
         RentalSimulation.RentalRow.month row = (Z.of_nat i + 1)%Z
         /\ (RentalSimulation.RentalRow.mortgage_payment row,
             RentalSimulation.RentalRow.principal_payment row,
             RentalSimulation.RentalRow.interest_payment row,
             RentalSimulation.RentalRow.remaining_balance row)
            = match nth_error amortization i with
              | Some e => (MortgageUtils.payment e, MortgageUtils.principal e,
                           MortgageUtils.interest e, MortgageUtils.balance e)
              | None => (0, 0, 0, 0)
              end
         /\ RentalSimulation.RentalRow.net_proceeds row
            = RentalSimulation.RentalRow.property_value row
              - RentalSimulation.RentalRow.remaining_balance row
         /\ RentalSimulation.RentalRow.true_cost row
            + RentalSimulation.RentalRow.principal_payment row
            == RentalSimulation.RentalRow.mortgage_payment row
               + RentalSimulation.RentalRow.property_tax_monthly row
               + RentalSimulation.RentalRow.hoa row
               + RentalSimulation.RentalRow.insurance row
               + RentalSimulation.RentalRow.maintenance row
               - RentalSimulation.RentalRow.rental_income row
               - RentalSimulation.RentalRow.monthly_tax_benefit row
               + (if (i =? 0)%nat then rental_closing_costs p else 0).
Proof.
  intros H df. unfold df. clear df.
  destruct (simulate_rental_property_inv fpow p res H) as (s & last & Es & Edf & El & Esum).
  destruct (rental_schedule_of_run fpow p s Es) as [amortization Hsch].
  destruct (rental_final_state_shape fpow p amortization s Hsch Es) as [Hlen Hrows].
  exists amortization, last.
  split; [exact Hsch|]. split; [exact El|].
  rewrite Esum, Edf in *.
  cbn [RentalSimulation.RentalSummary.final_net_proceeds
       RentalSimulation.RentalSummary.selling_costs].
  split.
  { assert (Hi := El). apply py_index_last_inv in Hi. destruct Hi as (n & Hn & _).
    unfold len in *. lia. }
  split.
  { assert (Hi := El). apply py_index_last_inv in Hi. destruct Hi as (n & _ & Hn).
    destruct (Hrows n last Hn) as (_ & Hshape).
    destruct Hshape as (_ & _ & _ & _ & _ & _ & _ & _ & _ & _ & _ & _ & ->). ring. }
  intros i row Hi. destruct (Hrows i row Hi) as (Hm & Hshape).
  destruct Hshape as (_ & _ & Hcols & _ & _ & Hhoa & Hins & Hun & _ & _ & Htc & _ & Hnp).
  rewrite Hm, mortgage_columns_nth in Hcols.
  split; [exact Hm|]. split; [exact Hcols|]. split; [exact Hnp|].
  rewrite Htc, Hun, Hhoa, Hins, Hm.
  assert (Hsplit : RentalSimulation.RentalRow.mortgage_payment row
                   == RentalSimulation.RentalRow.principal_payment row
                      + RentalSimulation.RentalRow.interest_payment row).
  { destruct (nth_error amortization i) as [e|] eqn:En.
    - injection Hcols as -> -> -> _.
      apply (schedule_payment_split _ _ _ _ i e Hsch En).
    - injection Hcols as -> -> -> _. ring. }
  rewrite Hsplit.
  destruct i as [|i].
  - cbn [Z.of_nat Z.add Z.eqb Nat.eqb Pos.eqb]. ring.
  - replace (Z.of_nat (S i) + 1 =? 1)%Z with false
      by (symmetry; apply Z.eqb_neq; lia).
    cbn [Nat.eqb]. ring.
Qed.

Lemma rental_rows_and_summary_witness :
  exists res last,
    RentalSimulation.simulate_rental_property fpow_linear example_rental_params = Ok res
    /\ py_index (RentalSimulation.rental_monthly_df res) (-1) = Ok last
    /\ RentalSimulation.RentalSummary.final_net_proceeds
         (RentalSimulation.rental_summary res)
       == RentalSimulation.RentalRow.net_proceeds last
          - RentalSimulation.RentalSummary.selling_costs
              (RentalSimulation.rental_summary res).
Proof.
  destruct (simulate_rental_property_total fpow_linear example_rental_params)
    as [res E]; [discriminate | simpl; lia | simpl; lia |].
  destruct (rental_rows_and_summary fpow_linear example_rental_params res E)
    as (amortization & last & _ & El & _ & Hnp & _).
  exists res, last. split; [exact E|]. split; [exact El|exact Hnp].
Defined.

Lemma combine_map_sum {A : Type} (f g : A -> Q) (l : list A) :
  map (fun '(a, b) => a + b) (combine (map f l) (map g l))
  = map (fun r => f r + g r) l.
Proof.
  induction l as [|r l IH]; simpl; [reflexivity|]. rewrite IH. reflexivity.
Qed.

Lemma rental_monthly_expenses_ok (rental_df : list RentalSimulation.RentalRow.t) :
  (1 <= len rental_df)%Z ->
  BuyAndRentPage.rental_monthly_expenses rental_df
  = Ok (map (fun r => RentalSimulation.RentalRow.true_cost r
                      + RentalSimulation.RentalRow.principal_payment r) rental_df).
Proof.
  intros H. unfold BuyAndRentPage.rental_monthly_expenses.
  rewrite !(df_column_ok _ _ H). cbv beta iota delta [bind].
  rewrite combine_map_sum. reflexivity.
Qed.

Lemma default_rent_sliders_in_range : BuyAndRentPage.in_range default_rent_sliders.
Proof.
  unfold BuyAndRentPage.in_range, default_rent_sliders. simpl.
  repeat split; try discriminate; try lia.
Qed.

(** X21.  The Buy-and-Rent page cannot fail either.  For every position of
    its sliders within their ranges both simulations return and both frames
    have [years * 12] rows; the stock investor starts with the landlord's
    initial payment, and in every month contributes exactly the landlord's
    [true_cost + principal_payment] of that month. *)
Theorem buy_and_rent_page_runs (fpow : Q -> Q -> Q) (w : BuyAndRentPage.Sliders.t) :
  BuyAndRentPage.in_range w ->
  exists c,
    BuyAndRentPage.run fpow w = Ok c
    /\ let rental_df :=
         RentalSimulation.rental_monthly_df (BuyAndRentPage.rental_result c) in
       let stock_df :=
         RentalSimulation.invest_monthly_df (BuyAndRentPage.stock_result c) in
       len rental_df = (BuyAndRentPage.Sliders.years w * 12)%Z
       /\ len stock_df = (BuyAndRentPage.Sliders.years w * 12)%Z
       /\ RentalSimulation.InvestSummary.initial_payment
            (RentalSimulation.invest_summary (BuyAndRentPage.stock_result c))
          = RentalSimulation.RentalSummary.initial_payment
              (RentalSimulation.rental_summary (BuyAndRentPage.rental_result c))
       /\ (forall i rrow srow,
             nth_error rental_df i = Some rrow ->
             nth_error stock_df i = Some srow ->
             RentalSimulation.InvestRow.month srow
             = RentalSimulation.RentalRow.month rrow
             /\ RentalSimulation.InvestRow.monthly_contribution srow
                = RentalSimulation.RentalRow.true_cost rrow
                  + RentalSimulation.RentalRow.principal_payment rrow).
Proof.
  intros Hw.
  destruct Hw as (_ & _ & _ & [Hrate _] & Hmy & _ & _ & _ & _ & _ & _ & _ & _ & _ & _
                  & Hy).
  set (p := BuyAndRentPage.params w).
  assert (Hr : 0 <= RentalSimulation.RentalParams.mortgage_rate p).
  { unfold p. simpl. apply div100_nonneg. lra. }
  assert (Hmy' : (1 <= RentalSimulation.RentalParams.mortgage_years p)%Z)
    by (unfold p; simpl; lia).
  assert (Hy' : (1 <= RentalSimulation.RentalParams.years p)%Z)
    by (unfold p; simpl; lia).
  destruct (simulate_rental_property_total fpow p Hr Hmy' Hy') as [rres Er].
  destruct (simulate_rental_property_inv fpow p rres Er)
    as (rs & rlast & Ers & Erdf & Erl & Ersum).
  destruct (rental_schedule_of_run fpow p rs Ers) as [amortization Hsch].
  destruct (rental_final_state_shape fpow p amortization rs Hsch Ers) as [Hrlen Hrrows].
  rewrite <- Erdf in Hrlen, Hrrows.
  change (RentalSimulation.RentalParams.years p)
    with (BuyAndRentPage.Sliders.years w) in Hrlen.
  set (rdf := RentalSimulation.rental_monthly_df rres) in *.
  assert (Hlen1 : (1 <= len rdf)%Z) by lia.
  set (sp := BuyAndRentPage.stock_params w (RentalSimulation.rental_summary rres)).
  set (expenses := map (fun r => RentalSimulation.RentalRow.true_cost r
                                 + RentalSimulation.RentalRow.principal_payment r) rdf).
  destruct (simulate_stock_investment_total sp expenses) as [sres Es].
  { unfold sp. simpl. lia. }
  { unfold sp, expenses, len. simpl. rewrite length_map. unfold len in Hrlen. lia. }
  destruct (simulate_stock_investment_inv sp expenses sres Es)
    as (s & last & Efs & Esdf & El & Esum).
  destruct (invest_final_state_ledger sp expenses s Efs) as (Hslen & _ & _ & _ & Hrows).
  eexists. split.
  { unfold BuyAndRentPage.run. fold p. rewrite Er. cbv beta iota zeta delta [bind].
    fold rdf. rewrite (rental_monthly_expenses_ok rdf Hlen1). fold expenses. fold sp.
    rewrite Es. reflexivity. }
  cbv zeta. cbn [BuyAndRentPage.rental_result BuyAndRentPage.stock_result].
  fold rdf. split; [lia|]. split.
  { rewrite Esdf, Hslen. unfold sp. simpl. lia. }
  split.
  { rewrite Esum. reflexivity. }
  intros i rrow srow Hr' Hs. rewrite Esdf in Hs.
  destruct (Hrows i srow Hs) as (Hm & Hshape).
  destruct Hshape as (_ & Ec & _).
  destruct (Hrrows i rrow Hr') as (Hrm & _).
  split; [rewrite Hm, Hrm; reflexivity|].
  rewrite Hm in Ec. unfold expenses in Ec. rewrite py_index_map in Ec.
  rewrite py_index_nonneg in Ec by lia.
  replace (Z.to_nat (Z.of_nat i + 1 - 1)) with i in Ec by lia.
  rewrite Hr' in Ec. simpl in Ec. injection Ec as <-. reflexivity.
Qed.

Lemma buy_and_rent_page_runs_witness :
  exists c,
    BuyAndRentPage.run fpow_linear default_rent_sliders = Ok c
    /\ len (RentalSimulation.rental_monthly_df (BuyAndRentPage.rental_result c))
       = (30 * 12)%Z
    /\ len (RentalSimulation.invest_monthly_df (BuyAndRentPage.stock_result c))
       = (30 * 12)%Z.
Proof.
  destruct (buy_and_rent_page_runs fpow_linear default_rent_sliders
              default_rent_sliders_in_range)
    as (c & E & H1 & H2 & _).
  exists c. split; [exact E|]. split; [exact H1|exact H2].
Defined.

(* ================================================================== *)
(** * The flip project of the older engine *)
(* ================================================================== *)

Lemma length_cumsum_from (acc : Q) (l : list Q) :
  List.length (Simulation.cumsum_from acc l) = List.length l.
Proof.
  revert acc. induction l as [|x l IH]; intros acc; simpl; [reflexivity|].
  rewrite IH. reflexivity.
Qed.

Lemma length_cumsum (l : list Q) : List.length (Simulation.cumsum l) = List.length l.
Proof.
  destruct l as [|x l]; simpl; [reflexivity|].
  rewrite length_cumsum_from. reflexivity.
Qed.

Lemma cumsum_from_nth (acc : Q) (l : list Q) (i : nat) (x : Q) :
  nth_error (Simulation.cumsum_from acc l) i = Some x ->
  x == acc + py_sum (firstn (S i) l).
Proof.
  revert acc i. induction l as [|y l IH]; intros acc i H.
  - destruct i; discriminate.
  - destruct i as [|i]; simpl in H.
    + injection H as <-. cbn [firstn]. unfold py_sum. simpl. ring.
    + apply IH in H. rewrite H.
      change (firstn (S (S i)) (y :: l)) with (y :: firstn (S i) l).
      rewrite py_sum_cons. ring.
Qed.

(** [cumsum]: entry [i] is the sum of the entries up to [i]. *)
Lemma cumsum_nth (l : list Q) (i : nat) (x : Q) :
  nth_error (Simulation.cumsum l) i = Some x -> x == py_sum (firstn (S i) l).
Proof.
  destruct l as [|y l]; intros H.
  - destruct i; discriminate.
  - destruct i as [|i]; simpl in H.
    + injection H as <-. cbn [firstn]. unfold py_sum. simpl. ring.
    + apply cumsum_from_nth in H. rewrite H.
      change (firstn (S (S i)) (y :: l)) with (y :: firstn (S i) l).
      rewrite py_sum_cons. reflexivity.
Qed.

Lemma nth_error_combine {A B : Type} (l : list A) (l' : list B) (i : nat)
    (a : A) (b : B) :
  nth_error (combine l l') i = Some (a, b) ->
  nth_error l i = Some a /\ nth_error l' i = Some b.
Proof.
  revert l' i. induction l as [|x l IH]; intros l' i H.
  - destruct i; discriminate.
  - destruct l' as [|y l']; [destruct i; discriminate|].
    destruct i as [|i]; simpl in H.
    + injection H as -> ->. split; reflexivity.
    + simpl. apply IH. exact H.
Qed.

(** The rows the month loop of [simulate_flip_project] builds. *)
Lemma flip_loop_run (p : SimulationFlip.FlipParams.t) :
  (0 <= SimulationFlip.FlipParams.renovation_months p)%Z ->
  let rm := SimulationFlip.FlipParams.renovation_months p in
  exists md,
    for_each (SimulationFlip.flip_loop_body p) (py_range 1 (rm + 1 + 1)) [] = Ok md
    /\ len md = (rm + 1)%Z
    /\ py_sum (map SimulationFlip.FlipRow.monthly_cost md)
       == (if (1 <=? rm)%Z then SimulationFlip.FlipParams.renovation_cost p else 0)
          + SimulationFlip.FlipParams.holding_costs_monthly p * inject_Z (rm + 1)
    /\ forall i r, nth_error md i = Some r ->
         SimulationFlip.FlipRow.month r = (Z.of_nat i + 1)%Z
         /\ if (Z.of_nat i <? rm)%Z
            then SimulationFlip.FlipRow.status_ r = SimulationFlip.Renovating
                 /\ SimulationFlip.FlipRow.property_value r
                    = SimulationFlip.FlipParams.purchase_price p
            else SimulationFlip.FlipRow.status_ r = SimulationFlip.Sold
                 /\ SimulationFlip.FlipRow.property_value r
                    = SimulationFlip.FlipParams.arv p.
Proof.
  intros Hrm rm.
  set (h := SimulationFlip.FlipParams.holding_costs_monthly p).
  set (rc := SimulationFlip.FlipParams.renovation_cost p).
  destruct (for_each_range_total (SimulationFlip.flip_loop_body p)
              (fun m md =>
                 len md = (m - 1)%Z
                 /\ py_sum (map SimulationFlip.FlipRow.monthly_cost md)
                    == inject_Z (Z.min (m - 1) rm) * (h + rc / inject_Z rm)
                       + (if (rm <? m - 1)%Z then h else 0)
                 /\ forall i r, nth_error md i = Some r ->
                      SimulationFlip.FlipRow.month r = (Z.of_nat i + 1)%Z
                      /\ if (Z.of_nat i <? rm)%Z
                         then SimulationFlip.FlipRow.status_ r = SimulationFlip.Renovating
                              /\ SimulationFlip.FlipRow.property_value r
                                 = SimulationFlip.FlipParams.purchase_price p
                         else SimulationFlip.FlipRow.status_ r = SimulationFlip.Sold
                              /\ SimulationFlip.FlipRow.property_value r
                                 = SimulationFlip.FlipParams.arv p)
              1 (rm + 1 + 1) []) as (md & Emd & Hlen & Hsum & Hrows).
  - split; [reflexivity|]. split.
    + rewrite Z.min_l by lia.
      destruct (rm <? 1 - 1)%Z eqn:E; [apply Z.ltb_lt in E; lia|].
      unfold py_sum. simpl. ring.
    + intros i r Hi. destruct i; discriminate.
  - intros m t Hm (Hlen & Hsum & Hrows).
    unfold SimulationFlip.flip_loop_body. fold rm.
    assert (Hnew : forall (r : SimulationFlip.FlipRow.t) i x,
               (forall i r, nth_error t i = Some r ->
                  SimulationFlip.FlipRow.month r = (Z.of_nat i + 1)%Z
                  /\ if (Z.of_nat i <? rm)%Z
                     then SimulationFlip.FlipRow.status_ r = SimulationFlip.Renovating
                          /\ SimulationFlip.FlipRow.property_value r
                             = SimulationFlip.FlipParams.purchase_price p
                     else SimulationFlip.FlipRow.status_ r = SimulationFlip.Sold
                          /\ SimulationFlip.FlipRow.property_value r
                             = SimulationFlip.FlipParams.arv p) ->
               nth_error (t ++ [r]) i = Some x ->
               (exists y, nth_error t i = Some y /\ x = y)
               \/ (i = List.length t /\ x = r)).
    { intros r i x _ Hi.
      destruct (Nat.lt_ge_cases i (List.length t)) as [Hlt|Hge].
      - left. rewrite nth_error_app1 in Hi by exact Hlt. exists x. split; [exact Hi|reflexivity].
      - right. rewrite nth_error_app2 in Hi by exact Hge.
        destruct (i - List.length t)%nat as [|k] eqn:Ek;
          [|simpl in Hi; destruct k; discriminate].
        simpl in Hi. injection Hi as <-. split; [lia|reflexivity]. }
    destruct (m <=? rm)%Z eqn:Em.
    + apply Z.leb_le in Em. unfold py_div.
      destruct (Qeq_bool (inject_Z rm) 0) eqn:E0.
      { apply Qeq_bool_iff in E0.
        assert (0 < inject_Z rm) by (change 0 with (inject_Z 0); rewrite <- Zlt_Qlt; lia).
        lra. }
      cbv beta iota zeta delta [bind]. eexists. split; [reflexivity|].
      split; [unfold len in *; rewrite length_app; simpl; lia|]. split.
      * rewrite map_app. cbn [map SimulationFlip.FlipRow.monthly_cost].
        rewrite py_sum_snoc, Hsum. fold h rc.
        destruct (rm <? m - 1)%Z eqn:E1; [apply Z.ltb_lt in E1; lia|].
        destruct (rm <? m + 1 - 1)%Z eqn:E2; [apply Z.ltb_lt in E2; lia|].
        rewrite !Z.min_l by lia.
        replace (m + 1 - 1)%Z with (m - 1 + 1)%Z by lia.
        rewrite inject_Z_plus. change (inject_Z 1) with 1. ring.
      * intros i x Hi.
        destruct (Hnew _ i x Hrows Hi) as [(y & Hy & ->)|[-> ->]];
          [apply Hrows; exact Hy|].
        cbn [SimulationFlip.FlipRow.month SimulationFlip.FlipRow.status_
             SimulationFlip.FlipRow.property_value].
        unfold len in Hlen. split; [lia|].
        destruct (Z.of_nat (List.length t) <? rm)%Z eqn:E3;
          [split; reflexivity|apply Z.ltb_ge in E3; lia].
    + apply Z.leb_gt in Em.
      cbv beta iota zeta delta [bind]. eexists. split; [reflexivity|].
      split; [unfold len in *; rewrite length_app; simpl; lia|]. split.
      * rewrite map_app. cbn [map SimulationFlip.FlipRow.monthly_cost].
        rewrite py_sum_snoc, Hsum. fold h.
        destruct (rm <? m - 1)%Z eqn:E1; [apply Z.ltb_lt in E1; lia|].
        destruct (rm <? m + 1 - 1)%Z eqn:E2; [|apply Z.ltb_ge in E2; lia].
        rewrite !Z.min_r by lia. ring.
      * intros i x Hi.
        destruct (Hnew _ i x Hrows Hi) as [(y & Hy & ->)|[-> ->]];
          [apply Hrows; exact Hy|].
        cbn [SimulationFlip.FlipRow.month SimulationFlip.FlipRow.status_
             SimulationFlip.FlipRow.property_value].
        unfold len in Hlen. split; [lia|].
        destruct (Z.of_nat (List.length t) <? rm)%Z eqn:E3;
          [apply Z.ltb_lt in E3; lia|split; reflexivity].
  - exists md. split; [exact Emd|]. split; [lia|]. split; [|exact Hrows].
    rewrite Hsum.
    replace (Z.max 1 (rm + 1 + 1) - 1)%Z with (rm + 1)%Z by lia.
    rewrite Z.min_r by lia.
    destruct (rm <? rm + 1)%Z eqn:E1; [|apply Z.ltb_ge in E1; lia].
    rewrite inject_Z_plus. change (inject_Z 1) with 1.
    destruct (1 <=? rm)%Z eqn:E2.
    + apply Z.leb_le in E2.
      assert (0 < inject_Z rm) by (change 0 with (inject_Z 0); rewrite <- Zlt_Qlt; lia).
      field. lra.
    + apply Z.leb_gt in E2. assert (rm = 0%Z) by lia.
      replace rm with 0%Z by lia. change (inject_Z 0) with 0. ring.
Qed.

(** X22.  [simulate_flip_project] for a renovation that takes a whole
    number of months, zero included: the call returns; the frame has one row
    per renovation month, each at the purchase price, and a last row for the
    sale at the after-repair value; the holding period is
    [renovation_months + 1].  The summary's [total_costs] is the total
    investment (down payment plus renovation cost) plus every month's cost,
    and the monthly costs of a renovation of at least one month contain the
    renovation cost once more: [total_costs] is the down payment plus twice
    the renovation cost plus the holding costs.  The tax is never negative,
    so the net profit never exceeds the gross profit, and a loss is not
    taxed. *)
Theorem flip_project_totals (p : SimulationFlip.FlipParams.t) :
  (0 <= SimulationFlip.FlipParams.renovation_months p)%Z ->
  let rm := SimulationFlip.FlipParams.renovation_months p in
  exists res,
    SimulationFlip.simulate_flip_project p = Ok res
    /\ let s := SimulationFlip.flip_summary res in
       let df := SimulationFlip.flip_monthly_df res in
       len df = (rm + 1)%Z
       /\ SimulationFlip.FlipSummary.holding_period_months s = (rm + 1)%Z
       /\ SimulationFlip.FlipSummary.total_costs s
          == SimulationFlip.FlipSummary.total_investment s
             + (if (1 <=? rm)%Z then SimulationFlip.FlipParams.renovation_cost p else 0)
             + SimulationFlip.FlipParams.holding_costs_monthly p * inject_Z (rm + 1)
       /\ 0 <= SimulationFlip.FlipSummary.capital_gains_tax s
       /\ SimulationFlip.FlipSummary.net_profit s
          <= SimulationFlip.FlipSummary.gross_profit s
       /\ (0 <= SimulationFlip.FlipParams.tax_bracket p ->
           SimulationFlip.FlipSummary.gross_profit s <= 0 ->
           SimulationFlip.FlipSummary.net_profit s
           == SimulationFlip.FlipSummary.gross_profit s)
       /\ (forall i r, nth_error df i = Some r ->
             SimulationFlip.FlipRow.month (SimulationFlip.FlipFrameRow.row r)
             = (Z.of_nat i + 1)%Z
             /\ if (Z.of_nat i <? rm)%Z
                then SimulationFlip.FlipRow.status_ (SimulationFlip.FlipFrameRow.row r)
                     = SimulationFlip.Renovating
                     /\ SimulationFlip.FlipRow.property_value
                          (SimulationFlip.FlipFrameRow.row r)
                        = SimulationFlip.FlipParams.purchase_price p
                else SimulationFlip.FlipRow.status_ (SimulationFlip.FlipFrameRow.row r)
                     = SimulationFlip.Sold
                     /\ SimulationFlip.FlipRow.property_value
                          (SimulationFlip.FlipFrameRow.row r)
                        = SimulationFlip.FlipParams.arv p).
Proof.
  intros Hrm rm.
  destruct (flip_loop_run p Hrm) as (md & Emd & Hlen & Hsum & Hrows).
  fold rm in Emd, Hlen, Hsum, Hrows.
  assert (Hlen1 : (1 <= len md)%Z) by lia.
  set (ti := SimulationFlip.FlipParams.purchase_price p
             * match SimulationFlip.FlipParams.down_payment_pct p with
               | Some d => d
               | None => 0.20
               end
             + SimulationFlip.FlipParams.renovation_cost p).
  set (costs := map SimulationFlip.FlipRow.monthly_cost md).
  set (cum := map (fun c => ti + c) (Simulation.cumsum costs)).
  set (df := map (fun '(r, c) =>
                    {| SimulationFlip.FlipFrameRow.row := r;
                       SimulationFlip.FlipFrameRow.cumulative_costs := c |})
               (combine md cum)).
  assert (Hcum : List.length cum = List.length md).
  { unfold cum, costs. rewrite length_map, length_cumsum, length_map. reflexivity. }
  assert (Hdf : List.length df = List.length md).
  { unfold df. rewrite length_map, length_combine, Hcum. lia. }
  assert (Hdfrow : forall i r, nth_error df i = Some r ->
             nth_error md i = Some (SimulationFlip.FlipFrameRow.row r)
             /\ nth_error cum i = Some (SimulationFlip.FlipFrameRow.cumulative_costs r)).
  { intros i r Hi. unfold df in Hi. rewrite nth_error_map in Hi.
    destruct (nth_error (combine md cum) i) as [[a c]|] eqn:Ec; [|discriminate].
    simpl in Hi. injection Hi as <-. apply nth_error_combine in Ec. exact Ec. }
  destruct (py_index_last_ok df) as [last El].
  { unfold len in *. lia. }
  assert (Htotal : SimulationFlip.FlipFrameRow.cumulative_costs last
                   == ti + py_sum costs).
  { assert (Hi := El). apply py_index_last_inv in Hi. destruct Hi as (n & Hn & Hi).
    destruct (Hdfrow n last Hi) as [_ Hc].
    unfold cum in Hc. rewrite nth_error_map in Hc.
    destruct (nth_error (Simulation.cumsum costs) n) as [x|] eqn:Ex; [|discriminate].
    simpl in Hc. injection Hc as <-.
    apply cumsum_nth in Ex. rewrite Ex.
    rewrite firstn_all2; [reflexivity|].
    unfold costs. rewrite length_map. lia. }
  set (gross := SimulationFlip.FlipParams.arv p
                - SimulationFlip.FlipParams.purchase_price p
                - SimulationFlip.FlipParams.renovation_cost p
                - SimulationFlip.FlipParams.arv p
                  * SimulationFlip.FlipParams.selling_cost_pct p
                - SimulationFlip.FlipParams.holding_costs_monthly p
                  * inject_Z (rm + 1)).
  assert (Hroi : exists roi,
             (if negb (Qle_bool ti 0)
              then q <- py_div (gross - py_max 0 (gross * SimulationFlip.FlipParams.tax_bracket p)) ti ;;
                   Ok (q * 100)
              else Ok 0) = Ok roi).
  { destruct (Qle_bool ti 0) eqn:E; simpl; [eexists; reflexivity|].
    unfold py_div. destruct (Qeq_bool ti 0) eqn:E0.
    - apply Qeq_bool_iff in E0.
      assert (H : ti <= 0) by lra. apply Qle_bool_iff in H. congruence.
    - eexists. reflexivity. }
  destruct Hroi as [roi Eroi]. cbv beta iota delta [bind] in Eroi.
  eexists. split.
  { unfold SimulationFlip.simulate_flip_project. cbv zeta. fold rm.
    rewrite Emd. cbv beta iota delta [bind].
    rewrite (df_column_ok _ _ Hlen1). fold costs. fold ti. fold cum. fold df.
    rewrite El. fold gross. rewrite Eroi. reflexivity. }
  cbv zeta. cbn [SimulationFlip.flip_summary SimulationFlip.flip_monthly_df
                 SimulationFlip.FlipSummary.holding_period_months
                 SimulationFlip.FlipSummary.total_costs
                 SimulationFlip.FlipSummary.total_investment
                 SimulationFlip.FlipSummary.capital_gains_tax
                 SimulationFlip.FlipSummary.net_profit
                 SimulationFlip.FlipSummary.gross_profit].
  split; [unfold len in *; lia|]. split; [reflexivity|]. split.
  { rewrite Htotal. unfold costs. rewrite Hsum. ring. }
  assert (Htax : 0 <= py_max 0 (gross * SimulationFlip.FlipParams.tax_bracket p))
    by apply py_max_le_l.
  split; [exact Htax|]. split; [lra|]. split.
  { intros Hb Hg.
    assert (Hle : gross * SimulationFlip.FlipParams.tax_bracket p <= 0).
    { assert (H : 0 <= (- gross) * SimulationFlip.FlipParams.tax_bracket p)
        by (apply Qmult_le_0_compat; lra).
      lra. }
    assert (E : py_max 0 (gross * SimulationFlip.FlipParams.tax_bracket p) == 0).
    { unfold py_max. apply Qle_bool_iff in Hle. rewrite Hle. reflexivity. }
    rewrite E. ring. }
  intros i r Hi. destruct (Hdfrow i r Hi) as [Hr _].
  apply (Hrows i _ Hr).
Qed.

Lemma flip_project_totals_witness :
  exists res,
    SimulationFlip.simulate_flip_project example_flip_params = Ok res
    /\ len (SimulationFlip.flip_monthly_df res) = 4%Z
    /\ SimulationFlip.FlipSummary.total_costs (SimulationFlip.flip_summary res)
       == SimulationFlip.FlipSummary.total_investment (SimulationFlip.flip_summary res)
          + 30000 + 1500 * 4.
Proof.
  destruct (flip_project_totals example_flip_params) as (res & E & H1 & _ & H3 & _);
    [simpl; lia|].
  exists res. split; [exact E|]. split; [exact H1|exact H3].
Defined.

(** X23.  A negative number of renovation months leaves the month loop
    without iterations, and the empty frame has no column [monthly_cost]:
    the call raises [KeyError]. *)
Theorem flip_project_negative_months (p : SimulationFlip.FlipParams.t) :
  (SimulationFlip.FlipParams.renovation_months p < 0)%Z ->
  SimulationFlip.simulate_flip_project p = Raise KeyError.
Proof.
  intros H. unfold SimulationFlip.simulate_flip_project. cbv zeta.
  rewrite py_range_nil by lia. reflexivity.
Qed.

Lemma flip_project_negative_months_witness :
  SimulationFlip.simulate_flip_project
    {| SimulationFlip.FlipParams.purchase_price := 200000;
       SimulationFlip.FlipParams.down_payment_pct := None;
       SimulationFlip.FlipParams.renovation_cost := 30000;
       SimulationFlip.FlipParams.renovation_months := -1;
       SimulationFlip.FlipParams.arv := 280000;
       SimulationFlip.FlipParams.holding_costs_monthly := 1500;
       SimulationFlip.FlipParams.selling_cost_pct := 0.06;
       SimulationFlip.FlipParams.tax_bracket := 0.25 |}
  = Raise KeyError.
Proof.
  apply flip_project_negative_months. simpl. lia.
Defined.

(* ================================================================== *)
(** * The stock simulation of the older engine *)
(* ================================================================== *)

(** One iteration of the older [simulate_stock_investment] always
    succeeds: the lists are only read inside their bounds. *)
Lemma legacy_stock_loop_body_ledger (p : Simulation.StockParams.t)
    (home rental income : option (list Q)) (s : Simulation.StockState.t) (month : Z) :
  (1 <= month)%Z ->
  exists s' row,
    Simulation.stock_loop_body p home rental income s month = Ok s'
    /\ Simulation.StockState.monthly_data s'
       = Simulation.StockState.monthly_data s ++ [row]
    /\ Simulation.StockRow.month row = month
    /\ Simulation.StockRow.rent row
       = Simulation.StockParams.monthly_rent p
         * (1 + Simulation.StockParams.rent_increase_rate p) ^ ((month - 1) / 12)
    /\ Simulation.StockRow.monthly_contribution row
       = legacy_contribution p home rental income month (Simulation.StockRow.rent row)
    /\ Simulation.StockRow.portfolio_value row
       = Simulation.StockState.portfolio_value s
         * (1 + Simulation.StockParams.stock_return_rate p / 12)
         + Simulation.StockRow.monthly_contribution row
    /\ Simulation.StockState.portfolio_value s' = Simulation.StockRow.portfolio_value row.
Proof.
  intros Hm. unfold Simulation.stock_loop_body.
  rewrite rent_growth_ok by lia. rewrite py_int_div12 by lia.
  cbv beta iota zeta delta [bind].
  set (rent := Simulation.StockParams.monthly_rent p
               * (1 + Simulation.StockParams.rent_increase_rate p) ^ ((month - 1) / 12)).
  assert (Hlookup : forall (expenses : list Q) (f : Q -> Q),
             (if (month <=? len expenses)%Z
              then match py_index expenses (month - 1) with
                   | Ok a => Ok (f a)
                   | Raise e => Raise e
                   end
              else Ok (Simulation.StockParams.monthly_contribution p))
             = Ok (match nth_error expenses (Z.to_nat (month - 1)) with
                   | Some e => f e
                   | None => Simulation.StockParams.monthly_contribution p
                   end)).
  { intros expenses f. destruct (month <=? len expenses)%Z eqn:E.
    - apply Z.leb_le in E.
      destruct (py_index_in_range expenses (month - 1)) as (e & Ee & Hn); [lia|].
      rewrite Ee, Hn. reflexivity.
    - apply Z.leb_gt in E.
      destruct (nth_error expenses (Z.to_nat (month - 1))) eqn:Hn; [|reflexivity].
      assert (H : (Z.to_nat (month - 1) < List.length expenses)%nat).
      { apply nth_error_Some. rewrite Hn. discriminate. }
      unfold len in E. lia. }
  assert (Hlookup' : forall (expenses : list Q),
             (if (month <=? len expenses)%Z
              then py_index expenses (month - 1)
              else Ok (Simulation.StockParams.monthly_contribution p))
             = Ok (match nth_error expenses (Z.to_nat (month - 1)) with
                   | Some e => e
                   | None => Simulation.StockParams.monthly_contribution p
                   end)).
  { intros expenses. rewrite <- (Hlookup expenses (fun e => e)).
    destruct (month <=? len expenses)%Z; [|reflexivity].
    destruct (py_index expenses (month - 1)); reflexivity. }
  destruct rental as [re|], income as [inc|], home as [he|];
    cbn [Simulation.is_not_None orb andb legacy_contribution];
    rewrite ?Hlookup, ?Hlookup';
    (eexists; eexists; split; [reflexivity|];
     repeat (split; [reflexivity|]); reflexivity).
Qed.

(** X24.  The older [simulate_stock_investment] never runs off the end of
    a list it is given: for a horizon of at least one year it returns
    whatever lists are passed, with [years * 12] rows.  Each month it
    contributes the rental expense of the month (when both rental lists are
    passed), else the homeowner's expense of the month less the rent (when
    that list is passed), and falls back to the static
    [monthly_contribution] once the list has ended or when no list applies.
    The portfolio grows by the monthly return and that contribution, and
    [total_contributed] is the initial investment plus all contributions. *)
Theorem legacy_stock_investment_falls_back (fpow : Q -> Q -> Q)
    (p : Simulation.StockParams.t) (home rental income : option (list Q)) :
  (1 <= Simulation.StockParams.years p)%Z ->
  exists res,
    Simulation.simulate_stock_investment fpow p home rental income = Ok res
    /\ let df := Simulation.stock_monthly_df res in
       let s := Simulation.stock_summary res in
       len df = (Simulation.StockParams.years p * 12)%Z
       /\ (forall i row, nth_error df i = Some row ->
             Simulation.StockRow.month row = (Z.of_nat i + 1)%Z
             /\ Simulation.StockRow.rent row
                = Simulation.StockParams.monthly_rent p
                  * (1 + Simulation.StockParams.rent_increase_rate p)
                    ^ (Z.of_nat i / 12)
             /\ Simulation.StockRow.monthly_contribution row
                = legacy_contribution p home rental income (Z.of_nat i + 1)
                    (Simulation.StockRow.rent row)
             /\ Simulation.StockRow.portfolio_value row
                = portfolio_before (Simulation.StockParams.initial_investment p)
                    (map Simulation.StockRow.portfolio_value df) i
                  * (1 + Simulation.StockParams.stock_return_rate p / 12)
                  + Simulation.StockRow.monthly_contribution row)
       /\ Simulation.StockSummary.total_contributed s
          == Simulation.StockParams.initial_investment p
             + py_sum (map Simulation.StockRow.monthly_contribution df)
       /\ Simulation.StockSummary.net_proceeds s
          = Simulation.StockSummary.final_portfolio_value s.
Proof.
  intros Hy.
  set (init := Simulation.StockParams.initial_investment p).
  destruct (for_each_range_total
              (Simulation.stock_loop_body p home rental income)
              (fun m t =>
                 let md := Simulation.StockState.monthly_data t in
                 let pvs := map Simulation.StockRow.portfolio_value md in
                 len md = (m - 1)%Z
                 /\ Simulation.StockState.portfolio_value t
                    = portfolio_before init pvs (List.length md)
                 /\ forall i row, nth_error md i = Some row ->
                      Simulation.StockRow.month row = (Z.of_nat i + 1)%Z
                      /\ Simulation.StockRow.rent row
                         = Simulation.StockParams.monthly_rent p
                           * (1 + Simulation.StockParams.rent_increase_rate p)
                             ^ (Z.of_nat i / 12)
                      /\ Simulation.StockRow.monthly_contribution row
                         = legacy_contribution p home rental income (Z.of_nat i + 1)
                             (Simulation.StockRow.rent row)
                      /\ Simulation.StockRow.portfolio_value row
                         = portfolio_before init pvs i
                           * (1 + Simulation.StockParams.stock_return_rate p / 12)
                           + Simulation.StockRow.monthly_contribution row)
              1 (Simulation.StockParams.years p * 12 + 1)
              (Simulation.stock_initial_state p))
    as (s & Es & Hlen & _ & Hrows).
  - cbv zeta. split; [reflexivity|]. split; [reflexivity|].
    intros i row Hi. destruct i; discriminate.
  - cbv zeta. intros m t Hm (Hlen & Hpv & Hrows).
    destruct (legacy_stock_loop_body_ledger p home rental income t m ltac:(lia))
      as (t' & row & Eb & Hmd & Hmonth & Hrent & Hc & Hp & Hsp).
    exists t'. split; [exact Eb|]. rewrite Hmd, !map_app. cbn [map].
    split; [unfold len in *; rewrite length_app; simpl; lia|].
    split.
    { rewrite Hsp, length_app. cbn [List.length].
      replace (List.length (Simulation.StockState.monthly_data t) + 1)%nat
        with (S (List.length (map Simulation.StockRow.portfolio_value
                               (Simulation.StockState.monthly_data t))))
        by (rewrite length_map; lia).
      rewrite portfolio_before_snoc_new. reflexivity. }
    intros i r Hi.
    destruct (Nat.lt_ge_cases i (List.length (Simulation.StockState.monthly_data t)))
      as [Hlt|Hge].
    + rewrite nth_error_app1 in Hi by exact Hlt.
      rewrite portfolio_before_snoc_keep by (rewrite length_map; lia).
      apply Hrows. exact Hi.
    + rewrite nth_error_app2 in Hi by exact Hge.
      destruct (i - List.length (Simulation.StockState.monthly_data t))%nat
        as [|k] eqn:Ek; [|simpl in Hi; destruct k; discriminate].
      simpl in Hi. injection Hi as <-.
      assert (Ei : i = List.length (Simulation.StockState.monthly_data t)) by lia.
      assert (Em : m = (Z.of_nat i + 1)%Z) by (unfold len in Hlen; lia).
      rewrite portfolio_before_snoc_keep by (rewrite length_map; lia).
      rewrite Ei at 4. rewrite <- Hpv.
      split; [rewrite Hmonth; exact Em|]. split.
      { rewrite Hrent, Em. f_equal. f_equal. f_equal. lia. }
      split; [rewrite Hc, Em; reflexivity|exact Hp].
  - cbv zeta in Hlen, Hrows.
    set (df := Simulation.StockState.monthly_data s) in *.
    assert (Hlen1 : (1 <= len df)%Z) by lia.
    destruct (py_index_last_ok df Hlen1) as [last El].
    set (contributions := map Simulation.StockRow.monthly_contribution df).
    set (cum := map (fun c => init + c) (Simulation.cumsum contributions)).
    assert (Hcum : (1 <= len cum)%Z).
    { unfold len, cum, contributions in *.
      rewrite length_map, length_cumsum, length_map. exact Hlen1. }
    destruct (py_index_last_ok cum Hcum) as [total Et].
    assert (Htotal : total == init + py_sum contributions).
    { assert (Hi := Et). apply py_index_last_inv in Hi. destruct Hi as (n & Hn & Hi).
      unfold cum in Hi, Hn. rewrite nth_error_map in Hi.
      destruct (nth_error (Simulation.cumsum contributions) n) as [x|] eqn:Ex;
        [|discriminate].
      simpl in Hi. injection Hi as <-. apply cumsum_nth in Ex. rewrite Ex.
      rewrite firstn_all2; [reflexivity|].
      rewrite length_map, length_cumsum in Hn. lia. }
    eexists. split.
    { unfold Simulation.simulate_stock_investment. cbv zeta. rewrite Es.
      cbv beta iota delta [bind]. fold df.
      rewrite (df_column_ok _ _ Hlen1). fold contributions. fold init. fold cum.
      rewrite El, Et. reflexivity. }
    cbv zeta. cbn [Simulation.stock_monthly_df Simulation.stock_summary
                   Simulation.StockSummary.total_contributed
                   Simulation.StockSummary.net_proceeds
                   Simulation.StockSummary.final_portfolio_value].
    split; [lia|]. split; [exact Hrows|]. split; [exact Htotal|reflexivity].
Qed.

Lemma legacy_stock_investment_falls_back_witness :
  exists res,
    Simulation.simulate_stock_investment fpow_linear example_legacy_stock_params
      (Some [2000; 2000]) None None = Ok res
    /\ len (Simulation.stock_monthly_df res) = 12%Z
    /\ forall row, nth_error (Simulation.stock_monthly_df res) 5 = Some row ->
         Simulation.StockRow.monthly_contribution row = 500.
Proof.
  destruct (legacy_stock_investment_falls_back fpow_linear example_legacy_stock_params
              (Some [2000; 2000]) None None) as (res & E & Hlen & Hrows & _);
    [simpl; lia|].
  exists res. split; [exact E|]. split; [exact Hlen|].
  intros row Hi. destruct (Hrows 5%nat row Hi) as (_ & _ & Hc & _).
  rewrite Hc. reflexivity.
Defined.

(* ================================================================== *)
(** * The portfolio indicators *)
(* ================================================================== *)

Lemma getitem_in_columns (df : Indicators.DataFrame) (name : string) :
  Indicators.in_columns name df = true ->
  exists s, Indicators.getitem df name = Ok s.
Proof.
  unfold Indicators.in_columns, Indicators.columns.
  induction df as [|[n s] df IH]; simpl; [discriminate|].
  destruct (String.eqb name n); [intros _; exists s; reflexivity|].
  simpl. exact IH.
Qed.

(** On a frame that is not empty the price series is always found. *)
Lemma price_series_ok (df : Indicators.DataFrame) (column : string) :
  Indicators.empty df = false ->
  exists prices, Indicators.price_series df column = Ok prices.
Proof.
  intros Hne. unfold Indicators.price_series.
  destruct (Indicators.in_columns column df) eqn:Ec; simpl.
  - destruct (getitem_in_columns df column Ec) as [s Es]. rewrite Es. simpl.
    eexists. reflexivity.
  - destruct (Indicators.in_columns "Close" df) eqn:Eclose; simpl.
    + destruct (getitem_in_columns df "Close" Eclose) as [s Es]. rewrite Es. simpl.
      eexists. reflexivity.
    + destruct df as [|[n s] df]; [discriminate Hne|].
      unfold Indicators.columns. simpl. unfold py_index. simpl.
      rewrite String.eqb_refl. simpl. eexists. reflexivity.
Qed.

(** One period of [compute_returns]: the return over [days] trading days
    exists exactly when more than [days] prices are there, and compares the
    last price with the one [days] entries before it. *)
Lemma period_return_spec (prices : list Q) (current_price : Q) (days : Z) :
  (0 <= days)%Z ->
  exists v,
    Indicators.period_return prices current_price days = Ok v
    /\ ((days < len prices)%Z ->
        exists past_price,
          nth_error prices (List.length prices - 1 - Z.to_nat days) = Some past_price
          /\ v = Some (if Qeq_bool past_price 0 then Indicators.NonFinite
                       else Indicators.Finite
                              (((current_price - past_price) / past_price) * 100)))
    /\ ((len prices <= days)%Z -> v = None).
Proof.
  intros Hd. unfold Indicators.period_return.
  destruct (days <? len prices)%Z eqn:E.
  - apply Z.ltb_lt in E.
    assert (Hj : (0 <= len prices + (- days - 1) < len prices)%Z) by lia.
    destruct (py_index_in_range prices (len prices + (- days - 1)) Hj) as (past & Ep & Hn).
    assert (Ei : py_index prices (- days - 1) = Ok past).
    { unfold py_index.
      destruct (- days - 1 <? 0)%Z eqn:E1; [|apply Z.ltb_ge in E1; lia].
      destruct (len prices + (- days - 1) <? 0)%Z eqn:E2; [apply Z.ltb_lt in E2; lia|].
      rewrite Hn. reflexivity. }
    rewrite Ei. simpl. eexists. split; [reflexivity|]. split; [|lia].
    intros _. exists past. split; [|reflexivity].
    replace (List.length prices - 1 - Z.to_nat days)%nat
      with (Z.to_nat (len prices + (- days - 1))) by (unfold len; lia).
    exact Hn.
  - apply Z.ltb_ge in E. eexists. split; [reflexivity|]. split; [lia|].
    intros _. reflexivity.
Qed.

(** The whole result of [compute_returns] on a frame that is not empty. *)
Lemma compute_returns_entries (df : Indicators.DataFrame) (column : string)
    (prices : list Q) :
  Indicators.empty df = false ->
  Indicators.price_series df column = Ok prices ->
  exists returns,
    Indicators.compute_returns (Some df) column = Ok returns
    /\ map fst returns = map fst Indicators.periods
    /\ forall name v, In (name, v) returns ->
         exists days,
           In (name, days) Indicators.periods
           /\ ((days < len prices)%Z ->
               exists current_price past_price,
                 py_index prices (-1) = Ok current_price
                 /\ nth_error prices (List.length prices - 1 - Z.to_nat days)
                    = Some past_price
                 /\ v = Some (if Qeq_bool past_price 0 then Indicators.NonFinite
                              else Indicators.Finite
                                     (((current_price - past_price) / past_price)
                                      * 100)))
           /\ ((len prices <= days)%Z -> v = None).
Proof.
  intros Hne Hp. unfold Indicators.compute_returns. rewrite Hne, Hp.
  cbv beta iota delta [bind].
  destruct (len prices <? 2)%Z eqn:E2.
  - apply Z.ltb_lt in E2. exists Indicators.no_returns.
    split; [reflexivity|]. split; [reflexivity|].
    intros name v Hin. unfold Indicators.no_returns in Hin. simpl in Hin.
    repeat (destruct Hin as [Hin|Hin];
            [injection Hin as <- <-; eexists; split;
             [unfold Indicators.periods; simpl; tauto|split; [lia|reflexivity]]|]).
    contradiction.
  - apply Z.ltb_ge in E2.
    destruct (py_index_last_ok prices ltac:(lia)) as [cur Ecur]. rewrite Ecur.
    unfold Indicators.periods. cbn [Indicators.returns_loop].
    destruct (period_return_spec prices cur 1 ltac:(lia)) as (v1 & E1 & H1).
    destruct (period_return_spec prices cur 5 ltac:(lia)) as (v5 & E5 & H5).
    destruct (period_return_spec prices cur 10 ltac:(lia)) as (v10 & E10 & H10).
    destruct (period_return_spec prices cur 21 ltac:(lia)) as (v21 & E21 & H21).
    destruct (period_return_spec prices cur 63 ltac:(lia)) as (v63 & E63 & H63).
    destruct (period_return_spec prices cur 126 ltac:(lia)) as (v126 & E126 & H126).
    destruct (period_return_spec prices cur 252 ltac:(lia)) as (v252 & E252 & H252).
    rewrite E1, E5, E10, E21, E63, E126, E252.
    cbv beta iota delta [bind]. cbn [app Indicators.returns_loop].
    eexists. split; [reflexivity|]. split; [reflexivity|].
    intros name v Hin. simpl in Hin.
    assert (Hspec : forall d vd,
               ((d < len prices)%Z ->
                exists past_price,
                  nth_error prices (List.length prices - 1 - Z.to_nat d) = Some past_price
                  /\ vd = Some (if Qeq_bool past_price 0 then Indicators.NonFinite
                                else Indicators.Finite
                                       (((cur - past_price) / past_price) * 100)))
               /\ ((len prices <= d)%Z -> vd = None) ->
               ((d < len prices)%Z ->
                exists current_price past_price,
                  Ok cur = Ok current_price
                  /\ nth_error prices (List.length prices - 1 - Z.to_nat d)
                     = Some past_price
                  /\ vd = Some (if Qeq_bool past_price 0 then Indicators.NonFinite
                                else Indicators.Finite
                                       (((current_price - past_price) / past_price)
                                        * 100)))
               /\ ((len prices <= d)%Z -> vd = None)).
    { intros d vd [Ha Hb]. split; [|exact Hb].
      intros Hlt. destruct (Ha Hlt) as (past & Hn & Hv).
      exists cur, past. split; [reflexivity|]. split; [exact Hn|exact Hv]. }
    destruct Hin as [Hin|[Hin|[Hin|[Hin|[Hin|[Hin|[Hin|Hin]]]]]]];
      try contradiction; injection Hin as <- <-.
    + exists 1%Z. split; [simpl; tauto|apply Hspec; exact H1].
    + exists 5%Z. split; [simpl; tauto|apply Hspec; exact H5].
    + exists 10%Z. split; [simpl; tauto|apply Hspec; exact H10].
    + exists 21%Z. split; [simpl; tauto|apply Hspec; exact H21].
    + exists 63%Z. split; [simpl; tauto|apply Hspec; exact H63].
    + exists 126%Z. split; [simpl; tauto|apply Hspec; exact H126].
    + exists 252%Z. split; [simpl; tauto|apply Hspec; exact H252].
Qed.

(** X25.  [compute_returns] never raises: whatever frame and column name
    it is given it returns a dict with the seven period keys, in order.  On
    a frame that is not empty, the return of a period of [days] trading days
    is present exactly when the price series (missing values dropped) has
    more than [days] entries; it then compares the last price with the one
    [days] entries before it, and is [inf] or [nan] instead of an exception
    when that earlier price is 0. *)
Theorem compute_returns_never_raises (df : option Indicators.DataFrame)
    (column : string) :
  exists returns,
    Indicators.compute_returns df column = Ok returns
    /\ map fst returns = map fst Indicators.periods
    /\ forall d, df = Some d -> Indicators.empty d = false ->
         exists prices,
           Indicators.price_series d column = Ok prices
           /\ forall name v, In (name, v) returns ->
                exists days,
                  In (name, days) Indicators.periods
                  /\ ((days < len prices)%Z ->
                      exists current_price past_price,
                        py_index prices (-1) = Ok current_price
                        /\ nth_error prices (List.length prices - 1 - Z.to_nat days)
                           = Some past_price
                        /\ v = Some (if Qeq_bool past_price 0
                                     then Indicators.NonFinite
                                     else Indicators.Finite
                                            (((current_price - past_price)
                                              / past_price) * 100)))
                  /\ ((len prices <= days)%Z -> v = None).
Proof.
  destruct df as [d|].
  - destruct (Indicators.empty d) eqn:Hne.
    + exists Indicators.no_returns. split; [simpl; rewrite Hne; reflexivity|].
      split; [reflexivity|]. intros d' Hd Hne'. injection Hd as <-. congruence.
    + destruct (price_series_ok d column Hne) as [prices Hp].
      destruct (compute_returns_entries d column prices Hne Hp)
        as (returns & E & Hkeys & Hentries).
      exists returns. split; [exact E|]. split; [exact Hkeys|].
      intros d' Hd _. injection Hd as <-. exists prices. split; [exact Hp|exact Hentries].
  - exists Indicators.no_returns. split; [reflexivity|]. split; [reflexivity|].
    intros d Hd. discriminate.
Qed.

(** X26.  On positive prices every return [compute_returns] reports is a
    finite number above -100 (percent); it is positive exactly when the last
    price is above the earlier one, and 0 exactly when the two are equal. *)
Theorem compute_returns_positive_prices (df : Indicators.DataFrame) (column : string)
    (prices : list Q) (returns : list (string * option Indicators.pyfloat)) :
  Indicators.empty df = false ->
  Indicators.price_series df column = Ok prices ->
  (forall x, In x prices -> 0 < x) ->
  Indicators.compute_returns (Some df) column = Ok returns ->
  forall name v, In (name, Some v) returns ->
    exists q current_price past_price,
      v = Indicators.Finite q
      /\ py_index prices (-1) = Ok current_price
      /\ In past_price prices
      /\ q == ((current_price - past_price) / past_price) * 100
      /\ -100 < q
      /\ (0 < q <-> past_price < current_price)
      /\ (q == 0 <-> current_price == past_price).
Proof.
  intros Hne Hp Hpos Hrun name v Hin.
  destruct (compute_returns_entries df column prices Hne Hp)
    as (returns' & E & _ & Hentries).
  rewrite E in Hrun. injection Hrun as <-.
  destruct (Hentries name (Some v) Hin) as (days & _ & Hsome & Hnone).
  destruct (Z.lt_ge_cases days (len prices)) as [Hlt|Hge];
    [|specialize (Hnone Hge); discriminate].
  destruct (Hsome Hlt) as (cur & past & Ecur & Hn & Hv).
  assert (Hpast : 0 < past) by (apply Hpos; apply nth_error_In with (1 := Hn)).
  assert (Hcur : 0 < cur).
  { apply Hpos. apply py_index_last_inv in Ecur. destruct Ecur as (n & _ & Hc).
    apply nth_error_In with (1 := Hc). }
  destruct (Qeq_bool past 0) eqn:E0; [apply Qeq_bool_iff in E0; lra|].
  injection Hv as ->.
  exists (((cur - past) / past) * 100), cur, past.
  split; [reflexivity|]. split; [exact Ecur|].
  split; [apply nth_error_In with (1 := Hn)|]. split; [reflexivity|].
  assert (Eq : ((cur - past) / past) * 100 == (cur / past) * 100 - 100)
    by (field; lra).
  assert (Hratio : 0 < cur / past) by (apply Qlt_shift_div_l; lra).
  assert (Hup : past < cur <-> 1 < cur / past).
  { split; intros H.
    - apply Qlt_shift_div_l; lra.
    - assert (H' : cur == (cur / past) * past) by (field; lra).
      assert (H'' : 1 * past < (cur / past) * past)
        by (apply Qmult_lt_compat_r; assumption).
      lra. }
  assert (Heq : cur == past <-> cur / past == 1).
  { split; intros H.
    - rewrite H. field. lra.
    - assert (H' : cur == (cur / past) * past) by (field; lra).
      rewrite H' at 1. rewrite H. ring. }
  rewrite Eq. split; [lra|]. split.
  - rewrite Hup. split; intros H; lra.
  - rewrite Heq. split; intros H; lra.
Qed.

Lemma compute_returns_never_raises_witness :
  exists returns prices,
    Indicators.compute_returns (Some example_price_frame) "Adj Close" = Ok returns
    /\ Indicators.price_series example_price_frame "Adj Close" = Ok prices
    /\ map fst returns = map fst Indicators.periods.
Proof.
  destruct (compute_returns_never_raises (Some example_price_frame) "Adj Close")
    as (returns & E & Hkeys & Hd).
  destruct (Hd example_price_frame eq_refl eq_refl) as (prices & Hp & _).
  exists returns, prices. split; [exact E|]. split; [exact Hp|exact Hkeys].
Defined.

Lemma compute_returns_positive_prices_witness :
  exists returns v q,
    Indicators.compute_returns (Some example_price_frame) "Adj Close" = Ok returns
    /\ In ("return_1d"%string, Some v) returns
    /\ v = Indicators.Finite q
    /\ -100 < q.
Proof.
  destruct (Indicators.compute_returns (Some example_price_frame) "Adj Close")
    as [returns|e] eqn:E; [|discriminate E].
  assert (Hin : In ("return_1d"%string,
                    Some (Indicators.Finite (((110 - 100) / 100) * 100))) returns).
  { injection E as <-. left. reflexivity. }
  destruct (compute_returns_positive_prices example_price_frame "Adj Close"
              [100; 110] returns eq_refl eq_refl) with (3 := Hin)
    as (q & cur & past & Hv & _ & _ & _ & Hq & _).
  - intros x [<-|[<-|[]]]; reflexivity.
  - exact E.
  - exists returns, (Indicators.Finite (((110 - 100) / 100) * 100)), q.
    split; [reflexivity|]. split; [exact Hin|]. split; [exact Hv|exact Hq].
Defined.

Lemma py_sum_nonneg (l : list Q) : (forall x, In x l -> 0 <= x) -> 0 <= py_sum l.
Proof.
  induction l as [|x l IH]; intros H.
  - unfold py_sum. simpl. lra.
  - rewrite py_sum_cons.
    assert (0 <= x) by (apply H; left; reflexivity).
    assert (0 <= py_sum l) by (apply IH; intros y Hy; apply H; right; exact Hy).
    lra.
Qed.

Lemma In_skipn {A : Type} (k : nat) (l : list A) (x : A) : In x (skipn k l) -> In x l.
Proof.
  intros H. rewrite <- (firstn_skipn k l). apply in_or_app. right. exact H.
Qed.

(** The last 60 entries are 40 entries followed by the last 20. *)
Lemma py_last_n_60_20 {A : Type} (l : list A) :
  (60 <= List.length l)%nat ->
  Indicators.py_last_n 60 l
  = firstn 40 (Indicators.py_last_n 60 l) ++ Indicators.py_last_n 20 l
  /\ List.length (Indicators.py_last_n 60 l) = 60%nat
  /\ List.length (Indicators.py_last_n 20 l) = 20%nat.
Proof.
  intros H. unfold Indicators.py_last_n. split; [|split].
  - rewrite <- (firstn_skipn 40 (skipn (List.length l - 60) l)) at 1.
    f_equal. rewrite skipn_skipn. f_equal. lia.
  - rewrite length_skipn. lia.
  - rewrite length_skipn. lia.
Qed.

(** X27.  [compute_volume_momentum] never raises.  It reports nothing when
    fewer than 60 volumes are known; and on volumes that are not negative
    a reported ratio lies between 0 and 3, being three times the share of
    the last 20 days in the volume of the last 60 days. *)
Theorem volume_momentum_bounds (df : option Indicators.DataFrame) :
  exists r,
    Indicators.compute_volume_momentum df = Ok r
    /\ (forall d s, df = Some d -> Indicators.getitem d "Volume" = Ok s ->
          (len (Indicators.dropna s) < 60)%Z -> r = None)
    /\ (forall d s m, df = Some d -> Indicators.getitem d "Volume" = Ok s ->
          (forall x, In x (Indicators.dropna s) -> 0 <= x) ->
          r = Some m ->
          0 <= m /\ m <= 3
          /\ m * py_sum (Indicators.py_last_n 60 (Indicators.dropna s))
             == 3 * py_sum (Indicators.py_last_n 20 (Indicators.dropna s))).
Proof.
  destruct df as [d|]; [|exists None; split; [reflexivity|];
                         split; intros; discriminate].
  unfold Indicators.compute_volume_momentum.
  destruct (Indicators.empty d || negb (Indicators.in_columns "Volume" d)) eqn:Eg.
  { exists None. split; [reflexivity|]. split; [intros; reflexivity|].
    intros; discriminate. }
  apply orb_false_iff in Eg. destruct Eg as [_ Ev].
  apply negb_false_iff in Ev.
  destruct (getitem_in_columns d "Volume" Ev) as [s Es]. rewrite Es.
  cbv beta iota zeta delta [bind].
  set (volumes := Indicators.dropna s).
  destruct (len volumes <? 60)%Z eqn:E60.
  { exists None. split; [reflexivity|]. split; [intros; reflexivity|].
    intros; discriminate. }
  apply Z.ltb_ge in E60.
  assert (Hn : (60 <= List.length volumes)%nat) by (unfold len in E60; lia).
  destruct (py_last_n_60_20 volumes Hn) as (Hsplit & Hl60 & Hl20).
  set (l60 := Indicators.py_last_n 60 volumes) in *.
  set (l20 := Indicators.py_last_n 20 volumes) in *.
  assert (Hm60 : Indicators.mean l60 == py_sum l60 / 60).
  { unfold Indicators.mean, len. rewrite Hl60. reflexivity. }
  assert (Hm20 : Indicators.mean l20 == py_sum l20 / 20).
  { unfold Indicators.mean, len. rewrite Hl20. reflexivity. }
  destruct (Qeq_bool (Indicators.mean l60) 0) eqn:E0.
  { exists None. split; [reflexivity|]. split.
    - intros d' s' Hd Hs Hlt. reflexivity.
    - intros; discriminate. }
  exists (Some (Indicators.mean l20 / Indicators.mean l60)).
  split; [reflexivity|]. split.
  { intros d' s' Hd Hs Hlt. injection Hd as <-. rewrite Es in Hs. injection Hs as <-.
    fold volumes in Hlt. lia. }
  intros d' s' m Hd Hs Hpos Hm. injection Hd as <-. rewrite Es in Hs. injection Hs as <-.
  fold volumes in Hpos |- *. fold l60 l20. injection Hm as <-.
  assert (Hne : ~ Indicators.mean l60 == 0).
  { intros H. apply Qeq_bool_iff in H. congruence. }
  assert (H20 : 0 <= py_sum l20).
  { apply py_sum_nonneg. intros x Hx. apply Hpos. unfold l20, Indicators.py_last_n in Hx.
    apply In_skipn in Hx. exact Hx. }
  assert (H40 : 0 <= py_sum (firstn 40 l60)).
  { apply py_sum_nonneg. intros x Hx. apply Hpos.
    assert (Hx' : In x l60).
    { rewrite <- (firstn_skipn 40 l60). apply in_or_app. left. exact Hx. }
    unfold l60, Indicators.py_last_n in Hx'. apply In_skipn in Hx'. exact Hx'. }
  assert (Hsum : py_sum l60 == py_sum (firstn 40 l60) + py_sum l20).
  { rewrite Hsplit at 1. apply py_sum_app. }
  assert (H60 : 0 < py_sum l60).
  { assert (Hnz : ~ py_sum l60 == 0).
    { intros H. apply Hne. rewrite Hm60, H. reflexivity. }
    lra. }
  assert (Em : Indicators.mean l20 / Indicators.mean l60
               == 3 * py_sum l20 / py_sum l60).
  { rewrite Hm20, Hm60. field. lra. }
  rewrite Em. split; [|split].
  - apply Qle_shift_div_l; [exact H60|]. lra.
  - apply Qle_shift_div_r; [exact H60|]. lra.
  - field. lra.
Qed.

Lemma volume_momentum_bounds_witness :
  (exists r,
     Indicators.compute_volume_momentum (Some example_price_frame) = Ok r
     /\ r = None)
  /\ (exists m,
        Indicators.compute_volume_momentum (Some example_volume_frame) = Ok (Some m)
        /\ 0 <= m /\ m <= 3).
Proof.
  split.
  - destruct (volume_momentum_bounds (Some example_price_frame))
      as (r & E & Hshort & _).
    exists r. split; [exact E|].
    apply (Hshort example_price_frame [Some 5000; Some 7000; Some 6000]
             eq_refl eq_refl).
    unfold len. simpl. lia.
  - destruct (volume_momentum_bounds (Some example_volume_frame))
      as (r & E & _ & Hb).
    destruct r as [m|]; [|vm_compute in E; discriminate E].
    exists m. split; [exact E|].
    destruct (Hb example_volume_frame
                (repeat (Some 1000) 40 ++ repeat (Some 2000) 20)%list m
                eq_refl eq_refl) as (H1 & H2 & _); [|reflexivity|split; assumption].
    intros x Hx. simpl in Hx.
    repeat (destruct Hx as [<-|Hx]; [discriminate|]). contradiction.
Defined.

(* ================================================================== *)
(** * The yearly points of the charts *)
(* ================================================================== *)

Lemma nth_error_py_range (lo hi : Z) (i : nat) :
  nth_error (py_range lo hi) i
  = if (i <? Z.to_nat (hi - lo))%nat then Some (lo + Z.of_nat i)%Z else None.
Proof.
  unfold py_range. rewrite nth_error_map.
  destruct (i <? Z.to_nat (hi - lo))%nat eqn:E.
  - apply Nat.ltb_lt in E.
    assert (H : nth_error (seq 0 (Z.to_nat (hi - lo))) i = Some (nth i (seq 0 (Z.to_nat (hi - lo))) 0%nat)).
    { apply nth_error_nth'. rewrite length_seq. exact E. }
    rewrite H, seq_nth by exact E. reflexivity.
  - apply Nat.ltb_ge in E.
    assert (H : nth_error (seq 0 (Z.to_nat (hi - lo))) i = None).
    { apply nth_error_None. rewrite length_seq. exact E. }
    rewrite H. reflexivity.
Qed.

(** The month column of a frame whose row [i] is month [i + 1]. *)
Lemma month_column {Row : Type} (month : Row -> Z) (df : list Row) :
  (forall i r, nth_error df i = Some r -> month r = (Z.of_nat i + 1)%Z) ->
  map month df = py_range 1 (len df + 1).
Proof.
  intros H. apply nth_error_ext. intros i.
  rewrite nth_error_map, nth_error_py_range.
  replace (Z.to_nat (len df + 1 - 1)) with (List.length df) by (unfold len; lia).
  destruct (nth_error df i) as [r|] eqn:Hi.
  - assert (Hlt : (i < List.length df)%nat).
    { apply nth_error_Some. rewrite Hi. discriminate. }
    apply Nat.ltb_lt in Hlt. rewrite Hlt. cbn [option_map]. rewrite (H i r Hi).
    f_equal. lia.
  - apply nth_error_None in Hi. apply Nat.ltb_ge in Hi. rewrite Hi. reflexivity.
Qed.

Lemma map_filter_comm {A B : Type} (f : A -> B) (P : B -> bool) (l : list A) :
  map f (filter (fun a => P (f a)) l) = filter P (map f l).
Proof.
  induction l as [|a l IH]; simpl; [reflexivity|].
  destruct (P (f a)); simpl; rewrite IH; reflexivity.
Qed.

Lemma mod12_shift (n j : Z) : ((12 * n + j) mod 12 = j mod 12)%Z.
Proof.
  rewrite Z.add_comm, Z.mul_comm. apply Z_mod_plus_full.
Qed.

(** Among the months of one year only the twelfth is a multiple of 12. *)
Lemma filter_one_year (n : Z) :
  filter (fun m => (m mod 12 =? 0)%Z) (py_range (12 * n + 1) (12 * n + 13))
  = [(12 * (n + 1))%Z].
Proof.
  unfold py_range.
  replace (Z.to_nat (12 * n + 13 - (12 * n + 1))) with 12%nat by lia.
  cbn [seq map Z.of_nat Pos.of_succ_nat Pos.succ].
  cbn [filter].
  repeat match goal with
         | |- context [((12 * n + 1 + ?j) mod 12 =? 0)%Z] =>
             replace ((12 * n + 1 + j) mod 12)%Z with ((1 + j) mod 12)%Z
               by (rewrite <- Z.add_assoc, mod12_shift; reflexivity);
             let b := eval vm_compute in ((1 + j) mod 12 =? 0)%Z in
             change ((1 + j) mod 12 =? 0)%Z with b; cbv iota
         end.
  f_equal. lia.
Qed.

Lemma filter_years (years : nat) :
  filter (fun m => (m mod 12 =? 0)%Z) (py_range 1 (12 * Z.of_nat years + 1))
  = map (fun k => (12 * k)%Z) (py_range 1 (Z.of_nat years + 1)).
Proof.
  induction years as [|y IH].
  - reflexivity.
  - rewrite (py_range_split 1 (12 * Z.of_nat y + 1) (12 * Z.of_nat (S y) + 1)) by lia.
    rewrite filter_app, IH.
    replace (12 * Z.of_nat (S y) + 1)%Z with (12 * Z.of_nat y + 13)%Z by lia.
    rewrite filter_one_year.
    rewrite (py_range_split 1 (Z.of_nat y + 1) (Z.of_nat (S y) + 1)) by lia.
    rewrite map_app. f_equal.
    rewrite py_range_cons by lia. rewrite py_range_nil by lia. simpl.
    reflexivity.
Qed.

(** The plotted rows of a frame of [12 * years] monthly rows. *)
Lemma yearly_rows_months {Row : Type} (month : Row -> Z) (df : list Row) (years : Z) :
  (1 <= years)%Z ->
  len df = (years * 12)%Z ->
  (forall i r, nth_error df i = Some r -> month r = (Z.of_nat i + 1)%Z) ->
  map month (yearly_rows month df) = map (fun k => (12 * k)%Z) (py_range 1 (years + 1))
  /\ (forall last, py_index df (-1) = Ok last ->
        py_index (yearly_rows month df) (-1) = Ok last).
Proof.
  intros Hy Hlen Hrows. split.
  - unfold yearly_rows.
    rewrite (map_filter_comm month (fun m => (m mod 12 =? 0)%Z) df).
    rewrite (month_column month df Hrows), Hlen.
    replace (years * 12 + 1)%Z with (12 * Z.of_nat (Z.to_nat years) + 1)%Z by lia.
    rewrite filter_years. f_equal. f_equal. lia.
  - intros last Hl. apply py_index_last_inv in Hl. destruct Hl as (n & Hn & Hi).
    assert (E : df = firstn n df ++ [last]).
    { rewrite <- (firstn_succ_nth df n last Hi). rewrite firstn_all2 by lia. reflexivity. }
    assert (Hm : (month last mod 12 =? 0)%Z = true).
    { rewrite (Hrows n last Hi). apply Z.eqb_eq. unfold len in Hlen.
      replace (Z.of_nat n + 1)%Z with (years * 12)%Z by lia. apply Z.mod_mul. lia. }
    unfold yearly_rows. rewrite E, filter_app. cbn [filter]. rewrite Hm.
    set (l := filter (fun r => (month r mod 12 =? 0)%Z) (firstn n df)).
    apply py_index_last with (List.length l).
    + rewrite length_app. simpl. lia.
    + rewrite nth_error_app2 by lia. rewrite Nat.sub_diag. reflexivity.
Qed.

(** X28.  The pages plot the rows whose month is a multiple of 12.  For
    the two frames of the Buy-and-Live comparison that is one point per year
    of the horizon, at the months 12, 24, ..., [12 * years], in both traces
    alike; a point's x coordinate [month / 12] is the row's own [year]; and
    the last point of each trace is the frame's last row, the one the
    summary figures come from. *)
Theorem yearly_chart_points (fpow : Q -> Q -> Q) :
  (forall p res,
     HomeownershipSimulation.simulate_homeownership fpow p = Ok res ->
     let df := HomeownershipSimulation.home_monthly_df res in
     let yearly := yearly_rows HomeownershipSimulation.HomeRow.month df in
     map HomeownershipSimulation.HomeRow.month yearly
     = map (fun k => (12 * k)%Z)
         (py_range 1 (HomeownershipSimulation.HomeParams.years p + 1))
     /\ (forall r, In r yearly ->
           year_label HomeownershipSimulation.HomeRow.month r
           == inject_Z (HomeownershipSimulation.HomeRow.year r))
     /\ (exists last, py_index df (-1) = Ok last /\ py_index yearly (-1) = Ok last))
  /\ (forall p costs res,
        HomeownershipSimulation.simulate_rent_and_invest p costs = Ok res ->
        let df := HomeownershipSimulation.stock_monthly_df res in
        let yearly := yearly_rows HomeownershipSimulation.StockRow.month df in
        map HomeownershipSimulation.StockRow.month yearly
        = map (fun k => (12 * k)%Z)
            (py_range 1 (HomeownershipSimulation.StockParams.years p + 1))
        /\ (forall r, In r yearly ->
              year_label HomeownershipSimulation.StockRow.month r
              == inject_Z (HomeownershipSimulation.StockRow.year r))
        /\ (exists last, py_index df (-1) = Ok last /\ py_index yearly (-1) = Ok last)).
Proof.
  assert (Hlabel : forall m y : Z,
             (m mod 12 = 0)%Z -> y = ((m - 1) / 12 + 1)%Z ->
             inject_Z m / 12 == inject_Z y).
  { intros m y Hm ->.
    assert (E : m = (12 * ((m - 1) / 12 + 1))%Z) by divmod_lia.
    rewrite E at 1. rewrite inject_Z_mult. change (inject_Z 12) with 12. field. }
  split.
  - intros p res H df yearly. unfold yearly, df. clear yearly df.
    destruct (simulate_homeownership_inv fpow p res H) as (last & Edf & El & _).
    destruct (home_schedule_of_run fpow p _ Edf) as [amortization Hsch].
    assert (Hrows := home_monthly_data_shape fpow p amortization _ Hsch Edf).
    destruct (home_monthly_data_inv fpow p _ Edf) as [_ Hlen].
    assert (Hy : (1 <= HomeownershipSimulation.HomeParams.years p)%Z).
    { apply py_index_last_inv in El. destruct El as (n & Hn & _). unfold len in Hlen. lia. }
    destruct (yearly_rows_months HomeownershipSimulation.HomeRow.month
                (HomeownershipSimulation.home_monthly_df res)
                (HomeownershipSimulation.HomeParams.years p) Hy ltac:(lia)
                (fun i r Hi => proj1 (Hrows i r Hi))) as [Hmonths Hlast].
    split; [exact Hmonths|]. split.
    + intros r Hr. unfold yearly_rows in Hr. apply filter_In in Hr.
      destruct Hr as [Hin Hm]. apply Z.eqb_eq in Hm.
      apply In_nth_error in Hin. destruct Hin as [i Hi].
      destruct (Hrows i r Hi) as (_ & Hshape). destruct Hshape as (Hyear & _).
      apply Hlabel; assumption.
    + exists last. split; [exact El|apply Hlast; exact El].
  - intros p costs res H df yearly. unfold yearly, df. clear yearly df.
    destruct (simulate_rent_and_invest_inv p costs res H) as (s & last & Es & Edf & El & _).
    destruct (rent_final_state_ledger p costs s Es) as (Hlen & _ & _ & _ & _ & Hrows).
    rewrite Edf in *.
    assert (Hy : (1 <= HomeownershipSimulation.StockParams.years p)%Z).
    { assert (Hi := El). apply py_index_last_inv in Hi. destruct Hi as (n & Hn & _).
      unfold len in Hlen. lia. }
    destruct (yearly_rows_months HomeownershipSimulation.StockRow.month
                (HomeownershipSimulation.StockState.monthly_data s)
                (HomeownershipSimulation.StockParams.years p) Hy ltac:(lia)
                (fun i r Hi => proj1 (Hrows i r Hi))) as [Hmonths Hlast].
    split; [exact Hmonths|]. split.
    + intros r Hr. unfold yearly_rows in Hr. apply filter_In in Hr.
      destruct Hr as [Hin Hm]. apply Z.eqb_eq in Hm.
      apply In_nth_error in Hin. destruct Hin as [i Hi].
      destruct (Hrows i r Hi) as (_ & Hshape). destruct Hshape as (Hyear & _).
      apply Hlabel; assumption.
    + exists last. split; [exact El|apply Hlast; exact El].
Qed.

Lemma yearly_chart_points_witness :
  exists res,
    HomeownershipSimulation.simulate_homeownership fpow_linear example_home_params
    = Ok res
    /\ map HomeownershipSimulation.HomeRow.month
         (yearly_rows HomeownershipSimulation.HomeRow.month
            (HomeownershipSimulation.home_monthly_df res))
       = [12%Z].
Proof.
  destruct (simulate_homeownership_total fpow_linear example_home_params)
    as [res E]; [discriminate | simpl; lia | simpl; lia |].
  exists res. split; [exact E|].
  destruct (yearly_chart_points fpow_linear) as [Hhome _].
  destruct (Hhome example_home_params res E) as (Hmonths & _).
  exact Hmonths.
Defined.

(* ================================================================== *)
(** * The two property simulators side by side *)
(* ================================================================== *)

(** X29.  The rental simulator and the live-in simulator agree on the
    property and on the loan.  Run on the same purchase, month by month they
    report the same property value, the same mortgage payment, principal,
    interest and remaining balance, the same property tax, maintenance, tax
    benefit and unrecoverable cost.  The rental row's [net_proceeds] is the
    live-in row's [equity] (no selling costs taken off), and the landlord's
    cash outflow [true_cost + principal_payment] is the owner-occupier's
    [true_monthly_cost] less the rental income, plus the closing costs in
    the first month. *)
Theorem rental_rows_match_homeownership (fpow : Q -> Q -> Q)
    (p : RentalSimulation.RentalParams.t) (selling_cost_pct : Q)
    (hres : HomeownershipSimulation.HomeResult) (rres : RentalSimulation.RentalResult) :
  HomeownershipSimulation.simulate_homeownership fpow (as_home_params p selling_cost_pct)
  = Ok hres ->
  RentalSimulation.simulate_rental_property fpow p = Ok rres ->
  let hdf := HomeownershipSimulation.home_monthly_df hres in
  let rdf := RentalSimulation.rental_monthly_df rres in
  len rdf = len hdf
  /\ RentalSimulation.RentalSummary.initial_payment (RentalSimulation.rental_summary rres)
     = HomeownershipSimulation.HomeSummary.initial_payment
         (HomeownershipSimulation.home_summary hres)
  /\ forall i hrow rrow,
       nth_error hdf i = Some hrow -> nth_error rdf i = Some rrow ->
       RentalSimulation.RentalRow.month rrow = HomeownershipSimulation.HomeRow.month hrow
       /\ RentalSimulation.RentalRow.property_value rrow
          = HomeownershipSimulation.HomeRow.property_value hrow
       /\ RentalSimulation.RentalRow.mortgage_payment rrow
          = HomeownershipSimulation.HomeRow.mortgage_payment hrow
       /\ RentalSimulation.RentalRow.principal_payment rrow
          = HomeownershipSimulation.HomeRow.principal_payment hrow
       /\ RentalSimulation.RentalRow.interest_payment rrow
          = HomeownershipSimulation.HomeRow.interest_payment hrow
       /\ RentalSimulation.RentalRow.remaining_balance rrow
          = HomeownershipSimulation.HomeRow.remaining_balance hrow
       /\ RentalSimulation.RentalRow.property_tax_monthly rrow
          = HomeownershipSimulation.HomeRow.property_tax_monthly hrow
       /\ RentalSimulation.RentalRow.maintenance rrow
          = HomeownershipSimulation.HomeRow.maintenance hrow
       /\ RentalSimulation.RentalRow.monthly_tax_benefit rrow
          = HomeownershipSimulation.HomeRow.monthly_tax_benefit hrow
       /\ RentalSimulation.RentalRow.unrecoverable rrow
          == HomeownershipSimulation.HomeRow.unrecoverable hrow
       /\ RentalSimulation.RentalRow.net_proceeds rrow
          = HomeownershipSimulation.HomeRow.equity hrow
       /\ RentalSimulation.RentalRow.true_cost rrow
          + RentalSimulation.RentalRow.principal_payment rrow
          == HomeownershipSimulation.HomeRow.true_monthly_cost hrow
             - RentalSimulation.RentalRow.rental_income rrow
             + (if (i =? 0)%nat then rental_closing_costs p else 0).
Proof.
  intros Hh Hr hdf rdf. unfold hdf, rdf. clear hdf rdf.
  set (hp := as_home_params p selling_cost_pct).
  destruct (simulate_homeownership_inv fpow hp hres Hh) as (hlast & Ehdf & Ehl & Ehsum).
  destruct (simulate_rental_property_inv fpow p rres Hr)
    as (rs & rlast & Ers & Erdf & Erl & Ersum).
  destruct (rental_schedule_of_run fpow p rs Ers) as [amortization Hsch].
  destruct (rental_final_state_shape fpow p amortization rs Hsch Ers) as [Hrlen Hrrows].
  rewrite <- Erdf in Hrlen, Hrrows.
  assert (Hsch' : MortgageUtils.calculate_amortization_schedule (home_loan_amount hp)
                    (HomeownershipSimulation.HomeParams.mortgage_rate hp)
                    (HomeownershipSimulation.HomeParams.mortgage_years hp)
                  = Ok amortization) by exact Hsch.
  assert (Hhrows := home_monthly_data_shape fpow hp amortization _ Hsch' Ehdf).
  destruct (home_monthly_data_inv fpow hp _ Ehdf) as [(Hall & _) Hhlen].
  rewrite Forall_forall in Hall.
  split.
  { rewrite Hrlen, Hhlen. reflexivity. }
  split.
  { rewrite Ersum, Ehsum. reflexivity. }
  intros i hrow rrow Hi Hj.
  destruct (Hhrows i hrow Hi) as (Hhm & Hhshape).
  destruct (Hrrows i rrow Hj) as (Hrm & Hrshape).
  destruct (Hall hrow (nth_error_In _ _ Hi)) as [Hhben Hhtrue].
  destruct Hhshape as (_ & Hhpv & Hhcols & Hhpt & Hhmt & _ & _ & Hhtot & Hhun & Hheq & _).
  destruct Hrshape as (_ & Hrpv & Hrcols & Hrpt & Hrmt & _ & _ & Hrun & Hrben & _
                       & Hrtc & _ & Hrnp).
  rewrite Hhm in Hhpv, Hhcols, Hhun. rewrite Hrm in Hrpv, Hrcols, Hrun.
  assert (Epv : RentalSimulation.RentalRow.property_value rrow
                = HomeownershipSimulation.HomeRow.property_value hrow).
  { rewrite Hrpv, Hhpv. reflexivity. }
  rewrite <- Hhcols in Hrcols. injection Hrcols as Emp Epp Eip Erb.
  assert (Ept : RentalSimulation.RentalRow.property_tax_monthly rrow
                = HomeownershipSimulation.HomeRow.property_tax_monthly hrow).
  { rewrite Hrpt, Hhpt, Epv. reflexivity. }
  assert (Emt : RentalSimulation.RentalRow.maintenance rrow
                = HomeownershipSimulation.HomeRow.maintenance hrow).
  { rewrite Hrmt, Hhmt, Epv. reflexivity. }
  assert (Eben : RentalSimulation.RentalRow.monthly_tax_benefit rrow
                 = HomeownershipSimulation.HomeRow.monthly_tax_benefit hrow).
  { rewrite Hrben, Hhben, Eip, Ept. reflexivity. }
  assert (Eun : RentalSimulation.RentalRow.unrecoverable rrow
                == HomeownershipSimulation.HomeRow.unrecoverable hrow).
  { rewrite Hrun, Hhun, Eip, Ept, Emt.
    change (home_closing_costs hp) with (rental_closing_costs p).
    change (HomeownershipSimulation.HomeParams.insurance_monthly hp)
      with (RentalSimulation.RentalParams.insurance_monthly p).
    change (HomeownershipSimulation.HomeParams.hoa_monthly hp)
      with (RentalSimulation.RentalParams.hoa_monthly p).
    destruct (Z.of_nat i + 1 =? 1)%Z; ring. }
  split; [rewrite Hrm, Hhm; reflexivity|].
  split; [exact Epv|]. split; [exact Emp|]. split; [exact Epp|].
  split; [exact Eip|]. split; [exact Erb|]. split; [exact Ept|].
  split; [exact Emt|]. split; [exact Eben|]. split; [exact Eun|].
  split; [rewrite Hrnp, Hheq, Epv, Erb; reflexivity|].
  rewrite Hrtc, Hhtrue, Hhtot, Eben, Epp.
  rewrite Hrun, Eip, Ept, Emt.
  change (HomeownershipSimulation.HomeParams.insurance_monthly hp)
    with (RentalSimulation.RentalParams.insurance_monthly p).
  change (HomeownershipSimulation.HomeParams.hoa_monthly hp)
    with (RentalSimulation.RentalParams.hoa_monthly p).
  assert (Hsplit : HomeownershipSimulation.HomeRow.mortgage_payment hrow
                   == HomeownershipSimulation.HomeRow.principal_payment hrow
                      + HomeownershipSimulation.HomeRow.interest_payment hrow).
  { rewrite mortgage_columns_nth in Hhcols.
    destruct (nth_error amortization i) as [e|] eqn:En.
    - injection Hhcols as -> -> -> _.
      apply (schedule_payment_split _ _ _ _ i e Hsch En).
    - injection Hhcols as -> -> -> _. ring. }
  rewrite Hsplit.
  destruct i as [|i].
  - cbn [Z.of_nat Z.add Z.eqb Nat.eqb Pos.eqb]. ring.
  - replace (Z.of_nat (S i) + 1 =? 1)%Z with false
      by (symmetry; apply Z.eqb_neq; lia).
    cbn [Nat.eqb]. ring.
Qed.

Lemma rental_rows_match_homeownership_witness :
  exists hres rres,
    HomeownershipSimulation.simulate_homeownership fpow_linear
      (as_home_params example_rental_params 0.06) = Ok hres
    /\ RentalSimulation.simulate_rental_property fpow_linear example_rental_params
       = Ok rres
    /\ len (RentalSimulation.rental_monthly_df rres)
       = len (HomeownershipSimulation.home_monthly_df hres).
Proof.
  destruct (simulate_homeownership_total fpow_linear
              (as_home_params example_rental_params 0.06))
    as [hres Eh]; [discriminate | simpl; lia | simpl; lia |].
  destruct (simulate_rental_property_total fpow_linear example_rental_params)
    as [rres Er]; [discriminate | simpl; lia | simpl; lia |].
  exists hres, rres. split; [exact Eh|]. split; [exact Er|].
  apply (rental_rows_match_homeownership fpow_linear example_rental_params 0.06
           hres rres Eh Er).
Defined.

(* ================================================================== *)
(** * The cumulative columns of the rent-and-invest frame *)
(* ================================================================== *)

Lemma rent_loop_body_income (p : HomeownershipSimulation.StockParams.t)
    (costs : list Q) (s s' : HomeownershipSimulation.StockState.t) (month : Z) :
  HomeownershipSimulation.stock_loop_body p costs s month = Ok s' ->
  exists row,
    HomeownershipSimulation.StockState.monthly_data s'
    = HomeownershipSimulation.StockState.monthly_data s ++ [row]
    /\ HomeownershipSimulation.StockRow.monthly_operating_income row
       = HomeownershipSimulation.StockRow.monthly_dividend row
    /\ HomeownershipSimulation.StockRow.cumulative_operating_income row
       == py_sum (map HomeownershipSimulation.StockRow.monthly_operating_income
                    (HomeownershipSimulation.StockState.monthly_data s))
          + HomeownershipSimulation.StockRow.monthly_operating_income row.
Proof.
  unfold HomeownershipSimulation.stock_loop_body. intros H.
  bind_inv H.
  destruct ((month - 1) mod 12 + 1 =? 12)%Z;
    cbv beta iota zeta in H; injection H as <-;
    (eexists; split; [reflexivity|]; split; [reflexivity|];
     exact (cumulative_expr
              HomeownershipSimulation.StockRow.monthly_operating_income
              (HomeownershipSimulation.StockState.monthly_data s) _)).
Qed.

(** The running totals the month loop of [simulate_rent_and_invest]
    keeps. *)
Lemma rent_final_state_running_totals (p : HomeownershipSimulation.StockParams.t)
    (costs : list Q) (s : HomeownershipSimulation.StockState.t) :
  HomeownershipSimulation.stock_final_state p costs = Ok s ->
  let md := HomeownershipSimulation.StockState.monthly_data s in
  running_total HomeownershipSimulation.StockRow.monthly_rent
    HomeownershipSimulation.StockRow.cumulative_rent md
  /\ running_total HomeownershipSimulation.StockRow.dividend_tax
       HomeownershipSimulation.StockRow.cumulative_dividend_tax md
  /\ running_total HomeownershipSimulation.StockRow.monthly_dividend
       HomeownershipSimulation.StockRow.cumulative_operating_income md
  /\ HomeownershipSimulation.StockState.cumulative_dividends s
     == py_sum (map HomeownershipSimulation.StockRow.monthly_dividend md)
  /\ HomeownershipSimulation.StockState.cumulative_dividend_tax s
     == py_sum (map HomeownershipSimulation.StockRow.dividend_tax md).
Proof.
  unfold HomeownershipSimulation.stock_final_state. intros H.
  match type of H with
  | for_each ?body (py_range 1 ?hi) ?s0 = Ok _ =>
      pose proof
        (for_each_range_inv body
           (fun (m : Z) t =>
              let md := HomeownershipSimulation.StockState.monthly_data t in
              running_total HomeownershipSimulation.StockRow.monthly_rent
                HomeownershipSimulation.StockRow.cumulative_rent md
              /\ running_total HomeownershipSimulation.StockRow.dividend_tax
                   HomeownershipSimulation.StockRow.cumulative_dividend_tax md
              /\ running_total HomeownershipSimulation.StockRow.monthly_dividend
                   HomeownershipSimulation.StockRow.cumulative_operating_income md
              /\ HomeownershipSimulation.StockState.cumulative_dividends t
                 == py_sum (map HomeownershipSimulation.StockRow.monthly_dividend md)
              /\ HomeownershipSimulation.StockState.cumulative_dividend_tax t
                 == py_sum (map HomeownershipSimulation.StockRow.dividend_tax md)
              /\ HomeownershipSimulation.StockState.cumulative_rent t
                 == py_sum (map HomeownershipSimulation.StockRow.monthly_rent md)
              /\ py_sum (map HomeownershipSimulation.StockRow.monthly_operating_income md)
                 == py_sum (map HomeownershipSimulation.StockRow.monthly_dividend md))
           1 hi s0 s) as Hinv
  end.
  cbv zeta in Hinv. cbv zeta.
  destruct Hinv as (H1 & H2 & H3 & H4 & H5 & _); [| |exact H|].
  - repeat split; try apply running_total_nil; reflexivity.
  - intros m t t' Hm (Hr & Ht & Ho & Hd & Hx & Hc & Hoi) Hb.
    destruct (rent_loop_body_ledger p costs t t' m Hb)
      as (cost & row & _ & Hmd & _ & _ & _ & _ & _ & _ & _ & Hcr
          & _ & _ & Hsr & Hst & Hsd & Hev).
    destruct (rent_loop_body_income p costs t t' m Hb) as (row' & Hmd' & Hmoi & Hcoi).
    rewrite Hmd in Hmd'. apply app_inj_tail in Hmd'. destruct Hmd' as [_ <-].
    rewrite Hmd, !map_app. cbn [map]. rewrite !py_sum_snoc.
    assert (Htax : HomeownershipSimulation.StockRow.cumulative_dividend_tax row
                   == HomeownershipSimulation.StockState.cumulative_dividend_tax t
                      + HomeownershipSimulation.StockRow.dividend_tax row).
    { rewrite <- Hst. unfold tax_event in Hev.
      destruct ((m - 1) mod 12 + 1 =? 12)%Z.
      - destruct Hev as (_ & -> & _). reflexivity.
      - destruct Hev as (-> & -> & _). ring. }
    split.
    { apply running_total_snoc; [exact Hr|]. rewrite Hcr, Hc. reflexivity. }
    split.
    { apply running_total_snoc; [exact Ht|]. rewrite Htax, Hx. reflexivity. }
    split.
    { apply running_total_snoc; [exact Ho|]. rewrite Hcoi, Hoi, Hmoi. reflexivity. }
    split; [rewrite Hsd, Hd; reflexivity|].
    split; [rewrite Hst, Htax, Hx; reflexivity|].
    split; [rewrite Hsr, Hcr, Hc; reflexivity|].
    rewrite Hoi, Hmoi. reflexivity.
  - split; [exact H1|]. split; [exact H2|]. split; [exact H3|].
    split; [exact H4|exact H5].
Qed.

(** X30.  The cumulative columns of the rent-and-invest frame are running
    totals: from one row to the next [cumulative_rent] grows by the row's
    rent, [cumulative_dividend_tax] by the row's dividend tax and
    [cumulative_operating_income] by the row's dividend, and
    [cumulative_cost] is rent plus dividend tax so far.  The summary's
    [total_dividends] and [total_dividend_tax] are the sums of the monthly
    dividends and of the monthly dividend taxes. *)
Theorem rent_and_invest_running_totals (p : HomeownershipSimulation.StockParams.t)
    (homeownership_true_monthly_costs : list Q)
    (res : HomeownershipSimulation.StockResult) :
  HomeownershipSimulation.simulate_rent_and_invest p homeownership_true_monthly_costs
  = Ok res ->
  let df := HomeownershipSimulation.stock_monthly_df res in
  let s := HomeownershipSimulation.stock_summary res in
  (forall k prev cur, nth_error df k = Some prev -> nth_error df (S k) = Some cur ->
     HomeownershipSimulation.StockRow.cumulative_rent cur
     == HomeownershipSimulation.StockRow.cumulative_rent prev
        + HomeownershipSimulation.StockRow.monthly_rent cur
     /\ HomeownershipSimulation.StockRow.cumulative_dividend_tax cur
        == HomeownershipSimulation.StockRow.cumulative_dividend_tax prev
           + HomeownershipSimulation.StockRow.dividend_tax cur
     /\ HomeownershipSimulation.StockRow.cumulative_operating_income cur
        == HomeownershipSimulation.StockRow.cumulative_operating_income prev
           + HomeownershipSimulation.StockRow.monthly_dividend cur)
  /\ (forall first, nth_error df 0 = Some first ->
        HomeownershipSimulation.StockRow.cumulative_rent first
        == HomeownershipSimulation.StockRow.monthly_rent first
        /\ HomeownershipSimulation.StockRow.cumulative_dividend_tax first
           == HomeownershipSimulation.StockRow.dividend_tax first
        /\ HomeownershipSimulation.StockRow.cumulative_operating_income first
           == HomeownershipSimulation.StockRow.monthly_dividend first)
  /\ (forall row, In row df ->
        HomeownershipSimulation.StockRow.cumulative_cost row
        = HomeownershipSimulation.StockRow.cumulative_rent row
          + HomeownershipSimulation.StockRow.cumulative_dividend_tax row)
  /\ HomeownershipSimulation.StockSummary.total_dividends s
     == py_sum (map HomeownershipSimulation.StockRow.monthly_dividend df)
  /\ HomeownershipSimulation.StockSummary.total_dividend_tax s
     == py_sum (map HomeownershipSimulation.StockRow.dividend_tax df).
Proof.
  intros H df s. unfold df, s. clear df s.
  destruct (simulate_rent_and_invest_inv p _ res H) as (s & last & Es & Edf & El & Esum).
  destruct (rent_final_state_running_totals p _ s Es) as (Hr & Ht & Ho & Hd & Hx).
  destruct (rent_final_state_ledger p _ s Es) as (_ & _ & _ & _ & _ & Hrows).
  rewrite Esum, Edf in *.
  cbn [HomeownershipSimulation.StockSummary.total_dividends
       HomeownershipSimulation.StockSummary.total_dividend_tax].
  split.
  { intros k prev cur Hp Hc.
    split; [exact (running_total_recurrence _ _ _ k prev cur Hr Hp Hc)|].
    split; [exact (running_total_recurrence _ _ _ k prev cur Ht Hp Hc)|].
    exact (running_total_recurrence _ _ _ k prev cur Ho Hp Hc). }
  split.
  { intros first Hf.
    assert (E0 : forall (f : HomeownershipSimulation.StockRow.t -> Q),
               py_sum (map f (firstn 0 (HomeownershipSimulation.StockState.monthly_data s)))
               == 0) by (intros f; reflexivity).
    split; [rewrite (Hr 0%nat first Hf), E0; ring|].
    split; [rewrite (Ht 0%nat first Hf), E0; ring|].
    rewrite (Ho 0%nat first Hf), E0; ring. }
  split.
  { intros row Hin. apply In_nth_error in Hin. destruct Hin as [i Hi].
    destruct (Hrows i row Hi) as (_ & Hshape).
    destruct Hshape as (_ & _ & _ & _ & _ & _ & Hcc). exact Hcc. }
  split; [exact Hd|exact Hx].
Qed.

Lemma rent_and_invest_running_totals_witness :
  exists res,
    HomeownershipSimulation.simulate_rent_and_invest example_stock_params
      (repeat 2000 12) = Ok res
    /\ forall k prev cur,
         nth_error (HomeownershipSimulation.stock_monthly_df res) k = Some prev ->
         nth_error (HomeownershipSimulation.stock_monthly_df res) (S k) = Some cur ->
         HomeownershipSimulation.StockRow.cumulative_rent cur
         == HomeownershipSimulation.StockRow.cumulative_rent prev
            + HomeownershipSimulation.StockRow.monthly_rent cur.
Proof.
  destruct (simulate_rent_and_invest_total example_stock_params (repeat 2000 12))
    as [res E]; [simpl; lia | unfold len; simpl; lia |].
  exists res. split; [exact E|].
  destruct (rent_and_invest_running_totals example_stock_params (repeat 2000 12) res E)
    as (Hrec & _).
  intros k prev cur Hp Hc. apply (Hrec k prev cur Hp Hc).
Defined.
